(* ===== verification/_CoqProject ===== *)
-Q . S2P
Prelude.v
GoStrings.v
GoPath.v
FileSys.v
Machine.v
Platform.v
Bootstrap.v
Json.v
Manifest.v
Fetch.v
Stage.v
Rerun.v
Cache.v
Install.v
Verify.v
Proxy.v
Mirror.v
Main.v
Template.v
Quiet.v
