(* ===== verification/Prelude.v ===== *)
(** * Verification of the Tor Browser update pipeline (package [tbget])

    The program under [src/] resolves, downloads, checks and installs a
    Tor Browser bundle.  [src/get/get.go] holds the whole pipeline as
    methods of [TBDownloader]; [src/serve/template.go] renders status
    pages; [src/main.go] wires the pipeline together.

    ** The program

    A run goes through these stages, each a method of [TBDownloader]:

    - the platform key ([GetRuntimePair]) and the names and directories
      derived from it ([NamePerPlatform], [BrowserDir], [DefaultDir],
      [UNPACK_PATH], [DOWNLOAD_PATH], [NewTBDownloader]);
    - the bootstrap of the download directory ([MakeTBDirectory]), which
      every later stage calls first: it writes the signing key and the
      browser extension embedded in the executable when they are not on
      disk;
    - the manifest lookup ([GetUpdater], [GetUpdaterForLang],
      [GetUpdaterForLangFromJSON], [GetUpdaterForLangFromJSONBytes]):
      platform key, then language, primary subtag, default language;
    - the fetch stage ([DownloadUpdater], [DownloadUpdaterForLang],
      [SingleFileDownload]) behind the cache guard ([BotherToDownload])
      with its marker file [<name>.last-url];
    - the signature check ([CheckSignature], [BoolCheckSignature]), which
      calls the installer ([UnpackUpdater]) on one of its branches;
    - beside the pipeline: the loops that wait for the HTTP proxy
      ([TestHTTPProxy], [TestHTTPBackupProxy], [Seconds], [hTTPProxy]),
      the mirror ([Serve], which listens on the I2P network, and its
      handler [ServeHTTP]), the status pages of [template.go] and
      [main].

    ** The model

    The model is a shallow embedding.  A Go function that touches the
    receiver, the package variables, the file system, the log or the
    clock is a computation [Go A = state -> outcome A * state] (this
    file, [Section monad]; [state] is in [Machine]).  An outcome is
    [Ret v] (a return, Go errors being values inside [v]), [Fatal]
    ([log.Fatal], deferred calls do not run), [Panic] (deferred calls
    run) or [Timeout] (the fuel of the model is spent: the run does not
    return).  [deferred] is Go's [defer].  What the world answers is not
    state: the classes [Runtime] (GOOS, GOARCH, Getwd, detected
    language), [Network], [OpenPGP], [Shell], [Archive] (xz and tar
    decoding), [JsonDecoder], [Markdown] and [SAM] (the bridge to the
    I2P router) stand for the libraries, the theorems hold for every
    instance, and the witnesses instantiate them ([linux_amd64],
    [darwin_amd64], [mirror], [keyring], [untar], [visitors], ...).
    Calls to the outside that the properties count ([http.Get],
    [exec.Command], [net.Listen], sleeping, opening and closing the I2P
    listener) are recorded in the list [events] of the state.  What a
    call of the program leaves behind outside of it is state: the files,
    and the TCP listeners that [TestHTTPBackupProxy] opens and never
    closes (the field [listeners]; a listen on an address that the
    process holds fails).

    The file system is a finite map from absolute component lists to
    nodes ([FileSys]); a path of the source is resolved by
    [GoPath.path_key] from the working directory.  Go's [int] is a [Z]
    wrapped to 64 bits ([wrap64]); file modes are [Z] with the bit
    operations of [Z].

    ** Files

    - [Prelude] (this file): outcomes, the monad and its laws, [deferred],
      relations that every run respects ([respects], [keeps],
      [unchanged], [grows]), two runs side by side ([related], with
      its rules for [bind], [gets], [modify] and [deferred]), the
      tactics [go_run], [respects_step],
      [solve_respects], [keeps_goal], the hint base [go], lemmas on
      strings and [wrap64].
    - [GoStrings]: [strings.Contains], [HasPrefix], [Replace], [Split]
      and decimal printing, from the documentation of Go.
    - [GoPath]: [filepath.Clean], [Join], [Dir], [Ext], [Abs], [IsAbs];
      the theory of keys: cleaning keeps the key of a path
      ([path_key_Clean]), the key of a joined path is the scan of the
      second element from the key of the first ([path_key_Join]), and
      without [..] it stays below ([path_key_Join_below]).
    - [FileSys]: [stat], [mkdir_all], [create], [append_file], [chmod],
      [write_file], [read_file]; the tree shape [fs_wf], kept by every
      operation; the order [fs_le] (nothing removed); [only_below]
      (changes below a directory only).
    - [Machine]: [TBDownloader], [package_vars], [state], the interface
      classes, [FileExists] (get.go 296-299) and the calls of [os],
      [io/ioutil], [log] and [fmt] lifted to [Go]; the relations
      [persists] and [confined] and that each call respects them.
    - [Platform]: get.go 31-97, 126-152, 187-191, 320-331, 361-363.
    - [Bootstrap]: [MakeTBDirectory], get.go 194-234; the predicates
      [present], [absent], [bootstrapped]; the relations [settled] and
      [only_logs] of the runs that leave a directory that is set up as
      it is.
    - [Json]: decoded JSON as the type [value], the types [jtype] of
      the shapes that type assertions ask for, and the typing [typed].
    - [Manifest]: get.go 156-184 and 239-267; the type [manifest_ty] of
      a manifest and the typed manifest [manifest_of] a document holds;
      the reference lookup [resolve].
    - [Fetch]: get.go 271-293, 303-317, 336-358.
    - [Stage]: the fetch stage as the composition of the lookup, the
      naming ([bundle_name], get.go 320-331) and the two fetches.
    - [Rerun]: the fetch stage on a directory that already holds the
      artifacts, without and with their markers ([marker], get.go
      308-309), and three runs in a row.
    - [Cache]: the artifact and its marker as a state machine, the
      step relation [cache_step] with its function [cache_next], and
      the simulation of the machine by [SingleFileDownload].
    - [Install]: [UnpackUpdater], get.go 367-442, split into
      [unpack_win], [unpack_osx], [unpack_tar] and the loop [tar_loop];
      the reference function [extract].
    - [Verify]: get.go 447-477.
    - [Proxy]: get.go 480-553; the reference function [schedule].
    - [Mirror]: [ServeHTTP] and [Serve], get.go 100-123; the handler as
      the function [answer].
    - [Main]: [main] of main.go.
    - [Template]: template.go.
    - [Quiet]: the relation [alike] of the states that differ in the
      flag [Verbose], the log and the printed lines, and that every
      method is [related] to itself under it.

    ** What the theorems show

    - Platform key: the result of [GetRuntimePair] on every branch; the
      fields are set after any call and later calls agree; on darwin
      the first detecting call returns [osx] and the later ones [osx]
      followed by the architecture, so the key is not stable there.
    - Bootstrap: a directory that is set up is left untouched; a key
      that is on disk is never replaced; a missing key is written from
      the embedded one with mode 0644; a missing embedded file ends the
      process; [persists] holds of every run.
    - Manifest: on a document of the type [manifest_ty], whatever other
      fields it has, [GetUpdaterForLangFromJSONBytes] never panics
      ([GetUpdater_typed_safe]) and refines [resolve] on the manifest
      the document holds; the lookup does not return when neither the
      language nor the default language has an entry; a manifest of
      another shape panics; on darwin the retry for the default
      language looks under another platform key than the first lookup;
      the body that was fetched is saved as [downloads.json] before the
      lookup, however the lookup ends.
    - Guard and fetcher: the guard says skip exactly when the artifact
      is there and the marker holds the URL; it writes the marker only
      when the artifact is there; the first fetch writes the body with
      mode 0666 and no marker, so the next run fetches again; a request
      that fails creates nothing; the whole stage respects [persists].
    - The stage end to end: on a first run the manifest, the signature
      and the bundle are requested in that order, the three files are
      written and nothing else changes
      ([DownloadUpdaterForLang_fetches]); reading the two paths the
      stage returns gives the bytes that were served
      ([DownloadUpdaterForLang_round_trip]); the second run fetches
      both files again and writes the markers, and the third requests
      the manifest only and leaves the files as they are
      ([DownloadUpdaterForLang_converges]).
    - The cache: [SingleFileDownload] makes the steps of [cache_step]
      on the artifact and its marker ([SingleFileDownload_simulates]);
      while every request is answered, the artifact under a marker is
      what the address of the marker serves, by induction on the runs
      of the machine ([after_calls_sound]); a request that is refused
      leaves the old artifact under the new marker, and the next run
      skips the fetch ([failed_request_poisons]).
    - Installer: the tar branch computes [extract], keeps the tree shape
      and removes nothing; after a run without error the file of an
      entry has the content of the entry and the low twelve bits of its
      mode ([UnpackUpdater_modes]);
      a bundle whose names hold no [..] is unpacked below the unpack
      directory, and [tar_slip] is a bundle with such a name that
      writes outside of it; the Windows installer runs only when the
      install directory is missing; the macOS helper runs on every
      call.
    - Signature check: with the three inputs read, the bundle is unpacked
      exactly when [pgp.Verify] returns an error, and a signature that
      verifies is answered with the error; a result without error
      implies that the verification did not pass.
    - Proxy loops: both loops refine [schedule] (one lemma on a loop of
      their shape, [loop_schedule], instantiated twice); a proxy that
      never answers is probed exactly 100 times, one second apart; the
      first answer ends the loop with [true]; the two gates agree
      wherever their probes answer alike ([TestHTTPBackupProxy_equiv]).
      The probe of [TestHTTPBackupProxy] is a [net.Listen] whose
      listener is never closed: where the port was free, the second
      probe fails on the listener of the first, so the method says
      that the proxy is up after one second, whatever listens there,
      and the process keeps the port
      ([TestHTTPBackupProxy_own_listener]).
    - Mirror: the handler changes no state and is the function [answer]
      of the request; [Serve] on both branches ([Serve_spec]); every
      file served in a session lies below the download directory
      whatever the bridge delivers ([Serve_confined]); the order in
      which the requests of a session are answered makes no difference;
      the handler answers twice when [mirror.json] and the file are
      both there.
    - Main and pages: a first run of [main] end to end for a bundle
      whose signature verifies: three requests, three files, nothing
      installed ([main_first_run]); the same run for a bundle whose
      signature does not verify: the bundle is unpacked into the
      install directory before [main] panics
      ([main_installs_unverified]); which built-in text each status
      page falls back to.  The hypotheses of a first run are the
      records [first_fetch] (of [Stage]) and [installable] (of [Main]).
    - The flag [Verbose]: no method depends on it but in what it logs
      and prints; two runs of [main] that differ in the flag end with
      the same outcome, files and requests
      ([main_Verbose_unobservable]).

    The main theorems that have hypotheses come with a closed instance
    ([..._witness]) on a concrete file system and concrete answers of
    the world, checked by evaluation.

    ** Bounds and fuel

    - [GetUpdaterForLangFromJSONBytes] calls itself without a bound in
      the source.  The model takes fuel; two levels are enough whenever
      the lookup returns at all (the second level is the lookup of the
      default language, which either returns or repeats itself), and
      [GetUpdater_refines] shows [Timeout] for every amount of fuel in
      the other case.
    - The two [for] loops of the proxy test take fuel, one unit per
      probe.  [TestHTTPProxy_returns] shows that fuel 100 is enough for
      every behaviour of the proxy, and
      [TestHTTPProxy_gives_up_after_100] that 99 is not.
    - The loop over a tar stream is structural recursion on the list of
      entries that the decoder delivers; the stream is finite.
    - [int] is taken 64 bits wide.  On the 32-bit targets that
      [GetRuntimePair] knows (GOARCH [386]) it is 32 bits wide; the only
      values of type [int] that the program computes are the two
      counters of the loops, which never exceed 10, so no wrap-around
      occurs at either width ([wrap64_small]).
    - [http.Serve] runs until the listener fails; the model takes the
      finite list of the requests accepted until then.

    ** What is not modelled

    - The libraries themselves (OpenPGP, xz, tar, JSON, Markdown, HTTP,
      SAM, process execution): they are interfaces, and nothing is
      assumed of them beyond their types.  [pgp_Verify] takes its
      arguments in the order in which [CheckSignature] passes them
      (key, signature, bundle); whether that is the order the library
      expects is outside of the model.  The bits of a mode that reach
      an extracted file ([chmod_bits]) are those that [archive/tar] and
      [os] carry, not code of the repository.
    - The network over time: [http_Get] is a function of the address,
      so within one instance an address answers alike each time; the
      theorems on a request that fails after one that was answered
      take two instances.  [proxy_Get] and [net_Listen] are functions
      of the address and the second.
    - The garbage collector: a listener that the program drops is
      closed when its finalizer runs; when that happens is the
      parameter [net_finalized] of [Network], of which nothing is
      assumed.
    - Symbolic links, ownership, permission checks and the umask of the
      file system: [os.Create] gives the mode 0666.  Writing and
      [Chmod] go through the path of the file where the source goes
      through the descriptor that [os.Create] returned; nothing
      renames the file in between.
    - Concurrency: the pipeline is sequential; [net/http] answers each
      connection of the mirror in a goroutine of its own, which the
      model replaces by answering in order of arrival (the handler
      writes to nothing that two requests share, and
      [http_Serve_Permutation] shows that the order does not matter).
    - The bytes that [http.ServeFile] sends: the model records which
      files are served, not their content or the status code.
    - [Close] of files and bodies, which changes nothing the model
      observes. *)

From stdpp Require Import base tactics option list strings.
From Stdlib Require Import ZArith Lia.

(** ** Outcomes of a Go call

    A call returns ([Ret]), ends the process through [log.Fatal]
    ([Fatal]), panics ([Panic]), or, in the model only, runs out of the
    fuel that bounds recursion ([Timeout]).  A Go [error] value is data:
    it travels inside [Ret]. *)

Inductive outcome (A : Type) : Type :=
| Ret (a : A)
| Fatal (msg : string)
| Panic (msg : string)
| Timeout.

Arguments Ret {A} a.
Arguments Fatal {A} msg.
Arguments Panic {A} msg.
Arguments Timeout {A}.

(** A Go [error]: [None] is [nil], [Some msg] an error whose [Error()]
    string is [msg]. *)
Definition error : Type := option string.

Definition is_Ret {A} (o : outcome A) : bool :=
  match o with Ret _ => true | _ => false end.

(** The outcomes in which the program goes wrong: it exits through
    [log.Fatal] or panics. *)
Definition crashes {A} (o : outcome A) : bool :=
  match o with Fatal _ | Panic _ => true | _ => false end.

Definition outcome_map {A B} (f : A → B) (o : outcome A) : outcome B :=
  match o with
  | Ret a => Ret (f a)
  | Fatal m => Fatal m
  | Panic m => Panic m
  | Timeout => Timeout
  end.

(** An outcome that is not a return, at another type. *)
Definition outcome_cast {A B} (o : outcome A) (dflt : outcome B) : outcome B :=
  match o with
  | Ret _ => dflt
  | Fatal m => Fatal m
  | Panic m => Panic m
  | Timeout => Timeout
  end.

#[export] Instance outcome_eq_dec `{EqDecision A} : EqDecision (outcome A).
Proof. solve_decision. Defined.

(** ** The state monad of the model

    [M S A] is a computation over a state [S] that yields an [outcome A]
    and the state at the point where it stopped. *)

Definition M (S A : Type) : Type := S → outcome A * S.

Section monad.
Context {S : Type}.

Definition M_ret {A} (a : A) : M S A := λ s, (Ret a, s).

Definition M_bind {A B} (f : A → M S B) (m : M S A) : M S B := λ s,
  match m s with
  | (Ret a, s') => f a s'
  | (Fatal msg, s') => (Fatal msg, s')
  | (Panic msg, s') => (Panic msg, s')
  | (Timeout, s') => (Timeout, s')
  end.

#[export] Instance M_mret : MRet (M S) := @M_ret.
#[export] Instance M_mbind : MBind (M S) := @M_bind.

Definition get : M S S := λ s, (Ret s, s).
Definition gets {A} (f : S → A) : M S A := λ s, (Ret (f s), s).
Definition put (s : S) : M S unit := λ _, (Ret tt, s).
Definition modify (f : S → S) : M S unit := λ s, (Ret tt, f s).

(** [log.Fatal]: the process exits, deferred calls do not run. *)
Definition fatal {A} (msg : string) : M S A := λ s, (Fatal msg, s).
(** A run-time panic: deferred calls run while the stack unwinds. *)
Definition panic {A} (msg : string) : M S A := λ s, (Panic msg, s).
(** The model's fuel is spent. *)
Definition timeout {A} : M S A := λ s, (Timeout, s).

(** [deferred d body] is Go's [defer d; body]: [d] runs when [body]
    returns or panics, and does not run when the process exits. *)
Definition deferred {A} (d : M S unit) (body : M S A) : M S A := λ s,
  match body s with
  | (Ret a, s') =>
      match d s' with
      | (Ret _, s'') => (Ret a, s'')
      | (o, s'') => (outcome_cast o Timeout, s'')
      end
  | (Panic msg, s') =>
      match d s' with
      | (Ret _, s'') => (Panic msg, s'')
      | (o, s'') => (outcome_cast o Timeout, s'')
      end
  | (o, s') => (o, s')
  end.

(** Pointwise equality of computations. *)
Definition M_equiv {A} (m1 m2 : M S A) : Prop := ∀ s, m1 s = m2 s.

#[export] Instance M_equiv_equivalence {A} : Equivalence (@M_equiv A).
Proof.
  split.
  - by intros m s.
  - by intros m1 m2 H s.
  - intros m1 m2 m3 H1 H2 s. by rewrite H1.
Qed.

End monad.

Declare Scope go_scope.
Delimit Scope go_scope with go.
Infix "≃" := M_equiv (at level 70, no associativity) : go_scope.
Open Scope go_scope.

(** ** Laws of the monad *)

Section monad_laws.
Context {S : Type}.
Implicit Types s : S.

Lemma bind_ret_l {A B} (a : A) (f : A → M S B) : (mret a ≫= f) ≃ f a.
Proof. by intros s. Qed.

Lemma bind_ret_r {A} (m : M S A) : (m ≫= mret) ≃ m.
Proof.
  intros s. unfold mbind, M_mbind, M_bind.
  by destruct (m s) as [[]].
Qed.

Lemma bind_assoc {A B C} (m : M S A) (f : A → M S B) (g : B → M S C) :
  ((m ≫= f) ≫= g) ≃ (m ≫= λ a, f a ≫= g).
Proof.
  intros s. unfold mbind, M_mbind, M_bind.
  by destruct (m s) as [[]].
Qed.

#[export] Instance M_bind_proper {A B} :
  Proper (pointwise_relation A M_equiv ==> M_equiv ==> M_equiv)
    (@mbind (M S) _ A B).
Proof.
  intros f g Hfg m1 m2 Hm s. unfold mbind, M_mbind, M_bind.
  rewrite Hm. destruct (m2 s) as [[]]; [apply Hfg | done..].
Qed.

(** Running a bind, by the outcome of its first part. *)
Lemma bind_run_Ret {A B} (m : M S A) (f : A → M S B) s a s' :
  m s = (Ret a, s') → (m ≫= f) s = f a s'.
Proof. intros H. unfold mbind, M_mbind, M_bind. by rewrite H. Qed.

Lemma bind_run_stop {A B} (m : M S A) (f : A → M S B) s o s' :
  m s = (o, s') → is_Ret o = false →
  (m ≫= f) s = (outcome_cast o Timeout, s').
Proof.
  intros H Ho. unfold mbind, M_mbind, M_bind. rewrite H.
  by destruct o.
Qed.

(** A bind returns only when both parts do. *)
Lemma bind_Ret_inv {A B} (m : M S A) (f : A → M S B) s b s' :
  (m ≫= f) s = (Ret b, s') →
  ∃ a s1, m s = (Ret a, s1) ∧ f a s1 = (Ret b, s').
Proof.
  unfold mbind, M_mbind, M_bind.
  destruct (m s) as [[a| | |] s1]; [eauto | done..].
Qed.

(** A run is its outcome and the state it leaves. *)
Lemma run_Ret_eq {A} (m : M S A) s a : (m s).1 = Ret a → m s = (Ret a, (m s).2).
Proof. destruct (m s). simpl. by intros ->. Qed.

Lemma deferred_Ret {A} (d : M S unit) (body : M S A) s a s1 s2 :
  body s = (Ret a, s1) → d s1 = (Ret tt, s2) →
  deferred d body s = (Ret a, s2).
Proof. intros Hb Hd. unfold deferred. by rewrite Hb, Hd. Qed.

Lemma deferred_Fatal {A} (d : M S unit) (body : M S A) s msg s1 :
  body s = (Fatal msg, s1) → deferred d body s = (Fatal msg, s1).
Proof. intros Hb. unfold deferred. by rewrite Hb. Qed.

End monad_laws.

(** ** Relations kept by a computation

    [respects R m]: wherever [m] stops, the state it leaves is related
    by [R] to the state it started in.  With a preorder [R] this goes
    through [bind], whatever the outcome, so that an invariant [I] is
    [respects (λ s s', I s → I s')] and a frame condition is
    [respects (λ s s', f s' = f s)]. *)

Section respects.
Context {S : Type} (R : relation S).

Definition respects {A} (m : M S A) : Prop := ∀ s, R s (m s).2.

Context `{!PreOrder R}.

Lemma respects_ret {A} (a : A) : respects (mret a).
Proof. by intros s. Qed.

Lemma respects_bind {A B} (m : M S A) (f : A → M S B) :
  respects m → (∀ a, respects (f a)) → respects (m ≫= f).
Proof.
  intros Hm Hf s. unfold mbind, M_mbind, M_bind.
  specialize (Hm s). destruct (m s) as [[a| | |] s1]; simpl in *; [|done..].
  etrans; [done|]. apply Hf.
Qed.

Lemma respects_gets {A} (f : S → A) : respects (gets f).
Proof. by intros s. Qed.

Lemma respects_fatal {A} msg : respects (@fatal S A msg).
Proof. by intros s. Qed.

Lemma respects_panic {A} msg : respects (@panic S A msg).
Proof. by intros s. Qed.

Lemma respects_timeout {A} : respects (@timeout S A).
Proof. by intros s. Qed.

Lemma respects_modify (f : S → S) : (∀ s, R s (f s)) → respects (modify f).
Proof. intros Hf s. apply Hf. Qed.

Lemma respects_deferred {A} (d : M S unit) (body : M S A) :
  respects body → respects d → respects (deferred d body).
Proof.
  intros Hb Hd s. unfold deferred. specialize (Hb s).
  destruct (body s) as [[a| | |] s1]; simpl in *; try done;
    specialize (Hd s1); destruct (d s1) as [[[]| | |] s2]; simpl in *;
    by etrans.
Qed.

End respects.

(** The relation of an invariant. *)
Definition keeps {S} (I : S → Prop) : relation S := λ s s', I s → I s'.

#[export] Instance keeps_preorder {S} (I : S → Prop) : PreOrder (keeps I).
Proof. split; unfold keeps; [by intros s | intros s1 s2 s3; tauto]. Qed.

(** The relation of a frame condition: the part [f] of the state is as
    it was. *)
Definition unchanged {S B} (f : S → B) : relation S := λ s s', f s' = f s.

#[export] Instance unchanged_preorder {S B} (f : S → B) : PreOrder (unchanged f).
Proof.
  split; unfold unchanged; [by intros s | intros s1 s2 s3 H1 H2; congruence].
Qed.

(** The relation of a log: the list [f] of the state grows at its end. *)
Definition grows {S B} (f : S → list B) : relation S := λ s s', f s `prefix_of` f s'.

#[export] Instance grows_preorder {S B} (f : S → list B) : PreOrder (grows f).
Proof.
  split; unfold grows; [by intros s | intros s1 s2 s3 H1 H2; by etrans].
Qed.

(** ** Two runs side by side

    [related RS RA m m']: started in states that [RS] relates, [m] and
    [m'] stop alike (both return, with results that [RA] relates, or
    both exit or panic with the same message, or both run out of fuel)
    and in states that [RS] relates again.  With [RS] the relation of
    the states that differ in a part only, [related RS (=) m m] says
    that [m] does not depend on that part. *)

Inductive outcome_rel {A} (RA : relation A) : relation (outcome A) :=
| rel_Ret a a' : RA a a' → outcome_rel RA (Ret a) (Ret a')
| rel_Fatal msg : outcome_rel RA (Fatal msg) (Fatal msg)
| rel_Panic msg : outcome_rel RA (Panic msg) (Panic msg)
| rel_Timeout : outcome_rel RA Timeout Timeout.

Lemma outcome_rel_eq {A} (o o' : outcome A) : outcome_rel (=) o o' ↔ o = o'.
Proof. split; [by intros [?? ->| | |]|intros <-; destruct o; by constructor]. Qed.

#[export] Instance outcome_rel_sym {A} (RA : relation A) :
  Symmetric RA → Symmetric (outcome_rel RA).
Proof. intros ? o o' []; by constructor. Qed.

#[export] Instance outcome_rel_trans {A} (RA : relation A) :
  Transitive RA → Transitive (outcome_rel RA).
Proof. intros ? o1 o2 o3 [] Ho; inversion_clear Ho; constructor; by etrans. Qed.

Section related.
Context {S : Type} (RS : relation S).

Definition related {A} (RA : relation A) : relation (M S A) :=
  (RS ==> prod_relation (outcome_rel RA) RS)%signature.

Lemma related_ret {A} (RA : relation A) a a' :
  RA a a' → related RA (mret a) (mret a').
Proof. intros Ha s s' Hs. by split; [constructor|]. Qed.

Lemma related_bind {A B} (RA : relation A) (RB : relation B)
    (m m' : M S A) (f f' : A → M S B) :
  related RA m m' → (∀ a a', RA a a' → related RB (f a) (f' a')) →
  related RB (m ≫= f) (m' ≫= f').
Proof.
  intros Hm Hf s s' Hs. unfold mbind, M_mbind, M_bind.
  destruct (Hm s s' Hs) as [Ho Hs1].
  destruct (m s) as [o s1], (m' s') as [o' s1']. simpl in *.
  destruct Ho; [by apply Hf|by split; [constructor|]..].
Qed.

#[export] Instance mbind_related {A B} (RA : relation A) (RB : relation B) :
  Proper ((RA ==> related RB) ==> related RA ==> related RB) (@mbind (M S) _ A B).
Proof. intros f f' Hf m m' Hm. by apply (related_bind RA). Qed.

Lemma related_gets {A} (RA : relation A) (f f' : S → A) :
  (RS ==> RA)%signature f f' → related RA (gets f) (gets f').
Proof. intros Hf s s' Hs. split; [constructor; by apply Hf|done]. Qed.

Lemma related_modify (f f' : S → S) :
  (RS ==> RS)%signature f f' → related (=) (modify f) (modify f').
Proof. intros Hf s s' Hs. split; [by constructor|by apply Hf]. Qed.

Lemma related_fatal {A} (RA : relation A) msg : related RA (fatal msg) (fatal msg).
Proof. intros s s' Hs. by split; [constructor|]. Qed.

Lemma related_panic {A} (RA : relation A) msg : related RA (panic msg) (panic msg).
Proof. intros s s' Hs. by split; [constructor|]. Qed.

Lemma related_timeout {A} (RA : relation A) : related RA timeout timeout.
Proof. intros s s' Hs. by split; [constructor|]. Qed.

Lemma related_deferred {A} (RA : relation A) (d d' : M S unit) (body body' : M S A) :
  related (=) d d' → related RA body body' →
  related RA (deferred d body) (deferred d' body').
Proof.
  intros Hd Hb s s' Hs. unfold deferred. destruct (Hb s s' Hs) as [Ho Hs1].
  destruct (body s) as [o s1], (body' s') as [o' s1']. simpl in *.
  destruct Ho; try (by split; [constructor|]);
    destruct (Hd s1 s1' Hs1) as [Ho Hs2];
    destruct (d s1) as [o s2], (d' s1') as [o' s2']; simpl in *;
    destruct Ho; simpl; by split; [constructor|].
Qed.

(** Two runs that stop alike from related states, read on equal
    results. *)
Lemma related_eq {A} (m m' : M S A) s s' :
  related (=) m m' → RS s s' → (m s).1 = (m' s').1 ∧ RS (m s).2 (m' s').2.
Proof. intros Hm Hs. destruct (Hm s s' Hs) as [Ho ?]. by apply outcome_rel_eq in Ho. Qed.

(** The relation is symmetric and transitive where [RS] and [RA] are. *)
#[export] Instance related_sym {A} (RA : relation A) :
  Symmetric RS → Symmetric RA → Symmetric (related RA).
Proof.
  intros ?? m m' Hm s s' Hs. destruct (Hm s' s) as [??]; [by symmetry|].
  split; by symmetry.
Qed.

#[export] Instance related_trans {A} (RA : relation A) :
  Symmetric RS → Transitive RS → Transitive RA → Transitive (related RA).
Proof.
  intros ??? m1 m2 m3 H12 H23 s s' Hs.
  destruct (H12 s s') as [??]; [done|].
  destruct (H23 s' s') as [??]; [by etrans|]. split; by etrans.
Qed.

End related.

(** ** Tactics and hint bases *)

(** [go_unfold] exposes the state-passing form of a monadic term. *)
Ltac go_unfold :=
  unfold mbind, mret, M_mbind, M_mret, M_bind, M_ret,
    get, gets, put, modify, fatal, panic, timeout in *.

(** [go_run] evaluates a monadic term as far as its data allows. *)
Ltac go_run := go_unfold; cbn beta iota zeta.

(** [case_scrutinee] splits on the scrutinee of the first [match] or
    [if] of the goal, keeping the equation. *)
Ltac case_scrutinee :=
  match goal with
  | |- context [match ?x with _ => _ end] =>
      lazymatch x with
      | context [match _ with _ => _ end] => fail
      | _ => let E := fresh "E" in destruct x eqn:E
      end
  end.

Create HintDb go discriminated.
Create Rewrite HintDb go_rw.
#[export] Hint Resolve bind_run_Ret deferred_Ret deferred_Fatal : go.
#[export] Hint Extern 1 (PreOrder _) => typeclasses eauto : go.

(** [respects_step] takes a computation apart by the rules of
    [respects]; [solve_respects] does so as far as it can and closes
    the leaves with the lemmas of the base [go]. *)
Ltac respects_step :=
  lazymatch goal with
  | |- respects _ (mbind _ _) => apply respects_bind; [typeclasses eauto| |intros ?]
  | |- respects _ (mret _) => apply respects_ret; typeclasses eauto
  | |- respects _ (gets _) => apply respects_gets; typeclasses eauto
  | |- respects _ (fatal _) => apply respects_fatal; typeclasses eauto
  | |- respects _ (panic _) => apply respects_panic; typeclasses eauto
  | |- respects _ timeout => apply respects_timeout; typeclasses eauto
  | |- respects _ (deferred _ _) => apply respects_deferred; [typeclasses eauto| |]
  | |- respects _ (if ?b then _ else _) => destruct b
  | |- respects _ (match ?x with _ => _ end) => destruct x
  | |- respects _ (let '(_, _) := ?x in _) => destruct x
  end.

Ltac solve_respects :=
  repeat respects_step; eauto with go.

(** [keeps_goal I] reads a goal [∀ s, I s → I (m s).2] as
    [respects (keeps I) m]. *)
Ltac keeps_goal I :=
  let s := fresh "s" in
  intros s;
  lazymatch goal with
  | |- _ → _ (?m s).2 => revert s; change (respects (keeps I) m)
  end.

(** ** Lists, options and strings *)

Section generic.
Context {A : Type}.
Implicit Types l : list A.

Lemma last_snoc l (x : A) : last (l ++ [x]) = Some x.
Proof. induction l as [|y [|z l] IH]; naive_solver. Qed.

Lemma filter_length_le (P : A → Prop) `{∀ x, Decision (P x)} l :
  length (filter P l) ≤ length l.
Proof. apply length_filter. Qed.

End generic.

(** stdpp keeps [simpl] from unfolding [String.app]; these equations
    are the rewriting rules used instead. *)
Lemma string_app_nil_l (s : string) : "" +:+ s = s.
Proof. reflexivity. Qed.

Lemma string_app_cons (c : Ascii.ascii) (s t : string) :
  String c s +:+ t = String c (s +:+ t).
Proof. reflexivity. Qed.

Lemma string_app_nil_r (s : string) : s +:+ "" = s.
Proof.
  induction s as [|c s IH]; [done|]. by rewrite string_app_cons, IH.
Qed.

Lemma string_app_assoc (s1 s2 s3 : string) :
  (s1 +:+ s2) +:+ s3 = s1 +:+ s2 +:+ s3.
Proof.
  induction s1 as [|c s1 IH]; [done|]. by rewrite !string_app_cons, IH.
Qed.

Lemma string_app_length (s1 s2 : string) :
  String.length (s1 +:+ s2) = String.length s1 + String.length s2.
Proof.
  induction s1 as [|c s1 IH]; [done|].
  rewrite string_app_cons. simpl. by rewrite IH.
Qed.

Lemma string_app_inj_l (s s1 s2 : string) : s +:+ s1 = s +:+ s2 → s1 = s2.
Proof. apply (inj (String.app s)). Qed.

#[export] Hint Rewrite string_app_nil_l string_app_cons string_app_nil_r
  string_app_assoc string_app_length : go_rw.

(** ** Go's [int]

    An [int] of the source is a 64-bit two's complement integer: a [Z]
    in the range [-2^63 .. 2^63 - 1], with [wrap64] after every
    addition. *)

Definition wrap64 (z : Z) : Z := ((z + 2 ^ 63) mod 2 ^ 64 - 2 ^ 63)%Z.

Definition is_int (z : Z) : Prop := (- 2 ^ 63 ≤ z < 2 ^ 63)%Z.

Lemma wrap64_is_int z : is_int (wrap64 z).
Proof.
  unfold is_int, wrap64.
  pose proof (Z.mod_pos_bound (z + 2 ^ 63) (2 ^ 64) ltac:(done)). lia.
Qed.

Lemma wrap64_small z : is_int z → wrap64 z = z.
Proof.
  unfold is_int, wrap64. intros Hz. rewrite Z.mod_small by lia. lia.
Qed.

(** The line feed and the double quote, which a string literal of the
    source writes with an escape. *)
Definition newline : string := String (Ascii.ascii_of_nat 10) EmptyString.
Definition dquote : string := String (Ascii.ascii_of_nat 34) EmptyString.
