(* ===== verification/GoStrings.v ===== *)
(** * The functions of Go's [strings], [fmt] and [strconv] the source calls

    [strings.Contains], [strings.Replace] with a negative count,
    [strings.Split] and the decimal printing of an [int], modelled from
    their documentation.  The algorithms run on lists of characters, where
    stdpp's list lemmas apply; the wrappers at the end work on [string].
    A Go string is a sequence of bytes and so is a Rocq [string]; the
    functions are modelled for a non-empty pattern, and an empty pattern is
    treated bytewise (Go treats it by UTF-8 sequence, which is the same on
    ASCII text). *)

From stdpp Require Import base tactics option list strings.
From Stdlib Require Import ZArith Lia DecimalString Ascii.
From S2P Require Import Prelude.

(** ** Algorithms on lists *)

Section list_algorithms.
Context {A : Type} `{EqDecision A}.
Implicit Types s old new sep sub : list A.

(** [sub] occurs in [s]. *)
Fixpoint contains (s sub : list A) : bool :=
  bool_decide (sub `prefix_of` s) ||
  match s with
  | [] => false
  | _ :: s' => contains s' sub
  end.

(** The scan of [strings.Replace]: left to right, occurrences do not
    overlap.  [skip] counts the characters of a matched occurrence that
    are still to be passed over. *)
Fixpoint replace_go (old new : list A) (skip : nat) (s : list A) : list A :=
  match s with
  | [] => []
  | c :: s' =>
      match skip with
      | S k => replace_go old new k s'
      | 0 =>
          if bool_decide (old `prefix_of` s)
          then new ++ replace_go old new (length old - 1) s'
          else c :: replace_go old new 0 s'
      end
  end.

Definition replace_all (s old new : list A) : list A :=
  match old with
  | [] => new ++ flat_map (λ c, c :: new) s
  | _ => replace_go old new 0 s
  end.

(** The scan of [strings.Split]; the result is never empty. *)
Fixpoint split_go (sep : list A) (skip : nat) (s : list A) : list (list A) :=
  match s with
  | [] => [[]]
  | c :: s' =>
      match skip with
      | S k => split_go sep k s'
      | 0 =>
          if bool_decide (sep `prefix_of` s)
          then [] :: split_go sep (length sep - 1) s'
          else match split_go sep 0 s' with
               | p :: ps => (c :: p) :: ps
               | [] => [[c]]
               end
      end
  end.

Definition split_all (s sep : list A) : list (list A) :=
  match sep with
  | [] => (λ c, [c]) <$> s
  | _ => split_go sep 0 s
  end.

(** [strings.Join]. *)
Fixpoint join_all (ps : list (list A)) (sep : list A) : list A :=
  match ps with
  | [] => []
  | [p] => p
  | p :: ps' => p ++ sep ++ join_all ps' sep
  end.

End list_algorithms.

(** ** The functions on strings *)

Abbreviation explode := String.list_ascii_of_string.
Abbreviation implode := String.string_of_list_ascii.

(** [strings.Contains(s, substr)]. *)
Definition Contains (s substr : string) : bool :=
  contains (explode s) (explode substr).

(** [strings.HasPrefix(s, prefix)]. *)
Definition HasPrefix (s pre : string) : bool :=
  bool_decide (explode pre `prefix_of` explode s).

(** [strings.Replace(s, old, new, -1)]. *)
Definition Replace (s old new : string) : string :=
  implode (replace_all (explode s) (explode old) (explode new)).

(** [strings.Split(s, sep)]. *)
Definition Split (s sep : string) : list string :=
  implode <$> split_all (explode s) (explode sep).

(** The decimal form of an [int], as [fmt] prints it. *)
Definition Itoa (z : Z) : string := NilZero.string_of_int (Z.to_int z).

(** The functions are units for [simpl]: they are unfolded on request,
    and evaluated on closed inputs by [vm_compute]. *)
#[global] Arguments Contains : simpl never.
#[global] Arguments HasPrefix : simpl never.
#[global] Arguments Replace : simpl never.
#[global] Arguments Split : simpl never.
#[global] Arguments Itoa : simpl never.

(** ** Conversions between strings and lists *)

Lemma explode_implode (l : list ascii) : explode (implode l) = l.
Proof. apply String.list_ascii_of_string_of_list_ascii. Qed.

Lemma implode_explode (s : string) : implode (explode s) = s.
Proof. apply String.string_of_list_ascii_of_string. Qed.

Lemma explode_inj (s t : string) : explode s = explode t → s = t.
Proof.
  intros H. by rewrite <-(implode_explode s), H, implode_explode.
Qed.

Lemma explode_app (s t : string) : explode (s +:+ t) = explode s ++ explode t.
Proof.
  induction s as [|c s IH]; [done|].
  rewrite string_app_cons. simpl. by rewrite IH.
Qed.

Lemma implode_app (l k : list ascii) : implode (l ++ k) = implode l +:+ implode k.
Proof.
  apply explode_inj. by rewrite explode_app, !explode_implode.
Qed.

Lemma explode_nil (s : string) : explode s = [] ↔ s = "".
Proof. destruct s; naive_solver. Qed.

#[export] Hint Rewrite explode_implode implode_explode explode_app
  implode_app : go_rw.

(** ** Occurrences *)

Section occurrences.
Context {A : Type} `{EqDecision A}.
Implicit Types s old new sep sub : list A.

(** [sub] occurs in [s], as a proposition. *)
Definition occurs_in (sub s : list A) : Prop := ∃ l1 l2, s = l1 ++ sub ++ l2.

Lemma occurs_in_nil sub : occurs_in sub [] ↔ sub = [].
Proof.
  split.
  - intros (l1 & l2 & H). symmetry in H.
    apply app_eq_nil in H as [_ H]. by apply app_eq_nil in H as [? _].
  - intros ->. by exists [], [].
Qed.

Lemma occurs_in_cons sub c s :
  occurs_in sub (c :: s) ↔ sub `prefix_of` (c :: s) ∨ occurs_in sub s.
Proof.
  split.
  - intros ([|d l1] & l2 & H); simpl in H.
    + left. by exists l2.
    + right. injection H as -> ->. by exists l1, l2.
  - intros [[l2 H] | (l1 & l2 & ->)].
    + by exists [], l2.
    + by exists (c :: l1), l2.
Qed.

Lemma contains_spec s sub : contains s sub = true ↔ occurs_in sub s.
Proof.
  induction s as [|c s IH]; simpl.
  - rewrite orb_false_r, bool_decide_eq_true, occurs_in_nil.
    split; [by intros ->%prefix_nil_inv | by intros ->].
  - by rewrite orb_true_iff, bool_decide_eq_true, IH, occurs_in_cons.
Qed.

#[export] Instance occurs_in_dec sub s : Decision (occurs_in sub s).
Proof.
  refine (cast_if (decide (contains s sub = true))); by rewrite <-contains_spec.
Defined.

Lemma prefix_app_cut (l u v : list A) :
  l `prefix_of` u ++ v → length l ≤ length u → l `prefix_of` u.
Proof.
  intros [k Hk] Hlen. exists (drop (length l) u).
  apply (f_equal (take (length l))) in Hk.
  rewrite take_app_le, take_app_length in Hk by done.
  by rewrite <-Hk at 1; rewrite take_drop.
Qed.

Lemma occurs_in_app_l sub s t : occurs_in sub s → occurs_in sub (s ++ t).
Proof.
  intros (l1 & l2 & ->). exists l1, (l2 ++ t). by rewrite <-!app_assoc.
Qed.

Lemma occurs_in_app_r sub s t : occurs_in sub t → occurs_in sub (s ++ t).
Proof.
  intros (l1 & l2 & ->). exists (s ++ l1), l2. by rewrite <-!app_assoc.
Qed.

End occurrences.

(** ** [strings.Replace] *)

Section replace.
Context {A : Type} `{EqDecision A}.
Implicit Types s old new : list A.

(** Passing over the rest of an occurrence is dropping it. *)
Lemma replace_go_skip old new k s :
  replace_go old new k s = replace_go old new 0 (drop k s).
Proof.
  revert k. induction s as [|c s IH]; intros [|k]; simpl; done.
Qed.

(** The reference definition of the scan: at an occurrence, emit [new]
    and go on after it; elsewhere copy one character. *)
Lemma replace_go_match old new s :
  old ≠ [] → old `prefix_of` s →
  replace_go old new 0 s = new ++ replace_go old new 0 (drop (length old) s).
Proof.
  intros Hne Hp. destruct s as [|c s].
  { by apply prefix_nil_inv in Hp. }
  simpl. rewrite bool_decide_eq_true_2 by done.
  rewrite replace_go_skip. destruct old as [|o old]; [done|].
  simpl. by rewrite Nat.sub_0_r.
Qed.

Lemma replace_go_copy old new c s :
  ¬ old `prefix_of` (c :: s) →
  replace_go old new 0 (c :: s) = c :: replace_go old new 0 s.
Proof. intros Hp. simpl. by rewrite bool_decide_eq_false_2. Qed.

(** Without an occurrence nothing changes. *)
Lemma replace_go_id old new s :
  ¬ occurs_in old s → replace_go old new 0 s = s.
Proof.
  induction s as [|c s IH]; [done|]. rewrite occurs_in_cons. intros Hn.
  rewrite replace_go_copy by tauto. f_equal. apply IH. tauto.
Qed.

End replace.

(** Removing every pair [d d] leaves no such pair: the runs of [d] of the
    input are cut to length zero or one, and the other characters keep
    them apart. *)
Section remove_pairs.
Context {A : Type} `{EqDecision A} (d : A).
Implicit Types s : list A.

#[local] Abbreviation strip := (replace_go [d; d] [] 0).

Lemma strip_pair s : strip (d :: d :: s) = strip s.
Proof.
  rewrite replace_go_match; [done..|by exists s].
Qed.

Lemma strip_single s :
  ¬ [d] `prefix_of` s → strip (d :: s) = d :: strip s.
Proof.
  intros Hn. apply replace_go_copy. intros [k Hk]. apply Hn.
  injection Hk as ->. by eexists.
Qed.

Lemma strip_other c s : c ≠ d → strip (c :: s) = c :: strip s.
Proof.
  intros Hn. apply replace_go_copy. by intros [k [=]].
Qed.

(** The head of the output is the head of the input unless that is [d]. *)
Lemma strip_head_not s : ¬ [d] `prefix_of` s → ¬ [d] `prefix_of` strip s.
Proof.
  destruct s as [|c s]; [done|]. intros Hn.
  assert (c ≠ d) as Hc by (intros ->; apply Hn; by exists s).
  rewrite strip_other by done. by intros [k [=]].
Qed.

Lemma strip_no_pair_aux n s :
  length s ≤ n → ¬ occurs_in [d; d] (strip s).
Proof.
  revert s. induction n as [|n IH]; intros s Hlen.
  { destruct s; [|simpl in Hlen; lia]. by rewrite occurs_in_nil. }
  destruct s as [|c s]; [by rewrite occurs_in_nil|].
  simpl in Hlen. destruct (decide (c = d)) as [->|Hc].
  - destruct s as [|c' s].
    { simpl. rewrite bool_decide_eq_false_2 by (by intros [k [=]]).
      rewrite occurs_in_cons, occurs_in_nil. by intros [[k [=]]|[=]]. }
    destruct (decide (c' = d)) as [->|Hc'].
    + rewrite strip_pair. apply IH. simpl in *; lia.
    + rewrite strip_single by (by intros [k [=]]).
      rewrite occurs_in_cons. intros [[k Hk]|Ho].
      * rewrite strip_other in Hk by done. by injection Hk.
      * revert Ho. apply IH. simpl in *; lia.
  - rewrite strip_other by done. rewrite occurs_in_cons.
    intros [[k [=]]|Ho]; [done|]. revert Ho. apply IH. lia.
Qed.

Lemma strip_no_pair s : ¬ occurs_in [d; d] (strip s).
Proof. by apply (strip_no_pair_aux (length s)). Qed.

End remove_pairs.

(** ** [strings.Split] *)

Section split.
Context {A : Type} `{EqDecision A}.
Implicit Types s sep : list A.

Lemma split_go_nonempty sep k s : split_go sep k s ≠ [].
Proof.
  revert k. induction s as [|c s IH]; intros [|k]; simpl; try done.
  case_bool_decide; [done|]. by destruct (split_go sep 0 s).
Qed.

Lemma split_all_nonempty s sep : sep ≠ [] → split_all s sep ≠ [].
Proof. destruct sep; [done|]. intros _. apply split_go_nonempty. Qed.

Lemma split_go_skip sep k s : split_go sep k s = split_go sep 0 (drop k s).
Proof.
  revert k. induction s as [|c s IH]; intros [|k]; simpl; try done.
Qed.

(** Without an occurrence of the separator there is one piece. *)
Lemma split_go_id sep s : ¬ occurs_in sep s → split_go sep 0 s = [s].
Proof.
  induction s as [|c s IH]; [done|]. rewrite occurs_in_cons. intros Hn.
  simpl. rewrite bool_decide_eq_false_2 by tauto. rewrite IH; [done | tauto].
Qed.

(** The first piece is what stands before the first occurrence. *)
Lemma split_go_head sep p s :
  sep ≠ [] → ¬ occurs_in sep (p ++ removelast sep) →
  head (split_go sep 0 (p ++ sep ++ s)) = Some p.
Proof.
  intros Hne. induction p as [|c p IH]; intros Hn.
  - destruct sep as [|x sep]; [done|]. simpl.
    rewrite bool_decide_eq_true_2; [done|]. by exists s.
  - simpl in *. rewrite occurs_in_cons in Hn.
    rewrite bool_decide_eq_false_2.
    + destruct (split_go sep 0 (p ++ sep ++ s)) eqn:E;
        [by apply split_go_nonempty in E|].
      specialize (IH ltac:(tauto)). by simplify_eq/=.
    + intros Hp. apply Hn. left.
      destruct sep as [|x sep _] using rev_ind; [done|].
      rewrite removelast_last.
      apply (prefix_app_cut _ (c :: p ++ sep) ([x] ++ s)).
      * by replace ((c :: p ++ sep) ++ [x] ++ s)
          with (c :: p ++ (sep ++ [x]) ++ s) by (simpl; by rewrite <-!app_assoc).
      * simpl. rewrite !length_app. simpl. lia.
Qed.

(** Joining the pieces with the separator gives the input back. *)
Lemma join_split_go sep s :
  sep ≠ [] → join_all (split_go sep 0 s) sep = s.
Proof.
  intros Hne. remember (length s) as n eqn:Hn.
  revert s Hn. induction (lt_wf n) as [n _ IH]; intros s ->.
  destruct s as [|c s]; [done|]. simpl. case_bool_decide as Hp.
  - destruct Hp as [k Hk]. rewrite split_go_skip.
    destruct sep as [|x sep]; [done|]. simpl in *.
    rewrite Nat.sub_0_r. injection Hk as -> ->.
    rewrite drop_app_length.
    pose proof (split_go_nonempty (x :: sep) 0 k) as Hk.
    destruct (split_go (x :: sep) 0 k) as [|p ps] eqn:E; [done|].
    rewrite <-E. simpl. f_equal. f_equal.
    eapply IH; [|done]. rewrite length_app. simpl. lia.
  - pose proof (IH (length s) ltac:(simpl; lia) s eq_refl) as IHs.
    destruct (split_go sep 0 s) as [|p ps] eqn:E;
      [by apply split_go_nonempty in E|].
    destruct ps as [|q ps]; simpl in *; by rewrite <-IHs.
Qed.

End split.

(** ** Splitting by one character

    The separator of paths is one character; then the pieces of a
    concatenation are the pieces of its parts. *)

Section split_char.
Context {A : Type} `{EqDecision A}.
Implicit Types (s p : list A) (x c : A).

Lemma occurs_in_singleton x s : occurs_in [x] s ↔ x ∈ s.
Proof.
  split.
  - intros (l1 & l2 & ->). apply elem_of_app. right. by left.
  - intros (l1 & l2 & ->)%list_elem_of_split. by exists l1, l2.
Qed.

Lemma split_go_char_sep x s : split_go [x] 0 (x :: s) = [] :: split_go [x] 0 s.
Proof. simpl. rewrite bool_decide_eq_true_2; [done|]. by exists s. Qed.

Lemma split_go_char_other x c s :
  c ≠ x →
  split_go [x] 0 (c :: s)
  = (c :: default [] (head (split_go [x] 0 s))) :: tail (split_go [x] 0 s).
Proof.
  intros Hc. simpl. rewrite bool_decide_eq_false_2.
  - destruct (split_go [x] 0 s) eqn:E; [by apply split_go_nonempty in E|done].
  - intros [k [= ? ?]]. done.
Qed.

(** The scan cuts its input at every separator. *)
Lemma split_go_char_cut x s :
  split_go [x] 0 s ≠ [] ∧
  (x ∉ s → split_go [x] 0 s = [s]).
Proof.
  split; [apply split_go_nonempty|].
  intros Hx. apply split_go_id. by rewrite occurs_in_singleton.
Qed.

(** The pieces of [a ++ x :: b] are those of [a], then those of [b]. *)
Lemma split_go_char_app x a b :
  split_go [x] 0 (a ++ x :: b) = split_go [x] 0 a ++ split_go [x] 0 b.
Proof.
  induction a as [|c a IH]; [apply split_go_char_sep|].
  rewrite <-app_comm_cons. destruct (decide (c = x)) as [->|Hc].
  - by rewrite !split_go_char_sep, IH.
  - rewrite !split_go_char_other, IH by done.
    by destruct (split_go [x] 0 a) eqn:E; [apply split_go_nonempty in E|].
Qed.

(** No piece holds the separator. *)
Lemma split_go_char_free x s : Forall (λ p, x ∉ p) (split_go [x] 0 s).
Proof.
  induction s as [|c s IH].
  { apply Forall_singleton, not_elem_of_nil. }
  destruct (decide (c = x)) as [->|Hc].
  - rewrite split_go_char_sep. apply Forall_cons. split; [apply not_elem_of_nil|done].
  - rewrite split_go_char_other by done.
    destruct IH as [|p ps Hp Hps]; apply Forall_cons; split; try done; simpl;
      rewrite not_elem_of_cons; split; try done; apply not_elem_of_nil.
Qed.

(** Splitting what was joined from pieces without the separator gives
    the pieces back. *)
Lemma split_go_char_join x ps :
  ps ≠ [] → Forall (λ p, x ∉ p) ps → split_go [x] 0 (join_all ps [x]) = ps.
Proof.
  induction ps as [|p ps IH]; [done|]. intros _ [Hp Hps]%Forall_cons.
  destruct ps as [|q ps]; [by apply split_go_char_cut|].
  change (join_all (p :: q :: ps) [x]) with (p ++ x :: join_all (q :: ps) [x]).
  rewrite split_go_char_app, IH by done.
  by rewrite (proj2 (split_go_char_cut x p)).
Qed.

End split_char.

(** ** The string-level statements *)

Lemma Contains_spec (s sub : string) :
  Contains s sub = true ↔ ∃ s1 s2, s = s1 +:+ sub +:+ s2.
Proof.
  unfold Contains. rewrite contains_spec. split.
  - intros (l1 & l2 & H). exists (implode l1), (implode l2).
    apply explode_inj. by rewrite !explode_app, !explode_implode.
  - intros (s1 & s2 & ->). exists (explode s1), (explode s2).
    by rewrite !explode_app.
Qed.

(** [Split] by a non-empty separator returns at least one piece, so that
    indexing its result at 0 is in range. *)
Lemma Split_nonempty (s sep : string) : sep ≠ "" → Split s sep ≠ [].
Proof.
  intros Hne. unfold Split. intros H%fmap_nil_inv. revert H.
  apply split_all_nonempty. by rewrite explode_nil.
Qed.

Lemma Split_no_sep (s sep : string) :
  sep ≠ "" → Contains s sep = false → Split s sep = [s].
Proof.
  intros Hne Hc. unfold Split, split_all.
  destruct (explode sep) eqn:E; [by apply explode_nil in E|].
  rewrite <-E, split_go_id; [simpl; by rewrite implode_explode|].
  rewrite <-contains_spec. unfold Contains in Hc. by rewrite Hc.
Qed.

(** Removing [old] from a string that does not contain it changes
    nothing. *)
Lemma Replace_id (s old new : string) :
  old ≠ "" → Contains s old = false → Replace s old new = s.
Proof.
  intros Hne Hc. unfold Replace, replace_all.
  destruct (explode old) eqn:E; [by apply explode_nil in E|].
  rewrite <-E, replace_go_id; [by rewrite implode_explode|].
  rewrite <-contains_spec. unfold Contains in Hc. by rewrite Hc.
Qed.

(** After [Replace s ".." ""] no [".."] is left. *)
Lemma Replace_dotdot_free (s : string) : Contains (Replace s ".." "") ".." = false.
Proof.
  apply not_true_is_false. unfold Contains, Replace.
  rewrite contains_spec, explode_implode. apply strip_no_pair.
Qed.
