(* ===== verification/GoPath.v ===== *)
(** * Lexical path processing: Go's [path/filepath] on Unix

    [filepath.Clean], [Join], [Dir], [Ext], [IsAbs] and [Abs], modelled
    from their documentation for the separator ['/'], and [path.Join],
    which agrees with [filepath.Join] there.  A path is cut into its
    components; [clean_step] is the stack discipline of [Clean]: empty
    and ["."] components vanish, [".."] removes the component before it,
    stays at the front of a relative path and vanishes at the root.

    [path_key] is the link to the file system of [FileSys]: the absolute
    list of components a path names from a working directory.  The
    second half of the file is the theory of keys: [Clean] keeps the
    key of a path, the key of [Join [d; p]] is the scan of the
    components of [p] from the key of [d], a name joined to a directory
    is an entry of it, and a path without [".."] stays below it. *)

From stdpp Require Import base tactics option list strings.
From Stdlib Require Import Ascii.
From S2P Require Import Prelude GoStrings.

(** A path as the list of its components, outermost first. *)
Abbreviation path := (list string).

(** The pieces of a path between its separators. *)
Definition components (p : string) : list string := Split p "/".

(** [strings.Join(elem, sep)]. *)
Definition Concat (elem : list string) (sep : string) : string :=
  implode (join_all (explode <$> elem) (explode sep)).

(** One component of the scan of [Clean], on the stack of components
    kept so far (innermost last). *)
Definition clean_step (rooted : bool) (stack : path) (c : string) : path :=
  if decide (c = "" ∨ c = ".") then stack
  else if decide (c = "..") then
    match last stack with
    | Some t => if decide (t = "..") then stack ++ [".."] else removelast stack
    | None => if rooted then [] else [".."]
    end
  else stack ++ [c].

Definition clean_components (rooted : bool) (cs : list string) : path :=
  foldl (clean_step rooted) [] cs.

(** [filepath.IsAbs]. *)
Definition IsAbs (p : string) : bool := HasPrefix p "/".

(** [filepath.Clean]: the shortest path equivalent to [p] by lexical
    processing; the empty path becomes ["."]. *)
Definition Clean (p : string) : string :=
  if decide (p = "") then "."
  else
    let cs := clean_components (IsAbs p) (components p) in
    if IsAbs p then "/" +:+ Concat cs "/"
    else if decide (cs = []) then "." else Concat cs "/".

(** [filepath.Join]: the elements from the first non-empty one on,
    joined by the separator and cleaned; [path.Join] is the same
    function on slash-separated paths. *)
Fixpoint Join (elem : list string) : string :=
  match elem with
  | [] => ""
  | e :: rest => if decide (e = "") then Join rest else Clean (Concat elem "/")
  end.

(** [filepath.Dir]: all but the last element of [p], cleaned. *)
Definition Dir (p : string) : string :=
  match components p with
  | [] | [_] => Clean ""
  | cs => Clean (Concat (removelast cs) "/" +:+ "/")
  end.

(** [filepath.Base]'s input to [Ext]: the text after the last separator. *)
Definition last_element (p : string) : string := default "" (last (components p)).

(** [filepath.Ext]: the suffix of the last element from its last dot on,
    empty when it has no dot. *)
Definition Ext (p : string) : string :=
  match reverse (Split (last_element p) ".") with
  | [] | [_] => ""
  | e :: _ => "." +:+ e
  end.

(** [filepath.Abs] given the working directory [wd] ([None] when
    [os.Getwd] fails). *)
Definition Abs (wd : option string) (p : string) : string + string :=
  if IsAbs p then inl (Clean p)
  else match wd with
       | Some d => inl (Join [d; p])
       | None => inr "getwd: no such file or directory"
       end.

(** The absolute component list that [p] names from the working
    directory [cwd]; the empty path names nothing. *)
Definition path_key (cwd : path) (p : string) : option path :=
  if decide (p = "") then None
  else Some (clean_components true ((if IsAbs p then [] else cwd) ++ components p)).

#[global] Arguments Clean : simpl never.
#[global] Arguments Join : simpl never.
#[global] Arguments Dir : simpl never.
#[global] Arguments Ext : simpl never.
#[global] Arguments Abs : simpl never.
#[global] Arguments path_key : simpl never.

(** ** Evaluation on the paths of the pipeline *)

Example Clean_examples :
  Clean "a//b/./c/.." = "a/b" ∧ Clean "/../a" = "/a" ∧ Clean "../a" = "../a" ∧
  Clean "a/.." = "." ∧ Clean "/" = "/" ∧ Clean "" = "." ∧
  Clean "/home/user//tor-browser/" = "/home/user/tor-browser".
Proof. by vm_compute. Qed.

Example Join_examples :
  Join ["/home/user"; "tor-browser"] = "/home/user/tor-browser" ∧
  Join [""; "unpack"] = "unpack" ∧ Join ["a"; ""] = "a" ∧ Join [""; ""] = "" ∧
  Join ["/srv/dl"; "../../etc/passwd"] = "/etc/passwd" ∧
  Join ["tor-browser"; "unpack"; "awo@eyedeekay.github.io.xpi"]
    = "tor-browser/unpack/awo@eyedeekay.github.io.xpi".
Proof. by vm_compute. Qed.

Example Dir_Ext_examples :
  Dir "/home/user/tor-browser" = "/home/user" ∧ Dir "file" = "." ∧
  Dir "/file" = "/" ∧ Dir "a/b/" = "a/b" ∧
  Ext "/downloads.json" = ".json" ∧ Ext "a.b/c" = "" ∧ Ext "x.tar.xz" = ".xz" ∧
  Ext "noext" = "".
Proof. by vm_compute. Qed.

(** ** The stack discipline *)

Section clean.
Implicit Types (stack cs : path) (c : string).

(** A component that is a name is pushed. *)
Definition is_name (c : string) : Prop := c ≠ "" ∧ c ≠ "." ∧ c ≠ "..".

#[export] Instance is_name_dec c : Decision (is_name c).
Proof. unfold is_name. apply _. Defined.

Lemma clean_step_name rooted stack c :
  is_name c → clean_step rooted stack c = stack ++ [c].
Proof.
  intros (? & ? & ?). unfold clean_step.
  rewrite decide_False by tauto. by rewrite decide_False.
Qed.

Lemma clean_step_skip rooted stack c :
  c = "" ∨ c = "." → clean_step rooted stack c = stack.
Proof. intros H. unfold clean_step. by rewrite decide_True. Qed.

(** At the root, [".."] pops a name or stays at the root. *)
Lemma clean_step_up_rooted stack :
  Forall is_name stack → clean_step true stack ".." = removelast stack.
Proof.
  intros Hs. unfold clean_step. rewrite decide_False by (by intros [|]).
  rewrite decide_True by done.
  destruct (last stack) as [t|] eqn:E.
  - rewrite decide_False; [done|]. intros ->.
    apply last_Some_elem_of in E.
    rewrite Forall_forall in Hs. by destruct (Hs _ E) as (_ & _ & ?).
  - by apply last_None in E as ->.
Qed.

(** From the root the stack holds names only. *)
Lemma clean_step_rooted_names stack c :
  Forall is_name stack → Forall is_name (clean_step true stack c).
Proof.
  intros Hs. destruct (decide (c = "" ∨ c = ".")).
  { by rewrite clean_step_skip. }
  destruct (decide (c = "..")) as [->|].
  { rewrite clean_step_up_rooted by done.
    destruct stack as [|x stack _] using rev_ind; [done|].
    rewrite removelast_last. by apply Forall_app in Hs as [? _]. }
  rewrite clean_step_name by (unfold is_name; naive_solver).
  apply Forall_app. split; [done|]. apply Forall_singleton.
  unfold is_name. naive_solver.
Qed.

Lemma foldl_clean_rooted_names stack cs :
  Forall is_name stack → Forall is_name (foldl (clean_step true) stack cs).
Proof.
  revert stack. induction cs as [|c cs IH]; intros stack Hs; [done|].
  simpl. by apply IH, clean_step_rooted_names.
Qed.

(** A key of the file system holds names only. *)
Lemma path_key_names cwd p k : path_key cwd p = Some k → Forall is_name k.
Proof.
  unfold path_key. case_decide; [done|]. intros [= <-].
  by apply foldl_clean_rooted_names.
Qed.

(** Names are kept as they are. *)
Lemma foldl_clean_names rooted stack cs :
  Forall is_name cs → foldl (clean_step rooted) stack cs = stack ++ cs.
Proof.
  revert stack. induction cs as [|c cs IH]; intros stack Hcs; simpl.
  { by rewrite app_nil_r. }
  apply Forall_cons in Hcs as [Hc Hcs].
  by rewrite clean_step_name, IH, <-app_assoc.
Qed.

Lemma clean_components_app rooted cs1 cs2 :
  clean_components rooted (cs1 ++ cs2)
  = foldl (clean_step rooted) (clean_components rooted cs1) cs2.
Proof. apply foldl_app. Qed.

End clean.

(** ** Components of joined paths *)

Section components.
Implicit Types (p a b c : string) (cs : list string).

(** A component holds no separator. *)
Definition slash_free (c : string) : Prop := "/"%char ∉ explode c.

#[export] Instance slash_free_dec c : Decision (slash_free c).
Proof. unfold slash_free. apply _. Defined.

Lemma components_unfold p :
  components p = implode <$> split_go ["/"%char] 0 (explode p).
Proof. done. Qed.

Lemma components_app a b :
  components (a +:+ "/" +:+ b) = components a ++ components b.
Proof.
  rewrite !components_unfold, !explode_app.
  change (explode "/" ++ explode b) with ("/"%char :: explode b).
  by rewrite split_go_char_app, fmap_app.
Qed.

Lemma components_slash_free p : Forall slash_free (components p).
Proof.
  rewrite components_unfold. apply Forall_fmap.
  eapply Forall_impl; [apply split_go_char_free|].
  intros l Hl. unfold slash_free. simpl. by rewrite explode_implode.
Qed.

(** A component that holds no separator is the only component of
    itself. *)
Lemma components_single c : slash_free c → components c = [c].
Proof.
  intros Hc. rewrite components_unfold.
  by rewrite (proj2 (split_go_char_cut _ _)), list_fmap_singleton, implode_explode.
Qed.

Lemma components_Concat cs :
  cs ≠ [] → Forall slash_free cs → components (Concat cs "/") = cs.
Proof.
  intros Hne Hcs. unfold Concat. rewrite components_unfold, explode_implode.
  change (explode "/") with ["/"%char]. rewrite split_go_char_join.
  - rewrite <-list_fmap_compose. rewrite <-(list_fmap_id cs) at 2.
    apply list_fmap_ext. intros _ c _. apply implode_explode.
  - by intros ?%fmap_nil_inv.
  - by apply Forall_fmap.
Qed.

(** Every component occurs in the path. *)
Lemma components_Contains p c : c ∈ components p → Contains p c = true.
Proof.
  rewrite components_unfold. intros (l & -> & Hl)%list_elem_of_fmap.
  unfold Contains. rewrite explode_implode, contains_spec.
  rewrite <-(join_split_go ["/"%char] (explode p)) by done.
  induction (split_go ["/"%char] 0 (explode p)) as [|q qs IH];
    [by apply elem_of_nil in Hl|].
  assert (occurs_in q q) as Hq by (exists [], []; by rewrite app_nil_r).
  apply elem_of_cons in Hl as [->|Hl].
  - destruct qs; [done|]. by apply occurs_in_app_l.
  - destruct qs as [|q' qs]; [by apply elem_of_nil in Hl|].
    change (join_all (q :: q' :: qs) ["/"%char])
      with (q ++ ["/"%char] ++ join_all (q' :: qs) ["/"%char]).
    by apply occurs_in_app_r, occurs_in_app_r, IH.
Qed.

(** A path that starts with a name is not absolute. *)
Lemma IsAbs_Concat c cs :
  c ≠ "" → slash_free c → IsAbs (Concat (c :: cs) "/") = false.
Proof.
  intros Hne Hc. unfold IsAbs, HasPrefix, Concat.
  rewrite explode_implode, bool_decide_eq_false. intros [k Hk].
  destruct (explode c) as [|a l] eqn:E; [by apply explode_nil in E|].
  unfold slash_free in Hc. rewrite E in Hc. apply not_elem_of_cons in Hc as [Ha _].
  rewrite fmap_cons, E in Hk. by destruct cs; simplify_eq/=.
Qed.

Lemma IsAbs_app d p : d ≠ "" → IsAbs (d +:+ p) = IsAbs d.
Proof.
  intros Hd. unfold IsAbs, HasPrefix. rewrite explode_app.
  destruct (explode d) as [|a l] eqn:E; [by apply explode_nil in E|].
  apply bool_decide_ext. split; intros [k Hk]; simplify_eq/=; eexists; done.
Qed.

End components.

(** ** Cleaning twice

    [Clean] does not change what a path names: the key of a cleaned
    path is the key of the path. *)

Section clean_key.
Implicit Types (stack acc cs : path) (c p d : string).

(** What the scan keeps on its stack: no empty component and no dot. *)
Definition kept (c : string) : Prop := c ≠ "" ∧ c ≠ ".".

Lemma clean_step_Forall (P : string → Prop) rooted stack c :
  P ".." → (kept c → P c) → Forall P stack → Forall P (clean_step rooted stack c).
Proof.
  intros Hup Hc Hs. unfold clean_step. case_decide as Hk; [done|].
  assert (P c) by (apply Hc; unfold kept; naive_solver).
  assert (Forall P (stack ++ [c])) by (apply Forall_app; by split; [|apply Forall_singleton]).
  case_decide; [|done]. subst.
  destruct (last stack); [case_decide; [done|]|destruct rooted; by repeat constructor].
  destruct stack as [|x stack _] using rev_ind; [done|].
  rewrite removelast_last. by apply Forall_app in Hs as [? _].
Qed.

Lemma foldl_clean_Forall (P : string → Prop) rooted stack cs :
  P ".." → Forall P cs → Forall P stack →
  Forall P (foldl (clean_step rooted) stack cs).
Proof.
  intros Hup Hcs. revert stack.
  induction Hcs as [|c cs Hc Hcs IH]; intros stack Hs; [done|].
  simpl. by apply IH, clean_step_Forall.
Qed.

Lemma slash_free_up : slash_free "..".
Proof. by apply (bool_decide_unpack _). Qed.

(** The cleaned components hold no separator. *)
Lemma clean_components_slash_free rooted p :
  Forall slash_free (clean_components rooted (components p)).
Proof.
  apply foldl_clean_Forall;
    [apply slash_free_up|apply components_slash_free|done].
Qed.

Lemma foldl_clean_kept rooted stack cs :
  Forall kept stack → Forall kept (foldl (clean_step rooted) stack cs).
Proof.
  revert stack. induction cs as [|c cs IH]; intros stack Hs; [done|].
  simpl. by apply IH, clean_step_Forall.
Qed.

(** One step of the relative scan, replayed on a rooted stack. *)
Lemma clean_step_absorb stack acc c :
  Forall is_name stack → Forall kept acc →
  foldl (clean_step true) stack (clean_step false acc c)
  = clean_step true (foldl (clean_step true) stack acc) c.
Proof.
  intros Hs Ha. unfold clean_step at 2. case_decide as Hk.
  { by rewrite clean_step_skip. }
  case_decide as Hup; [subst|by rewrite foldl_app].
  destruct acc as [|t acc _] using rev_ind; [done|].
  rewrite last_snoc. case_decide; [by rewrite foldl_app|].
  rewrite removelast_last, foldl_app. simpl.
  apply Forall_app in Ha as [_ [[??] _]%Forall_cons].
  rewrite (clean_step_name _ _ t) by done.
  rewrite clean_step_up_rooted, removelast_last; [done|].
  apply Forall_app. split; [by apply foldl_clean_rooted_names|].
  by apply Forall_singleton.
Qed.

Lemma foldl_clean_absorb stack acc cs :
  Forall is_name stack → Forall kept acc →
  foldl (clean_step true) stack (foldl (clean_step false) acc cs)
  = foldl (clean_step true) (foldl (clean_step true) stack acc) cs.
Proof.
  intros Hs. revert acc. induction cs as [|c cs IH]; intros acc Ha; [done|].
  simpl. rewrite IH by (by apply clean_step_Forall).
  by rewrite clean_step_absorb.
Qed.

(** The components of a cleaned path, scanned from the root. *)
Lemma clean_rooted_again stack cs :
  Forall is_name stack →
  foldl (clean_step true) stack (clean_components false cs)
  = foldl (clean_step true) stack cs.
Proof. intros Hs. by apply (foldl_clean_absorb stack []). Qed.

Lemma IsAbs_slash p : IsAbs ("/" +:+ p) = true.
Proof. unfold IsAbs, HasPrefix. apply bool_decide_eq_true. by exists (explode p). Qed.

Lemma Concat_nonempty c cs : c ≠ "" → Concat (c :: cs) "/" ≠ "".
Proof.
  intros Hc He. apply (f_equal explode) in He. unfold Concat in He.
  rewrite explode_implode, fmap_cons in He.
  destruct (explode c) eqn:E; [by apply explode_nil in E|]. by destruct cs.
Qed.

(** The components of a cleaned absolute path, scanned again. *)
Lemma components_rooted cs :
  Forall is_name cs → Forall slash_free cs →
  clean_components true (components ("/" +:+ Concat cs "/")) = cs.
Proof.
  intros Hn Hs. change ("/" +:+ ?x) with ("" +:+ "/" +:+ x).
  rewrite components_app. destruct cs as [|c cs]; [done|].
  rewrite components_Concat by done. unfold clean_components.
  change (components "") with [""]. cbn [app foldl].
  rewrite (clean_step_skip _ _ "") by (by left).
  apply Forall_cons in Hn as [Hc Hn]. rewrite clean_step_name by done.
  by apply (foldl_clean_names true [c]).
Qed.

(** [Clean] keeps the key. *)
Lemma path_key_Clean cwd p : p ≠ "" → path_key cwd (Clean p) = path_key cwd p.
Proof.
  intros Hp. unfold path_key, Clean. rewrite !(decide_False (P := p = "")) by done.
  destruct (IsAbs p) eqn:Hab.
  - rewrite decide_False by done. rewrite IsAbs_slash, !app_nil_l. f_equal.
    apply components_rooted;
      [by apply foldl_clean_rooted_names|apply clean_components_slash_free].
  - pose proof (clean_components_slash_free false p) as Hs.
    set (cs := clean_components false (components p)) in *.
    assert (Forall kept cs) as Hk by (by apply foldl_clean_kept).
    assert (∀ stack, Forall is_name stack →
      foldl (clean_step true) stack (components p) = foldl (clean_step true) stack cs)
      as Hcs by (intros; symmetry; by apply clean_rooted_again).
    unfold clean_components. rewrite !foldl_app.
    rewrite Hcs by (by apply foldl_clean_rooted_names).
    destruct cs as [|c cs']; [done|].
    apply Forall_cons in Hk as [[Hc _] _]. apply Forall_cons in Hs as [Hs Hs'].
    rewrite !decide_False by (done || by apply Concat_nonempty).
    by rewrite IsAbs_Concat, components_Concat by (done || by constructor).
Qed.

Lemma Join_two d p : d ≠ "" → Join [d; p] = Clean (d +:+ "/" +:+ p).
Proof.
  intros Hd.
  change (Join [d; p])
    with (if decide (d = "") then Join [p] else Clean (Concat [d; p] "/")).
  rewrite decide_False by done. f_equal. apply explode_inj.
  unfold Concat. by rewrite explode_implode, !explode_app.
Qed.

(** The key of a joined path: the components of the second element,
    scanned from the key of the first. *)
Theorem path_key_Join cwd d p kd :
  path_key cwd d = Some kd →
  path_key cwd (Join [d; p]) = Some (foldl (clean_step true) kd (components p)).
Proof.
  unfold path_key at 1. case_decide as Hd; [done|]. intros [= <-].
  assert (d +:+ "/" +:+ p ≠ "") as Hne by (by destruct d).
  rewrite Join_two, path_key_Clean by done. unfold path_key.
  rewrite decide_False, IsAbs_app, components_app by done.
  unfold clean_components. by rewrite !app_assoc, foldl_app.
Qed.

(** With an empty first element the second one is taken alone. *)
Lemma path_key_Join_empty cwd p : path_key cwd (Join [""; p]) = path_key cwd p.
Proof.
  change (Join [""; p]) with (if decide (p = "") then "" else Clean (Concat [p] "/")).
  case_decide as Hp; [by subst|].
  replace (Concat [p] "/") with p
    by (unfold Concat; simpl; by rewrite implode_explode).
  by apply path_key_Clean.
Qed.

(** A name is appended to the key of the directory. *)
Corollary path_key_Join_name cwd d n kd :
  path_key cwd d = Some kd → is_name n → slash_free n →
  path_key cwd (Join [d; n]) = Some (kd ++ [n]).
Proof.
  intros Hd Hn Hs. rewrite (path_key_Join _ _ _ kd) by done.
  by rewrite components_single, (foldl_clean_names true kd [n]) by (done || by constructor).
Qed.

(** Without [".."] among its components, the joined path stays below
    the directory. *)
Lemma foldl_clean_below rooted stack cs :
  ".." ∉ cs → stack `prefix_of` foldl (clean_step rooted) stack cs.
Proof.
  revert stack. induction cs as [|c cs IH]; intros stack Hup; [done|].
  apply not_elem_of_cons in Hup as [Hc Hup]. simpl.
  etrans; [|by apply IH]. unfold clean_step.
  case_decide; [done|]. rewrite decide_False by done. by apply prefix_app_r.
Qed.

Corollary path_key_Join_below cwd d p kd :
  path_key cwd d = Some kd → Contains p ".." = false →
  ∃ k, path_key cwd (Join [d; p]) = Some k ∧ kd `prefix_of` k.
Proof.
  intros Hd Hp. eexists. split; [by apply path_key_Join|].
  apply foldl_clean_below. intros Hin%components_Contains. congruence.
Qed.

End clean_key.
