(* ===== verification/FileSys.v ===== *)
(** * The file system the pipeline reads and writes

    The calls of [os] and [io/ioutil] that [src/get/get.go] makes
    ([os.Stat], [os.MkdirAll], [ioutil.WriteFile], [ioutil.ReadFile],
    [os.Create], writing to and [Chmod] of an open file), modelled from
    their documentation as functions on a finite map from absolute
    component lists ([GoPath.path_key]) to nodes.  Symbolic links,
    ownership and permission checks are not modelled, and the umask is
    taken to be zero; the mode bits of a node are recorded since the
    installer sets them.

    [fs_wf] is the tree shape: the root is a directory and so is the
    parent of every node.  Every operation preserves it. *)

From stdpp Require Import base tactics option list strings gmap.
From Stdlib Require Import ZArith.
From S2P Require Import Prelude GoStrings GoPath.

(** ** Nodes, errors *)

Inductive node : Type :=
| File (content : string) (mode : Z)
| Directory (mode : Z).

#[export] Instance node_eq_dec : EqDecision node.
Proof. solve_decision. Defined.

Inductive errno : Type := ENOENT | ENOTDIR | EISDIR | EEXIST.

#[export] Instance errno_eq_dec : EqDecision errno.
Proof. solve_decision. Defined.

Definition errno_msg (e : errno) : string :=
  match e with
  | ENOENT => "no such file or directory"
  | ENOTDIR => "not a directory"
  | EISDIR => "is a directory"
  | EEXIST => "file exists"
  end.

(** The text of an [*os.PathError]. *)
Definition PathError (op p : string) (e : errno) : string :=
  op +:+ " " +:+ p +:+ ": " +:+ errno_msg e.

(** [os.IsNotExist] on the error of a system call. *)
Definition IsNotExist (e : option errno) : bool := bool_decide (e = Some ENOENT).

(** The permission bits the source passes. *)
Definition mode_0755 : Z := 493.
Definition mode_0644 : Z := 420.
Definition mode_0666 : Z := 438.

Abbreviation fs := (gmap path node).

(** ** Operations on keys *)

Section operations.
Implicit Types (σ : fs) (k : path).

Definition is_file σ k : bool :=
  match σ !! k with Some (File _ _) => true | _ => false end.

Definition is_dir σ k : bool :=
  match σ !! k with Some (Directory _) => true | _ => false end.

(** The keys above [k], outermost first, [k] itself left out. *)
Definition above k : list path := (λ n, take n k) <$> seq 0 (length k).

(** The keys from the first component down to [k] itself. *)
Definition down_to k : list path := (λ n, take n k) <$> seq 1 (length k).

(** The error of looking up a key that is not there: a file on the way
    makes it [ENOTDIR]. *)
Definition missing σ k : errno :=
  if existsb (is_file σ) (above k) then ENOTDIR else ENOENT.

(** [stat(2)]. *)
Definition stat σ k : errno + node :=
  match σ !! k with
  | Some n => inr n
  | None => inl (missing σ k)
  end.

(** One level of [os.MkdirAll]. *)
Definition mkdir_step (perm : Z) (acc : fs * option errno) (a : path)
  : fs * option errno :=
  match acc with
  | (σ, Some e) => (σ, Some e)
  | (σ, None) =>
      match σ !! a with
      | Some (Directory _) => (σ, None)
      | Some (File _ _) => (σ, Some ENOTDIR)
      | None => (<[a := Directory perm]> σ, None)
      end
  end.

(** [os.MkdirAll]: the directories on the way to [k] and [k] itself,
    those that are missing. *)
Definition mkdir_all σ k (perm : Z) : fs * option errno :=
  foldl (mkdir_step perm) (σ, None) (down_to k).

(** [open(2)] with [O_CREATE|O_TRUNC]: a new file gets [perm], an
    existing one keeps its mode and loses its content. *)
Definition create σ k (perm : Z) : fs * option errno :=
  match σ !! k with
  | Some (Directory _) => (σ, Some EISDIR)
  | Some (File _ m) => (<[k := File "" m]> σ, None)
  | None =>
      if is_dir σ (removelast k)
      then (<[k := File "" perm]> σ, None)
      else (σ, Some (missing σ k))
  end.

(** Writing [data] at the end of the file at [k]. *)
Definition append_file σ k (data : string) : fs :=
  match σ !! k with
  | Some (File c m) => <[k := File (c +:+ data) m]> σ
  | _ => σ
  end.

(** [fchmod(2)]. *)
Definition chmod σ k (mode : Z) : fs :=
  match σ !! k with
  | Some (File c _) => <[k := File c mode]> σ
  | Some (Directory _) => <[k := Directory mode]> σ
  | None => σ
  end.

(** [ioutil.WriteFile]: create or truncate, then write. *)
Definition write_file σ k (data : string) (perm : Z) : fs * option errno :=
  match create σ k perm with
  | (σ', None) => (append_file σ' k data, None)
  | (σ', Some e) => (σ', Some e)
  end.

(** [ioutil.ReadFile]: the open succeeds on a directory and the read
    fails. *)
Definition read_file σ k : (string * errno) + string :=
  match σ !! k with
  | Some (File c _) => inr c
  | Some (Directory _) => inl ("read", EISDIR)
  | None => inl ("open", missing σ k)
  end.

End operations.

(** ** The tree shape *)

Definition fs_wf (σ : fs) : Prop :=
  is_dir σ [] = true ∧
  ∀ k n, σ !! k = Some n → is_dir σ (removelast k) = true.

(** The file system with nothing but its root. *)
Definition fs_root : fs := {[ [] := Directory mode_0755 ]}.

Section wf.
Implicit Types (σ : fs) (k : path).

Lemma fs_root_wf : fs_wf fs_root.
Proof.
  split; [done|]. intros k n. unfold fs_root.
  rewrite lookup_singleton_Some. by intros [<- _].
Qed.

Lemma is_dir_Some σ k : is_dir σ k = true ↔ ∃ m, σ !! k = Some (Directory m).
Proof.
  unfold is_dir. destruct (σ !! k) as [[]|]; (split; [|intros [? ?]]); eauto; done.
Qed.

Lemma is_file_Some σ k : is_file σ k = true ↔ ∃ c m, σ !! k = Some (File c m).
Proof.
  unfold is_file.
  destruct (σ !! k) as [[]|]; (split; [|intros (? & ? & ?)]); eauto; done.
Qed.

Lemma is_dir_insert_ne σ k k' n : k ≠ k' → is_dir (<[k := n]> σ) k' = is_dir σ k'.
Proof. intros Hne. unfold is_dir. by rewrite lookup_insert_ne. Qed.

Lemma is_dir_insert σ k k' n :
  is_dir σ k' = true → (k = k' → ∃ m, n = Directory m) →
  is_dir (<[k := n]> σ) k' = true.
Proof.
  intros Hd Hk. unfold is_dir in *. destruct (decide (k = k')) as [->|Hne].
  - rewrite lookup_insert_eq. by destruct (Hk eq_refl) as [m ->].
  - by rewrite lookup_insert_ne.
Qed.

(** Adding a node under a directory, or replacing a node by one of its
    kind, keeps the shape. *)
Lemma fs_wf_insert σ k n :
  fs_wf σ → is_dir σ (removelast k) = true →
  (∀ m, σ !! k = Some (Directory m) → ∃ m', n = Directory m') →
  fs_wf (<[k := n]> σ).
Proof.
  intros [Hroot Hwf] Hp Hkind. split.
  - apply is_dir_insert; [done|]. intros ->.
    apply is_dir_Some in Hroot as [m Hm]. eauto.
  - intros k' n' Hk'. apply is_dir_insert.
    + destruct (decide (k = k')) as [->|Hne]; [done|].
      rewrite lookup_insert_ne in Hk' by done. eauto.
    + intros Hk. destruct (decide (k = k')) as [->|Hne].
      * rewrite <-Hk in Hp. apply is_dir_Some in Hp as [m Hm]. eauto.
      * rewrite lookup_insert_ne in Hk' by done.
        assert (is_dir σ k = true) as Hd by (rewrite Hk; eauto).
        apply is_dir_Some in Hd as [m Hm]. eauto.
Qed.

Lemma fs_wf_replace_file σ k c m c' m' :
  fs_wf σ → σ !! k = Some (File c m) → fs_wf (<[k := File c' m']> σ).
Proof.
  intros Hwf Hk. apply fs_wf_insert; [done|by eapply Hwf|].
  intros ?. by rewrite Hk.
Qed.

Lemma create_wf σ k perm : fs_wf σ → fs_wf (create σ k perm).1.
Proof.
  intros Hwf. unfold create.
  destruct (σ !! k) as [[c m|m]|] eqn:E; simpl; [|done|].
  - by eapply fs_wf_replace_file.
  - destruct (is_dir σ (removelast k)) eqn:Hd; [|done]. simpl.
    apply fs_wf_insert; [done..|]. intros ?. by rewrite E.
Qed.

Lemma append_file_wf σ k data : fs_wf σ → fs_wf (append_file σ k data).
Proof.
  intros Hwf. unfold append_file.
  destruct (σ !! k) as [[c m|m]|] eqn:E; [|done..].
  by eapply fs_wf_replace_file.
Qed.

Lemma chmod_wf σ k mode : fs_wf σ → fs_wf (chmod σ k mode).
Proof.
  intros Hwf. unfold chmod.
  destruct (σ !! k) as [[c m|m]|] eqn:E; [| |done].
  - by eapply fs_wf_replace_file.
  - apply fs_wf_insert; [done|by eapply Hwf|eauto].
Qed.

Lemma write_file_wf σ k data perm : fs_wf σ → fs_wf (write_file σ k data perm).1.
Proof.
  intros Hwf. unfold write_file.
  pose proof (create_wf σ k perm Hwf) as Hc.
  destruct (create σ k perm) as [σ' [e|]]; [done|].
  by apply append_file_wf.
Qed.

Lemma mkdir_step_wf perm σ oe a :
  fs_wf σ → (a ≠ [] → oe = None → is_dir σ (removelast a) = true) →
  fs_wf (mkdir_step perm (σ, oe) a).1.
Proof.
  intros Hwf Hp. unfold mkdir_step. destruct oe as [e|]; [done|].
  destruct (σ !! a) as [[c m|m]|] eqn:E; simpl; [done..|].
  destruct (decide (a = [])) as [->|Hne].
  { destruct Hwf as [Hroot _]. apply is_dir_Some in Hroot as [m Hm].
    congruence. }
  apply fs_wf_insert; [done|by apply Hp|]. intros ?. by rewrite E.
Qed.

(** In a tree every key above a node is a directory. *)
Lemma fs_wf_above σ k j :
  fs_wf σ → is_Some (σ !! k) → j < length k → is_dir σ (take j k) = true.
Proof.
  intros Hwf. remember (length k - j) as d eqn:Hd.
  revert k j Hd. induction d as [|d IH]; intros k j Hd Hk Hj; [lia|].
  destruct (decide (S j = length k)) as [E|Hne].
  - destruct Hk as [n Hn]. apply Hwf in Hn.
    by rewrite <-removelast_firstn, E, firstn_all.
  - assert (is_dir σ (take (S j) k) = true) as Hs by (apply IH; [lia|done|lia]).
    apply is_dir_Some in Hs as [m Hm]. apply Hwf in Hm.
    by rewrite removelast_firstn in Hm.
Qed.

Lemma foldl_mkdir_step_dirs perm σ (l : list path) :
  Forall (λ a, is_dir σ a = true) l →
  foldl (mkdir_step perm) (σ, None) l = (σ, None).
Proof.
  induction 1 as [|a l Ha _ IH]; [done|]. simpl.
  apply is_dir_Some in Ha as [m Hm]. by rewrite Hm.
Qed.

(** [MkdirAll] of a directory that is there changes nothing. *)
Lemma mkdir_all_dir σ k perm :
  fs_wf σ → is_dir σ k = true → mkdir_all σ k perm = (σ, None).
Proof.
  intros Hwf Hd. apply foldl_mkdir_step_dirs. unfold down_to.
  apply Forall_fmap, Forall_forall. intros j Hj.
  apply elem_of_seq in Hj. simpl.
  destruct (decide (j = length k)) as [->|Hne].
  - by rewrite firstn_all.
  - apply fs_wf_above; [done| |lia]. apply is_dir_Some in Hd as [m Hm]. eauto.
Qed.

(** After a level of [MkdirAll] without error the level is a directory. *)
Lemma mkdir_step_dir perm σ a σ' :
  mkdir_step perm (σ, None) a = (σ', None) → is_dir σ' a = true.
Proof.
  unfold mkdir_step. destruct (σ !! a) as [[c m|m]|] eqn:E; intros [=]; subst.
  - unfold is_dir. by rewrite E.
  - unfold is_dir. by rewrite lookup_insert_eq.
Qed.

Lemma mkdir_step_error perm σ e a : mkdir_step perm (σ, Some e) a = (σ, Some e).
Proof. done. Qed.

(** The levels of [MkdirAll] from level [j] on: each finds its parent a
    directory, made by the level before it. *)
Lemma foldl_mkdir_step_wf perm k n : ∀ j σ oe,
  fs_wf σ → j + n ≤ length k →
  (oe = None → is_dir σ (take j k) = true) →
  fs_wf (foldl (mkdir_step perm) (σ, oe) ((λ i, take i k) <$> seq (S j) n)).1.
Proof.
  induction n as [|n IH]; intros j σ oe Hwf Hj Hd; [done|].
  cbn [seq fmap list_fmap foldl].
  pose proof (mkdir_step_wf perm σ oe (take (S j) k) Hwf) as Hs.
  destruct (mkdir_step perm (σ, oe) (take (S j) k)) as [σ' oe'] eqn:E.
  apply IH; [|lia|].
  - apply Hs. intros _ Ho. rewrite removelast_firstn by lia. auto.
  - intros ->. destruct oe; [by rewrite mkdir_step_error in E|].
    by eapply mkdir_step_dir.
Qed.

Lemma mkdir_all_wf σ k perm : fs_wf σ → fs_wf (mkdir_all σ k perm).1.
Proof.
  intros Hwf. apply foldl_mkdir_step_wf; [done|lia|]. intros _. apply Hwf.
Qed.

End wf.

(** The tree shape as a test that evaluates. *)
Definition fs_wf_b (σ : fs) : bool :=
  is_dir σ [] &&
  bool_decide (map_Forall (λ k _, is_dir σ (removelast k) = true) σ).

Lemma fs_wf_b_true σ : fs_wf_b σ = true → fs_wf σ.
Proof.
  unfold fs_wf_b. intros [Hr Hf%bool_decide_eq_true_1]%andb_prop.
  split; [done|]. intros k n Hk. by apply (Hf k n).
Qed.

(** ** Nothing is removed

    [fs_le σ σ']: every node of [σ] is a node of [σ'] and every directory
    of [σ] a directory of [σ'].  No operation of this file removes a node
    or turns a directory into a file. *)

Definition fs_le (σ σ' : fs) : Prop :=
  ∀ k, (is_Some (σ !! k) → is_Some (σ' !! k)) ∧
       (is_dir σ k = true → is_dir σ' k = true).

#[export] Instance fs_le_preorder : PreOrder fs_le.
Proof.
  split; [by intros σ k|].
  intros σ1 σ2 σ3 H12 H23 k. destruct (H12 k), (H23 k). auto.
Qed.

Section le.
Implicit Types (σ : fs) (k : path).

Lemma fs_le_insert σ k n :
  (∀ m, σ !! k = Some (Directory m) → ∃ m', n = Directory m') →
  fs_le σ (<[k := n]> σ).
Proof.
  intros Hkind k'. split.
  - rewrite lookup_insert_is_Some. destruct (decide (k = k')); auto.
  - intros Hd. apply is_dir_insert; [done|]. intros ->.
    apply is_dir_Some in Hd as [m Hm]. eauto.
Qed.

Lemma fs_le_replace_file σ k c m n : σ !! k = Some (File c m) → fs_le σ (<[k := n]> σ).
Proof. intros Hk. apply fs_le_insert. intros ?. by rewrite Hk. Qed.

Lemma create_le σ k perm : fs_le σ (create σ k perm).1.
Proof.
  unfold create. destruct (σ !! k) as [[c m|m]|] eqn:E; simpl; [|done|].
  - by eapply fs_le_replace_file.
  - destruct (is_dir σ (removelast k)); [|done]. simpl.
    apply fs_le_insert. intros ?. by rewrite E.
Qed.

Lemma append_file_le σ k data : fs_le σ (append_file σ k data).
Proof.
  unfold append_file. destruct (σ !! k) as [[c m|m]|] eqn:E; [|done..].
  by eapply fs_le_replace_file.
Qed.

Lemma chmod_le σ k mode : fs_le σ (chmod σ k mode).
Proof.
  unfold chmod. destruct (σ !! k) as [[c m|m]|] eqn:E; [| |done].
  - by eapply fs_le_replace_file.
  - apply fs_le_insert. eauto.
Qed.

Lemma write_file_le σ k data perm : fs_le σ (write_file σ k data perm).1.
Proof.
  unfold write_file. pose proof (create_le σ k perm) as Hc.
  destruct (create σ k perm) as [σ' [e|]]; [done|]. simpl in *.
  etrans; [done|apply append_file_le].
Qed.

Lemma mkdir_step_le perm σ oe a : fs_le σ (mkdir_step perm (σ, oe) a).1.
Proof.
  unfold mkdir_step. destruct oe; [done|].
  destruct (σ !! a) as [[c m|m]|] eqn:E; simpl; [done..|].
  apply fs_le_insert. intros ?. by rewrite E.
Qed.

Lemma foldl_mkdir_step_le perm (l : list path) : ∀ σ oe,
  fs_le σ (foldl (mkdir_step perm) (σ, oe) l).1.
Proof.
  induction l as [|a l IH]; intros σ oe; [done|]. cbn [foldl].
  pose proof (mkdir_step_le perm σ oe a) as Hs.
  destruct (mkdir_step perm (σ, oe) a) as [σ' oe']. etrans; [done|apply IH].
Qed.

Lemma mkdir_all_le σ k perm : fs_le σ (mkdir_all σ k perm).1.
Proof. apply foldl_mkdir_step_le. Qed.

End le.

(** ** Writing and reading back *)

Section write.
Implicit Types (σ : fs) (k : path).

(** [k] can be opened for writing: it is a file, or it is missing in a
    directory. *)
Definition writable σ k : bool :=
  match σ !! k with
  | Some (File _ _) => true
  | Some (Directory _) => false
  | None => is_dir σ (removelast k)
  end.

(** The mode of the file at [k] after it was opened with [perm]. *)
Definition file_mode σ k (perm : Z) : Z :=
  match σ !! k with Some (File _ m) => m | _ => perm end.

Lemma create_writable σ k perm :
  writable σ k = true →
  create σ k perm = (<[k := File "" (file_mode σ k perm)]> σ, None).
Proof.
  unfold writable, create, file_mode.
  destruct (σ !! k) as [[c m|m]|]; [done..|]. by intros ->.
Qed.

Lemma create_unwritable σ k perm :
  writable σ k = false → ∃ e, create σ k perm = (σ, Some e).
Proof.
  unfold writable, create.
  destruct (σ !! k) as [[c m|m]|]; [done|eauto|]. intros ->. eauto.
Qed.

Lemma write_file_writable σ k data perm :
  writable σ k = true →
  write_file σ k data perm = (<[k := File data (file_mode σ k perm)]> σ, None).
Proof.
  intros Hw. unfold write_file, append_file. rewrite create_writable by done.
  by rewrite lookup_insert_eq, insert_insert_eq, string_app_nil_l.
Qed.

Lemma write_file_unwritable σ k data perm :
  writable σ k = false → ∃ e, write_file σ k data perm = (σ, Some e).
Proof.
  intros Hw. unfold write_file.
  destruct (create_unwritable σ k perm Hw) as [e ->]. eauto.
Qed.

Lemma writable_file σ k c m : σ !! k = Some (File c m) → writable σ k = true.
Proof. unfold writable. by intros ->. Qed.

(** A file written where one can be written keeps the tree shape. *)
Lemma fs_wf_writable σ k c m :
  fs_wf σ → writable σ k = true → fs_wf (<[k := File c m]> σ).
Proof.
  intros Hwf Hw. unfold writable in Hw.
  destruct (σ !! k) as [[c' m'|m']|] eqn:E; [|done|].
  - by eapply fs_wf_replace_file.
  - apply fs_wf_insert; [done..|]. intros ?. by rewrite E.
Qed.

Lemma append_file_insert σ k c m data :
  append_file (<[k := File c m]> σ) k data = <[k := File (c +:+ data) m]> σ.
Proof. unfold append_file. by rewrite lookup_insert_eq, insert_insert_eq. Qed.

(** What was written is read back. *)
Lemma read_file_insert σ k data m : read_file (<[k := File data m]> σ) k = inr data.
Proof. unfold read_file. by rewrite lookup_insert_eq. Qed.

Lemma writable_insert σ k data m : writable (<[k := File data m]> σ) k = true.
Proof. unfold writable. by rewrite lookup_insert_eq. Qed.

(** Another key is not touched. *)
Lemma write_file_other σ k k' data perm :
  k ≠ k' → (write_file σ k data perm).1 !! k' = σ !! k'.
Proof.
  intros Hne. destruct (writable σ k) eqn:Hw.
  - rewrite write_file_writable by done. simpl. by rewrite lookup_insert_ne.
  - by destruct (write_file_unwritable σ k data perm Hw) as [e ->].
Qed.

(** [MkdirAll] changes no node that is there. *)
Lemma foldl_mkdir_step_keeps perm (l : list path) k n : ∀ σ oe,
  σ !! k = Some n → (foldl (mkdir_step perm) (σ, oe) l).1 !! k = Some n.
Proof.
  induction l as [|a l IH]; intros σ oe Hk; [done|]. cbn [foldl].
  destruct (mkdir_step perm (σ, oe) a) as [σ' oe'] eqn:E. apply IH.
  unfold mkdir_step in E. destruct oe; [by simplify_eq|].
  destruct (σ !! a) as [[]|] eqn:Ha; simplify_eq; try done.
  rewrite lookup_insert_ne; [done|]. by intros ->; simplify_eq.
Qed.

Lemma mkdir_all_keeps σ k' perm k n :
  σ !! k = Some n → (mkdir_all σ k' perm).1 !! k = Some n.
Proof. apply foldl_mkdir_step_keeps. Qed.

(** [MkdirAll] touches nothing but the keys on the way. *)
Lemma foldl_mkdir_step_other perm (l : list path) k : ∀ σ oe,
  k ∉ l → (foldl (mkdir_step perm) (σ, oe) l).1 !! k = σ !! k.
Proof.
  induction l as [|a l IH]; intros σ oe Hk; [done|]. cbn [foldl].
  apply not_elem_of_cons in Hk as [Hne Hk].
  destruct (mkdir_step perm (σ, oe) a) as [σ' oe'] eqn:E. rewrite IH by done.
  unfold mkdir_step in E. destruct oe; [by simplify_eq|].
  destruct (σ !! a) as [[]|] eqn:Ha; simplify_eq; try done.
  by rewrite lookup_insert_ne.
Qed.

Lemma down_to_length k a : a ∈ down_to k → length a ≤ length k.
Proof.
  unfold down_to. intros (j & -> & Hj)%list_elem_of_fmap.
  rewrite length_take. lia.
Qed.

Lemma mkdir_all_below σ k perm x :
  (mkdir_all σ k perm).1 !! (k ++ [x]) = σ !! (k ++ [x]).
Proof.
  apply foldl_mkdir_step_other. intros Hin%down_to_length.
  rewrite length_app in Hin. simpl in Hin. lia.
Qed.

Lemma down_to_snoc k x :
  down_to (k ++ [x]) = down_to k ++ [k ++ [x]].
Proof.
  unfold down_to. rewrite length_app, Nat.add_1_r, seq_S, fmap_app. simpl.
  rewrite firstn_all2 by (rewrite length_app; simpl; lia). f_equal.
  apply list_fmap_ext. intros _ j Hj%list_elem_of_lookup_2%elem_of_seq.
  by rewrite take_app_le by lia.
Qed.

(** A [MkdirAll] that succeeds leaves a directory. *)
Lemma mkdir_all_made σ k perm σ' :
  fs_wf σ → mkdir_all σ k perm = (σ', None) → is_dir σ' k = true.
Proof.
  intros [Hroot _]. destruct k as [|x k _] using rev_ind.
  { by intros [= <-]. }
  unfold mkdir_all. rewrite down_to_snoc, foldl_app. cbn [foldl].
  destruct (foldl (mkdir_step perm) (σ, None) (down_to k)) as [σ1 [e|]];
    [done|apply mkdir_step_dir].
Qed.

(** Nothing stands in the way of an entry of a directory. *)
Lemma missing_in_dir σ k x :
  fs_wf σ → is_dir σ k = true → missing σ (k ++ [x]) = ENOENT.
Proof.
  intros Hwf Hd. unfold missing.
  destruct (existsb _ _) eqn:E; [|done]. exfalso.
  apply existsb_exists in E as (a & Ha%list_elem_of_In & Hf).
  apply list_elem_of_fmap in Ha as (j & -> & Hj%elem_of_seq).
  rewrite length_app in Hj. simpl in Hj.
  assert (is_dir σ (take j (k ++ [x])) = true) as Ha.
  { destruct (decide (j = length k)) as [->|].
    - by rewrite take_app_length.
    - rewrite take_app_le by lia. apply fs_wf_above; [done| |lia].
      apply is_dir_Some in Hd as [m Hm]. eauto. }
  unfold is_dir, is_file in *. by destruct (σ !! take j (k ++ [x])) as [[]|].
Qed.

(** Writing the same data again changes nothing. *)
Lemma write_file_again σ k data perm :
  (write_file (write_file σ k data perm).1 k data perm).1
  = (write_file σ k data perm).1.
Proof.
  destruct (writable σ k) eqn:Hw.
  - rewrite (write_file_writable σ) by done. simpl.
    rewrite write_file_writable by apply writable_insert. simpl.
    unfold file_mode at 1. by rewrite lookup_insert_eq, insert_insert_eq.
  - destruct (write_file_unwritable σ k data perm Hw) as [e He].
    by rewrite He; simpl; rewrite He.
Qed.

End write.

(** ** Changes below a directory *)

Section below.
Implicit Types (σ : fs) (k ku : path).

(** [σ'] differs from [σ] below [ku] only. *)
Definition only_below ku σ σ' : Prop :=
  ∀ k, ¬ ku `prefix_of` k → σ' !! k = σ !! k.

#[export] Instance only_below_preorder ku : PreOrder (only_below ku).
Proof.
  split; [by intros σ k|]. intros σ1 σ2 σ3 H1 H2 k Hk. by rewrite H2, H1.
Qed.

Lemma only_below_insert ku σ k n :
  ku `prefix_of` k → only_below ku σ (<[k := n]> σ).
Proof. intros Hk k' Hk'. rewrite lookup_insert_ne; [done|]. by intros ->. Qed.

Lemma create_only_below ku σ k perm :
  ku `prefix_of` k → only_below ku σ (create σ k perm).1.
Proof.
  intros Hk. unfold create.
  repeat case_match; simpl; (done || by apply only_below_insert).
Qed.

Lemma append_file_only_below ku σ k data :
  ku `prefix_of` k → only_below ku σ (append_file σ k data).
Proof.
  intros Hk. unfold append_file.
  repeat case_match; (done || by apply only_below_insert).
Qed.

Lemma chmod_only_below ku σ k mode :
  ku `prefix_of` k → only_below ku σ (chmod σ k mode).
Proof.
  intros Hk. unfold chmod.
  repeat case_match; (done || by apply only_below_insert).
Qed.

Lemma write_file_only_below ku σ k data perm :
  ku `prefix_of` k → only_below ku σ (write_file σ k data perm).1.
Proof.
  intros Hk. unfold write_file.
  pose proof (create_only_below ku σ k perm Hk) as Hc.
  destruct (create σ k perm) as [σ' [e|]]; [done|]. simpl in *.
  etrans; [done|]. by apply append_file_only_below.
Qed.

(** [MkdirAll] below a directory that is there makes directories below
    it only: the levels above are there already. *)
Lemma mkdir_all_only_below ku σ k perm :
  fs_wf σ → is_dir σ ku = true → ku `prefix_of` k →
  only_below ku σ (mkdir_all σ k perm).1.
Proof.
  intros Hwf Hd [r ->] k' Hk'. destruct (σ !! k') as [n|] eqn:E.
  { by apply mkdir_all_keeps. }
  rewrite <-E. apply foldl_mkdir_step_other.
  intros (j & -> & Hj%elem_of_seq)%list_elem_of_fmap.
  destruct (decide (length ku ≤ j)) as [Hle|Hlt].
  - apply Hk'. exists (take (j - length ku) r). by rewrite take_app_ge.
  - rewrite take_app_le in E by lia.
    assert (is_dir σ (take j ku) = true) as Hj'.
    { apply fs_wf_above; [done| |lia]. apply is_dir_Some in Hd as [m Hm]. eauto. }
    apply is_dir_Some in Hj' as [m Hm]. congruence.
Qed.

End below.

#[export] Hint Resolve create_wf append_file_wf chmod_wf write_file_wf
  mkdir_all_wf create_le append_file_le chmod_le write_file_le mkdir_all_le : go.
