(* ===== verification/Machine.v ===== *)
(** * The state of a run and the interfaces to the outside

    [state] is what a run of the program can change: the [TBDownloader]
    the methods are called on (a pointer receiver in the source, so its
    fields are state), the package variables, the file system, what was
    logged and printed, the calls made to the outside, the seconds
    slept, and the addresses on which the process holds a listener that
    it opened and never closed.  What the outside answers is not state
    of the program: it is given by the classes [Runtime], [Network],
    [OpenPGP], [Shell] and [Archive], which the components take as
    [Context] and the witnesses instantiate.

    [write_open] and [file_Chmod] name the file by its path where the
    source goes through the descriptor that [os.Create] returned: the
    source does both at once after the creation and nothing renames the
    file in between, so the path names the file of the descriptor.

    The second half lifts the file system of [FileSys] to computations
    on [state] that take paths as the source writes them. *)

From stdpp Require Import base tactics option list strings gmap.
From Stdlib Require Import ZArith Ascii.
From S2P Require Import Prelude GoStrings GoPath FileSys.

(** ** Data *)

(** [type TBDownloader struct]. [Profile] is a [*embed.FS]: [None] is the
    nil pointer, [Some m] the embedded files by name. *)
Record TBDownloader : Type := mkTBDownloader {
  UnpackPath : string;
  DownloadPath : string;
  Lang : string;
  OS : string;
  ARCH : string;
  Verbose : bool;
  Profile : option (gmap string string);
}.

#[export] Instance TBDownloader_eq_dec : EqDecision TBDownloader.
Proof. solve_decision. Defined.

(** The package variables [WORKING_DIR], [OS] and [ARCH]. *)
Record package_vars : Type := mkVars {
  WORKING_DIR : string;
  var_OS : string;
  var_ARCH : string;
}.

#[export] Instance package_vars_eq_dec : EqDecision package_vars.
Proof. solve_decision. Defined.

(** The initial values of the package variables. *)
Definition initial_vars : package_vars :=
  {| WORKING_DIR := ""; var_OS := "linux"; var_ARCH := "64" |}.

(** A call to the outside that a run makes. *)
Inductive event : Type :=
| EvHttpGet (url : string)
| EvProxyGet (proxy url : string)
| EvListen (addr : string)
| EvExec (argv : list string)
| EvSleep
| EvI2PListener (id addr : string)
| EvClose (id : string).

#[export] Instance event_eq_dec : EqDecision event.
Proof. solve_decision. Defined.

Record state : Type := mkState {
  tbd : TBDownloader;
  vars : package_vars;
  files : fs;
  logged : list string;
  printed : list string;
  events : list event;
  clock : nat;
  listeners : list string;
}.

#[export] Instance state_eq_dec : EqDecision state.
Proof. solve_decision. Defined.

Definition set_tbd (f : TBDownloader → TBDownloader) (s : state) : state :=
  mkState (f (tbd s)) (vars s) (files s) (logged s) (printed s) (events s) (clock s)
    (listeners s).
Definition set_vars (f : package_vars → package_vars) (s : state) : state :=
  mkState (tbd s) (f (vars s)) (files s) (logged s) (printed s) (events s) (clock s)
    (listeners s).
Definition set_files (f : fs → fs) (s : state) : state :=
  mkState (tbd s) (vars s) (f (files s)) (logged s) (printed s) (events s) (clock s)
    (listeners s).
Definition set_logged (f : list string → list string) (s : state) : state :=
  mkState (tbd s) (vars s) (files s) (f (logged s)) (printed s) (events s) (clock s)
    (listeners s).
Definition set_printed (f : list string → list string) (s : state) : state :=
  mkState (tbd s) (vars s) (files s) (logged s) (f (printed s)) (events s) (clock s)
    (listeners s).
Definition set_events (f : list event → list event) (s : state) : state :=
  mkState (tbd s) (vars s) (files s) (logged s) (printed s) (f (events s)) (clock s)
    (listeners s).
Definition set_clock (f : nat → nat) (s : state) : state :=
  mkState (tbd s) (vars s) (files s) (logged s) (printed s) (events s) (f (clock s))
    (listeners s).
Definition set_listeners (f : list string → list string) (s : state) : state :=
  mkState (tbd s) (vars s) (files s) (logged s) (printed s) (events s) (clock s)
    (f (listeners s)).

Definition set_OS (v : string) (t : TBDownloader) : TBDownloader :=
  mkTBDownloader (UnpackPath t) (DownloadPath t) (Lang t) v (ARCH t)
    (Verbose t) (Profile t).
Definition set_ARCH (v : string) (t : TBDownloader) : TBDownloader :=
  mkTBDownloader (UnpackPath t) (DownloadPath t) (Lang t) (OS t) v
    (Verbose t) (Profile t).

(** The computations of the model. *)
Abbreviation Go := (M state).

(** ** Interfaces to the outside *)

(** The process: [runtime.GOOS], [runtime.GOARCH], [os.Getwd] ([None]
    when it fails) and the language [jibber_jabber.DetectIETF] finds
    (empty when it fails). *)
Class Runtime : Type := {
  GOOS : string;
  GOARCH : string;
  Getwd : option string;
  DetectIETF : string;
}.

(** The answer to an HTTP request: the bytes of the body that arrive and
    the error that ends the reading, if any. *)
Record response : Type := mkResponse {
  body : string;
  read_error : error;
}.

(** The network: [http.Get], a request through a proxy at a time,
    [net.Listen] at a time, and [url.Parse].

    [http_Get] is a function of the address: within one instance an
    address answers alike each time it is asked; the theorems that
    compare the answers of two times take two instances.

    [net_Listen] is the answer for an address on which the process
    holds no listener.  A listener that the program drops without
    closing it stays open until the finalizer that package [net] sets
    on it has run; [net_finalized] tells whether, at a time, the
    finalizers of the listeners dropped so far have run. *)
Class Network : Type := {
  http_Get : string → string + response;
  proxy_Get : nat → string → string → string + response;
  net_Listen : nat → string → error;
  net_finalized : nat → bool;
  url_Parse : string → error;
}.

(** The OpenPGP library: [pgp.GetEntity] reads a key, [pgp.Verify] takes
    the key and two byte strings in the order of its parameters and
    returns [nil] when the check passes. *)
Class OpenPGP : Type := {
  pgp_GetEntity : string → error;
  pgp_Verify : string → string → string → error;
}.

(** A child process: [exec.Cmd.Run] on an argument vector changes the
    files and returns its error. *)
Class Shell : Type := {
  exec_Run : list string → fs → fs * error;
}.

(** An entry of a tar stream. *)
Record tar_entry : Type := mkEntry {
  Typeflag : ascii;
  Name : string;
  Mode : Z;
  content : string;
}.

(** What [xz.NewReader] and [tar.Reader.Next] make of a file: the error
    of the xz header, the entries read, and the error that ends the
    stream ([None] for [io.EOF]). *)
Record archive : Type := mkArchive {
  xz_error : error;
  entries : list tar_entry;
  tar_error : error;
}.

Class Archive : Type := {
  decode : string → archive;
}.

(** ** Effects on the state *)

Section effects.
Context `{Runtime}.

(** The key of the working directory ([[]], the root, when [os.Getwd]
    fails). *)
Definition cwd : path :=
  match Getwd with
  | Some d => clean_components true (components d)
  | None => []
  end.

Definition key (p : string) : option path := path_key cwd p.

(** [log.Println]. *)
Definition log_Println (line : string) : Go unit :=
  modify (set_logged (λ l, l ++ [line])).

(** [fmt.Printf]. *)
Definition fmt_Printf (text : string) : Go unit :=
  modify (set_printed (λ l, l ++ [text])).

(** [log.Fatal]: the line is logged and the process exits. *)
Definition log_Fatal {A} (msg : string) : Go A :=
  log_Println msg ;; fatal msg.

(** [log.Panic]. *)
Definition log_Panic {A} (msg : string) : Go A :=
  log_Println msg ;; panic msg.

Definition emit (e : event) : Go unit :=
  modify (set_events (λ l, l ++ [e])).

(** [time.Sleep(time.Second)]. *)
Definition Sleep_second : Go unit :=
  emit EvSleep ;; modify (set_clock S).

(** [os.Stat], as the error it returns. *)
Definition os_Stat (p : string) : Go (option errno) :=
  σ ← gets files;
  mret match key p with
       | None => Some ENOENT
       | Some k => match stat σ k with inl e => Some e | inr _ => None end
       end.

(** [func FileExists(path string) bool]: true unless the error of
    [os.Stat] says the file does not exist. *)
Definition FileExists (p : string) : Go bool :=
  err ← os_Stat p;
  mret (negb (IsNotExist err)).

(** A file system call on the key of [p]. *)
Definition on_key (op : string) (p : string)
    (f : fs → path → fs * option errno) : Go error :=
  σ ← gets files;
  match key p with
  | None => mret (Some (PathError op p ENOENT))
  | Some k =>
      let '(σ', e) := f σ k in
      modify (set_files (λ _, σ')) ;;
      mret (PathError op p <$> e)
  end.

(** [os.MkdirAll]. *)
Definition os_MkdirAll (p : string) (perm : Z) : Go error :=
  on_key "mkdir" p (λ σ k, mkdir_all σ k perm).

(** [ioutil.WriteFile]. *)
Definition ioutil_WriteFile (p data : string) (perm : Z) : Go error :=
  on_key "open" p (λ σ k, write_file σ k data perm).

(** [ioutil.ReadFile]. *)
Definition ioutil_ReadFile (p : string) : Go (string * error) :=
  σ ← gets files;
  mret match key p with
       | None => ("", Some (PathError "open" p ENOENT))
       | Some k =>
           match read_file σ k with
           | inr c => (c, None)
           | inl (op, e) => ("", Some (PathError op p e))
           end
       end.

(** [os.Create]: the open file is named by its path. *)
Definition os_Create (p : string) : Go error :=
  on_key "open" p (λ σ k, create σ k mode_0666).

(** [io.Copy] of [data] to the file opened at [p]; the source drops its
    error. *)
Definition write_open (p data : string) : Go unit :=
  match key p with
  | None => mret tt
  | Some k => modify (set_files (λ σ, append_file σ k data))
  end.

(** [Chmod] of an open file; the source drops its error. *)
Definition file_Chmod (p : string) (mode : Z) : Go unit :=
  match key p with
  | None => mret tt
  | Some k => modify (set_files (λ σ, chmod σ k mode))
  end.

End effects.

(** ** What the effects leave unchanged *)

(** The parts of the state other than the files. *)
Definition same_but_files (s s' : state) : Prop :=
  tbd s' = tbd s ∧ vars s' = vars s ∧ logged s' = logged s ∧
  printed s' = printed s ∧ events s' = events s ∧ clock s' = clock s.

#[export] Instance same_but_files_refl : Reflexive same_but_files.
Proof. by intros s. Qed.

#[export] Instance same_but_files_trans : Transitive same_but_files.
Proof.
  intros s1 s2 s3 (?&?&?&?&?&?) (?&?&?&?&?&?).
  unfold same_but_files. by repeat split; etrans.
Qed.

(** ** Keys of joined paths *)

Section keys.
Context `{Runtime}.
Implicit Types (d p n : string) (k kd : path).

Lemma key_Some p : p ≠ "" → is_Some (key p).
Proof. intros Hp. unfold key, path_key. by rewrite decide_False. Qed.

Lemma key_names p k : key p = Some k → Forall is_name k.
Proof. apply path_key_names. Qed.

(** [filepath.Join(d, p)] names what the components of [p] name from
    the directory [d]. *)
Lemma key_Join d p kd :
  key d = Some kd →
  key (Join [d; p]) = Some (foldl (clean_step true) kd (components p)).
Proof. apply path_key_Join. Qed.

(** A name joined to a directory is an entry of that directory. *)
Lemma key_Join_name d n kd :
  key d = Some kd → is_name n → slash_free n →
  key (Join [d; n]) = Some (kd ++ [n]).
Proof. apply path_key_Join_name. Qed.

(** A name joined to anything keeps its name. *)
Lemma key_Join_last d n k :
  is_name n → slash_free n → key (Join [d; n]) = Some k → last k = Some n.
Proof.
  intros Hn Hs. destruct (decide (d = "")) as [->|Hd].
  - unfold key. rewrite path_key_Join_empty. unfold path_key.
    rewrite decide_False by apply Hn. intros [= <-].
    rewrite components_single by done. unfold clean_components.
    by rewrite foldl_app, (foldl_clean_names true _ [n]), last_snoc
      by (by constructor).
  - destruct (key_Some d Hd) as [kd Hkd].
    rewrite (key_Join_name d n kd) by done. intros [= <-]. apply last_snoc.
Qed.

(** Two different names joined to directories are different files. *)
Lemma key_Join_ne d d' n n' k :
  is_name n → slash_free n → is_name n' → slash_free n' → n ≠ n' →
  key (Join [d; n]) = Some k → key (Join [d'; n']) ≠ Some k.
Proof.
  intros Hn Hs Hn' Hs' Hne Hk Hk'.
  apply key_Join_last in Hk, Hk'; try done. congruence.
Qed.

(** A path without [".."] joined to a directory stays below it. *)
Lemma key_Join_below d p kd :
  key d = Some kd → Contains p ".." = false →
  ∃ k, key (Join [d; p]) = Some k ∧ kd `prefix_of` k.
Proof. apply path_key_Join_below. Qed.

End keys.

Section effects_lemmas.
Context `{Runtime}.
Implicit Types (s : state) (p : string).

Lemma FileExists_run p s :
  FileExists p s =
  (Ret (match key p with
        | None => false
        | Some k => match files s !! k with
                    | Some _ => true
                    | None => bool_decide (missing (files s) k ≠ ENOENT)
                    end
        end), s).
Proof.
  unfold FileExists, os_Stat, stat. go_run.
  destruct (key p) as [k|]; [|done].
  destruct (files s !! k); [done|]. unfold IsNotExist.
  repeat f_equal. by destruct (missing (files s) k).
Qed.

(** [FileExists] changes nothing. *)
Lemma FileExists_state p s : (FileExists p s).2 = s.
Proof. by rewrite FileExists_run. Qed.

(** A file that is there exists. *)
Lemma FileExists_Some p s k n :
  key p = Some k → files s !! k = Some n → FileExists p s = (Ret true, s).
Proof. intros Hk Hn. by rewrite FileExists_run, Hk, Hn. Qed.

Lemma on_key_wf op p f s :
  fs_wf (files s) → (∀ σ k, fs_wf σ → fs_wf (f σ k).1) →
  fs_wf (files (on_key op p f s).2).
Proof.
  intros Hwf Hf. unfold on_key. go_run.
  destruct (key p) as [k|]; [|done].
  specialize (Hf (files s) k Hwf). by destruct (f (files s) k).
Qed.

Lemma on_key_same op p f s : same_but_files s (on_key op p f s).2.
Proof.
  unfold on_key. go_run. destruct (key p) as [k|]; [|done].
  by destruct (f (files s) k).
Qed.

Lemma on_key_Ret op p f s : is_Ret (on_key op p f s).1 = true.
Proof.
  unfold on_key. go_run. destruct (key p) as [k|]; [|done].
  by destruct (f (files s) k).
Qed.

Lemma set_files_id s : set_files (λ _, files s) s = s.
Proof. by destruct s. Qed.

Lemma set_files_set_files f g s :
  set_files f (set_files g s) = set_files (f ∘ g) s.
Proof. done. Qed.

Lemma set_files_ext f g s :
  f (files s) = g (files s) → set_files f s = set_files g s.
Proof. unfold set_files. by intros ->. Qed.

(** [MkdirAll] of a directory that is there returns [nil] and changes
    nothing. *)
Lemma os_MkdirAll_dir p perm s k :
  fs_wf (files s) → key p = Some k → is_dir (files s) k = true →
  os_MkdirAll p perm s = (Ret None, s).
Proof.
  intros Hwf Hk Hd. unfold os_MkdirAll, on_key. go_run.
  by rewrite Hk, mkdir_all_dir, set_files_id.
Qed.

Lemma os_MkdirAll_run p perm s k :
  key p = Some k →
  os_MkdirAll p perm s
  = (Ret (PathError "mkdir" p <$> (mkdir_all (files s) k perm).2),
     set_files (λ _, (mkdir_all (files s) k perm).1) s).
Proof.
  intros Hk. unfold os_MkdirAll, on_key. go_run. rewrite Hk.
  by destruct (mkdir_all (files s) k perm).
Qed.

Lemma os_MkdirAll_files p perm s :
  files (os_MkdirAll p perm s).2
  = match key p with
    | Some k => (mkdir_all (files s) k perm).1
    | None => files s
    end.
Proof.
  unfold os_MkdirAll, on_key. go_run. destruct (key p) as [k|]; [|done].
  by destruct (mkdir_all (files s) k perm).
Qed.

Lemma ioutil_ReadFile_run p s k c m :
  key p = Some k → files s !! k = Some (File c m) →
  ioutil_ReadFile p s = (Ret (c, None), s).
Proof.
  intros Hk Hc. unfold ioutil_ReadFile, read_file. go_run.
  by rewrite Hk, Hc.
Qed.

Lemma ioutil_ReadFile_missing p s k :
  key p = Some k → files s !! k = None →
  ioutil_ReadFile p s
  = (Ret ("", Some (PathError "open" p (missing (files s) k))), s).
Proof.
  intros Hk Hc. unfold ioutil_ReadFile, read_file. go_run.
  by rewrite Hk, Hc.
Qed.

Lemma ioutil_ReadFile_state p s : (ioutil_ReadFile p s).2 = s.
Proof. done. Qed.

Lemma ioutil_WriteFile_run p data perm s k :
  key p = Some k →
  ioutil_WriteFile p data perm s
  = (Ret (PathError "open" p <$> (write_file (files s) k data perm).2),
     set_files (λ _, (write_file (files s) k data perm).1) s).
Proof.
  intros Hk. unfold ioutil_WriteFile, on_key. go_run. rewrite Hk.
  by destruct (write_file (files s) k data perm).
Qed.

Lemma os_Create_run p s k :
  key p = Some k →
  os_Create p s
  = (Ret (PathError "open" p <$> (create (files s) k mode_0666).2),
     set_files (λ _, (create (files s) k mode_0666).1) s).
Proof.
  intros Hk. unfold os_Create, on_key. go_run. rewrite Hk.
  by destruct (create (files s) k mode_0666).
Qed.

Lemma write_open_run p data s k :
  key p = Some k →
  write_open p data s = (Ret tt, set_files (λ σ, append_file σ k data) s).
Proof. intros Hk. unfold write_open. by rewrite Hk. Qed.

End effects_lemmas.

(** ** What every stage keeps

    [persists s s']: from [s] to [s'] no node of the file system was
    removed and no directory replaced, the tree shape was kept, the
    directories, language and embedded files of the receiver are as they
    were, and the logs, the output and the record of calls only grew. *)

Definition persists (s s' : state) : Prop :=
  fs_le (files s) (files s') ∧ (fs_wf (files s) → fs_wf (files s')) ∧
  (DownloadPath (tbd s') = DownloadPath (tbd s) ∧
   UnpackPath (tbd s') = UnpackPath (tbd s) ∧ Lang (tbd s') = Lang (tbd s) ∧
   Verbose (tbd s') = Verbose (tbd s) ∧ Profile (tbd s') = Profile (tbd s)) ∧
  vars s' = vars s ∧
  logged s `prefix_of` logged s' ∧ printed s `prefix_of` printed s' ∧
  events s `prefix_of` events s' ∧ clock s ≤ clock s'.

#[export] Instance persists_preorder : PreOrder persists.
Proof.
  split; [by intros s|].
  intros s1 s2 s3 (?&?&(?&?&?&?&?)&?&?&?&?&?) (?&?&(?&?&?&?&?)&?&?&?&?&?).
  unfold persists. split_and!; try congruence; try (etrans; done); tauto || lia.
Qed.

Section persists.
Context `{Runtime}.
Implicit Types (s : state) (p : string).

(** A change of the files alone that removes nothing. *)
Lemma persists_set_files f s :
  fs_le (files s) (f (files s)) → (fs_wf (files s) → fs_wf (f (files s))) →
  persists s (set_files f s).
Proof. intros Hle Hwf. by split_and!. Qed.

Lemma log_Println_persists line : respects persists (log_Println line).
Proof. intros s. split_and!; try done. by apply prefix_app_r. Qed.

Lemma fmt_Printf_persists text : respects persists (fmt_Printf text).
Proof. intros s. split_and!; try done. by apply prefix_app_r. Qed.

Lemma emit_persists e : respects persists (emit e).
Proof. intros s. split_and!; try done. by apply prefix_app_r. Qed.

Lemma clock_persists : respects persists (modify (set_clock S)).
Proof. intros s. split_and!; try done. simpl. lia. Qed.

Lemma on_key_persists op p f :
  (∀ σ k, fs_le σ (f σ k).1) → (∀ σ k, fs_wf σ → fs_wf (f σ k).1) →
  respects persists (on_key op p f).
Proof.
  intros Hle Hwf s. unfold on_key. go_run. destruct (key p) as [k|]; [|done].
  specialize (Hle (files s) k). specialize (Hwf (files s) k).
  destruct (f (files s) k) as [σ' e]. by apply (persists_set_files (λ _, σ')).
Qed.

Lemma write_open_persists p data : respects persists (write_open p data).
Proof.
  intros s. unfold write_open. destruct (key p) as [k|]; [|done].
  apply persists_set_files; auto with go.
Qed.

Lemma file_Chmod_persists p mode : respects persists (file_Chmod p mode).
Proof.
  intros s. unfold file_Chmod. destruct (key p) as [k|]; [|done].
  apply persists_set_files; auto with go.
Qed.

Lemma os_MkdirAll_persists p perm : respects persists (os_MkdirAll p perm).
Proof. apply on_key_persists; auto with go. Qed.

Lemma ioutil_WriteFile_persists p data perm :
  respects persists (ioutil_WriteFile p data perm).
Proof. apply on_key_persists; auto with go. Qed.

Lemma os_Create_persists p : respects persists (os_Create p).
Proof. apply on_key_persists; auto with go. Qed.

Lemma ioutil_ReadFile_persists p : respects persists (ioutil_ReadFile p).
Proof. by intros s. Qed.

Lemma FileExists_persists p : respects persists (FileExists p).
Proof. intros s. by rewrite FileExists_state. Qed.

Lemma log_Fatal_persists {A} msg : respects persists (@log_Fatal A msg).
Proof. intros s. apply (log_Println_persists msg s). Qed.

Lemma log_Panic_persists {A} msg : respects persists (@log_Panic A msg).
Proof. intros s. apply (log_Println_persists msg s). Qed.

Lemma Sleep_second_persists : respects persists Sleep_second.
Proof.
  intros s. etrans; [apply (emit_persists EvSleep s)|apply clock_persists].
Qed.

End persists.

#[export] Hint Resolve log_Println_persists fmt_Printf_persists emit_persists
  write_open_persists file_Chmod_persists os_MkdirAll_persists
  ioutil_WriteFile_persists os_Create_persists ioutil_ReadFile_persists
  FileExists_persists log_Fatal_persists log_Panic_persists
  Sleep_second_persists : go.

(** ** Writing below a directory only

    [confined ku s s']: if [ku] is a directory of the well-formed file
    system of [s], then [s'] differs from [s] below [ku] only, and [ku]
    is still a directory of a well-formed file system. *)

Section confined.
Context `{Runtime} (ku : path).
Implicit Types (s : state) (p : string) (k : path).

Definition confined (s s' : state) : Prop :=
  fs_wf (files s) → is_dir (files s) ku = true →
  only_below ku (files s) (files s') ∧
  fs_wf (files s') ∧ is_dir (files s') ku = true.

#[export] Instance confined_preorder : PreOrder confined.
Proof.
  split; [by intros s ??|]. intros s1 s2 s3 H1 H2 Hwf Hd.
  destruct (H1 Hwf Hd) as (Hb1 & Hwf2 & Hd2).
  destruct (H2 Hwf2 Hd2) as (Hb2 & Hwf3 & Hd3). split_and!; [by etrans|done..].
Qed.

(** A computation that removes nothing is confined when its changes
    are. *)
Lemma confined_intro {A} (m : Go A) :
  respects persists m →
  (∀ s, fs_wf (files s) → is_dir (files s) ku = true →
        only_below ku (files s) (files (m s).2)) →
  respects confined m.
Proof.
  intros Hp Hb s Hwf Hd. destruct (Hp s) as (Hle & Hwf' & _).
  split_and!; [by apply Hb|by apply Hwf'|by apply Hle].
Qed.

Lemma confined_same_files {A} (m : Go A) :
  (∀ s, files (m s).2 = files s) → respects confined m.
Proof. intros Hm s Hwf Hd. by rewrite Hm. Qed.

Lemma log_Println_confined line : respects confined (log_Println line).
Proof. by apply confined_same_files. Qed.

Lemma fmt_Printf_confined text : respects confined (fmt_Printf text).
Proof. by apply confined_same_files. Qed.

Lemma os_MkdirAll_confined p perm k :
  key p = Some k → ku `prefix_of` k → respects confined (os_MkdirAll p perm).
Proof.
  intros Hk Hp. apply confined_intro; [apply os_MkdirAll_persists|].
  intros s Hwf Hd. rewrite os_MkdirAll_files, Hk. by apply mkdir_all_only_below.
Qed.

Lemma os_Create_confined p k :
  key p = Some k → ku `prefix_of` k → respects confined (os_Create p).
Proof.
  intros Hk Hp. apply confined_intro; [apply os_Create_persists|].
  intros s _ _. rewrite (os_Create_run _ _ k) by done.
  by apply create_only_below.
Qed.

Lemma ioutil_WriteFile_confined p data perm k :
  key p = Some k → ku `prefix_of` k →
  respects confined (ioutil_WriteFile p data perm).
Proof.
  intros Hk Hp. apply confined_intro; [apply ioutil_WriteFile_persists|].
  intros s _ _. rewrite (ioutil_WriteFile_run _ _ _ _ k) by done.
  by apply write_file_only_below.
Qed.

Lemma write_open_confined p data k :
  key p = Some k → ku `prefix_of` k → respects confined (write_open p data).
Proof.
  intros Hk Hp. apply confined_intro; [apply write_open_persists|].
  intros s _ _. rewrite (write_open_run _ _ _ k) by done.
  by apply append_file_only_below.
Qed.

Lemma file_Chmod_confined p mode k :
  key p = Some k → ku `prefix_of` k → respects confined (file_Chmod p mode).
Proof.
  intros Hk Hp. apply confined_intro; [apply file_Chmod_persists|].
  intros s _ _. unfold file_Chmod. rewrite Hk. by apply chmod_only_below.
Qed.

End confined.

#[export] Hint Resolve log_Println_confined fmt_Printf_confined : go.
