(* ===== verification/Platform.v ===== *)
(** * Directories, platform key and artifact names

    The first part of [src/get/get.go]: [DefaultDir], [UNPACK_PATH],
    [DOWNLOAD_PATH], [NewTBDownloader], [GetRuntimePair], [Log],
    [NamePerPlatform] and [BrowserDir].

    [GetRuntimePair] is the platform key of the manifest.  It returns the
    fields [OS] and [ARCH] joined when both are set, and otherwise fills
    both from the running process.  The theorems give the key on every
    branch, show that the fields are set after any call, and that the key
    is the same on all later calls; on macOS the first detecting call
    returns ["osx"] and the later ones ["osx64"] (or with another
    architecture suffix), so there the key of the first call differs from
    the key of the rest. *)

From stdpp Require Import base tactics option list strings gmap.
From Stdlib Require Import ZArith.
From S2P Require Import Prelude GoStrings GoPath FileSys Machine.

(** [const TOR_UPDATES_URL]. *)
Definition TOR_UPDATES_URL : string :=
  "https://aus1.torproject.org/torbrowser/update_3/release/downloads.json".

Section platform.
Context `{Runtime}.

(** [var DefaultIETFLang]. *)
Definition DefaultIETFLang : string := DetectIETF.

Definition set_WORKING_DIR (v : string) (g : package_vars) : package_vars :=
  mkVars v (var_OS g) (var_ARCH g).

(** [func DefaultDir() string]. *)
Definition DefaultDir : Go string :=
  g ← gets vars;
  (if decide (WORKING_DIR g = "")
   then modify (set_vars (set_WORKING_DIR (default "" Getwd)))
   else mret tt) ;;
  dir ← gets (λ s, WORKING_DIR (vars s));
  there ← FileExists dir;
  (if negb there then os_MkdirAll dir mode_0755 ;; mret tt else mret tt) ;;
  match Abs Getwd dir with
  | inl wd => mret wd
  | inr err => log_Fatal err
  end.

(** [func UNPACK_PATH() string]. *)
Definition UNPACK_PATH : Go string :=
  d ← DefaultDir; mret (Join [d; "unpack"]).

(** [func DOWNLOAD_PATH() string]. *)
Definition DOWNLOAD_PATH : Go string :=
  d ← DefaultDir; mret (Join [d; "tor-browser"]).

(** [func NewTBDownloader]: the new downloader becomes the receiver of
    the method calls that follow. *)
Definition NewTBDownloader (lang os arch : string)
    (content : option (gmap string string)) : Go TBDownloader :=
  modify (set_vars (λ g, mkVars (WORKING_DIR g) os (var_ARCH g))) ;;
  modify (set_vars (λ g, mkVars (WORKING_DIR g) (var_OS g) arch)) ;;
  dl ← DOWNLOAD_PATH;
  up ← UNPACK_PATH;
  let t := {| Lang := lang; DownloadPath := dl; UnpackPath := up;
              OS := os; ARCH := arch; Verbose := false;
              Profile := content |} in
  modify (set_tbd (λ _, t)) ;;
  mret t.

(** The two [switch] statements of [GetRuntimePair]. *)
Definition os_of_GOOS (goos : string) : string :=
  if decide (goos = "darwin") then "osx"
  else if decide (goos = "linux") then "linux"
  else if decide (goos = "windows") then "win"
  else "unknown".

Definition arch_of_GOARCH (goarch : string) : string :=
  if decide (goarch = "amd64") then "64"
  else if decide (goarch = "386") then "32"
  else "unknown".

(** [func (t *TBDownloader) GetRuntimePair() string]. *)
Definition GetRuntimePair : Go string :=
  t ← gets tbd;
  if decide (OS t ≠ "" ∧ ARCH t ≠ "") then mret (OS t +:+ ARCH t)
  else
    modify (set_tbd (set_OS (os_of_GOOS GOOS))) ;;
    modify (set_tbd (set_ARCH (arch_of_GOARCH GOARCH))) ;;
    t ← gets tbd;
    if decide (OS t ≠ "osx") then mret (OS t +:+ ARCH t)
    else mret (OS t).

(** [func (t *TBDownloader) Log(function, message string)]. *)
Definition Log (function message : string) : Go unit :=
  t ← gets tbd;
  if Verbose t then log_Println (function +:+ ": " +:+ message)
  else mret tt.

(** [func (t *TBDownloader) NamePerPlatform(ietf string) string]. *)
Definition NamePerPlatform (ietf : string) : Go string :=
  t ← gets tbd;
  let '(windowsonly, extension) :=
    if decide (OS t = "osx") then ("", "dmg")
    else if decide (OS t = "win") then ("-installer", "exe")
    else ("", "tar.xz") in
  pair ← GetRuntimePair;
  mret ("torbrowser" +:+ windowsonly +:+ "-" +:+ pair +:+ "-" +:+ ietf
        +:+ "." +:+ extension).

(** [func (t *TBDownloader) BrowserDir() string]. *)
Definition BrowserDir : Go string :=
  t ← gets tbd;
  mret (Join [UnpackPath t; "tor-browser_" +:+ Lang t]).

End platform.

(** ** The platform key *)

(** The key of a configuration after detection: the fields are both set. *)
Definition configured (t : TBDownloader) : Prop := OS t ≠ "" ∧ ARCH t ≠ "".

#[export] Instance configured_dec t : Decision (configured t).
Proof. unfold configured. apply _. Defined.

Section key.
Context `{Runtime}.
Implicit Types (s : state) (t : TBDownloader).

Lemma os_of_GOOS_nonempty goos : os_of_GOOS goos ≠ "".
Proof. unfold os_of_GOOS. by repeat case_decide. Qed.

Lemma arch_of_GOARCH_nonempty goarch : arch_of_GOARCH goarch ≠ "".
Proof. unfold arch_of_GOARCH. by repeat case_decide. Qed.

Lemma os_of_GOOS_osx goos : os_of_GOOS goos = "osx" ↔ goos = "darwin".
Proof. unfold os_of_GOOS. by repeat case_decide. Qed.

(** The state after detection. *)
Definition detected s : state :=
  set_tbd (set_ARCH (arch_of_GOARCH GOARCH)) (set_tbd (set_OS (os_of_GOOS GOOS)) s).

Lemma detected_configured s : configured (tbd (detected s)).
Proof.
  split; simpl; [apply os_of_GOOS_nonempty | apply arch_of_GOARCH_nonempty].
Qed.

Lemma GetRuntimePair_set s :
  configured (tbd s) →
  GetRuntimePair s = (Ret (OS (tbd s) +:+ ARCH (tbd s)), s).
Proof. intros Hc. unfold GetRuntimePair. go_run. by rewrite decide_True. Qed.

Lemma GetRuntimePair_detect s :
  ¬ configured (tbd s) →
  GetRuntimePair s =
  (Ret (if decide (GOOS = "darwin") then "osx"
        else os_of_GOOS GOOS +:+ arch_of_GOARCH GOARCH), detected s).
Proof.
  intros Hc. unfold GetRuntimePair. go_run. rewrite decide_False by done.
  cbn [tbd set_tbd OS ARCH set_OS set_ARCH]. fold (detected s).
  destruct (decide (GOOS = "darwin")) as [E|E].
  - apply os_of_GOOS_osx in E. by rewrite decide_False, E by (by intros ?).
  - by rewrite decide_True by (by rewrite os_of_GOOS_osx).
Qed.

(** The key as a function of the receiver, and the state a call leaves. *)
Definition platform_key t : string :=
  if decide (configured t) then OS t +:+ ARCH t
  else if decide (GOOS = "darwin") then "osx"
  else os_of_GOOS GOOS +:+ arch_of_GOARCH GOARCH.

Definition after_key s : state :=
  if decide (configured (tbd s)) then s else detected s.

Lemma GetRuntimePair_run s :
  GetRuntimePair s = (Ret (platform_key (tbd s)), after_key s).
Proof.
  unfold platform_key, after_key.
  case_decide; [by apply GetRuntimePair_set | by apply GetRuntimePair_detect].
Qed.

Lemma after_key_configured s : configured (tbd (after_key s)).
Proof.
  unfold after_key. case_decide; [done | apply detected_configured].
Qed.

(** C3: the platform key on every branch: with both fields set it is
    their concatenation and nothing changes; otherwise both fields are
    overwritten from the running process and the key is ["osx"] on
    darwin and the detected pair elsewhere. *)
Theorem GetRuntimePair_spec s :
  GetRuntimePair s =
  if decide (configured (tbd s))
  then (Ret (OS (tbd s) +:+ ARCH (tbd s)), s)
  else (Ret (if decide (GOOS = "darwin") then "osx"
             else os_of_GOOS GOOS +:+ arch_of_GOARCH GOARCH), detected s).
Proof.
  case_decide; [by apply GetRuntimePair_set | by apply GetRuntimePair_detect].
Qed.

(** After any call both fields are set. *)
Lemma GetRuntimePair_configures s :
  configured (tbd (GetRuntimePair s).2).
Proof. rewrite GetRuntimePair_run. apply after_key_configured. Qed.

Lemma GetRuntimePair_Ret s : is_Ret (GetRuntimePair s).1 = true.
Proof. by rewrite GetRuntimePair_run. Qed.

(** Only the receiver changes. *)
Lemma GetRuntimePair_frame s :
  let s' := (GetRuntimePair s).2 in
  vars s' = vars s ∧ files s' = files s ∧ logged s' = logged s ∧
  printed s' = printed s ∧ events s' = events s ∧ clock s' = clock s ∧
  Lang (tbd s') = Lang (tbd s) ∧ DownloadPath (tbd s') = DownloadPath (tbd s) ∧
  UnpackPath (tbd s') = UnpackPath (tbd s) ∧ Verbose (tbd s') = Verbose (tbd s) ∧
  Profile (tbd s') = Profile (tbd s).
Proof. rewrite GetRuntimePair_run. unfold after_key. by case_decide. Qed.

(** From the second call on the key does not change: a call made
    after any call returns the concatenation of the fields and leaves
    the state as it is. *)
Lemma GetRuntimePair_stable s :
  let s1 := (GetRuntimePair s).2 in
  GetRuntimePair s1 = (Ret (OS (tbd s1) +:+ ARCH (tbd s1)), s1).
Proof. apply GetRuntimePair_set, GetRuntimePair_configures. Qed.

(** C12: on darwin a detecting call returns ["osx"] and the call after it
    ["osx"] followed by the architecture: the key of one configuration
    differs between the first call and the rest. *)
Theorem GetRuntimePair_darwin_unstable s :
  GOOS = "darwin" → ¬ configured (tbd s) →
  let r := GetRuntimePair s in
  r.1 = Ret "osx" ∧
  (GetRuntimePair r.2).1 = Ret ("osx" +:+ arch_of_GOARCH GOARCH) ∧
  (GetRuntimePair r.2).1 ≠ r.1.
Proof.
  intros Hd Hc r. unfold r.
  rewrite (GetRuntimePair_set _ (GetRuntimePair_configures s)).
  rewrite GetRuntimePair_detect by done. rewrite decide_True by done.
  simpl. unfold os_of_GOOS. rewrite decide_True by done.
  split_and!; [done..|]. intros [= E]. revert E.
  unfold arch_of_GOARCH. by repeat case_decide.
Qed.

(** Where the key is the same on every call: the fields are set, or the
    process does not run on darwin. *)
Definition stable_key t : Prop := configured t ∨ GOOS ≠ "darwin".

Lemma platform_key_after s :
  stable_key (tbd s) → platform_key (tbd (after_key s)) = platform_key (tbd s).
Proof.
  intros Hs. unfold after_key. case_decide as Hc; [done|].
  destruct Hs as [?|Hd]; [done|]. unfold platform_key.
  rewrite decide_True by apply detected_configured.
  by rewrite decide_False, decide_False.
Qed.

Lemma stable_key_after s : stable_key (tbd (after_key s)).
Proof. left. apply after_key_configured. Qed.

(** On darwin the key of a receiver without the fields is ["osx"], and
    after a call it has the architecture at its end. *)
Lemma platform_key_darwin t :
  GOOS = "darwin" → ¬ configured t → platform_key t = "osx".
Proof.
  intros Hd Hc. unfold platform_key. rewrite decide_False by done.
  by rewrite decide_True by done.
Qed.

Lemma platform_key_after_darwin s :
  GOOS = "darwin" → ¬ configured (tbd s) →
  platform_key (tbd (after_key s)) = "osx" +:+ arch_of_GOARCH GOARCH.
Proof.
  intros Hd Hc. unfold after_key.
  rewrite (decide_False (P := configured (tbd s))) by done.
  unfold platform_key. rewrite decide_True by apply detected_configured. simpl.
  apply os_of_GOOS_osx in Hd. by rewrite Hd.
Qed.

(** ** Logging *)

(** The state after a line is offered to [Log]. *)
Definition noted (function message : string) s : state :=
  if Verbose (tbd s)
  then set_logged (λ l, l ++ [function +:+ ": " +:+ message]) s
  else s.

Lemma Log_run function message s :
  Log function message s = (Ret tt, noted function message s).
Proof. unfold Log, noted. go_run. by destruct (Verbose (tbd s)). Qed.

Lemma noted_tbd f m s : tbd (noted f m s) = tbd s.
Proof. unfold noted. by destruct (Verbose (tbd s)). Qed.

Lemma noted_files f m s : files (noted f m s) = files s.
Proof. unfold noted. by destruct (Verbose (tbd s)). Qed.

Lemma noted_events f m s : events (noted f m s) = events s.
Proof. unfold noted. by destruct (Verbose (tbd s)). Qed.

Lemma noted_quiet f m s : Verbose (tbd s) = false → noted f m s = s.
Proof. unfold noted. by intros ->. Qed.

Lemma after_key_files s : files (after_key s) = files s.
Proof. unfold after_key. by case_decide. Qed.

Lemma after_key_events s : events (after_key s) = events s.
Proof. unfold after_key. by case_decide. Qed.

Lemma after_key_fields s :
  Lang (tbd (after_key s)) = Lang (tbd s) ∧
  DownloadPath (tbd (after_key s)) = DownloadPath (tbd s) ∧
  UnpackPath (tbd (after_key s)) = UnpackPath (tbd s) ∧
  Verbose (tbd (after_key s)) = Verbose (tbd s) ∧
  Profile (tbd (after_key s)) = Profile (tbd s).
Proof. unfold after_key. by case_decide. Qed.

(** ** Artifact names *)

Lemma NamePerPlatform_set ietf s :
  configured (tbd s) →
  NamePerPlatform ietf s =
  (Ret ("torbrowser"
        +:+ (if decide (OS (tbd s) = "win") then "-installer" else "")
        +:+ "-" +:+ (OS (tbd s) +:+ ARCH (tbd s)) +:+ "-" +:+ ietf +:+ "."
        +:+ (if decide (OS (tbd s) = "osx") then "dmg"
             else if decide (OS (tbd s) = "win") then "exe" else "tar.xz")), s).
Proof.
  intros Hc. unfold NamePerPlatform. go_run.
  destruct (decide (OS (tbd s) = "osx")) as [E|E].
  - fold GetRuntimePair. rewrite GetRuntimePair_set by done.
    rewrite decide_False; [done|]. by rewrite E.
  - destruct (decide (OS (tbd s) = "win")); fold GetRuntimePair;
      by rewrite GetRuntimePair_set.
Qed.

(** [BrowserDir] reads the receiver and changes nothing. *)
Lemma BrowserDir_run s :
  BrowserDir s
  = (Ret (Join [UnpackPath (tbd s); "tor-browser_" +:+ Lang (tbd s)]), s).
Proof. done. Qed.

(** ** What the methods keep *)

Lemma GetRuntimePair_persists : respects persists GetRuntimePair.
Proof.
  intros s. pose proof (GetRuntimePair_frame s) as Hf. cbv zeta in Hf.
  destruct Hf as (Hv&Hf&Hl&Hp&He&Hc&HL&HD&HU&HV&HP).
  unfold persists. by rewrite Hv, Hf, Hl, Hp, He, Hc, HL, HD, HU, HV, HP.
Qed.

Lemma Log_persists function message : respects persists (Log function message).
Proof. unfold Log. solve_respects. Qed.

Lemma noted_persists f m s : persists s (noted f m s).
Proof. pose proof (Log_persists f m s) as Hp. by rewrite Log_run in Hp. Qed.

Lemma NamePerPlatform_persists ietf : respects persists (NamePerPlatform ietf).
Proof.
  unfold NamePerPlatform. respects_step; [solve_respects|].
  repeat case_decide; apply respects_bind; try apply _;
    auto using GetRuntimePair_persists; intros ?; solve_respects.
Qed.

Lemma BrowserDir_persists : respects persists BrowserDir.
Proof. by intros s. Qed.

End key.

(** ** Two processes and a receiver

    The processes and the receiver at which the theorems of the
    development are applied: a Linux and a macOS machine of the same
    user, and a downloader as [NewTBDownloader] makes it when no
    platform is given. *)

Definition linux_amd64 : Runtime :=
  {| GOOS := "linux"; GOARCH := "amd64"; Getwd := Some "/home/user";
     DetectIETF := "en-US" |}.

Definition darwin_amd64 : Runtime :=
  {| GOOS := "darwin"; GOARCH := "amd64"; Getwd := Some "/home/user";
     DetectIETF := "en-US" |}.

Definition undetected : TBDownloader :=
  {| UnpackPath := "/home/user/unpack"; DownloadPath := "/home/user/tor-browser";
     Lang := "en-US"; OS := ""; ARCH := ""; Verbose := false; Profile := None |}.

(** A network in which one host is down, every other URL is answered
    with a body that names it, no proxy answers and the port of the
    proxy is free. *)
Definition mirror : Network :=
  {| http_Get url :=
       if decide (url = "https://down.example/tb.tar.xz")
       then inl "dial tcp: connection refused"
       else inr {| body := "bytes of " +:+ url; read_error := None |};
     proxy_Get _ _ _ := inl "proxyconnect tcp: connection refused";
     net_Listen _ _ := None;
     net_finalized _ := false;
     url_Parse _ := None |}.

(** A run that starts with the files [σ]. *)
Definition start (t : TBDownloader) (σ : fs) : state :=
  {| tbd := t; vars := initial_vars; files := σ; logged := []; printed := [];
     events := []; clock := 0; listeners := [] |}.

Lemma GetRuntimePair_darwin_unstable_witness :
  (@GetRuntimePair darwin_amd64 (start undetected fs_root)).1 = Ret "osx" ∧
  (@GetRuntimePair darwin_amd64
     (@GetRuntimePair darwin_amd64 (start undetected fs_root)).2).1 = Ret "osx64".
Proof.
  destruct (@GetRuntimePair_darwin_unstable darwin_amd64 (start undetected fs_root))
    as (H1 & H2 & _); [done|by intros [? _]|]. by split.
Defined.

#[export] Hint Rewrite @noted_tbd @noted_files @noted_events @after_key_files
  @after_key_events : go_rw.
#[export] Hint Resolve GetRuntimePair_persists Log_persists
  NamePerPlatform_persists BrowserDir_persists : go.
