(* ===== verification/Bootstrap.v ===== *)
(** * The download directory and the trusted key

    [MakeTBDirectory] of [src/get/get.go]: it creates the download
    directory, writes the signing key embedded in the executable when no
    key is on disk, and writes the embedded browser extension to the
    unpack and download directories when the unpack directory has none.
    Every other stage of the pipeline starts by calling it.

    The theorems: a key that is on disk is never replaced by the embedded
    one; a missing key is materialised from the embedded one; a missing
    embedded file ends the process; the tree shape of the file system is
    kept. *)

From stdpp Require Import base tactics option list strings gmap.
From Stdlib Require Import ZArith.
From S2P Require Import Prelude GoStrings GoPath FileSys Machine Platform.

Definition key_name : string := "TPO-signing-key.pub".
Definition xpi_name : string := "awo@eyedeekay.github.io.xpi".

(** The name of the key among the embedded files, as [path.Join] of
    ["tor-browser"] and [key_name] gives it. *)
Definition embedded_key : string := "tor-browser/TPO-signing-key.pub".

Section bootstrap.
Context `{Runtime}.

(** [t.Profile.ReadFile(name)]: a nil [Profile] is dereferenced. *)
Definition Profile_ReadFile (name : string) : Go (string * error) :=
  t ← gets tbd;
  match Profile t with
  | None => panic "runtime error: invalid memory address or nil pointer dereference"
  | Some m =>
      mret match m !! name with
           | Some c => (c, None)
           | None => ("", Some ("open " +:+ name +:+ ": file does not exist"))
           end
  end.

(** [if err != nil { log.Fatal(err) }]. *)
Definition fatal_on (err : error) : Go unit :=
  match err with
  | Some e => log_Fatal e
  | None => mret tt
  end.

(** The first block of [MakeTBDirectory]: the signing key. *)
Definition materialise_key : Go unit :=
  t ← gets tbd;
  let empath := Join ["tor-browser"; key_name] in
  let opath := Join [DownloadPath t; key_name] in
  there ← FileExists opath;
  if negb there then
    Log "MakeTBDirectory()"
      "Initial TPO signing key not found, using the one embedded in the executable" ;;
    '(bytes, err) ← Profile_ReadFile empath;
    fatal_on err ;;
    Log "MakeTBDirectory()" "Writing TPO signing key to disk" ;;
    err ← ioutil_WriteFile opath bytes mode_0644;
    fatal_on err ;;
    Log "MakeTBDirectory()" "Writing TPO signing key to disk complete"
  else mret tt.

(** The second block: the browser extension. *)
Definition materialise_xpi : Go unit :=
  t ← gets tbd;
  let empath := Join ["tor-browser"; "unpack"; xpi_name] in
  let dpath := Join [DownloadPath t; xpi_name] in
  let opath := Join [UnpackPath t; xpi_name] in
  there ← FileExists opath;
  if negb there then
    Log "MakeTBDirectory()"
      "Initial TAWO XPI not found, using the one embedded in the executable" ;;
    '(bytes, err) ← Profile_ReadFile empath;
    fatal_on err ;;
    os_MkdirAll (Dir dpath) mode_0755 ;;
    os_MkdirAll (Dir opath) mode_0755 ;;
    Log "MakeTBDirectory()" "Writing AWO XPI to disk" ;;
    err ← ioutil_WriteFile opath bytes mode_0644;
    fatal_on err ;;
    err ← ioutil_WriteFile dpath bytes mode_0644;
    fatal_on err ;;
    Log "MakeTBDirectory()" "Writing AWO XPI disk complete"
  else mret tt.

(** [func (t *TBDownloader) MakeTBDirectory()]. *)
Definition MakeTBDirectory : Go unit :=
  t ← gets tbd;
  os_MkdirAll (DownloadPath t) mode_0755 ;;
  materialise_key ;;
  materialise_xpi.

End bootstrap.

(** ** A directory that is set up *)

Section bootstrapped.
Context `{Runtime}.
Implicit Types (s : state) (p : string).

(** Something is at the path [p]. *)
Definition present s p : Prop := ∃ k n, key p = Some k ∧ files s !! k = Some n.

(** The download directory is a directory of a well-formed file system
    and holds a key, and the unpack directory holds the extension. *)
Definition bootstrapped s : Prop :=
  fs_wf (files s) ∧
  (∃ k, key (DownloadPath (tbd s)) = Some k ∧ is_dir (files s) k = true) ∧
  present s (Join [DownloadPath (tbd s); key_name]) ∧
  present s (Join [UnpackPath (tbd s); xpi_name]).

(** The two files of the bootstrap are names, and different ones: the
    extension is never written to the path of the key. *)
Lemma key_name_name : is_name key_name ∧ slash_free key_name.
Proof. split; by apply (bool_decide_unpack _). Qed.

Lemma xpi_name_name : is_name xpi_name ∧ slash_free xpi_name.
Proof. split; by apply (bool_decide_unpack _). Qed.

Lemma xpi_not_key d d' k :
  key (Join [d; key_name]) = Some k → key (Join [d'; xpi_name]) ≠ Some k.
Proof.
  destruct key_name_name, xpi_name_name. by apply key_Join_ne.
Qed.

Lemma FileExists_present p s : present s p → FileExists p s = (Ret true, s).
Proof. intros (k & n & Hk & Hn). by eapply FileExists_Some. Qed.

(** Nothing is at the path [p], and no file is on the way to it. *)
Definition absent s p : Prop :=
  ∀ k, key p = Some k → files s !! k = None ∧ missing (files s) k = ENOENT.

Lemma FileExists_absent p s : absent s p → FileExists p s = (Ret false, s).
Proof.
  intros Ha. rewrite FileExists_run. destruct (key p) as [k|] eqn:Hk; [|done].
  destruct (Ha k Hk) as [-> ->]. by rewrite bool_decide_false by (by intros ?).
Qed.

Lemma materialise_key_present s :
  present s (Join [DownloadPath (tbd s); key_name]) →
  materialise_key s = (Ret tt, s).
Proof.
  intros Hp. unfold materialise_key. go_run. by rewrite FileExists_present.
Qed.

Lemma materialise_xpi_present s :
  present s (Join [UnpackPath (tbd s); xpi_name]) →
  materialise_xpi s = (Ret tt, s).
Proof.
  intros Hp. unfold materialise_xpi. go_run. by rewrite FileExists_present.
Qed.

(** Being there or not depends on the files only. *)
Lemma present_same s s' p : files s' = files s → present s p → present s' p.
Proof. unfold present. by intros ->. Qed.

Lemma absent_same s s' p : files s' = files s → absent s p → absent s' p.
Proof. unfold absent. by intros ->. Qed.

(** The embedded file [name], read in a state with the files [m]. *)
Lemma Profile_ReadFile_run name s m :
  Profile (tbd s) = Some m →
  Profile_ReadFile name s
  = (Ret match m !! name with
         | Some c => (c, None)
         | None => ("", Some ("open " +:+ name +:+ ": file does not exist"))
         end, s).
Proof. intros Hm. unfold Profile_ReadFile. go_run. by rewrite Hm. Qed.

(** The key block up to the answer of the embedded files, for a key
    that is not on disk. *)
Lemma materialise_key_asks s m :
  absent s (Join [DownloadPath (tbd s); key_name]) →
  Profile (tbd s) = Some m →
  materialise_key s
  = (let s1 := noted "MakeTBDirectory()"
       "Initial TPO signing key not found, using the one embedded in the executable" s in
     match m !! embedded_key with
     | Some c =>
         (fatal_on None ;;
          Log "MakeTBDirectory()" "Writing TPO signing key to disk" ;;
          err ← ioutil_WriteFile (Join [DownloadPath (tbd s); key_name]) c mode_0644;
          fatal_on err ;;
          Log "MakeTBDirectory()" "Writing TPO signing key to disk complete") s1
     | None =>
         (log_Fatal ("open " +:+ embedded_key +:+ ": file does not exist")) s1
     end).
Proof.
  intros Ha Hm. unfold materialise_key. go_run.
  rewrite FileExists_absent by done. cbn [negb]. rewrite Log_run.
  rewrite (Profile_ReadFile_run _ _ m) by (by rewrite noted_tbd).
  change (Join ["tor-browser"; key_name]) with embedded_key.
  by destruct (m !! embedded_key).
Qed.

(** No key on disk and none embedded: the process ends, and the files
    are as they were. *)
Lemma materialise_key_fatal s m :
  absent s (Join [DownloadPath (tbd s); key_name]) →
  Profile (tbd s) = Some m → m !! embedded_key = None →
  (materialise_key s).1
  = Fatal ("open " +:+ embedded_key +:+ ": file does not exist") ∧
  files (materialise_key s).2 = files s.
Proof.
  intros Ha Hm Hn. rewrite (materialise_key_asks s m) by done. rewrite Hn.
  cbn zeta. set (s1 := noted _ _ s).
  by assert (files s1 = files s) as <- by apply noted_files.
Qed.

(** No key on disk, and the download directory is there: the embedded
    key is written with the mode 0644, and nothing else changes. *)
Lemma materialise_key_missing s m c k :
  absent s (Join [DownloadPath (tbd s); key_name]) →
  key (Join [DownloadPath (tbd s); key_name]) = Some k →
  is_dir (files s) (removelast k) = true →
  Profile (tbd s) = Some m → m !! embedded_key = Some c →
  (materialise_key s).1 = Ret tt ∧
  files (materialise_key s).2 = <[k := File c mode_0644]> (files s).
Proof.
  intros Ha Hk Hd Hm Hc. rewrite (materialise_key_asks s m) by done. rewrite Hc.
  destruct (Ha k Hk) as [Hn _]. cbn zeta. unfold fatal_on. go_run.
  rewrite Log_run. go_run.
  rewrite (ioutil_WriteFile_run _ _ _ _ k) by done.
  rewrite !noted_files, write_file_writable
    by (unfold writable; by rewrite Hn).
  cbn [fst snd fmap option_fmap option_map]. rewrite Log_run.
  cbn [fst snd]. rewrite noted_files. unfold file_mode. by rewrite Hn.
Qed.

(** In a directory that is set up [MakeTBDirectory] returns and changes
    nothing: the key on disk stays as it is. *)
Lemma MakeTBDirectory_bootstrapped s :
  bootstrapped s → MakeTBDirectory s = (Ret tt, s).
Proof.
  intros (Hwf & (k & Hk & Hd) & Hkey & Hxpi). unfold MakeTBDirectory.
  go_run. erewrite os_MkdirAll_dir by done.
  fold materialise_key. rewrite materialise_key_present by done.
  by apply materialise_xpi_present.
Qed.

(** Being set up depends on the files and the two directories only. *)
Lemma bootstrapped_same s s' :
  bootstrapped s → files s' = files s →
  DownloadPath (tbd s') = DownloadPath (tbd s) →
  UnpackPath (tbd s') = UnpackPath (tbd s) →
  bootstrapped s'.
Proof.
  unfold bootstrapped, present. intros Hb Hf Hd Hu. by rewrite Hf, Hd, Hu.
Qed.

Lemma bootstrapped_noted f m s : bootstrapped s → bootstrapped (noted f m s).
Proof.
  intros Hb. eapply bootstrapped_same; [done|..]; by rewrite ?noted_files, ?noted_tbd.
Qed.

Lemma bootstrapped_after_key s : bootstrapped s → bootstrapped (after_key s).
Proof.
  intros Hb. destruct (after_key_fields s) as (_ & ? & ? & _).
  eapply bootstrapped_same; [done|by rewrite after_key_files|done..].
Qed.

(** ** What the bootstrap keeps *)

Lemma Profile_ReadFile_persists name : respects persists (Profile_ReadFile name).
Proof. unfold Profile_ReadFile. solve_respects. Qed.

Lemma fatal_on_persists err : respects persists (fatal_on err).
Proof. unfold fatal_on. solve_respects. Qed.

Hint Resolve Profile_ReadFile_persists fatal_on_persists : go.

Lemma materialise_key_persists : respects persists materialise_key.
Proof. unfold materialise_key. solve_respects. Qed.

Lemma materialise_xpi_persists : respects persists materialise_xpi.
Proof. unfold materialise_xpi. solve_respects. Qed.

Lemma MakeTBDirectory_persists : respects persists MakeTBDirectory.
Proof.
  unfold MakeTBDirectory.
  solve_respects; auto using materialise_key_persists, materialise_xpi_persists.
Qed.

Lemma present_persists s s' p : present s p → persists s s' → present s' p.
Proof.
  intros (k & n & Hk & Hn) (Hle & _). destruct (Hle k) as [Hs _].
  destruct Hs as [n' Hn']; [eauto|]. by exists k, n'.
Qed.

(** A directory that is set up stays set up. *)
Lemma bootstrapped_persists s s' : bootstrapped s → persists s s' → bootstrapped s'.
Proof.
  intros (Hwf & (k & Hk & Hd) & Hkey & Hxpi) Hp.
  pose proof Hp as (Hle & Hwf' & (HD & HU & _) & _).
  unfold bootstrapped. rewrite HD, HU. split_and!; eauto using present_persists.
  exists k. split; [done|]. by apply Hle.
Qed.

(** ** Stages that write nothing

    [settled s s']: when the directory is set up in [s], the files of
    [s'] are those of [s]. *)

Definition settled s s' : Prop :=
  bootstrapped s → files s' = files s ∧ bootstrapped s'.

#[export] Instance settled_preorder : PreOrder settled.
Proof.
  split; [by intros s ?|]. intros s1 s2 s3 H1 H2 Hb.
  destruct (H1 Hb) as [Hf1 Hb2]. destruct (H2 Hb2) as [Hf2 Hb3].
  split; [congruence|done].
Qed.

Lemma settled_intro {A} (m : Go A) :
  respects persists m → (∀ s, files (m s).2 = files s) → respects settled m.
Proof.
  intros Hp Hf s Hb. split; [apply Hf|]. by eapply bootstrapped_persists.
Qed.

Lemma MakeTBDirectory_settled : respects settled MakeTBDirectory.
Proof. intros s Hb. by rewrite MakeTBDirectory_bootstrapped. Qed.

Lemma Log_settled f msg : respects settled (Log f msg).
Proof.
  apply settled_intro; [apply Log_persists|].
  intros s. rewrite Log_run. apply noted_files.
Qed.

Lemma GetRuntimePair_settled : respects settled GetRuntimePair.
Proof.
  apply settled_intro; [apply GetRuntimePair_persists|].
  intros s. rewrite GetRuntimePair_run. apply after_key_files.
Qed.

(** [only_logs s s']: when the directory is set up in [s] and the
    platform fields of the receiver are set, [s'] has the receiver, the
    files and the record of requests of [s]: what ran between the two
    wrote to the log at most. *)
Definition only_logs s s' : Prop :=
  bootstrapped s → configured (tbd s) →
  tbd s' = tbd s ∧ files s' = files s ∧ events s' = events s.

#[export] Instance only_logs_preorder : PreOrder only_logs.
Proof.
  split; [by intros s ? ?|]. intros s1 s2 s3 H1 H2 Hb Hc.
  destruct (H1 Hb Hc) as (Ht & Hf & He).
  destruct H2 as (Ht' & Hf' & He'); [|by rewrite Ht|split_and!; congruence].
  apply (bootstrapped_same s1); [done..|by rewrite Ht|by rewrite Ht].
Qed.

Lemma only_logs_bootstrapped s s' :
  only_logs s s' → bootstrapped s → configured (tbd s) →
  bootstrapped s' ∧ configured (tbd s').
Proof.
  intros Ho Hb Hc. destruct (Ho Hb Hc) as (Ht & Hf & _). rewrite Ht.
  split; [|done]. apply (bootstrapped_same s); by rewrite ?Ht.
Qed.

Lemma MakeTBDirectory_only_logs : respects only_logs MakeTBDirectory.
Proof. intros s Hb _. by rewrite MakeTBDirectory_bootstrapped. Qed.

Lemma Log_only_logs f msg : respects only_logs (Log f msg).
Proof.
  intros s _ _. rewrite Log_run. cbn [snd].
  by rewrite noted_tbd, noted_files, noted_events.
Qed.

Lemma GetRuntimePair_only_logs : respects only_logs GetRuntimePair.
Proof. intros s _ Hc. by rewrite GetRuntimePair_set. Qed.

End bootstrapped.

(** ** The key on disk is not replaced *)

Section kept.
Context `{Runtime} (kk : path) (n : node).
Implicit Types (s : state) (p : string).

(** The node [n] is at the key [kk]. *)
Definition node_at s : Prop := files s !! kk = Some n.

Lemma same_files_node {A} (m : Go A) :
  (∀ s, files (m s).2 = files s) → respects (keeps node_at) m.
Proof. intros Hm s Hn. unfold node_at. by rewrite Hm. Qed.

Lemma os_MkdirAll_node p perm : respects (keeps node_at) (os_MkdirAll p perm).
Proof.
  intros s Hn. unfold node_at. rewrite os_MkdirAll_files.
  destruct (key p); [by apply mkdir_all_keeps|done].
Qed.

Lemma ioutil_WriteFile_node p data perm :
  key p ≠ Some kk → respects (keeps node_at) (ioutil_WriteFile p data perm).
Proof.
  intros Hp s Hn. unfold node_at, ioutil_WriteFile, on_key. go_run.
  destruct (key p) as [k|] eqn:Hk; [|done].
  pose proof (write_file_other (files s) k kk data perm) as Ho.
  destruct (write_file (files s) k data perm) as [σ' e]. simpl in *.
  rewrite Ho; [done|]. by intros ->.
Qed.

Lemma Log_node f msg : respects (keeps node_at) (Log f msg).
Proof. apply same_files_node. intros s. rewrite Log_run. apply noted_files. Qed.

Lemma Profile_ReadFile_node name : respects (keeps node_at) (Profile_ReadFile name).
Proof.
  apply same_files_node. intros s. unfold Profile_ReadFile. go_run.
  by destruct (Profile (tbd s)).
Qed.

Lemma fatal_on_node err : respects (keeps node_at) (fatal_on err).
Proof. apply same_files_node. intros s. by destruct err. Qed.

Lemma FileExists_node p : respects (keeps node_at) (FileExists p).
Proof. apply same_files_node. intros s. by rewrite FileExists_state. Qed.

Hint Resolve os_MkdirAll_node ioutil_WriteFile_node Log_node
  Profile_ReadFile_node fatal_on_node FileExists_node : go.

(** The second block of [MakeTBDirectory] for a receiver whose two
    paths of the extension are not the path of the key. *)
Lemma materialise_xpi_node s :
  key (Join [UnpackPath (tbd s); xpi_name]) ≠ Some kk →
  key (Join [DownloadPath (tbd s); xpi_name]) ≠ Some kk →
  node_at s → node_at (materialise_xpi s).2.
Proof.
  intros Ho Hd. unfold materialise_xpi.
  rewrite (bind_run_Ret (gets tbd) _ s (tbd s) s eq_refl).
  set (t := tbd s) in *. clearbody t. revert s.
  keeps_goal node_at. solve_respects.
Qed.

(** [MkdirAll] returns, and changes the files only. *)
Lemma os_MkdirAll_returns p perm s :
  ∃ err s1, os_MkdirAll p perm s = (Ret err, s1) ∧ tbd s1 = tbd s.
Proof.
  pose proof (on_key_Ret "mkdir" p (λ σ k, mkdir_all σ k perm) s) as Hr.
  pose proof (on_key_same "mkdir" p (λ σ k, mkdir_all σ k perm) s) as [Ht _].
  fold (os_MkdirAll p perm) in Hr, Ht.
  destruct (os_MkdirAll p perm s) as [[err| | |] s1]; try done. eauto.
Qed.

(** C9: a key that is on disk is not replaced: whatever is at the
    path of the key before [MakeTBDirectory] is there after it, with
    its content and mode, and that however the method ends. *)
Theorem MakeTBDirectory_keeps_key s :
  key (Join [DownloadPath (tbd s); key_name]) = Some kk → node_at s →
  node_at (MakeTBDirectory s).2.
Proof.
  intros Hk Hn. unfold MakeTBDirectory.
  pose proof (xpi_not_key _ (UnpackPath (tbd s)) _ Hk) as Ho.
  pose proof (xpi_not_key _ (DownloadPath (tbd s)) _ Hk) as Hd.
  rewrite (bind_run_Ret (gets tbd) _ s (tbd s) s eq_refl).
  destruct (os_MkdirAll_returns (DownloadPath (tbd s)) mode_0755 s)
    as (err & s1 & Hm & Ht).
  pose proof (os_MkdirAll_node (DownloadPath (tbd s)) mode_0755 s Hn) as Hn1.
  rewrite Hm in Hn1. rewrite (bind_run_Ret _ _ _ _ _ Hm).
  assert (present s1 (Join [DownloadPath (tbd s1); key_name])) as Hp
    by (exists kk, n; by rewrite Ht).
  rewrite (bind_run_Ret _ _ _ _ _ (materialise_key_present s1 Hp)).
  apply materialise_xpi_node; by rewrite ?Ht.
Qed.

End kept.

(** ** The first run writes the embedded key *)

Section first_run.
Context `{Runtime}.
Implicit Types (s : state) (kd : path).

(** The state after the first line of [MakeTBDirectory]. *)
Definition made s kd : state :=
  set_files (λ _, (mkdir_all (files s) kd mode_0755).1) s.

(** Once the download directory is made, an entry of it that was not
    there can be created. *)
Lemma made_dir s kd :
  fs_wf (files s) → (mkdir_all (files s) kd mode_0755).2 = None →
  fs_wf (files (made s kd)) ∧ is_dir (files (made s kd)) kd = true.
Proof.
  intros Hwf Hm. split; [by apply mkdir_all_wf|].
  apply (mkdir_all_made (files s) kd mode_0755); [done|].
  unfold made. cbn [files set_files].
  destruct (mkdir_all (files s) kd mode_0755); by simplify_eq/=.
Qed.

Lemma made_absent s kd n :
  fs_wf (files s) → key (DownloadPath (tbd s)) = Some kd →
  (mkdir_all (files s) kd mode_0755).2 = None →
  is_name n → slash_free n → files s !! (kd ++ [n]) = None →
  absent (made s kd) (Join [DownloadPath (tbd s); n]).
Proof.
  intros Hwf Hk Hm Hn Hs Hf k'. rewrite (key_Join_name _ _ kd) by done.
  intros [= <-]. destruct (made_dir s kd) as [Hwf' Hd]; [done..|].
  split; [|by apply missing_in_dir].
  unfold made. cbn [files set_files]. by rewrite mkdir_all_below.
Qed.

(** C33: on a first run the key is materialised: when the download
    directory can be made and holds no key, [MakeTBDirectory] leaves
    the embedded key at the path of the key, with the mode 0644, and
    that whatever happens to the extension afterwards. *)
Theorem MakeTBDirectory_materialises_key s m c kd :
  fs_wf (files s) → key (DownloadPath (tbd s)) = Some kd →
  (mkdir_all (files s) kd mode_0755).2 = None →
  files s !! (kd ++ [key_name]) = None →
  Profile (tbd s) = Some m → m !! embedded_key = Some c →
  files (MakeTBDirectory s).2 !! (kd ++ [key_name]) = Some (File c mode_0644).
Proof.
  intros Hwf Hk Hm Hf HP Hc. destruct key_name_name as [Hn Hs].
  pose proof (key_Join_name _ _ _ Hk Hn Hs) as Hkk.
  destruct (made_dir s kd) as [_ Hd]; [done..|].
  destruct (materialise_key_missing (made s kd) m c (kd ++ [key_name]))
    as [Hr Hw]; change (tbd (made s kd)) with (tbd s);
    rewrite ?removelast_last; try done.
  { by apply made_absent. }
  unfold MakeTBDirectory.
  rewrite (bind_run_Ret (gets tbd) _ s (tbd s) s eq_refl).
  rewrite (bind_run_Ret _ _ _ _ _ (os_MkdirAll_run _ _ _ kd Hk)).
  fold (made s kd). rewrite (bind_run_Ret _ _ _ _ _ (run_Ret_eq _ _ _ Hr)).
  apply (materialise_xpi_node (kd ++ [key_name]) (File c mode_0644));
    [by eapply xpi_not_key..|].
  unfold node_at. by rewrite Hw, lookup_insert_eq.
Qed.

End first_run.

#[export] Hint Resolve bootstrapped_noted bootstrapped_after_key
  Profile_ReadFile_persists fatal_on_persists MakeTBDirectory_persists
  MakeTBDirectory_settled Log_settled GetRuntimePair_settled
  MakeTBDirectory_only_logs Log_only_logs GetRuntimePair_only_logs : go.

(** ** A directory that is set up, concretely

    The file system of the user of [linux_amd64] after a first run: the
    download directory with the key and the unpack directory with the
    extension. *)

Definition home : fs :=
  <[ ["home"; "user"; "unpack"; xpi_name] := File "xpi" mode_0644 ]>
  (<[ ["home"; "user"; "unpack"] := Directory mode_0755 ]>
  (<[ ["home"; "user"; "tor-browser"; key_name] := File "key" mode_0644 ]>
  (<[ ["home"; "user"; "tor-browser"] := Directory mode_0755 ]>
  (<[ ["home"; "user"] := Directory mode_0755 ]>
  (<[ ["home"] := Directory mode_0755 ]> fs_root))))).

(** A state is set up when the test of the tree shape succeeds and the
    three paths evaluate to nodes of the right kind. *)
Lemma bootstrapped_intro `{Runtime} s kd kk kx nk nx :
  fs_wf_b (files s) = true →
  key (DownloadPath (tbd s)) = Some kd → is_dir (files s) kd = true →
  key (Join [DownloadPath (tbd s); key_name]) = Some kk → files s !! kk = Some nk →
  key (Join [UnpackPath (tbd s); xpi_name]) = Some kx → files s !! kx = Some nx →
  bootstrapped s.
Proof.
  intros Hwf Hkd Hd Hkk Hnk Hkx Hnx. unfold bootstrapped, present.
  split_and!; eauto using fs_wf_b_true.
Qed.

Lemma present_intro `{Runtime} s p k n :
  key p = Some k → files s !! k = Some n → present s p.
Proof. intros Hk Hn. by exists k, n. Qed.

Lemma absent_intro `{Runtime} s p k :
  key p = Some k → files s !! k = None → missing (files s) k = ENOENT →
  absent s p.
Proof. intros Hk Hn Hm k' Hk'. by simplify_eq. Qed.

Lemma home_bootstrapped t :
  DownloadPath t = "/home/user/tor-browser" → UnpackPath t = "/home/user/unpack" →
  @bootstrapped linux_amd64 (start t home).
Proof.
  intros HD HU.
  apply (@bootstrapped_intro linux_amd64 _ ["home"; "user"; "tor-browser"]
           ["home"; "user"; "tor-browser"; key_name]
           ["home"; "user"; "unpack"; xpi_name]
           (File "key" mode_0644) (File "xpi" mode_0644));
    cbn [tbd files start]; rewrite ?HD, ?HU; by vm_compute.
Qed.

(** A directory in which the user has put a key of their own and
    nothing else, and a downloader with the embedded files. *)
Definition keyed : fs :=
  <[ ["home"; "user"; "tor-browser"; key_name] := File "user key" mode_0644 ]>
  (<[ ["home"; "user"; "tor-browser"] := Directory mode_0755 ]>
  (<[ ["home"; "user"] := Directory mode_0755 ]>
  (<[ ["home"] := Directory mode_0755 ]> fs_root))).

Definition embedded : TBDownloader :=
  {| UnpackPath := "/home/user/unpack"; DownloadPath := "/home/user/tor-browser";
     Lang := "en-US"; OS := ""; ARCH := ""; Verbose := true;
     Profile := Some {[ "tor-browser/TPO-signing-key.pub" := "embedded key";
                        "tor-browser/unpack/awo@eyedeekay.github.io.xpi" := "xpi" ]} |}.

(** The home of a user before the first run. *)
Definition bare : fs :=
  <[ ["home"; "user"] := Directory mode_0755 ]>
  (<[ ["home"] := Directory mode_0755 ]> fs_root).

Lemma MakeTBDirectory_materialises_key_witness :
  files (@MakeTBDirectory linux_amd64 (start embedded bare)).2
    !! (["home"; "user"; "tor-browser"] ++ [key_name])
  = Some (File "embedded key" mode_0644).
Proof.
  apply (@MakeTBDirectory_materialises_key linux_amd64 (start embedded bare)
           (default ∅ (Profile embedded)) "embedded key"
           ["home"; "user"; "tor-browser"]);
    [apply fs_wf_b_true; by vm_compute|by vm_compute..|reflexivity|by vm_compute].
Defined.

Lemma MakeTBDirectory_keeps_key_witness :
  @node_at ["home"; "user"; "tor-browser"; key_name] (File "user key" mode_0644)
    (@MakeTBDirectory linux_amd64 (start embedded keyed)).2.
Proof.
  apply (@MakeTBDirectory_keeps_key linux_amd64); by vm_compute.
Defined.
