(* ===== verification/Json.v ===== *)
(** * Decoded JSON and its types

    The values that [encoding/json] decodes into an [interface{}], the
    decoder as a class, and a typing of values by the shapes that the
    type assertions of [src/get/get.go] ask for: a string, a map whose
    values all have one type, and a map that has given fields of given
    types (and may have others).  [typed] decides the typing; the
    lemmas invert it constructor by constructor. *)

From stdpp Require Import base tactics option list strings gmap.

(** A value of type [interface{}] as [encoding/json] produces it. *)
#[warnings="-register-all"]
Inductive value : Type :=
| VNil
| VBool (b : bool)
| VNum (literal : string)
| VStr (s : string)
| VArr (l : list value)
| VMap (m : gmap string value).

(** The dynamic type of a value as a panic names it. *)
Definition type_name (v : value) : string :=
  match v with
  | VNil => "nil"
  | VBool _ => "bool"
  | VNum _ => "float64"
  | VStr _ => "string"
  | VArr _ => "[]interface {}"
  | VMap _ => "map[string]interface {}"
  end.

(** The JSON decoder: the value of a document, or the text of its
    syntax error. *)
Class JsonDecoder : Type := {
  json_Decode : string → string + value;
}.

(** ** Types *)

#[warnings="-register-all"]
Inductive jtype : Type :=
| TAny
| TString
| TMapOf (t : jtype)
| TStruct (fields : list (string * jtype)).

(** [typed t v]: the value [v] has the type [t]. *)
Fixpoint typed (t : jtype) (v : value) : bool :=
  match t with
  | TAny => true
  | TString => match v with VStr _ => true | _ => false end
  | TMapOf t' =>
      match v with
      | VMap m => bool_decide (map_Forall (λ _ v', typed t' v') m)
      | _ => false
      end
  | TStruct fields =>
      match v with
      | VMap m =>
          forallb (λ ft, match m !! ft.1 with
                         | Some v' => typed ft.2 v'
                         | None => false
                         end) fields
      | _ => false
      end
  end.

(** A field of a map with its type. *)
Definition has_field (m : gmap string value) (ft : string * jtype) : Prop :=
  ∃ v, m !! ft.1 = Some v ∧ typed ft.2 v.

Section typing.
Implicit Types (t : jtype) (v : value) (m : gmap string value).

Lemma typed_TString v : typed TString v ↔ ∃ s, v = VStr s.
Proof. destruct v; simpl; split; try done; try (by intros [? [=]]); eauto. Qed.

Lemma typed_TMapOf t v :
  typed (TMapOf t) v ↔ ∃ m, v = VMap m ∧ map_Forall (λ _ v', typed t v') m.
Proof.
  destruct v as [| | | | |m]; simpl;
    try (split; [done|by intros (? & [=] & _)]).
  rewrite bool_decide_spec. split; [eauto|by intros (? & [= <-] & ?)].
Qed.

Lemma typed_TStruct fields v :
  typed (TStruct fields) v ↔ ∃ m, v = VMap m ∧ Forall (has_field m) fields.
Proof.
  destruct v as [| | | | |m]; simpl;
    try (split; [done|by intros (? & [=] & _)]).
  rewrite forallb_True. split.
  - intros Hf. exists m. split; [done|]. eapply Forall_impl; [done|].
    intros [f t]. unfold has_field. simpl. destruct (m !! f); naive_solver.
  - intros (? & [= <-] & Hf). eapply Forall_impl; [done|].
    intros [f t] (v & Hv & Ht). simpl in *. by rewrite Hv.
Qed.

(** The value of a map of type [TMapOf t] at a key has the type [t]. *)
Lemma typed_lookup t m k v :
  typed (TMapOf t) (VMap m) → m !! k = Some v → typed t v.
Proof.
  intros (? & [= <-] & Hm)%typed_TMapOf Hk. by apply (Hm k v).
Qed.

(** The field of a map of a struct type is there, with its type. *)
Lemma typed_field fields m f t :
  typed (TStruct fields) (VMap m) → (f, t) ∈ fields →
  ∃ v, m !! f = Some v ∧ typed t v.
Proof.
  intros (? & [= <-] & Hm)%typed_TStruct Hf.
  by apply (proj1 (Forall_forall _ _) Hm (f, t)).
Qed.

(** A struct type asks for fields and forbids none: a map with more
    fields has the type too. *)
Lemma typed_more_fields fields m m' :
  m ⊆ m' → typed (TStruct fields) (VMap m) → typed (TStruct fields) (VMap m').
Proof.
  rewrite !typed_TStruct. intros Hm (? & [= <-] & Hf). exists m'. split; [done|].
  eapply Forall_impl; [done|]. intros ft (v & Hv & Ht). exists v.
  eauto using lookup_weaken.
Qed.

End typing.
