(* ===== verification/Manifest.v ===== *)
(** * Manifest lookup with language fallback

    [GetUpdaterForLangFromJSONBytes] of [src/get/get.go] and the methods
    in front of it.  The manifest is decoded into untyped values
    ([map[string]interface{}]), and the lookup walks
    [downloads -> platform key -> language -> {binary, sig}] with a type
    assertion at each level; an assertion on a value of another kind
    panics, and so does indexing a missing field as a string.

    For a language that has no entry the method tries the text before the
    first hyphen and then calls itself with the downloader's language.
    That call is unbounded recursion in the source; the model bounds it
    by fuel and [Timeout] stands for a run that does not return.

    [resolve] is the lookup on a typed manifest; [GetUpdater_refines]
    shows the method computes it on the manifests that have that shape,
    with fuel 2, and that it never returns where [resolve] finds no
    language. *)

From stdpp Require Import base tactics option list strings gmap.
From Stdlib Require Import ZArith.
From S2P Require Import Prelude GoStrings GoPath FileSys Machine Platform Bootstrap.
From S2P Require Import Json.

Section manifest.
Context `{Runtime} `{JsonDecoder}.

(** [json.Unmarshal(jsonBytes, &dat)] with [dat] a
    [map[string]interface{}]: [null] leaves the nil map, which reads as
    empty; a document of another kind is a type error. *)
Definition Unmarshal_map (jsonBytes : string) : string + gmap string value :=
  match json_Decode jsonBytes with
  | inl e => inl e
  | inr (VMap m) => inr m
  | inr VNil => inr ∅
  | inr v =>
      inl ("json: cannot unmarshal " +:+ type_name v
           +:+ " into Go value of type map[string]interface {}")
  end.

(** The type assertion [v.(map[string]interface{})]. *)
Definition as_map (v : value) : Go (gmap string value) :=
  match v with
  | VMap m => mret m
  | _ => panic ("interface conversion: interface {} is " +:+ type_name v
                +:+ ", not map[string]interface {}")
  end.

(** The type assertion [v.(string)]; a missing field is the nil value. *)
Definition as_string (v : option value) : Go string :=
  match v with
  | Some (VStr s) => mret s
  | _ => panic ("interface conversion: interface {} is "
                +:+ type_name (default VNil v) +:+ ", not string")
  end.

(** Indexing a slice at 0. *)
Definition index0 (l : list string) : Go string :=
  match l with
  | x :: _ => mret x
  | [] => panic "runtime error: index out of range [0] with length 0"
  end.

(** [return langUpdater.(map[string]interface{})["binary"].(string),
            langUpdater.(map[string]interface{})["sig"].(string), nil]. *)
Definition return_entry (langUpdater : value) : Go (string * string * error) :=
  m ← as_map langUpdater;
  binary ← as_string (m !! "binary");
  m ← as_map langUpdater;
  sig ← as_string (m !! "sig");
  mret (binary, sig, None).

(** [func (t *TBDownloader) GetUpdaterForLangFromJSONBytes]. *)
Fixpoint GetUpdaterForLangFromJSONBytes (fuel : nat) (jsonBytes ietf : string)
  : Go (string * string * error) :=
  match fuel with
  | 0 => timeout
  | S fuel' =>
      MakeTBDirectory ;;
      Log "GetUpdaterForLangFromJSONBytes()" "Parsing JSON" ;;
      match Unmarshal_map jsonBytes with
      | inl err => mret ("", "", Some ("func (t *TBDownloader)Name: " +:+ err))
      | inr dat =>
          Log "GetUpdaterForLangFromJSONBytes()" "Parsing JSON complete" ;;
          match dat !! "downloads" with
          | Some platform =>
              rtp ← GetRuntimePair;
              pm ← as_map platform;
              match pm !! rtp with
              | Some updater =>
                  um ← as_map updater;
                  match um !! ietf with
                  | Some langUpdater =>
                      Log "GetUpdaterForLangFromJSONBytes()"
                        "Found updater for language" ;;
                      return_entry langUpdater
                  | None =>
                      lang ← index0 (Split ietf "-");
                      um ← as_map updater;
                      match um !! lang with
                      | Some langUpdater =>
                          Log "GetUpdaterForLangFromJSONBytes()"
                            "Found updater for backup language" ;;
                          return_entry langUpdater
                      | None =>
                          Log "GetUpdaterForLangFromJSONBytes()"
                            "Last attempt, trying default language" ;;
                          t ← gets tbd;
                          GetUpdaterForLangFromJSONBytes fuel' jsonBytes (Lang t)
                      end
                  end
              | None =>
                  mret ("", "", Some ("t.GetUpdaterForLangFromJSONBytes: "
                                      +:+ "no updater for platform " +:+ rtp))
              end
          | None =>
              mret ("", "", Some ("t.GetUpdaterForLangFromJSONBytes: " +:+ ietf))
          end
      end
  end.

(** [func (t *TBDownloader) GetUpdaterForLangFromJSON]: the body that
    [http.Get] returned is read, saved as [downloads.json] and looked
    up. *)
Definition GetUpdaterForLangFromJSON (fuel : nat) (r : response) (ietf : string)
  : Go (string * string * error) :=
  match read_error r with
  | Some err => mret ("", "", Some ("t.GetUpdaterForLangFromJSON: " +:+ err))
  | None =>
      let jsonBytes := body r in
      MakeTBDirectory ;;
      t ← gets tbd;
      err ← ioutil_WriteFile (Join [DownloadPath t; "downloads.json"])
              jsonBytes mode_0644;
      match err with
      | Some e => mret ("", "", Some ("t.GetUpdaterForLangFromJSON: " +:+ e))
      | None => GetUpdaterForLangFromJSONBytes fuel jsonBytes ietf
      end
  end.

End manifest.

Section updater.
Context `{Runtime} `{JsonDecoder} `{Network}.

(** [func (t *TBDownloader) GetUpdaterForLang]. *)
Definition GetUpdaterForLang (fuel : nat) (ietf : string)
  : Go (string * string * error) :=
  emit (EvHttpGet TOR_UPDATES_URL) ;;
  match http_Get TOR_UPDATES_URL with
  | inl err => mret ("", "", Some ("t.GetUpdaterForLang: " +:+ err))
  | inr jsonText => GetUpdaterForLangFromJSON fuel jsonText ietf
  end.

(** [func (t *TBDownloader) GetUpdater]. *)
Definition GetUpdater (fuel : nat) : Go (string * string * error) :=
  t ← gets tbd;
  GetUpdaterForLang fuel (Lang t).

End updater.

(** ** The lookup on a typed manifest *)

(** [{binary: URL, sig: URL}]. *)
Record artifact : Type := mkArtifact {
  binary : string;
  sig : string;
}.

#[export] Instance artifact_eq_dec : EqDecision artifact.
Proof. solve_decision. Defined.

(** [downloads -> platform key -> language tag -> artifact]. *)
Abbreviation manifest := (gmap string (gmap string artifact)).

Inductive resolution : Type :=
| Resolved (a : artifact)
| PlatformUnsupported
| LanguageUnresolved.

(** The text before the first hyphen of a language tag. *)
Definition primary (ietf : string) : string := default "" (head (Split ietf "-")).

(** The entry of a language: its own, or that of its primary subtag. *)
Definition lookup_lang (langs : gmap string artifact) (ietf : string)
  : option artifact :=
  match langs !! ietf with
  | Some a => Some a
  | None => langs !! primary ietf
  end.

(** The platform's entry for the language, else for the default
    language. *)
Definition resolve (mf : manifest) (rtp dflt ietf : string) : resolution :=
  match mf !! rtp with
  | None => PlatformUnsupported
  | Some langs =>
      match lookup_lang langs ietf with
      | Some a => Resolved a
      | None =>
          match lookup_lang langs dflt with
          | Some a => Resolved a
          | None => LanguageUnresolved
          end
      end
  end.

(** A typed manifest as the decoder delivers it. *)
Definition artifact_value (a : artifact) : value :=
  VMap {[ "binary" := VStr (binary a); "sig" := VStr (sig a) ]}.

Definition manifest_map (mf : manifest) : gmap string value :=
  {[ "downloads" := VMap ((λ langs, VMap (artifact_value <$> langs)) <$> mf) ]}.

(** ** The type of a manifest

    The shape that the type assertions of the lookup ask for: the field
    [downloads] is a map from platform keys to maps from language tags
    to entries, and an entry has two strings [binary] and [sig].  Other
    fields may be there at every level. *)

Definition artifact_ty : jtype := TStruct [("binary", TString); ("sig", TString)].
Definition manifest_ty : jtype :=
  TStruct [("downloads", TMapOf (TMapOf artifact_ty))].

(** The typed manifest that a decoded document holds: what the
    assertions and the indexing of the lookup read from it. *)
Definition string_of (v : option value) : string :=
  match v with Some (VStr s) => s | _ => "" end.

Definition artifact_of (v : value) : artifact :=
  match v with
  | VMap m => {| binary := string_of (m !! "binary"); sig := string_of (m !! "sig") |}
  | _ => {| binary := ""; sig := "" |}
  end.

Definition langs_of (v : value) : gmap string artifact :=
  match v with VMap m => artifact_of <$> m | _ => ∅ end.

Definition manifest_of (dat : gmap string value) : manifest :=
  match dat !! "downloads" with
  | Some (VMap pm) => langs_of <$> pm
  | _ => ∅
  end.

(** A document decodes to a typed manifest. *)
Definition decodes `{JsonDecoder} (jsonBytes : string) (mf : manifest) : Prop :=
  ∃ dat, Unmarshal_map jsonBytes = inr dat ∧
         typed manifest_ty (VMap dat) ∧ manifest_of dat = mf.

Section typed_manifest.
Implicit Types (mf : manifest) (a : artifact) (v : value).

Lemma typed_artifact_value a : typed artifact_ty (artifact_value a).
Proof. done. Qed.

(** Encoding a typed manifest and reading it back gives the manifest. *)
Lemma artifact_of_value a : artifact_of (artifact_value a) = a.
Proof. by destruct a. Qed.

Lemma manifest_of_map mf : manifest_of (manifest_map mf) = mf.
Proof.
  unfold manifest_of, manifest_map. rewrite lookup_singleton_eq.
  rewrite <-map_fmap_compose. rewrite <-(map_fmap_id mf) at 2.
  apply map_fmap_ext. intros k langs _. simpl.
  rewrite <-map_fmap_compose. rewrite <-(map_fmap_id langs) at 2.
  apply map_fmap_ext. intros l a _. apply artifact_of_value.
Qed.

Lemma typed_manifest_map mf : typed manifest_ty (VMap (manifest_map mf)).
Proof.
  apply typed_TStruct. exists (manifest_map mf). split; [done|].
  apply Forall_singleton. eexists. split; [apply lookup_singleton_eq|].
  apply typed_TMapOf. eexists. split; [done|].
  intros k v (langs & <- & _)%lookup_fmap_Some.
  apply typed_TMapOf. eexists. split; [done|].
  intros l v (a & <- & _)%lookup_fmap_Some. apply typed_artifact_value.
Qed.

(** The parts of a typed document. *)
Lemma typed_downloads dat :
  typed manifest_ty (VMap dat) →
  ∃ pm, dat !! "downloads" = Some (VMap pm) ∧ manifest_of dat = langs_of <$> pm ∧
        typed (TMapOf (TMapOf artifact_ty)) (VMap pm).
Proof.
  intros Ht. destruct (typed_field _ dat "downloads" _ Ht (list_elem_of_here _ _))
    as (v & Hv & Htv).
  pose proof Htv as (pm & -> & _)%typed_TMapOf.
  exists pm. unfold manifest_of. by rewrite Hv.
Qed.

Lemma typed_updater pm rtp updater :
  typed (TMapOf (TMapOf artifact_ty)) (VMap pm) → pm !! rtp = Some updater →
  ∃ um, updater = VMap um ∧ typed (TMapOf artifact_ty) (VMap um).
Proof.
  intros Ht Hu. pose proof (typed_lookup _ _ _ _ Ht Hu) as Htu.
  pose proof Htu as (um & -> & _)%typed_TMapOf. eauto.
Qed.

Lemma typed_entry v :
  typed artifact_ty v →
  ∃ m, v = VMap m ∧ m !! "binary" = Some (VStr (binary (artifact_of v))) ∧
       m !! "sig" = Some (VStr (sig (artifact_of v))).
Proof.
  intros Ht. pose proof Ht as (m & -> & _)%typed_TStruct. exists m.
  destruct (typed_field _ m "binary" TString Ht) as (b & Hb & (? & ->)%typed_TString);
    [set_solver|].
  destruct (typed_field _ m "sig" TString Ht) as (g & Hg & (? & ->)%typed_TString);
    [set_solver|].
  simpl. by rewrite Hb, Hg.
Qed.

End typed_manifest.

(** ** One level of the lookup *)

Section lookup.
Context `{Runtime} `{JsonDecoder}.
Implicit Types (s : state) (mf : manifest) (a : artifact).

(** The entry of a language is returned with both its fields. *)
Lemma return_entry_typed v s :
  typed artifact_ty v →
  return_entry v s = (Ret (binary (artifact_of v), sig (artifact_of v), None), s).
Proof.
  intros (m & -> & Hb & Hg)%typed_entry. unfold return_entry. go_run. simpl.
  by rewrite Hb, Hg.
Qed.

Lemma Unmarshal_map_Decode jsonBytes m :
  json_Decode jsonBytes = inr (VMap m) → Unmarshal_map jsonBytes = inr m.
Proof. intros Hd. unfold Unmarshal_map. by rewrite Hd. Qed.

(** The document of a typed manifest decodes to it, also with other
    fields beside [downloads]. *)
Lemma decodes_more_fields jsonBytes mf dat dat' :
  dat = manifest_map mf → dat ⊆ dat' → Unmarshal_map jsonBytes = inr dat' →
  decodes jsonBytes mf.
Proof.
  intros -> Hm Hd. exists dat'. split_and!; [done| |].
  - eapply typed_more_fields, typed_manifest_map. done.
  - etrans; [|apply manifest_of_map]. unfold manifest_of.
    rewrite (lookup_weaken _ _ _ _ (lookup_singleton_eq _ _) Hm).
    unfold manifest_map. by rewrite lookup_singleton_eq.
Qed.

(** The text before the first hyphen is what [Split] gives at index 0. *)
Lemma index0_Split ietf s : index0 (Split ietf "-") s = (Ret (primary ietf), s).
Proof.
  unfold primary. pose proof (Split_nonempty ietf "-" ltac:(done)) as Hne.
  by destruct (Split ietf "-").
Qed.

(** The state when the platform key has been computed. *)
Definition entered s : state :=
  after_key (noted "GetUpdaterForLangFromJSONBytes()" "Parsing JSON complete"
            (noted "GetUpdaterForLangFromJSONBytes()" "Parsing JSON" s)).

Lemma entered_Lang s : Lang (tbd (entered s)) = Lang (tbd s).
Proof.
  unfold entered. destruct (after_key_fields
    (noted "GetUpdaterForLangFromJSONBytes()" "Parsing JSON complete"
       (noted "GetUpdaterForLangFromJSONBytes()" "Parsing JSON" s))) as (-> & _).
  by rewrite !noted_tbd.
Qed.

Lemma entered_files s : files (entered s) = files s.
Proof. unfold entered. by rewrite after_key_files, !noted_files. Qed.

Lemma entered_events s : events (entered s) = events s.
Proof. unfold entered. by rewrite after_key_events, !noted_events. Qed.

Lemma entered_bootstrapped s : bootstrapped s → bootstrapped (entered s).
Proof. unfold entered. eauto with go. Qed.

Lemma entered_key s :
  stable_key (tbd s) → platform_key (tbd (entered s)) = platform_key (tbd s).
Proof.
  intros Hs. unfold entered.
  rewrite platform_key_after by (by rewrite !noted_tbd). by rewrite !noted_tbd.
Qed.

Lemma entered_stable s : stable_key (tbd (entered s)).
Proof. apply stable_key_after. Qed.

Definition no_platform (rtp : string) : string * string * error :=
  ("", "", Some ("t.GetUpdaterForLangFromJSONBytes: no updater for platform "
                 +:+ rtp)).

(** On a typed manifest, in a directory that is set up, a call with fuel
    left returns the entry of the language or of its primary subtag, or
    reports the platform, or calls itself with the default language. *)
Lemma GetUpdater_level fuel jsonBytes mf ietf s :
  bootstrapped s → decodes jsonBytes mf →
  GetUpdaterForLangFromJSONBytes (S fuel) jsonBytes ietf s =
  match mf !! platform_key (tbd s) with
  | None => (Ret (no_platform (platform_key (tbd s))), entered s)
  | Some langs =>
      match langs !! ietf with
      | Some a =>
          (Ret (binary a, sig a, None),
           noted "GetUpdaterForLangFromJSONBytes()" "Found updater for language"
             (entered s))
      | None =>
          match langs !! primary ietf with
          | Some a =>
              (Ret (binary a, sig a, None),
               noted "GetUpdaterForLangFromJSONBytes()"
                 "Found updater for backup language"
                 (entered s))
          | None =>
              GetUpdaterForLangFromJSONBytes fuel jsonBytes (Lang (tbd s))
                (noted "GetUpdaterForLangFromJSONBytes()"
                   "Last attempt, trying default language"
                   (entered s))
          end
      end
  end.
Proof.
  intros Hb (dat & Hj & Ht & <-). cbn [GetUpdaterForLangFromJSONBytes]. go_run.
  rewrite MakeTBDirectory_bootstrapped by done.
  rewrite Log_run, Hj. go_run. rewrite Log_run. go_run.
  destruct (typed_downloads dat Ht) as (pm & -> & -> & Htp).
  rewrite GetRuntimePair_run. unfold as_map. go_run.
  rewrite lookup_fmap, !noted_tbd. fold (entered s).
  destruct (pm !! platform_key (tbd s)) as [updater|] eqn:Hu; [|done].
  destruct (typed_updater _ _ _ Htp Hu) as (um & -> & Htu). simpl.
  rewrite lookup_fmap. destruct (um !! ietf) as [lu|] eqn:Hl; simpl.
  { by rewrite Log_run, return_entry_typed by (by eapply typed_lookup). }
  rewrite index0_Split, lookup_fmap.
  destruct (um !! primary ietf) as [lu|] eqn:Hl'; simpl.
  { by rewrite Log_run, return_entry_typed by (by eapply typed_lookup). }
  by rewrite Log_run, noted_tbd, entered_Lang.
Qed.

(** The state in which the method calls itself. *)
Definition retried s : state :=
  noted "GetUpdaterForLangFromJSONBytes()"
    "Last attempt, trying default language" (entered s).

Lemma retried_bootstrapped s : bootstrapped s → bootstrapped (retried s).
Proof. intros Hb. by apply bootstrapped_noted, entered_bootstrapped. Qed.

Lemma retried_Lang s : Lang (tbd (retried s)) = Lang (tbd s).
Proof. unfold retried. by rewrite noted_tbd, entered_Lang. Qed.

Lemma retried_key s :
  stable_key (tbd s) → platform_key (tbd (retried s)) = platform_key (tbd s).
Proof. intros Hs. unfold retried. by rewrite noted_tbd, entered_key. Qed.

Lemma retried_stable s : stable_key (tbd (retried s)).
Proof. unfold retried. rewrite noted_tbd. apply entered_stable. Qed.

Lemma lookup_lang_None langs ietf :
  lookup_lang langs ietf = None ↔ langs !! ietf = None ∧ langs !! primary ietf = None.
Proof.
  unfold lookup_lang. destruct (langs !! ietf); split; try done.
  - by intros [? _].
  - by intros [_ ?].
Qed.

(** A language with an entry, or whose primary subtag has one, is
    resolved by one call. *)
Lemma GetUpdater_found fuel jsonBytes mf langs ietf a s :
  bootstrapped s → decodes jsonBytes mf →
  mf !! platform_key (tbd s) = Some langs → lookup_lang langs ietf = Some a →
  (GetUpdaterForLangFromJSONBytes (S fuel) jsonBytes ietf s).1
  = Ret (binary a, sig a, None).
Proof.
  intros Hb Hj Hp Hl. rewrite (GetUpdater_level _ _ mf), Hp by done.
  unfold lookup_lang in Hl. destruct (langs !! ietf); [by simplify_eq|].
  by rewrite Hl.
Qed.

(** Any other language leads to a call with the default language. *)
Lemma GetUpdater_retry fuel jsonBytes mf langs ietf s :
  bootstrapped s → decodes jsonBytes mf →
  mf !! platform_key (tbd s) = Some langs → lookup_lang langs ietf = None →
  GetUpdaterForLangFromJSONBytes (S fuel) jsonBytes ietf s
  = GetUpdaterForLangFromJSONBytes fuel jsonBytes (Lang (tbd s)) (retried s).
Proof.
  intros Hb Hj Hp Hl. rewrite (GetUpdater_level _ _ mf), Hp by done.
  by apply lookup_lang_None in Hl as [-> ->].
Qed.

(** Where neither the language nor the default language has an entry,
    every call leads to another one: no amount of fuel gives a return. *)
Lemma GetUpdater_unresolved fuel jsonBytes mf langs ietf s :
  bootstrapped s → stable_key (tbd s) →
  decodes jsonBytes mf →
  mf !! platform_key (tbd s) = Some langs →
  lookup_lang langs ietf = None → lookup_lang langs (Lang (tbd s)) = None →
  (GetUpdaterForLangFromJSONBytes fuel jsonBytes ietf s).1 = Timeout.
Proof.
  revert ietf s. induction fuel as [|fuel IH]; intros ietf s Hb Hs Hj Hp Hl Hd;
    [done|].
  rewrite (GetUpdater_retry _ _ mf langs) by done.
  apply IH; rewrite ?retried_key, ?retried_Lang;
    auto using retried_bootstrapped, retried_stable.
Qed.

(** What [resolve] finds is returned by two levels of calls. *)
Lemma GetUpdater_resolved fuel jsonBytes mf ietf a s :
  bootstrapped s → stable_key (tbd s) → decodes jsonBytes mf →
  resolve mf (platform_key (tbd s)) (Lang (tbd s)) ietf = Resolved a →
  (GetUpdaterForLangFromJSONBytes (2 + fuel) jsonBytes ietf s).1
  = Ret (binary a, sig a, None).
Proof.
  intros Hb Hs Hj. unfold resolve. change (2 + fuel) with (S (S fuel)).
  destruct (mf !! platform_key (tbd s)) as [langs|] eqn:Hp; [|done].
  destruct (lookup_lang langs ietf) as [a'|] eqn:Hl.
  { intros [= <-]. by apply (GetUpdater_found _ _ mf langs). }
  destruct (lookup_lang langs (Lang (tbd s))) as [a'|] eqn:Hd; [|done].
  intros [= <-]. rewrite (GetUpdater_retry _ _ mf langs) by done.
  apply (GetUpdater_found _ _ mf langs);
    rewrite ?retried_key, ?retried_Lang; auto using retried_bootstrapped.
Qed.

(** C2: the method computes [resolve]: on a typed manifest, in a
    directory that is set up and with a stable platform key, two levels
    of calls return the entry that [resolve] finds or report the
    platform, and where [resolve] finds no language the method does not
    return, whatever the fuel. *)
Theorem GetUpdater_refines fuel jsonBytes mf ietf s :
  bootstrapped s → stable_key (tbd s) →
  decodes jsonBytes mf →
  (GetUpdaterForLangFromJSONBytes (2 + fuel) jsonBytes ietf s).1 =
  match resolve mf (platform_key (tbd s)) (Lang (tbd s)) ietf with
  | Resolved a => Ret (binary a, sig a, None)
  | PlatformUnsupported => Ret (no_platform (platform_key (tbd s)))
  | LanguageUnresolved => Timeout
  end.
Proof.
  intros Hb Hs Hj.
  destruct (resolve mf _ _ ietf) as [a| |] eqn:Hr;
    [by apply (GetUpdater_resolved _ _ mf)|..];
    unfold resolve in Hr; change (2 + fuel) with (S (S fuel));
    destruct (mf !! platform_key (tbd s)) as [langs|] eqn:Hp;
    try (by repeat case_match).
  - by rewrite (GetUpdater_level _ _ mf), Hp.
  - apply (GetUpdater_unresolved _ _ mf langs); try done; by repeat case_match.
Qed.

(** C11: a well-typed manifest does not go wrong: on a document that
    decodes to a value of the type [manifest_ty], in a directory that
    is set up, no type assertion of the lookup fails and nothing else
    panics or ends the process, whatever the language, the platform and
    the number of calls; the method returns or calls itself again. *)
Theorem GetUpdater_typed_safe fuel jsonBytes dat ietf s :
  bootstrapped s → Unmarshal_map jsonBytes = inr dat →
  typed manifest_ty (VMap dat) →
  crashes (GetUpdaterForLangFromJSONBytes fuel jsonBytes ietf s).1 = false.
Proof.
  intros Hb Hj Ht. revert ietf s Hb.
  induction fuel as [|fuel IH]; intros ietf s Hb; [done|].
  rewrite (GetUpdater_level _ _ (manifest_of dat)) by (done || by exists dat).
  repeat case_match; try done. by apply IH, retried_bootstrapped.
Qed.

(** ** The other branches *)

(** The state after the two lines logged before the lookup. *)
Definition parsed s : state :=
  noted "GetUpdaterForLangFromJSONBytes()" "Parsing JSON complete"
    (noted "GetUpdaterForLangFromJSONBytes()" "Parsing JSON" s).

(** A document that does not decode to a map is reported as an error. *)
Lemma GetUpdater_undecoded fuel jsonBytes ietf err s :
  bootstrapped s → Unmarshal_map jsonBytes = inl err →
  GetUpdaterForLangFromJSONBytes (S fuel) jsonBytes ietf s
  = (Ret ("", "", Some ("func (t *TBDownloader)Name: " +:+ err)),
     noted "GetUpdaterForLangFromJSONBytes()" "Parsing JSON" s).
Proof.
  intros Hb Hj. cbn [GetUpdaterForLangFromJSONBytes]. go_run.
  by rewrite MakeTBDirectory_bootstrapped, Log_run, Hj.
Qed.

(** A map without the field [downloads] is reported with the language
    as the text of the error. *)
Lemma GetUpdater_no_downloads fuel jsonBytes ietf dat s :
  bootstrapped s → Unmarshal_map jsonBytes = inr dat → dat !! "downloads" = None →
  GetUpdaterForLangFromJSONBytes (S fuel) jsonBytes ietf s
  = (Ret ("", "", Some ("t.GetUpdaterForLangFromJSONBytes: " +:+ ietf)), parsed s).
Proof.
  intros Hb Hj Hd. cbn [GetUpdaterForLangFromJSONBytes]. go_run.
  rewrite MakeTBDirectory_bootstrapped, Log_run, Hj by done. go_run.
  by rewrite Log_run, Hd.
Qed.

(** A value that is not a map where a map is asserted. *)
Definition not_map (v : value) : Prop := ∀ m, v ≠ VMap m.

Lemma as_map_panics v s :
  not_map v →
  as_map v s = (Panic ("interface conversion: interface {} is " +:+ type_name v
                       +:+ ", not map[string]interface {}"), s).
Proof. intros Hv. destruct v; try done. by destruct (Hv m). Qed.

(** C26: a manifest whose field [downloads] is not a map makes the
    method panic at its first type assertion. *)
Theorem GetUpdater_ill_typed_panics fuel jsonBytes ietf dat v s :
  bootstrapped s → Unmarshal_map jsonBytes = inr dat →
  dat !! "downloads" = Some v → not_map v →
  (GetUpdaterForLangFromJSONBytes (S fuel) jsonBytes ietf s).1
  = Panic ("interface conversion: interface {} is " +:+ type_name v
           +:+ ", not map[string]interface {}").
Proof.
  intros Hb Hj Hd Hv. cbn [GetUpdaterForLangFromJSONBytes]. go_run.
  rewrite MakeTBDirectory_bootstrapped, Log_run, Hj by done. go_run.
  by rewrite Log_run, Hd, GetRuntimePair_run, as_map_panics.
Qed.

Lemma retried_key_darwin s :
  GOOS = "darwin" → ¬ configured (tbd s) →
  platform_key (tbd (retried s)) = "osx" +:+ arch_of_GOARCH GOARCH.
Proof.
  intros Hd Hc. unfold retried, entered.
  by rewrite noted_tbd, platform_key_after_darwin by (by rewrite ?noted_tbd).
Qed.

(** C13: on darwin, with a receiver whose platform fields are not set,
    the first lookup is made under ["osx"] and the lookup of the default
    language under ["osx"] followed by the architecture: a manifest that
    lists the default language under ["osx"] only is answered with
    "no updater for platform". *)
Theorem GetUpdater_darwin_fallback fuel jsonBytes mf langs ietf s :
  GOOS = "darwin" → ¬ configured (tbd s) → bootstrapped s →
  decodes jsonBytes mf →
  mf !! "osx" = Some langs → lookup_lang langs ietf = None →
  mf !! ("osx" +:+ arch_of_GOARCH GOARCH) = None →
  (GetUpdaterForLangFromJSONBytes (2 + fuel) jsonBytes ietf s).1
  = Ret (no_platform ("osx" +:+ arch_of_GOARCH GOARCH)).
Proof.
  intros Hd Hc Hb Hj Hp Hl Hn. change (2 + fuel) with (S (S fuel)).
  rewrite (GetUpdater_retry _ _ mf langs)
    by (by rewrite ?platform_key_darwin).
  rewrite (GetUpdater_level _ _ mf) by auto using retried_bootstrapped.
  by rewrite retried_key_darwin, Hn.
Qed.

(** ** What the method keeps, whatever the manifest and the fuel

    The type assertions and the indexing touch no state: they respect
    every relation. *)

Section assertions.
Context (R : relation state) `{!PreOrder R}.

Lemma as_map_respects v : respects R (as_map v).
Proof. unfold as_map. solve_respects. Qed.

Lemma as_string_respects v : respects R (as_string v).
Proof. unfold as_string. solve_respects. Qed.

Lemma index0_respects l : respects R (index0 l).
Proof. unfold index0. solve_respects. Qed.

Lemma return_entry_respects v : respects R (return_entry v).
Proof.
  unfold return_entry. solve_respects;
    auto using as_map_respects, as_string_respects.
Qed.

End assertions.

Hint Resolve as_map_respects as_string_respects index0_respects
  return_entry_respects : go.

Lemma GetUpdaterForLangFromJSONBytes_persists fuel jsonBytes ietf :
  respects persists (GetUpdaterForLangFromJSONBytes fuel jsonBytes ietf).
Proof.
  revert ietf. induction fuel as [|fuel IH]; intros ietf;
    cbn [GetUpdaterForLangFromJSONBytes]; solve_respects.
Qed.

Hint Resolve GetUpdaterForLangFromJSONBytes_persists : go.

Lemma GetUpdaterForLangFromJSON_persists fuel r ietf :
  respects persists (GetUpdaterForLangFromJSON fuel r ietf).
Proof. unfold GetUpdaterForLangFromJSON. solve_respects. Qed.

(** In a directory that is set up the lookup writes nothing. *)
Lemma GetUpdaterForLangFromJSONBytes_settled fuel jsonBytes ietf :
  respects settled (GetUpdaterForLangFromJSONBytes fuel jsonBytes ietf).
Proof.
  revert ietf. induction fuel as [|fuel IH]; intros ietf;
    cbn [GetUpdaterForLangFromJSONBytes]; solve_respects.
Qed.

(** With the platform fields set it only logs. *)
Lemma GetUpdaterForLangFromJSONBytes_only_logs fuel jsonBytes ietf :
  respects only_logs (GetUpdaterForLangFromJSONBytes fuel jsonBytes ietf).
Proof.
  revert ietf. induction fuel as [|fuel IH]; intros ietf;
    cbn [GetUpdaterForLangFromJSONBytes]; solve_respects.
Qed.

(** The path of the snapshot of the manifest. *)
Definition snapshot_path s : string :=
  Join [DownloadPath (tbd s); "downloads.json"].

(** The state in which the lookup starts: the snapshot is written. *)
Definition snapshot r k s : state :=
  set_files (λ _, (write_file (files s) k (body r) mode_0644).1) s.

Lemma snapshot_bootstrapped r k s :
  bootstrapped s → key (snapshot_path s) = Some k → bootstrapped (snapshot r k s).
Proof.
  intros Hb Hk. apply (bootstrapped_persists s); [done|].
  pose proof (ioutil_WriteFile_persists (snapshot_path s) (body r) mode_0644 s) as Hp.
  by rewrite (ioutil_WriteFile_run _ _ _ _ k) in Hp.
Qed.

(** The method up to the lookup. *)
Lemma GetUpdaterForLangFromJSON_run fuel r ietf s k :
  bootstrapped s → read_error r = None → key (snapshot_path s) = Some k →
  GetUpdaterForLangFromJSON fuel r ietf s =
  match (write_file (files s) k (body r) mode_0644).2 with
  | Some e =>
      (Ret ("", "", Some ("t.GetUpdaterForLangFromJSON: "
                          +:+ PathError "open" (snapshot_path s) e)),
       snapshot r k s)
  | None => GetUpdaterForLangFromJSONBytes fuel (body r) ietf (snapshot r k s)
  end.
Proof.
  intros Hb Hr Hk. unfold GetUpdaterForLangFromJSON. rewrite Hr.
  rewrite (bind_run_Ret _ _ _ _ _ (MakeTBDirectory_bootstrapped s Hb)).
  rewrite (bind_run_Ret (gets tbd) _ s (tbd s) s eq_refl).
  rewrite (bind_run_Ret _ _ _ _ _ (ioutil_WriteFile_run _ _ _ s k Hk)).
  fold (snapshot r k s) (snapshot_path s).
  by destruct (write_file (files s) k (body r) mode_0644).2.
Qed.

(** C16: the manifest that was fetched is saved: in a directory that is
    set up, a body that was read is written to [downloads.json] of the
    download directory, over any earlier copy, before the lookup; and
    the lookup writes nothing, so the snapshot is there however the
    lookup ends, also when it panics or does not return. *)
Theorem GetUpdaterForLangFromJSON_snapshot fuel r ietf s k :
  bootstrapped s → read_error r = None →
  key (snapshot_path s) = Some k → writable (files s) k = true →
  files (GetUpdaterForLangFromJSON fuel r ietf s).2
  = <[k := File (body r) (file_mode (files s) k mode_0644)]> (files s).
Proof.
  intros Hb Hr Hk Hw. rewrite (GetUpdaterForLangFromJSON_run _ _ _ _ k) by done.
  pose proof (snapshot_bootstrapped r k s Hb Hk) as Hb1.
  destruct (GetUpdaterForLangFromJSONBytes_settled fuel (body r) ietf _ Hb1)
    as [Hf _].
  unfold snapshot in *. rewrite write_file_writable in * by done.
  cbn [fst snd] in *. by rewrite Hf.
Qed.

End lookup.

#[export] Hint Resolve GetUpdaterForLangFromJSONBytes_persists
  GetUpdaterForLangFromJSON_persists : go.

(** ** The theorems at a manifest

    A manifest with an English and a German bundle for 64-bit Linux and
    an English one under ["osx"], and a decoder that knows the document
    of this manifest (which has a field [version] besides [downloads]),
    one whose [downloads] is a number, and nothing else. *)

Definition bundle (lang : string) : artifact :=
  {| binary := "https://dist.example/tb-" +:+ lang +:+ ".tar.xz";
     sig := "https://dist.example/tb-" +:+ lang +:+ ".tar.xz.asc" |}.

Definition releases : manifest :=
  {[ "linux64" := {[ "en-US" := bundle "en-US"; "de" := bundle "de" ]};
     "osx" := {[ "en-US" := bundle "en-US" ]} ]}.

Definition documents : JsonDecoder :=
  {| json_Decode doc :=
       if decide (doc = "releases")
       then inr (VMap (<["version" := VStr "11.0.9"]> (manifest_map releases)))
       else if decide (doc = "number") then inr (VMap {[ "downloads" := VNum "1" ]})
       else inl "unexpected end of JSON input" |}.

Lemma releases_decodes : @decodes documents "releases" releases.
Proof.
  apply (decodes_more_fields _ _ (manifest_map releases)
           (<["version" := VStr "11.0.9"]> (manifest_map releases)));
    [done|by apply insert_subseteq|done].
Qed.

Lemma GetUpdater_refines_witness :
  (@GetUpdaterForLangFromJSONBytes linux_amd64 documents 2 "releases" "de-AT"
     (start undetected home)).1
  = Ret (binary (bundle "de"), sig (bundle "de"), None).
Proof.
  etrans; [apply (@GetUpdater_refines linux_amd64 documents 0 "releases"
                    releases "de-AT" (start undetected home))|by vm_compute].
  - by apply home_bootstrapped.
  - by right.
  - apply releases_decodes.
Defined.

Lemma GetUpdater_typed_safe_witness :
  crashes (@GetUpdaterForLangFromJSONBytes linux_amd64 documents 3 "releases" "tlh"
             (start undetected home)).1 = false.
Proof.
  apply (@GetUpdater_typed_safe linux_amd64 documents 3 "releases"
           (<["version" := VStr "11.0.9"]> (manifest_map releases)) "tlh"
           (start undetected home)); [by apply home_bootstrapped|done|].
  apply (typed_more_fields _ (manifest_map releases));
    [by apply insert_subseteq|apply typed_manifest_map].
Defined.

Lemma GetUpdaterForLangFromJSON_snapshot_witness :
  files (@GetUpdaterForLangFromJSON linux_amd64 documents 2
           {| body := "number"; read_error := None |} "en-US"
           (start undetected home)).2
    !! ["home"; "user"; "tor-browser"; "downloads.json"]
  = Some (File "number" mode_0644).
Proof.
  rewrite (@GetUpdaterForLangFromJSON_snapshot linux_amd64 documents 2
             {| body := "number"; read_error := None |} "en-US"
             (start undetected home)
             ["home"; "user"; "tor-browser"; "downloads.json"]);
    [by rewrite lookup_insert_eq|by apply home_bootstrapped|by vm_compute..].
Defined.

Lemma GetUpdater_ill_typed_panics_witness :
  (@GetUpdaterForLangFromJSONBytes linux_amd64 documents 1 "number" "en-US"
     (start undetected home)).1
  = Panic "interface conversion: interface {} is float64, not map[string]interface {}".
Proof.
  apply (@GetUpdater_ill_typed_panics linux_amd64 documents 0 "number" "en-US"
           {[ "downloads" := VNum "1" ]} (VNum "1")); try done.
  by apply home_bootstrapped.
Defined.

Lemma GetUpdater_darwin_fallback_witness :
  (@GetUpdaterForLangFromJSONBytes darwin_amd64 documents 2 "releases" "fr"
     (start undetected home)).1
  = Ret (@no_platform "osx64").
Proof.
  apply (@GetUpdater_darwin_fallback darwin_amd64 documents 0 "releases" releases
           {[ "en-US" := bundle "en-US" ]} "fr" (start undetected home));
    try done.
  - by intros [? _].
  - by apply (home_bootstrapped undetected).
  - apply releases_decodes.
Defined.
