(* ===== verification/Fetch.v ===== *)
(** * Download guard and fetcher

    [BotherToDownload], [SingleFileDownload], [DownloadUpdaterForLang]
    and [DownloadUpdater] of [src/get/get.go].

    The guard decides whether an artifact is fetched: it is when the
    file is not there, when the marker [<name>.last-url] cannot be read,
    and when the marker holds another URL.  The marker is written by a
    deferred call that is registered after the test for the file, so a
    call that finds no file writes no marker.

    The theorems give the guard on each branch, the state it leaves, its
    answer on a second call and after a change of URL, the two outcomes
    of the fetcher with the requests it makes, and that a fetch of a
    missing artifact is followed by a second fetch on the next run. *)

From stdpp Require Import base tactics option list strings gmap.
From Stdlib Require Import ZArith.
From S2P Require Import Prelude GoStrings GoPath FileSys Machine Platform.
From S2P Require Import Bootstrap Json Manifest.

Section fetch.
Context `{Runtime} `{Network} `{JsonDecoder}.

(** [func (t *TBDownloader) BotherToDownload(url, name string) bool]. *)
Definition BotherToDownload (url name : string) : Go bool :=
  t ← gets tbd;
  let path := Join [DownloadPath t; name] in
  there ← FileExists path;
  if negb there then mret true
  else
    deferred
      (ioutil_WriteFile (Join [DownloadPath t; name +:+ ".last-url"]) url
         mode_0644 ;; mret tt)
      ('(lastURL, err) ←
         ioutil_ReadFile (Join [DownloadPath t; name +:+ ".last-url"]);
       match err with
       | Some _ => mret true
       | None => if decide (lastURL = url) then mret false else mret true
       end).

(** [func (t *TBDownloader) SingleFileDownload(url, name string)]: the
    bytes of the body that arrive are copied, and the error that ends
    the copy is dropped. *)
Definition SingleFileDownload (url name : string) : Go (string * error) :=
  MakeTBDirectory ;;
  t ← gets tbd;
  let path := Join [DownloadPath t; name] in
  Log "SingleFileDownload()"
    ("Checking for updates " +:+ url +:+ " to " +:+ path) ;;
  bother ← BotherToDownload url name;
  if negb bother then
    Log "SingleFileDownload()" "File already exists, skipping download" ;;
    mret (path, None)
  else
    Log "SingleFileDownload()" "Downloading file" ;;
    emit (EvHttpGet url) ;;
    match http_Get url with
    | inl err => mret ("", Some ("SingleFileDownload: " +:+ err))
    | inr file =>
        err ← os_Create path;
        match err with
        | Some e => mret ("", Some ("SingleFileDownload: " +:+ e))
        | None =>
            write_open path (body file) ;;
            Log "SingleFileDownload()" "Downloading file complete" ;;
            mret (path, None)
        end
    end.

(** [func (t *TBDownloader) DownloadUpdaterForLang(ietf string)]: the
    signature is fetched before the bundle. *)
Definition DownloadUpdaterForLang (fuel : nat) (ietf : string)
  : Go (string * string * error) :=
  '(binary_url, sig_url, err) ← GetUpdaterForLang fuel ietf;
  match err with
  | Some e => mret ("", "", Some ("DownloadUpdaterForLang: " +:+ e))
  | None =>
      name ← NamePerPlatform ietf;
      '(sigpath, err) ← SingleFileDownload sig_url (name +:+ ".asc");
      match err with
      | Some e => mret ("", "", Some ("DownloadUpdaterForLang: " +:+ e))
      | None =>
          name ← NamePerPlatform ietf;
          '(binpath, err) ← SingleFileDownload binary_url name;
          match err with
          | Some e => mret ("", sigpath, Some ("DownloadUpdaterForLang: " +:+ e))
          | None => mret (binpath, sigpath, None)
          end
      end
  end.

(** [func (t *TBDownloader) DownloadUpdater()]. *)
Definition DownloadUpdater (fuel : nat) : Go (string * string * error) :=
  t ← gets tbd;
  DownloadUpdaterForLang fuel (Lang t).

End fetch.

(** ** The guard *)

Section guard.
Context `{Runtime}.
Implicit Types (s : state) (url name : string) (k km : path).

(** The paths of an artifact and of its marker. *)
Definition artifact_path s name : string := Join [DownloadPath (tbd s); name].
Definition marker_path s name : string :=
  Join [DownloadPath (tbd s); name +:+ ".last-url"].

(** The state after the marker of [name] was written with [url]. *)
Definition marked url km s : state :=
  set_files (λ σ, (write_file σ km url mode_0644).1) s.

(** Whether the marker at [km] holds [url]. *)
Definition recorded s km url : bool := bool_decide (read_file (files s) km = inr url).

Lemma BotherToDownload_missing url name s :
  absent s (artifact_path s name) → BotherToDownload url name s = (Ret true, s).
Proof.
  intros Ha. unfold BotherToDownload. go_run.
  by rewrite FileExists_absent.
Qed.

Lemma BotherToDownload_there url name s km :
  present s (artifact_path s name) → key (marker_path s name) = Some km →
  BotherToDownload url name s = (Ret (negb (recorded s km url)), marked url km s).
Proof.
  intros Hp Hk. unfold BotherToDownload. go_run.
  rewrite FileExists_present by done. simpl. unfold deferred. go_run.
  fold (marker_path s name). unfold ioutil_ReadFile. go_run. rewrite Hk.
  unfold recorded, marked.
  destruct (read_file (files s) km) as [[op e]|c] eqn:E; simpl.
  - by rewrite (ioutil_WriteFile_run _ _ _ _ km).
  - case_decide; rewrite (ioutil_WriteFile_run _ _ _ _ km) by done;
      [by rewrite bool_decide_true by congruence|].
    by rewrite bool_decide_false by congruence.
Qed.

Lemma marked_persists url km s : persists s (marked url km s).
Proof. apply persists_set_files; auto with go. Qed.

Lemma marked_events url km s : events (marked url km s) = events s.
Proof. done. Qed.

Lemma marked_again url km s : marked url km (marked url km s) = marked url km s.
Proof. unfold marked, set_files. simpl. by rewrite write_file_again. Qed.

Lemma marked_files url km s :
  writable (files s) km = true →
  files (marked url km s)
  = <[km := File url (file_mode (files s) km mode_0644)]> (files s).
Proof. intros Hw. unfold marked. simpl. by rewrite write_file_writable. Qed.

(** After the marker was written it holds the URL and no other. *)
Lemma recorded_marked url url' km s :
  writable (files s) km = true →
  recorded (marked url km s) km url' = bool_decide (url = url').
Proof.
  intros Hw. unfold recorded. rewrite marked_files, read_file_insert by done.
  apply bool_decide_ext. split; congruence.
Qed.

Lemma writable_marked url km s :
  writable (files s) km = true → writable (files (marked url km s)) km = true.
Proof. intros Hw. rewrite marked_files by done. apply writable_insert. Qed.

(** C4: the guard answers "skip" exactly when the artifact is there and
    its marker holds the URL asked for. *)
Theorem BotherToDownload_skips_iff url name s km :
  key (marker_path s name) = Some km →
  present s (artifact_path s name) ∨ absent s (artifact_path s name) →
  (BotherToDownload url name s).1 = Ret false ↔
  present s (artifact_path s name) ∧ read_file (files s) km = inr url.
Proof.
  intros Hk [Hp|Ha].
  - rewrite (BotherToDownload_there _ _ _ km) by done. unfold recorded. simpl.
    case_bool_decide; (split; [done|]); [done | by intros [_ ?]].
  - rewrite BotherToDownload_missing by done. split; [done|].
    intros [(k & n & Hkk & Hn) _]. destruct (Ha k Hkk). congruence.
Qed.

(** A call that finds no artifact answers "fetch" and leaves the
    state as it is: the marker is not written on that path. *)
Lemma BotherToDownload_missing_writes_nothing url name s :
  absent s (artifact_path s name) →
  (BotherToDownload url name s).1 = Ret true ∧
  files (BotherToDownload url name s).2 = files s.
Proof. intros Ha. by rewrite BotherToDownload_missing. Qed.

(** C14: with the artifact in place and a marker that can be written, a
    second call with the same URL answers "skip" and changes nothing. *)
Theorem BotherToDownload_idempotent url name s km :
  present s (artifact_path s name) → key (marker_path s name) = Some km →
  writable (files s) km = true →
  let s1 := (BotherToDownload url name s).2 in
  BotherToDownload url name s1 = (Ret false, s1).
Proof.
  intros Hp Hk Hw s1. unfold s1.
  rewrite (BotherToDownload_there url name s km) by done. cbn [fst snd].
  rewrite (BotherToDownload_there _ _ _ km)
    by eauto using present_persists, marked_persists.
  by rewrite recorded_marked, marked_again, bool_decide_true.
Qed.

(** A call with another URL than the one recorded answers "fetch" and
    records the new URL, so that the call after it answers "skip". *)
Lemma BotherToDownload_url_change url url' name s km :
  present s (artifact_path s name) → key (marker_path s name) = Some km →
  writable (files s) km = true → url ≠ url' →
  let s1 := (BotherToDownload url name s).2 in
  let s2 := (BotherToDownload url' name s1).2 in
  (BotherToDownload url' name s1).1 = Ret true ∧
  (BotherToDownload url' name s2).1 = Ret false.
Proof.
  intros Hp Hk Hw Hne s1 s2. unfold s2, s1.
  rewrite (BotherToDownload_there url name s km) by done. cbn [fst snd].
  assert (present (marked url km s) (artifact_path s name)) as Hp1
    by eauto using present_persists, marked_persists.
  rewrite (BotherToDownload_there url' name (marked url km s) km) by done.
  cbn [fst snd].
  rewrite (BotherToDownload_there url' _ _ km)
    by eauto using present_persists, marked_persists.
  rewrite !recorded_marked by auto using writable_marked.
  by rewrite bool_decide_false, bool_decide_true.
Qed.

Lemma BotherToDownload_persists url name : respects persists (BotherToDownload url name).
Proof. unfold BotherToDownload. solve_respects. Qed.

End guard.

#[export] Hint Resolve BotherToDownload_persists : go.

(** ** The fetcher *)

Section fetcher.
Context `{Runtime} `{Network}.
Implicit Types (s : state) (url name : string) (k km : path) (r : response).

(** The state in which the guard is asked. *)
Definition checking url name s : state :=
  noted "SingleFileDownload()"
    ("Checking for updates " +:+ url +:+ " to " +:+ artifact_path s name) s.

(** The state after the request, from the state [s1] the guard left. *)
Definition requested url s1 : state :=
  set_events (λ l, l ++ [EvHttpGet url])
    (noted "SingleFileDownload()" "Downloading file" s1).

(** The state after the body [r] was copied to the file at [k]. *)
Definition fetched url k r s1 : state :=
  noted "SingleFileDownload()" "Downloading file complete"
    (set_files (λ σ, <[k := File (body r) (file_mode σ k mode_0666)]> σ)
       (requested url s1)).

Lemma checking_files url name s : files (checking url name s) = files s.
Proof. apply noted_files. Qed.

Lemma checking_tbd url name s : tbd (checking url name s) = tbd s.
Proof. apply noted_tbd. Qed.

Lemma checking_events url name s : events (checking url name s) = events s.
Proof. apply noted_events. Qed.

Lemma requested_files url s1 : files (requested url s1) = files s1.
Proof. unfold requested. simpl. apply noted_files. Qed.

Lemma requested_events url s1 :
  events (requested url s1) = events s1 ++ [EvHttpGet url].
Proof. unfold requested. simpl. by rewrite noted_events. Qed.

Lemma fetched_files url k r s1 :
  files (fetched url k r s1)
  = <[k := File (body r) (file_mode (files s1) k mode_0666)]> (files s1).
Proof.
  unfold fetched. rewrite noted_files. cbn [files set_files].
  by rewrite requested_files.
Qed.

Lemma fetched_events url k r s1 :
  events (fetched url k r s1) = events s1 ++ [EvHttpGet url].
Proof.
  unfold fetched. rewrite noted_events. cbn [events set_files].
  apply requested_events.
Qed.

(** The method up to the answer of the guard. *)
Lemma SingleFileDownload_guard url name s :
  bootstrapped s →
  SingleFileDownload url name s =
  (bother ← BotherToDownload url name;
   if negb bother then
     Log "SingleFileDownload()" "File already exists, skipping download" ;;
     mret (artifact_path s name, None)
   else
     Log "SingleFileDownload()" "Downloading file" ;;
     emit (EvHttpGet url) ;;
     match http_Get url with
     | inl err => mret ("", Some ("SingleFileDownload: " +:+ err))
     | inr file =>
         err ← os_Create (artifact_path s name);
         match err with
         | Some e => mret ("", Some ("SingleFileDownload: " +:+ e))
         | None =>
             write_open (artifact_path s name) (body file) ;;
             Log "SingleFileDownload()" "Downloading file complete" ;;
             mret (artifact_path s name, None)
         end
     end) (checking url name s).
Proof.
  intros Hb. unfold SingleFileDownload. go_run.
  by rewrite MakeTBDirectory_bootstrapped, Log_run by done.
Qed.

(** The guard says "skip": no request is made. *)
Lemma SingleFileDownload_skip url name s s1 :
  bootstrapped s →
  BotherToDownload url name (checking url name s) = (Ret false, s1) →
  SingleFileDownload url name s
  = (Ret (artifact_path s name, None),
     noted "SingleFileDownload()" "File already exists, skipping download" s1).
Proof.
  intros Hb Hg. rewrite SingleFileDownload_guard by done. go_run.
  rewrite Hg. cbn [negb]. by rewrite Log_run.
Qed.

(** The guard says "fetch" and the request fails. *)
Lemma SingleFileDownload_refused url name s s1 err :
  bootstrapped s →
  BotherToDownload url name (checking url name s) = (Ret true, s1) →
  http_Get url = inl err →
  SingleFileDownload url name s
  = (Ret ("", Some ("SingleFileDownload: " +:+ err)), requested url s1).
Proof.
  intros Hb Hg Hr. rewrite SingleFileDownload_guard by done. go_run.
  rewrite Hg. cbn [negb]. by rewrite Log_run, Hr.
Qed.

(** The guard says "fetch" and the request is answered: the bytes that
    arrive become the content of the file. *)
Lemma SingleFileDownload_fetch url name s s1 k r :
  bootstrapped s →
  BotherToDownload url name (checking url name s) = (Ret true, s1) →
  http_Get url = inr r →
  key (artifact_path s name) = Some k → writable (files s1) k = true →
  SingleFileDownload url name s
  = (Ret (artifact_path s name, None), fetched url k r s1).
Proof.
  intros Hb Hg Hr Hk Hw. rewrite SingleFileDownload_guard by done. go_run.
  rewrite Hg. cbn [negb]. rewrite Log_run, Hr. unfold emit. go_run.
  fold (requested url s1).
  rewrite (os_Create_run _ _ k), requested_files, create_writable by done.
  cbn [fst snd fmap option_fmap option_map].
  rewrite (write_open_run _ _ _ k), Log_run by done. unfold fetched.
  do 2 f_equal. rewrite set_files_set_files. apply set_files_ext.
  cbn [compose]. by rewrite requested_files, append_file_insert, string_app_nil_l.
Qed.

Lemma SingleFileDownload_persists url name :
  respects persists (SingleFileDownload url name).
Proof. unfold SingleFileDownload. solve_respects. Qed.

(** The paths are those of the directory, which no stage changes. *)
Lemma artifact_path_persists s s' name :
  persists s s' → artifact_path s' name = artifact_path s name.
Proof. intros (_ & _ & (HD & _) & _). unfold artifact_path. by rewrite HD. Qed.

Lemma marker_path_persists s s' name :
  persists s s' → marker_path s' name = marker_path s name.
Proof. intros (_ & _ & (HD & _) & _). unfold marker_path. by rewrite HD. Qed.

Lemma checking_persists url name s : persists s (checking url name s).
Proof. apply noted_persists. Qed.

Lemma absent_writable s p k :
  absent s p → key p = Some k → is_dir (files s) (removelast k) = true →
  writable (files s) k = true ∧ file_mode (files s) k mode_0666 = mode_0666.
Proof.
  intros Ha Hk Hd. destruct (Ha k Hk) as [Hn _].
  unfold writable, file_mode. by rewrite Hn.
Qed.

(** The guard in the state in which the method asks it. *)
Lemma guard_checking_missing url name s :
  absent s (artifact_path s name) →
  BotherToDownload url name (checking url name s)
  = (Ret true, checking url name s).
Proof.
  intros Ha. apply BotherToDownload_missing.
  rewrite (artifact_path_persists s) by apply checking_persists.
  apply (absent_same s); [apply checking_files|done].
Qed.

Lemma guard_checking_there url name s km :
  present s (artifact_path s name) → key (marker_path s name) = Some km →
  BotherToDownload url name (checking url name s)
  = (Ret (negb (recorded (checking url name s) km url)),
     marked url km (checking url name s)).
Proof.
  intros Hp Hk. apply BotherToDownload_there.
  - rewrite (artifact_path_persists s) by apply checking_persists.
    apply (present_same s); [apply checking_files|done].
  - by rewrite (marker_path_persists s) by apply checking_persists.
Qed.

Lemma recorded_missing s km url : files s !! km = None → recorded s km url = false.
Proof.
  intros Hn. unfold recorded, read_file. rewrite Hn.
  by apply bool_decide_false.
Qed.

(** Replacing or adding a file removes nothing. *)
Lemma persists_set_fetch k (c : string) (m : fs → Z) s :
  writable (files s) k = true →
  persists s (set_files (λ σ, <[k := File c (m σ)]> σ) s).
Proof.
  intros Hw. apply persists_set_files.
  - apply fs_le_insert. intros m' Hm. unfold writable in Hw. by rewrite Hm in Hw.
  - intros Hwf. by apply fs_wf_writable.
Qed.

Lemma requested_persists url s : persists s (requested url s).
Proof.
  unfold requested. etrans; [apply noted_persists|].
  apply (emit_persists (EvHttpGet url)).
Qed.

(** A fetch into a place that can be written removes nothing, and the
    receiver is the one before it. *)
Lemma fetched_persists url k r s1 :
  writable (files s1) k = true → persists s1 (fetched url k r s1).
Proof.
  intros Hw. unfold fetched. etrans; [apply (requested_persists url)|].
  etrans; [|apply noted_persists]. apply persists_set_fetch.
  by rewrite requested_files.
Qed.

Lemma fetched_tbd url k r s1 : tbd (fetched url k r s1) = tbd s1.
Proof. unfold fetched, requested. rewrite noted_tbd. cbn. apply noted_tbd. Qed.

Lemma marked_tbd url km s : tbd (marked url km s) = tbd s.
Proof. done. Qed.

(** The first fetch, as the state it leaves. *)
Lemma SingleFileDownload_fresh url name s k r :
  bootstrapped s → absent s (artifact_path s name) →
  key (artifact_path s name) = Some k → is_dir (files s) (removelast k) = true →
  http_Get url = inr r →
  SingleFileDownload url name s
  = (Ret (artifact_path s name, None), fetched url k r (checking url name s)).
Proof.
  intros Hb Ha Hk Hd Hr. destruct (absent_writable s _ k Ha Hk Hd) as [Hw Hm].
  apply SingleFileDownload_fetch; rewrite ?checking_files; try done.
  by apply guard_checking_missing.
Qed.

(** C7: the first fetch of an artifact: in a directory that is set up,
    with nothing at the path of the artifact, the method makes one
    request, returns the path without error and leaves the bytes of the
    body that arrived as a new file with mode 0666; nothing else in the
    file system changes, and no marker is written.  The error that ended
    the body, if any, has no effect on the result. *)
Theorem SingleFileDownload_first_fetch url name s k r :
  bootstrapped s → absent s (artifact_path s name) →
  key (artifact_path s name) = Some k → is_dir (files s) (removelast k) = true →
  http_Get url = inr r →
  (SingleFileDownload url name s).1 = Ret (artifact_path s name, None) ∧
  files (SingleFileDownload url name s).2
  = <[k := File (body r) mode_0666]> (files s) ∧
  events (SingleFileDownload url name s).2 = events s ++ [EvHttpGet url].
Proof.
  intros Hb Ha Hk Hd Hr. rewrite (SingleFileDownload_fresh url name s k r) by done.
  destruct (absent_writable s _ k Ha Hk Hd) as [Hw Hm]. cbn [fst snd].
  by rewrite fetched_files, fetched_events, checking_files, checking_events, Hm.
Qed.

(** The state after the first fetch. *)
Lemma fresh_state url name s k r :
  bootstrapped s → absent s (artifact_path s name) →
  key (artifact_path s name) = Some k → is_dir (files s) (removelast k) = true →
  let s1 := fetched url k r (checking url name s) in
  bootstrapped s1 ∧ persists s s1 ∧
  files s1 = <[k := File (body r) mode_0666]> (files s) ∧
  events s1 = events s ++ [EvHttpGet url].
Proof.
  intros Hb Ha Hk Hd s1.
  destruct (absent_writable s _ k Ha Hk Hd) as [Hw Hm].
  assert (persists s s1) as Hp.
  { etrans; [apply (checking_persists url name)|].
    apply fetched_persists. by rewrite checking_files. }
  split_and!; [by eapply bootstrapped_persists|done|..]; unfold s1.
  - by rewrite fetched_files, checking_files, Hm.
  - by rewrite fetched_events, checking_events.
Qed.

(** A run that fetched a missing artifact wrote no marker, so the next
    run with the same URL fetches the artifact again: two runs make two
    requests. *)
Lemma SingleFileDownload_second_run_fetches_again url name s k km r :
  bootstrapped s → absent s (artifact_path s name) →
  key (artifact_path s name) = Some k → is_dir (files s) (removelast k) = true →
  key (marker_path s name) = Some km → km ≠ k → files s !! km = None →
  http_Get url = inr r →
  let s1 := (SingleFileDownload url name s).2 in
  let s2 := (SingleFileDownload url name s1).2 in
  events s2 = events s ++ [EvHttpGet url; EvHttpGet url].
Proof.
  intros Hb Ha Hk Hd Hkm Hne Hm Hr s1 s2. unfold s2, s1.
  rewrite (SingleFileDownload_fresh url name s k r) by done. cbn [snd].
  destruct (fresh_state url name s k r) as (Hb1 & Hp & Hf & He); [done..|].
  set (s' := fetched url k r (checking url name s)) in *.
  assert (files (checking url name s') !! k = Some (File (body r) mode_0666))
    as Hfile by (by rewrite checking_files, Hf, lookup_insert_eq).
  rewrite (SingleFileDownload_fetch url name s'
             (marked url km (checking url name s')) k r); [|done| |done|..].
  - cbn [snd].
    by rewrite fetched_events, marked_events, checking_events, He, <-app_assoc.
  - rewrite (guard_checking_there _ _ _ km), recorded_missing; [done|..].
    + by rewrite checking_files, Hf, lookup_insert_ne.
    + rewrite (artifact_path_persists s) by done. exists k. eexists.
      split; [done|]. by rewrite Hf, lookup_insert_eq.
    + by rewrite (marker_path_persists s).
  - by rewrite (artifact_path_persists s).
  - eapply writable_file. unfold marked. cbn [files set_files].
    by rewrite write_file_other.
Qed.

(** An artifact that is there with its marker holding the URL is not
    fetched: the method returns its path and makes no request. *)
Lemma SingleFileDownload_skips url name s km :
  bootstrapped s → present s (artifact_path s name) →
  key (marker_path s name) = Some km → read_file (files s) km = inr url →
  (SingleFileDownload url name s).1 = Ret (artifact_path s name, None) ∧
  events (SingleFileDownload url name s).2 = events s.
Proof.
  intros Hb Hp Hk Hr.
  rewrite (SingleFileDownload_skip url name s (marked url km (checking url name s))).
  - cbn [fst snd]. split; [done|]. rewrite noted_events. apply checking_events.
  - done.
  - rewrite (guard_checking_there _ _ _ km) by done.
    unfold recorded. by rewrite checking_files, bool_decide_true.
Qed.

(** A request that fails is reported as an error of the method, and the
    file system is as the guard left it: no file is created. *)
Lemma SingleFileDownload_request_fails url name s err :
  bootstrapped s → absent s (artifact_path s name) → http_Get url = inl err →
  (SingleFileDownload url name s).1
  = Ret ("", Some ("SingleFileDownload: " +:+ err)) ∧
  files (SingleFileDownload url name s).2 = files s.
Proof.
  intros Hb Ha Hr.
  rewrite (SingleFileDownload_refused url name s (checking url name s) err);
    [cbn [fst snd]; by rewrite requested_files, checking_files|done| |done].
  by apply guard_checking_missing.
Qed.

End fetcher.

#[export] Hint Resolve SingleFileDownload_persists : go.

(** ** The fetch stage as a whole *)

Section stage.
Context `{Runtime} `{Network} `{JsonDecoder}.
Implicit Types (s : state) (ietf : string) (fuel : nat).

Lemma GetUpdaterForLang_persists fuel ietf :
  respects persists (GetUpdaterForLang fuel ietf).
Proof. unfold GetUpdaterForLang. solve_respects. Qed.

Hint Resolve GetUpdaterForLang_persists : go.

Lemma DownloadUpdaterForLang_persists fuel ietf :
  respects persists (DownloadUpdaterForLang fuel ietf).
Proof. unfold DownloadUpdaterForLang. solve_respects. Qed.

(** An error of the lookup ends the stage before any download. *)
Lemma DownloadUpdaterForLang_unresolved fuel ietf s b g e s1 :
  GetUpdaterForLang fuel ietf s = (Ret (b, g, Some e), s1) →
  DownloadUpdaterForLang fuel ietf s
  = (Ret ("", "", Some ("DownloadUpdaterForLang: " +:+ e)), s1).
Proof.
  intros Hg. unfold DownloadUpdaterForLang.
  by rewrite (bind_run_Ret _ _ _ _ _ Hg).
Qed.

(** C10: the fetch stage removes no file and no directory, keeps the
    file system a tree, keeps the directories of the receiver, and only
    adds to the logs and to the record of requests; a directory that is
    set up is still set up after it, however the stage ends. *)
Theorem DownloadUpdater_keeps fuel s :
  persists s (DownloadUpdater fuel s).2 ∧
  (bootstrapped s → bootstrapped (DownloadUpdater fuel s).2).
Proof.
  assert (persists s (DownloadUpdater fuel s).2) as Hp
    by apply (DownloadUpdaterForLang_persists fuel (Lang (tbd s)) s).
  split; [done|]. intros Hb. by eapply bootstrapped_persists.
Qed.

End stage.

#[export] Hint Resolve GetUpdaterForLang_persists
  DownloadUpdaterForLang_persists : go.

(** ** The theorems at a bundle

    The bundle [tb.tar.xz] of the user of [linux_amd64], in the
    directory after the bootstrap ([fresh]) and with an older copy of
    the bundle in place ([stocked]). *)

Definition tb : string := "tb.tar.xz".
Definition tb_url : string := "https://dist.example/tb.tar.xz".
Definition tb_key : path := ["home"; "user"; "tor-browser"; "tb.tar.xz"].
Definition tb_marker : path := ["home"; "user"; "tor-browser"; "tb.tar.xz.last-url"].

Definition fresh : state := start undetected home.
Definition stocked : state :=
  start undetected (<[tb_key := File "old" mode_0644]> home).
Definition recorded_state : state :=
  start undetected
    (<[tb_marker := File tb_url mode_0644]> (<[tb_key := File "old" mode_0644]> home)).

Lemma fresh_absent : @absent linux_amd64 fresh (artifact_path fresh tb).
Proof. apply (@absent_intro linux_amd64 _ _ tb_key); by vm_compute. Qed.

Lemma stocked_present : @present linux_amd64 stocked (artifact_path stocked tb).
Proof. apply (@present_intro linux_amd64 _ _ tb_key (File "old" mode_0644)); by vm_compute. Qed.

Lemma recorded_bootstrapped : @bootstrapped linux_amd64 recorded_state.
Proof.
  apply (@bootstrapped_intro linux_amd64 _ ["home"; "user"; "tor-browser"]
           ["home"; "user"; "tor-browser"; key_name]
           ["home"; "user"; "unpack"; xpi_name]
           (File "key" mode_0644) (File "xpi" mode_0644)); by vm_compute.
Qed.

Lemma recorded_present :
  @present linux_amd64 recorded_state (artifact_path recorded_state tb).
Proof. apply (@present_intro linux_amd64 _ _ tb_key (File "old" mode_0644)); by vm_compute. Qed.

(** The guard on a directory without the artifact, and on one with the
    artifact under its marker. *)
Lemma BotherToDownload_skips_iff_witness :
  ((@BotherToDownload linux_amd64 tb_url tb fresh).1 = Ret false ↔
   @present linux_amd64 fresh (artifact_path fresh tb) ∧
   read_file (files fresh) tb_marker = inr tb_url) ∧
  ((@BotherToDownload linux_amd64 tb_url tb recorded_state).1 = Ret false ↔
   @present linux_amd64 recorded_state (artifact_path recorded_state tb) ∧
   read_file (files recorded_state) tb_marker = inr tb_url).
Proof.
  split.
  - apply (@BotherToDownload_skips_iff linux_amd64 tb_url tb fresh tb_marker);
      [by vm_compute|right; apply fresh_absent].
  - apply (@BotherToDownload_skips_iff linux_amd64 tb_url tb recorded_state
             tb_marker); [by vm_compute|left; apply recorded_present].
Defined.

Lemma BotherToDownload_missing_writes_nothing_witness :
  (@BotherToDownload linux_amd64 tb_url tb fresh).1 = Ret true ∧
  files (@BotherToDownload linux_amd64 tb_url tb fresh).2 = files fresh.
Proof.
  apply (@BotherToDownload_missing_writes_nothing linux_amd64 tb_url tb fresh),
    fresh_absent.
Defined.

Lemma BotherToDownload_idempotent_witness :
  let s1 := (@BotherToDownload linux_amd64 tb_url tb stocked).2 in
  @BotherToDownload linux_amd64 tb_url tb s1 = (Ret false, s1).
Proof.
  apply (@BotherToDownload_idempotent linux_amd64 tb_url tb stocked tb_marker);
    [apply stocked_present|by vm_compute..].
Defined.

Lemma BotherToDownload_url_change_witness :
  let s1 := (@BotherToDownload linux_amd64 tb_url tb stocked).2 in
  let s2 := (@BotherToDownload linux_amd64 "https://dist.example/new" tb s1).2 in
  (@BotherToDownload linux_amd64 "https://dist.example/new" tb s1).1 = Ret true ∧
  (@BotherToDownload linux_amd64 "https://dist.example/new" tb s2).1 = Ret false.
Proof.
  apply (@BotherToDownload_url_change linux_amd64 tb_url "https://dist.example/new"
           tb stocked tb_marker); [apply stocked_present|by vm_compute..].
Defined.

Lemma SingleFileDownload_first_fetch_witness :
  (@SingleFileDownload linux_amd64 mirror tb_url tb fresh).1
  = Ret (artifact_path fresh tb, None) ∧
  files (@SingleFileDownload linux_amd64 mirror tb_url tb fresh).2
  = <[tb_key := File ("bytes of " +:+ tb_url) mode_0666]> (files fresh) ∧
  events (@SingleFileDownload linux_amd64 mirror tb_url tb fresh).2
  = events fresh ++ [EvHttpGet tb_url].
Proof.
  apply (@SingleFileDownload_first_fetch linux_amd64 mirror tb_url tb fresh tb_key
           {| body := "bytes of " +:+ tb_url; read_error := None |});
    [by apply home_bootstrapped|apply fresh_absent|by vm_compute..].
Defined.

Lemma SingleFileDownload_skips_witness :
  (@SingleFileDownload linux_amd64 mirror tb_url tb recorded_state).1
  = Ret (artifact_path recorded_state tb, None) ∧
  events (@SingleFileDownload linux_amd64 mirror tb_url tb recorded_state).2
  = events recorded_state.
Proof.
  apply (@SingleFileDownload_skips linux_amd64 mirror tb_url tb recorded_state
           tb_marker);
    [apply recorded_bootstrapped|apply recorded_present|by vm_compute..].
Defined.

Lemma SingleFileDownload_request_fails_witness :
  (@SingleFileDownload linux_amd64 mirror "https://down.example/tb.tar.xz" tb fresh).1
  = Ret ("", Some "SingleFileDownload: dial tcp: connection refused") ∧
  files (@SingleFileDownload linux_amd64 mirror "https://down.example/tb.tar.xz"
           tb fresh).2 = files fresh.
Proof.
  apply (@SingleFileDownload_request_fails linux_amd64 mirror
           "https://down.example/tb.tar.xz" tb fresh "dial tcp: connection refused");
    [by apply home_bootstrapped|apply fresh_absent|by vm_compute].
Defined.

Lemma SingleFileDownload_second_run_fetches_again_witness :
  let s1 := (@SingleFileDownload linux_amd64 mirror tb_url tb fresh).2 in
  let s2 := (@SingleFileDownload linux_amd64 mirror tb_url tb s1).2 in
  events s2 = events fresh ++ [EvHttpGet tb_url; EvHttpGet tb_url].
Proof.
  apply (@SingleFileDownload_second_run_fetches_again linux_amd64 mirror tb_url tb
           fresh tb_key tb_marker
           {| body := "bytes of " +:+ tb_url; read_error := None |});
    [by apply home_bootstrapped|apply fresh_absent|by vm_compute..].
Defined.
