(* ===== verification/Stage.v ===== *)
(** * The fetch stage, end to end

    [DownloadUpdaterForLang] of [src/get/get.go] as the composition of
    the stages before it: the manifest is requested, saved and looked
    up ([GetUpdaterForLang]), the name of the bundle is made from the
    platform ([NamePerPlatform]), and the signature and then the bundle
    are fetched ([SingleFileDownload]).

    The record [resolving] holds what a run that resolves assumes: a
    directory that is set up, a manifest that is served and well typed,
    a language that resolves, and answers for the two addresses.
    [first_fetch] adds that the directory holds neither file.
    [DownloadUpdaterForLang_compose] is the stage as the composition of
    a lookup and two fetches that return, whatever they leave.
    [DownloadUpdaterForLang_fetches] is the run on a directory that is
    set up and holds neither file: three requests in that order, three
    new files, the two paths returned.  [DownloadUpdaterForLang_round_trip]
    reads the two files back: what [CheckSignature] will read is what
    the mirror served. *)

From stdpp Require Import base tactics option list strings gmap.
From Stdlib Require Import ZArith Lia.
From S2P Require Import Prelude GoStrings GoPath FileSys Machine Platform.
From S2P Require Import Bootstrap Json Manifest Fetch.

(** The name that [NamePerPlatform] gives the bundle of a language on a
    receiver whose platform fields are set. *)
Definition bundle_name (t : TBDownloader) (ietf : string) : string :=
  "torbrowser"
  +:+ (if decide (OS t = "win") then "-installer" else "")
  +:+ "-" +:+ (OS t +:+ ARCH t) +:+ "-" +:+ ietf +:+ "."
  +:+ (if decide (OS t = "osx") then "dmg"
       else if decide (OS t = "win") then "exe" else "tar.xz").

Section names.
Implicit Types (t : TBDownloader) (ietf suffix : string).

(** The name of a bundle, with any suffix, is the name of an entry and
    not the name of the snapshot of the manifest. *)
Lemma bundle_name_is_name t ietf suffix : is_name (bundle_name t ietf +:+ suffix).
Proof. by split_and!. Qed.

Lemma bundle_name_not_snapshot t ietf suffix :
  bundle_name t ietf +:+ suffix ≠ "downloads.json".
Proof. done. Qed.

Lemma asc_not_bundle (name : string) : name +:+ ".asc" ≠ name.
Proof.
  rewrite <-(string_app_nil_r name) at 2. by intros ?%string_app_inj_l.
Qed.

Lemma is_name_app (name suffix : string) :
  2 < String.length suffix → is_name (name +:+ suffix).
Proof.
  intros Hl. split_and!; intros E%(f_equal String.length);
    rewrite string_app_length in E; simpl in E; lia.
Qed.

Lemma is_name_asc (name : string) : is_name (name +:+ ".asc").
Proof. apply is_name_app. simpl. lia. Qed.

Lemma entry_ne (kd : path) (n n' : string) : n ≠ n' → kd ++ [n] ≠ kd ++ [n'].
Proof. intros Hn E%app_inv_head. apply Hn. by injection E. Qed.

Lemma slash_free_app (name suffix : string) :
  slash_free name → slash_free suffix → slash_free (name +:+ suffix).
Proof. unfold slash_free. by rewrite explode_app, not_elem_of_app. Qed.

Lemma slash_free_asc (name : string) : slash_free name → slash_free (name +:+ ".asc").
Proof. intros Hn. apply slash_free_app; [done|]. by apply (bool_decide_unpack _). Qed.

End names.

Section stage.
Context `{Runtime} `{Network} `{JsonDecoder}.
Implicit Types (s : state) (ietf url name : string) (fuel : nat) (kd : path).
Implicit Types (r : response) (mf : manifest) (a : artifact).

Lemma NamePerPlatform_name ietf s :
  configured (tbd s) → NamePerPlatform ietf s = (Ret (bundle_name (tbd s) ietf), s).
Proof. apply NamePerPlatform_set. Qed.

(** The directory of a state that is set up. *)
Lemma bootstrapped_dir s kd :
  bootstrapped s → key (DownloadPath (tbd s)) = Some kd →
  fs_wf (files s) ∧ is_dir (files s) kd = true.
Proof. intros (Hwf & (k & Hk & Hd) & _) Hkd. by simplify_eq. Qed.

(** What a stage leaves when it returns: the directory is still set
    up, the receiver is the same, and the files and the requests are
    those before it with something added. *)
Definition leaves s s1 (σ : fs) (requests : list event) : Prop :=
  bootstrapped s1 ∧ tbd s1 = tbd s ∧ files s1 = σ ∧
  events s1 = events s ++ requests.

(** The manifest is requested, saved and looked up. *)
Lemma GetUpdaterForLang_resolved fuel ietf s kd r mf a :
  bootstrapped s → configured (tbd s) → key (DownloadPath (tbd s)) = Some kd →
  http_Get TOR_UPDATES_URL = inr r → read_error r = None → decodes (body r) mf →
  resolve mf (platform_key (tbd s)) (Lang (tbd s)) ietf = Resolved a →
  writable (files s) (kd ++ ["downloads.json"]) = true →
  ∃ s1, GetUpdaterForLang (2 + fuel) ietf s = (Ret (binary a, sig a, None), s1) ∧
        leaves s s1
          (<[kd ++ ["downloads.json"]
             := File (body r) (file_mode (files s) (kd ++ ["downloads.json"]) mode_0644)]>
             (files s))
          [EvHttpGet TOR_UPDATES_URL].
Proof.
  intros Hb Hc Hkd Hg Hr Hj Hres Hw. unfold GetUpdaterForLang.
  set (s0 := set_events (λ l, l ++ [EvHttpGet TOR_UPDATES_URL]) s).
  set (ks := kd ++ ["downloads.json"]) in *.
  rewrite (bind_run_Ret _ _ s tt s0), Hg by done.
  assert (bootstrapped s0) as Hb0 by (by apply (bootstrapped_same s)).
  assert (key (snapshot_path s0) = Some ks) as Hks
    by (by apply key_Join_name; [|split_and!|apply (bool_decide_unpack _)]).
  rewrite (GetUpdaterForLangFromJSON_run _ _ _ _ ks) by done.
  rewrite write_file_writable by done. cbn [snd].
  pose proof (snapshot_bootstrapped r ks s0 Hb0 Hks) as Hb1.
  destruct (GetUpdaterForLangFromJSONBytes_only_logs (2 + fuel) (body r) ietf
              (snapshot r ks s0) Hb1 Hc) as (Ht & Hf & He).
  eexists. split.
  { apply run_Ret_eq, (GetUpdater_resolved _ _ mf); [done|by left|done..]. }
  split_and!; [|done| |done].
  - eapply bootstrapped_same; [exact Hb1|by rewrite ?Ht..].
  - rewrite Hf. unfold snapshot. cbn [files set_files].
    by rewrite write_file_writable.
Qed.

(** A file that is not in the directory is fetched into it. *)
Lemma SingleFileDownload_new url name s kd r :
  bootstrapped s → key (DownloadPath (tbd s)) = Some kd →
  is_name name → slash_free name → files s !! (kd ++ [name]) = None →
  http_Get url = inr r →
  ∃ s1, SingleFileDownload url name s = (Ret (artifact_path s name, None), s1) ∧
        leaves s s1 (<[kd ++ [name] := File (body r) mode_0666]> (files s))
          [EvHttpGet url].
Proof.
  intros Hb Hkd Hn Hs Hf Hg. destruct (bootstrapped_dir s kd Hb Hkd) as [Hwf Hd].
  pose proof (key_Join_name _ _ _ Hkd Hn Hs) as Hk. fold (artifact_path s name) in Hk.
  assert (absent s (artifact_path s name)) as Ha
    by (by apply (absent_intro _ _ (kd ++ [name])); [..|apply missing_in_dir]).
  assert (is_dir (files s) (removelast (kd ++ [name])) = true) as Hd'
    by (by rewrite removelast_last).
  destruct (fresh_state url name s _ r Hb Ha Hk Hd') as (Hb1 & _ & Hf1 & He1).
  eexists. split; [by apply SingleFileDownload_fresh|].
  split_and!; [done| |done..]. unfold fetched, requested, checking.
  rewrite noted_tbd. cbn [tbd set_files set_events]. by rewrite !noted_tbd.
Qed.

Lemma leaves_path s s1 σ requests name :
  leaves s s1 σ requests → artifact_path s1 name = artifact_path s name.
Proof. intros (_ & Ht & _). unfold artifact_path. by rewrite Ht. Qed.

Lemma leaves_trans s s1 s2 σ1 σ2 requests1 requests2 :
  leaves s s1 σ1 requests1 → leaves s1 s2 σ2 requests2 →
  leaves s s2 σ2 (requests1 ++ requests2).
Proof.
  intros (_ & Ht1 & _ & He1) (Hb2 & Ht2 & Hf2 & He2).
  split_and!; [done|congruence|done|]. by rewrite He2, He1, app_assoc.
Qed.

(** The stage as the composition of a lookup and two fetches that
    return without error. *)
Lemma DownloadUpdaterForLang_compose fuel ietf s s1 s2 s3 a σ1 σ2 σ3 q1 q2 q3 :
  let name := bundle_name (tbd s) ietf in
  configured (tbd s) →
  GetUpdaterForLang fuel ietf s = (Ret (binary a, sig a, None), s1) →
  leaves s s1 σ1 q1 →
  SingleFileDownload (sig a) (name +:+ ".asc") s1
  = (Ret (artifact_path s1 (name +:+ ".asc"), None), s2) →
  leaves s1 s2 σ2 q2 →
  SingleFileDownload (binary a) name s2 = (Ret (artifact_path s2 name, None), s3) →
  leaves s2 s3 σ3 q3 →
  DownloadUpdaterForLang fuel ietf s
  = (Ret (artifact_path s name, artifact_path s (name +:+ ".asc"), None), s3) ∧
  leaves s s3 σ3 (q1 ++ q2 ++ q3).
Proof.
  intros name Hc R1 L1 R2 L2 R3 L3.
  pose proof L1 as (_ & Ht1 & _). pose proof L2 as (_ & Ht2 & _).
  assert (configured (tbd s1)) as Hc1 by (by rewrite Ht1).
  assert (configured (tbd s2)) as Hc2 by (by rewrite Ht2).
  split; [|by eapply leaves_trans, leaves_trans].
  unfold DownloadUpdaterForLang. rewrite (bind_run_Ret _ _ _ _ _ R1).
  rewrite (bind_run_Ret _ _ _ _ _ (NamePerPlatform_name ietf s1 Hc1)), Ht1.
  fold name. rewrite (bind_run_Ret _ _ _ _ _ R2).
  rewrite (bind_run_Ret _ _ _ _ _ (NamePerPlatform_name ietf s2 Hc2)), Ht2, Ht1.
  fold name. rewrite (bind_run_Ret _ _ _ _ _ R3).
  by rewrite (leaves_path _ _ _ _ _ L2), !(leaves_path _ _ _ _ _ L1).
Qed.

(** A run that resolves: the directory is set up and the platform of
    the receiver is set; the address of the manifest is answered with a
    document that is read to its end, has the type of a manifest and
    resolves the language; the snapshot can be written; the name of the
    bundle is the name of an entry; and the two addresses of the
    manifest entry are answered. *)
Record resolving s ietf kd r mf a rg rb : Prop := Resolving {
  set_up : bootstrapped s;
  platform_set : configured (tbd s);
  directory : key (DownloadPath (tbd s)) = Some kd;
  manifest_answered : http_Get TOR_UPDATES_URL = inr r;
  manifest_read : read_error r = None;
  manifest_typed : decodes (body r) mf;
  language_resolved :
    resolve mf (platform_key (tbd s)) (Lang (tbd s)) ietf = Resolved a;
  snapshot_writable : writable (files s) (kd ++ ["downloads.json"]) = true;
  name_slash_free : slash_free (bundle_name (tbd s) ietf);
  signature_answered : http_Get (sig a) = inr rg;
  bundle_answered : http_Get (binary a) = inr rb;
}.

(** A first fetch: a run that resolves in a directory that holds
    neither the bundle nor its signature. *)
Record first_fetch s ietf kd r mf a rg rb : Prop := FirstFetch {
  resolves : resolving s ietf kd r mf a rg rb;
  no_signature : files s !! (kd ++ [bundle_name (tbd s) ietf +:+ ".asc"]) = None;
  no_bundle : files s !! (kd ++ [bundle_name (tbd s) ietf]) = None;
}.

(** The lookup of a run that resolves. *)
Lemma resolving_lookup fuel ietf s kd r mf a rg rb :
  resolving s ietf kd r mf a rg rb →
  ∃ s1, GetUpdaterForLang (2 + fuel) ietf s = (Ret (binary a, sig a, None), s1) ∧
        leaves s s1
          (<[kd ++ ["downloads.json"]
             := File (body r) (file_mode (files s) (kd ++ ["downloads.json"]) mode_0644)]>
             (files s))
          [EvHttpGet TOR_UPDATES_URL].
Proof. intros []. by eapply GetUpdaterForLang_resolved. Qed.

Lemma resolving_name s ietf kd r mf a rg rb :
  resolving s ietf kd r mf a rg rb → is_name (bundle_name (tbd s) ietf).
Proof.
  intros _. pose proof (bundle_name_is_name (tbd s) ietf "") as Hn.
  by rewrite string_app_nil_r in Hn.
Qed.

(** The stage as the composition of its three fetches. *)
Lemma DownloadUpdaterForLang_run fuel ietf s kd r mf a rg rb :
  let name := bundle_name (tbd s) ietf in
  first_fetch s ietf kd r mf a rg rb →
  ∃ s3, DownloadUpdaterForLang (2 + fuel) ietf s
        = (Ret (artifact_path s name, artifact_path s (name +:+ ".asc"), None), s3) ∧
        leaves s s3
          (<[kd ++ [name] := File (body rb) mode_0666]>
             (<[kd ++ [name +:+ ".asc"] := File (body rg) mode_0666]>
                (<[kd ++ ["downloads.json"]
                   := File (body r)
                        (file_mode (files s) (kd ++ ["downloads.json"]) mode_0644)]>
                   (files s))))
          [EvHttpGet TOR_UPDATES_URL; EvHttpGet (sig a); EvHttpGet (binary a)].
Proof.
  intros name [Hres Hfg Hfb]. pose proof (resolving_name _ _ _ _ _ _ _ _ Hres) as Hn.
  destruct (resolving_lookup fuel _ _ _ _ _ _ _ _ Hres) as (s1 & R1 & L1).
  destruct Hres as [Hb Hc Hkd _ _ _ _ _ Hs Hgg Hgb]. fold name in Hn.
  pose proof L1 as (Hb1 & Ht1 & Hf1 & He1).
  destruct (SingleFileDownload_new (sig a) (name +:+ ".asc") s1 kd rg)
    as (s2 & R2 & L2);
    [done|by rewrite Ht1|apply bundle_name_is_name|by apply slash_free_asc| |done|].
  { rewrite Hf1, lookup_insert_ne; [done|].
    apply entry_ne, not_eq_sym, bundle_name_not_snapshot. }
  pose proof L2 as (Hb2 & Ht2 & Hf2 & He2).
  destruct (SingleFileDownload_new (binary a) name s2 kd rb) as (s3 & R3 & L3);
    [done|by rewrite Ht2, Ht1|done..| |done|].
  { rewrite Hf2, Hf1, !lookup_insert_ne; [done|..]; apply entry_ne.
    - by intros ?.
    - apply asc_not_bundle. }
  pose proof L3 as (Hb3 & Ht3 & Hf3 & He3). exists s3.
  destruct (DownloadUpdaterForLang_compose (2 + fuel) ietf s s1 s2 s3 a
              _ _ _ _ _ _ Hc R1 L1 R2 L2 R3 L3) as [R L]; [done..|].
  split; [done|]. destruct L as (? & ? & ? & ?).
  split_and!; [done..|by rewrite Hf3, Hf2, Hf1|done].
Qed.

(** C36: the fetch stage on a directory that is set up and holds
    neither file, for a receiver whose platform fields are set and a
    manifest that resolves the language: the manifest, the signature
    and the bundle are requested, in that order and once each; the
    manifest is saved as [downloads.json] and the two bodies become the
    two files, with nothing else changed; and the stage returns the
    paths of the bundle and of the signature without error. *)
Theorem DownloadUpdaterForLang_fetches fuel ietf s kd r mf a rg rb :
  let name := bundle_name (tbd s) ietf in
  first_fetch s ietf kd r mf a rg rb →
  (DownloadUpdaterForLang (2 + fuel) ietf s).1
  = Ret (artifact_path s name, artifact_path s (name +:+ ".asc"), None) ∧
  files (DownloadUpdaterForLang (2 + fuel) ietf s).2
  = <[kd ++ [name] := File (body rb) mode_0666]>
      (<[kd ++ [name +:+ ".asc"] := File (body rg) mode_0666]>
         (<[kd ++ ["downloads.json"]
            := File (body r) (file_mode (files s) (kd ++ ["downloads.json"]) mode_0644)]>
            (files s))) ∧
  events (DownloadUpdaterForLang (2 + fuel) ietf s).2
  = events s ++ [EvHttpGet TOR_UPDATES_URL; EvHttpGet (sig a); EvHttpGet (binary a)].
Proof.
  intros name F.
  destruct (DownloadUpdaterForLang_run fuel ietf s kd r mf a rg rb F)
    as (s3 & -> & _ & _ & Hf & He). done.
Qed.

(** C38: what is fetched is what is read back: after the fetch stage
    on a directory that is set up and holds neither file, reading the
    path of the bundle and the path of the signature that the stage
    returned, as [CheckSignature] reads them, gives the bytes that
    arrived for the bundle and for the signature. *)
Theorem DownloadUpdaterForLang_round_trip fuel ietf s kd r mf a rg rb :
  let name := bundle_name (tbd s) ietf in
  first_fetch s ietf kd r mf a rg rb →
  (('(binpath, sigpath, _) ← DownloadUpdaterForLang (2 + fuel) ietf;
    '(bin, _) ← ioutil_ReadFile binpath;
    '(sig, _) ← ioutil_ReadFile sigpath;
    mret (bin, sig)) s).1 = Ret (body rb, body rg).
Proof.
  intros name F.
  destruct (DownloadUpdaterForLang_run fuel ietf s kd r mf a rg rb F)
    as (s3 & R & _ & _ & Hf & _).
  destruct F as [Hres _ _]. pose proof (resolving_name _ _ _ _ _ _ _ _ Hres) as Hn.
  destruct Hres as [_ _ Hkd _ _ _ _ _ Hs _ _]. fold name in Hn.
  assert (ioutil_ReadFile (artifact_path s name) s3 = (Ret (body rb, None), s3))
    as Rb.
  { apply (ioutil_ReadFile_run _ _ (kd ++ [name]) _ mode_0666);
      [by apply key_Join_name|by rewrite Hf, lookup_insert_eq]. }
  assert (ioutil_ReadFile (artifact_path s (name +:+ ".asc")) s3
          = (Ret (body rg, None), s3)) as Rg.
  { apply (ioutil_ReadFile_run _ _ (kd ++ [name +:+ ".asc"]) _ mode_0666).
    - by apply key_Join_name; [|apply bundle_name_is_name|apply slash_free_asc].
    - rewrite Hf, lookup_insert_ne, lookup_insert_eq; [done|].
      apply entry_ne, not_eq_sym, asc_not_bundle. }
  by rewrite (bind_run_Ret _ _ _ _ _ R), (bind_run_Ret _ _ _ _ _ Rb),
    (bind_run_Ret _ _ _ _ _ Rg).
Qed.

End stage.

(** ** The theorems at a first run

    The machine [linux_amd64] in the directory [home], a receiver made
    for 64-bit Linux, the network [mirror], which answers every URL with
    a body that names it, and a decoder that takes the body served at
    the address of the manifest for the document of [releases]. *)

Definition for_linux : TBDownloader :=
  {| UnpackPath := "/home/user/unpack"; DownloadPath := "/home/user/tor-browser";
     Lang := "en-US"; OS := "linux"; ARCH := "64"; Verbose := false; Profile := None |}.

Definition manifest_served : JsonDecoder :=
  {| json_Decode doc :=
       if decide (doc = "bytes of " +:+ TOR_UPDATES_URL)
       then inr (VMap (manifest_map releases))
       else inl "unexpected end of JSON input" |}.

Definition first_run : state := start for_linux home.

Lemma first_run_decodes :
  @decodes manifest_served ("bytes of " +:+ TOR_UPDATES_URL) releases.
Proof. by apply (decodes_more_fields _ _ (manifest_map releases) (manifest_map releases)). Qed.

(** The answer of [mirror] to a request. *)
Definition served (url : string) : response :=
  {| body := "bytes of " +:+ url; read_error := None |}.

Lemma first_run_fetch :
  @first_fetch linux_amd64 mirror manifest_served first_run "de-AT"
    ["home"; "user"; "tor-browser"] (served TOR_UPDATES_URL) releases (bundle "de")
    (served (sig (bundle "de"))) (served (binary (bundle "de"))).
Proof.
  split; [split|..];
    [by apply home_bootstrapped|done|by vm_compute|done|done|
     apply first_run_decodes|by vm_compute|by vm_compute|
     apply (bool_decide_unpack _); by vm_compute|by vm_compute..].
Qed.

Lemma DownloadUpdaterForLang_fetches_witness :
  (@DownloadUpdaterForLang linux_amd64 mirror manifest_served 2 "de-AT" first_run).1
  = Ret ("/home/user/tor-browser/torbrowser-linux64-de-AT.tar.xz",
         "/home/user/tor-browser/torbrowser-linux64-de-AT.tar.xz.asc", None) ∧
  events (@DownloadUpdaterForLang linux_amd64 mirror manifest_served 2 "de-AT" first_run).2
  = [EvHttpGet TOR_UPDATES_URL; EvHttpGet (sig (bundle "de"));
     EvHttpGet (binary (bundle "de"))].
Proof.
  destruct (@DownloadUpdaterForLang_fetches linux_amd64 mirror manifest_served 0
              "de-AT" first_run ["home"; "user"; "tor-browser"]
              (served TOR_UPDATES_URL)
              releases (bundle "de")
              (served (sig (bundle "de")))
              (served (binary (bundle "de"))))
    as (Hr & _ & He); [apply first_run_fetch|].
  split; [exact Hr|exact He].
Defined.

Lemma DownloadUpdaterForLang_round_trip_witness :
  (('(binpath, sigpath, _) ←
      @DownloadUpdaterForLang linux_amd64 mirror manifest_served 2 "de-AT";
    '(bin, _) ← @ioutil_ReadFile linux_amd64 binpath;
    '(sig, _) ← @ioutil_ReadFile linux_amd64 sigpath;
    mret (bin, sig)) first_run).1
  = Ret ("bytes of " +:+ binary (bundle "de"), "bytes of " +:+ sig (bundle "de")).
Proof.
  apply (@DownloadUpdaterForLang_round_trip linux_amd64 mirror manifest_served 0
           "de-AT" first_run ["home"; "user"; "tor-browser"]
           (served TOR_UPDATES_URL)
           releases (bundle "de")
           (served (sig (bundle "de")))
           (served (binary (bundle "de")))).
  apply first_run_fetch.
Defined.
