(* ===== verification/Rerun.v ===== *)
(** * The fetch stage, run again

    The guard [BotherToDownload] of [src/get/get.go] writes the marker
    [<name>.last-url] only when the artifact is already there, so the
    fetch stage [DownloadUpdaterForLang] passes through three states of
    the download directory:

    - neither artifact is there: both are fetched and no marker is
      written ([DownloadUpdaterForLang_fetches] of [Stage]);
    - the artifacts are there without markers: both are fetched again,
      over the files that are there, and the markers are written
      ([DownloadUpdaterForLang_unmarked]);
    - the artifacts are there with markers that hold their addresses:
      only the manifest is requested ([DownloadUpdaterForLang_marked]).

    [DownloadUpdaterForLang_converges] puts the three runs one after the
    other: seven requests, and a third run that leaves the files as the
    second left them. *)

From stdpp Require Import base tactics option list strings gmap.
From Stdlib Require Import ZArith Lia.
From S2P Require Import Prelude GoStrings GoPath FileSys Machine Platform.
From S2P Require Import Bootstrap Json Manifest Fetch Stage.

(** The name of the marker of an artifact. *)
Definition marker (name : string) : string := name +:+ ".last-url".

(** The bytes of the file at [k], if a file is there. *)
Definition content_at (σ : fs) (k : path) : option string :=
  match σ !! k with Some (File c _) => Some c | _ => None end.

(** The files after the manifest was saved. *)
Definition saved (kd : path) (r : response) (σ : fs) : fs :=
  <[kd ++ ["downloads.json"]
    := File (body r) (file_mode σ (kd ++ ["downloads.json"]) mode_0644)]> σ.

Lemma saved_id kd r σ m :
  σ !! (kd ++ ["downloads.json"]) = Some (File (body r) m) → saved kd r σ = σ.
Proof. intros Hs. unfold saved, file_mode. rewrite Hs. by apply insert_id. Qed.

Section names.
Implicit Types (name suffix : string) (kd : path).

Lemma suffix_ne name suffix suffix' :
  suffix ≠ suffix' → name +:+ suffix ≠ name +:+ suffix'.
Proof. by intros Hn ?%string_app_inj_l. Qed.

Lemma suffix_ne_l name suffix : suffix ≠ "" → name +:+ suffix ≠ name.
Proof.
  intros Hn. rewrite <-(string_app_nil_r name) at 2. by apply suffix_ne.
Qed.

Lemma is_name_marker name : is_name (marker name).
Proof. apply is_name_app. simpl. lia. Qed.

Lemma slash_free_marker name : slash_free name → slash_free (marker name).
Proof. intros Hn. apply slash_free_app; [done|]. by apply (bool_decide_unpack _). Qed.

End names.

(** Two entries of the download directory differ when their names do;
    the names of the stage are the name of the bundle with a suffix,
    and the name of the snapshot. *)
Ltac names_differ :=
  apply entry_ne; unfold marker; rewrite ?string_app_assoc;
  first [ by apply suffix_ne; vm_compute
        | by apply suffix_ne_l
        | by apply not_eq_sym, suffix_ne_l
        | apply bundle_name_not_snapshot
        | apply not_eq_sym, bundle_name_not_snapshot
        | by intros ? ].

Ltac lookup_entry :=
  repeat first [ rewrite lookup_insert_eq
               | rewrite lookup_insert_ne by names_differ
               | progress unfold saved ].

Section again.
Context `{Runtime} `{Network} `{JsonDecoder}.
Implicit Types (s : state) (ietf url name c : string) (fuel : nat) (kd : path).
Implicit Types (r : response) (mf : manifest) (a : artifact) (m : Z).

Lemma marker_key s kd name :
  key (DownloadPath (tbd s)) = Some kd → is_name name → slash_free name →
  key (marker_path s name) = Some (kd ++ [marker name]).
Proof.
  intros Hkd Hn Hs. apply key_Join_name; [done|..].
  - apply is_name_marker.
  - by apply slash_free_marker.
Qed.

(** ** One artifact *)

Lemma leaves_files s s1 σ σ' requests :
  leaves s s1 σ requests → σ = σ' → leaves s s1 σ' requests.
Proof. by intros L <-. Qed.

(** The artifact is there and its marker does not hold the address:
    the guard sets the marker and asks for a fetch. *)
Lemma guard_stale url name s kd c m :
  bootstrapped s → key (DownloadPath (tbd s)) = Some kd →
  is_name name → slash_free name →
  files s !! (kd ++ [name]) = Some (File c m) →
  is_dir (files s) (kd ++ [marker name]) = false →
  content_at (files s) (kd ++ [marker name]) ≠ Some url →
  let s1 := marked url (kd ++ [marker name]) (checking url name s) in
  BotherToDownload url name (checking url name s) = (Ret true, s1) ∧
  leaves s s1
    (<[kd ++ [marker name]
       := File url (file_mode (files s) (kd ++ [marker name]) mode_0644)]> (files s))
    [].
Proof.
  intros Hb Hkd Hn Hs Hf Hd Hm s1. destruct (bootstrapped_dir s kd Hb Hkd) as [Hwf Hdir].
  pose proof (key_Join_name _ _ _ Hkd Hn Hs) as Hk. fold (artifact_path s name) in Hk.
  pose proof (marker_key s kd name Hkd Hn Hs) as Hkm.
  assert (writable (files (checking url name s)) (kd ++ [marker name]) = true) as Hw.
  { rewrite checking_files. unfold writable, is_dir, content_at in *.
    destruct (files s !! (kd ++ [marker name])) as [[]|]; [done..|].
    by rewrite removelast_last. }
  split.
  - rewrite (guard_checking_there _ _ _ (kd ++ [marker name]));
      [|by exists (kd ++ [name]), (File c m)|done].
    do 2 f_equal. apply negb_true_iff, bool_decide_eq_false.
    rewrite checking_files. unfold read_file, content_at in *.
    destruct (files s !! (kd ++ [marker name])) as [[]|]; naive_solver.
  - split_and!.
    + apply (bootstrapped_persists s); [done|].
      etrans; [apply (checking_persists url name)|]. apply marked_persists.
    + apply (checking_tbd url name s).
    + unfold s1. by rewrite marked_files, checking_files.
    + unfold s1. by rewrite marked_events, checking_events, app_nil_r.
Qed.

(** The fetch after it replaces the artifact, which keeps its mode. *)
Lemma SingleFileDownload_stale url name s kd c m r :
  bootstrapped s → key (DownloadPath (tbd s)) = Some kd →
  is_name name → slash_free name →
  files s !! (kd ++ [name]) = Some (File c m) →
  is_dir (files s) (kd ++ [marker name]) = false →
  content_at (files s) (kd ++ [marker name]) ≠ Some url →
  http_Get url = inr r →
  ∃ s1, SingleFileDownload url name s = (Ret (artifact_path s name, None), s1) ∧
        leaves s s1
          (<[kd ++ [name] := File (body r) m]>
             (<[kd ++ [marker name]
                := File url (file_mode (files s) (kd ++ [marker name]) mode_0644)]>
                (files s)))
          [EvHttpGet url].
Proof.
  intros Hb Hkd Hn Hs Hf Hd Hm Hg.
  destruct (guard_stale url name s kd c m) as (G & Hb1 & Ht1 & Hf1 & He1); [done..|].
  pose proof (key_Join_name _ _ _ Hkd Hn Hs) as Hk. fold (artifact_path s name) in Hk.
  set (s1 := marked url (kd ++ [marker name]) (checking url name s)) in *.
  assert (files s1 !! (kd ++ [name]) = Some (File c m)) as Hfk.
  { rewrite Hf1, lookup_insert_ne; [done|]. apply entry_ne. by apply suffix_ne_l. }
  assert (writable (files s1) (kd ++ [name]) = true) as Hw by (by eapply writable_file).
  exists (fetched url (kd ++ [name]) r s1). split; [by apply SingleFileDownload_fetch|].
  split_and!.
  - apply (bootstrapped_persists s1); [done|]. by apply fetched_persists.
  - by rewrite fetched_tbd.
  - rewrite fetched_files. unfold file_mode at 1. by rewrite Hfk, Hf1.
  - by rewrite fetched_events, He1, app_nil_r.
Qed.

(** A refusal after it leaves the old artifact under the new marker. *)
Lemma SingleFileDownload_stale_refused url name s kd c m e :
  bootstrapped s → key (DownloadPath (tbd s)) = Some kd →
  is_name name → slash_free name →
  files s !! (kd ++ [name]) = Some (File c m) →
  is_dir (files s) (kd ++ [marker name]) = false →
  content_at (files s) (kd ++ [marker name]) ≠ Some url →
  http_Get url = inl e →
  ∃ s1, SingleFileDownload url name s
        = (Ret ("", Some ("SingleFileDownload: " +:+ e)), s1) ∧
        leaves s s1
          (<[kd ++ [marker name]
             := File url (file_mode (files s) (kd ++ [marker name]) mode_0644)]>
             (files s))
          [EvHttpGet url].
Proof.
  intros Hb Hkd Hn Hs Hf Hd Hm Hg.
  destruct (guard_stale url name s kd c m) as (G & Hb1 & Ht1 & Hf1 & He1); [done..|].
  set (s1 := marked url (kd ++ [marker name]) (checking url name s)) in *.
  exists (requested url s1). split; [by apply SingleFileDownload_refused|].
  split_and!.
  - apply (bootstrapped_persists s1); [done|]. apply requested_persists.
  - unfold requested. cbn. by rewrite noted_tbd.
  - by rewrite requested_files.
  - by rewrite requested_events, He1, app_nil_r.
Qed.

(** No artifact and a refusal: nothing changes. *)
Lemma SingleFileDownload_refused_new url name s kd e :
  bootstrapped s → key (DownloadPath (tbd s)) = Some kd →
  is_name name → slash_free name → files s !! (kd ++ [name]) = None →
  http_Get url = inl e →
  ∃ s1, SingleFileDownload url name s
        = (Ret ("", Some ("SingleFileDownload: " +:+ e)), s1) ∧
        leaves s s1 (files s) [EvHttpGet url].
Proof.
  intros Hb Hkd Hn Hs Hf Hg. destruct (bootstrapped_dir s kd Hb Hkd) as [Hwf Hd].
  pose proof (key_Join_name _ _ _ Hkd Hn Hs) as Hk. fold (artifact_path s name) in Hk.
  assert (absent s (artifact_path s name)) as Ha
    by (by apply (absent_intro _ _ (kd ++ [name])); [..|apply missing_in_dir]).
  exists (requested url (checking url name s)). split.
  - apply SingleFileDownload_refused; [done| |done]. by apply guard_checking_missing.
  - split_and!.
    + apply (bootstrapped_persists s); [done|].
      etrans; [apply (checking_persists url name)|]. apply requested_persists.
    + unfold requested. cbn. rewrite noted_tbd. apply (checking_tbd url name s).
    + by rewrite requested_files, checking_files.
    + by rewrite requested_events, checking_events.
Qed.

(** The artifact is there and its marker is not: the marker is written,
    and the artifact is fetched over the file that is there, which
    keeps its mode. *)
Lemma SingleFileDownload_unmarked url name s kd c m r :
  bootstrapped s → key (DownloadPath (tbd s)) = Some kd →
  is_name name → slash_free name →
  files s !! (kd ++ [name]) = Some (File c m) →
  files s !! (kd ++ [marker name]) = None →
  http_Get url = inr r →
  ∃ s1, SingleFileDownload url name s = (Ret (artifact_path s name, None), s1) ∧
        leaves s s1
          (<[kd ++ [name] := File (body r) m]>
             (<[kd ++ [marker name] := File url mode_0644]> (files s)))
          [EvHttpGet url].
Proof.
  intros Hb Hkd Hn Hs Hf Hm Hg.
  destruct (SingleFileDownload_stale url name s kd c m r) as (s1 & R & L);
    [done..|unfold is_dir; by rewrite Hm|unfold content_at; by rewrite Hm|done|].
  exists s1. split; [done|]. eapply leaves_files; [done|].
  unfold file_mode. by rewrite Hm.
Qed.

(** The artifact is there and its marker holds the address: nothing is
    requested and no file changes. *)
Lemma SingleFileDownload_marked url name s kd c m mm :
  bootstrapped s → key (DownloadPath (tbd s)) = Some kd →
  is_name name → slash_free name →
  files s !! (kd ++ [name]) = Some (File c m) →
  files s !! (kd ++ [marker name]) = Some (File url mm) →
  ∃ s1, SingleFileDownload url name s = (Ret (artifact_path s name, None), s1) ∧
        leaves s s1 (files s) [].
Proof.
  intros Hb Hkd Hn Hs Hf Hm.
  pose proof (key_Join_name _ _ _ Hkd Hn Hs) as Hk. fold (artifact_path s name) in Hk.
  pose proof (marker_key s kd name Hkd Hn Hs) as Hkm.
  set (s1 := marked url (kd ++ [marker name]) (checking url name s)).
  exists (noted "SingleFileDownload()" "File already exists, skipping download" s1).
  split.
  - apply SingleFileDownload_skip; [done|].
    rewrite (guard_checking_there _ _ _ (kd ++ [marker name]));
      [|by exists (kd ++ [name]), (File c m)|done].
    unfold recorded, read_file. by rewrite checking_files, Hm, bool_decide_true.
  - split_and!.
    + apply bootstrapped_noted, (bootstrapped_persists s); [done|].
      etrans; [apply (checking_persists url name)|]. apply marked_persists.
    + rewrite noted_tbd. apply (checking_tbd url name s).
    + rewrite noted_files. unfold s1.
      rewrite marked_files, checking_files by (by eapply writable_file; rewrite checking_files).
      unfold file_mode. rewrite Hm. by apply insert_id.
    + unfold s1. by rewrite noted_events, marked_events, checking_events, app_nil_r.
Qed.

(** ** The stage *)

(** A run that resolves leaves a state in which the next run resolves,
    when it leaves a snapshot that can be written. *)
Lemma resolving_leaves s s1 σ requests ietf kd r mf a rg rb :
  resolving s ietf kd r mf a rg rb → leaves s s1 σ requests →
  writable σ (kd ++ ["downloads.json"]) = true →
  resolving s1 ietf kd r mf a rg rb.
Proof. intros [] (Hb & Ht & Hf & _) Hw. split; by rewrite ?Ht, ?Hf. Qed.

(** The second state of the directory: the bundle and its signature
    are there and have no markers.  Both are fetched again, and the
    markers are written. *)
Lemma DownloadUpdaterForLang_unmarked fuel ietf s kd r mf a rg rb cg mg cb mb :
  let name := bundle_name (tbd s) ietf in
  resolving s ietf kd r mf a rg rb →
  files s !! (kd ++ [name +:+ ".asc"]) = Some (File cg mg) →
  files s !! (kd ++ [name]) = Some (File cb mb) →
  files s !! (kd ++ [marker (name +:+ ".asc")]) = None →
  files s !! (kd ++ [marker name]) = None →
  ∃ s3, DownloadUpdaterForLang (2 + fuel) ietf s
        = (Ret (artifact_path s name, artifact_path s (name +:+ ".asc"), None), s3) ∧
        leaves s s3
          (<[kd ++ [name] := File (body rb) mb]>
             (<[kd ++ [marker name] := File (binary a) mode_0644]>
                (<[kd ++ [name +:+ ".asc"] := File (body rg) mg]>
                   (<[kd ++ [marker (name +:+ ".asc")] := File (sig a) mode_0644]>
                      (saved kd r (files s))))))
          [EvHttpGet TOR_UPDATES_URL; EvHttpGet (sig a); EvHttpGet (binary a)].
Proof.
  intros name Hres Hg Hb Hgm Hbm.
  pose proof (resolving_name _ _ _ _ _ _ _ _ Hres) as Hn.
  destruct (resolving_lookup fuel _ _ _ _ _ _ _ _ Hres) as (s1 & R1 & L1).
  destruct Hres as [Hbs Hc Hkd _ _ _ _ _ Hs Hgg Hgb]. fold name in Hn, Hs.
  pose proof L1 as (Hb1 & Ht1 & Hf1 & _). fold (saved kd r (files s)) in Hf1.
  destruct (SingleFileDownload_unmarked (sig a) (name +:+ ".asc") s1 kd cg mg rg)
    as (s2 & R2 & L2);
    [done|by rewrite Ht1|apply is_name_asc|by apply slash_free_asc|
     rewrite Hf1; unfold saved; by lookup_entry..|done|].
  pose proof L2 as (Hb2 & Ht2 & Hf2 & _).
  destruct (SingleFileDownload_unmarked (binary a) name s2 kd cb mb rb)
    as (s3 & R3 & L3);
    [done|by rewrite Ht2, Ht1|done|done|
     rewrite Hf2, Hf1; unfold saved; by lookup_entry..|done|].
  exists s3.
  destruct (DownloadUpdaterForLang_compose (2 + fuel) ietf s s1 s2 s3 a
              _ _ _ _ _ _ Hc R1 L1 R2 L2 R3 L3) as [R L].
  split; [done|]. eapply leaves_files; [exact L|]. by rewrite Hf2, Hf1.
Qed.

(** The third state of the directory: the bundle and its signature are
    there, and their markers hold the addresses of the manifest.  Only
    the manifest is requested, and only the snapshot is written. *)
Lemma DownloadUpdaterForLang_marked fuel ietf s kd r mf a rg rb cg mg cb mb mgm mbm :
  let name := bundle_name (tbd s) ietf in
  resolving s ietf kd r mf a rg rb →
  files s !! (kd ++ [name +:+ ".asc"]) = Some (File cg mg) →
  files s !! (kd ++ [name]) = Some (File cb mb) →
  files s !! (kd ++ [marker (name +:+ ".asc")]) = Some (File (sig a) mgm) →
  files s !! (kd ++ [marker name]) = Some (File (binary a) mbm) →
  ∃ s3, DownloadUpdaterForLang (2 + fuel) ietf s
        = (Ret (artifact_path s name, artifact_path s (name +:+ ".asc"), None), s3) ∧
        leaves s s3 (saved kd r (files s)) [EvHttpGet TOR_UPDATES_URL].
Proof.
  intros name Hres Hg Hb Hgm Hbm.
  pose proof (resolving_name _ _ _ _ _ _ _ _ Hres) as Hn.
  destruct (resolving_lookup fuel _ _ _ _ _ _ _ _ Hres) as (s1 & R1 & L1).
  destruct Hres as [Hbs Hc Hkd _ _ _ _ _ Hs Hgg Hgb]. fold name in Hn, Hs.
  pose proof L1 as (Hb1 & Ht1 & Hf1 & _). fold (saved kd r (files s)) in Hf1.
  destruct (SingleFileDownload_marked (sig a) (name +:+ ".asc") s1 kd cg mg mgm)
    as (s2 & R2 & L2);
    [done|by rewrite Ht1|apply is_name_asc|by apply slash_free_asc|
     rewrite Hf1; unfold saved; by lookup_entry..|].
  pose proof L2 as (Hb2 & Ht2 & Hf2 & _).
  destruct (SingleFileDownload_marked (binary a) name s2 kd cb mb mbm)
    as (s3 & R3 & L3);
    [done|by rewrite Ht2, Ht1|done|done|
     rewrite Hf2, Hf1; unfold saved; by lookup_entry..|].
  exists s3.
  destruct (DownloadUpdaterForLang_compose (2 + fuel) ietf s s1 s2 s3 a
              _ _ _ _ _ _ Hc R1 L1 R2 L2 R3 L3) as [R L].
  split; [done|]. eapply leaves_files; [exact L|]. by rewrite Hf2, Hf1.
Qed.

(** ** Three runs

    The stage run three times from a directory that holds neither
    artifact nor marker: the three runs return the same paths; the
    first two fetch, the third does not; and the second leaves the
    markers that let the third skip. *)
Lemma DownloadUpdaterForLang_thrice fuel ietf s kd r mf a rg rb :
  let name := bundle_name (tbd s) ietf in
  let run := DownloadUpdaterForLang (2 + fuel) ietf in
  let paths := (artifact_path s name, artifact_path s (name +:+ ".asc"), None) in
  let fetch := [EvHttpGet TOR_UPDATES_URL; EvHttpGet (sig a); EvHttpGet (binary a)] in
  first_fetch s ietf kd r mf a rg rb →
  files s !! (kd ++ [marker (name +:+ ".asc")]) = None →
  files s !! (kd ++ [marker name]) = None →
  ∃ s1 s2 s3 σ1 σ2,
    run s = (Ret paths, s1) ∧ leaves s s1 σ1 fetch ∧
    run s1 = (Ret paths, s2) ∧ leaves s1 s2 σ2 fetch ∧
    run s2 = (Ret paths, s3) ∧ leaves s2 s3 σ2 [EvHttpGet TOR_UPDATES_URL] ∧
    σ1 !! (kd ++ [marker name]) = None ∧
    σ2 !! (kd ++ [marker name]) = Some (File (binary a) mode_0644) ∧
    σ2 !! (kd ++ [marker (name +:+ ".asc")]) = Some (File (sig a) mode_0644) ∧
    σ2 !! (kd ++ [name]) = Some (File (body rb) mode_0666) ∧
    σ2 !! (kd ++ [name +:+ ".asc"]) = Some (File (body rg) mode_0666).
Proof.
  intros name run paths fetch F Hgm Hbm. unfold run, paths.
  destruct (DownloadUpdaterForLang_run fuel ietf s kd r mf a rg rb F) as (s1 & R1 & L1).
  destruct F as [Hres _ _]. fold name in R1, L1.
  fold (saved kd r (files s)) in L1. pose proof L1 as (_ & Ht1 & Hf1 & _).
  assert (resolving s1 ietf kd r mf a rg rb) as Hres1.
  { eapply resolving_leaves; [done..|].
    apply (writable_file _ _ (body r) (file_mode (files s) (kd ++ ["downloads.json"]) mode_0644)).
    by lookup_entry. }
  destruct (DownloadUpdaterForLang_unmarked fuel ietf s1 kd r mf a rg rb
              (body rg) mode_0666 (body rb) mode_0666 Hres1) as (s2 & R2 & L2);
    rewrite ?Ht1, ?Hf1; fold name; [by lookup_entry..|].
  rewrite Ht1, !(leaves_path _ _ _ _ _ L1) in R2. rewrite Ht1 in L2.
  fold name in R2, L2. pose proof L2 as (_ & Ht2 & Hf2 & _).
  assert (resolving s2 ietf kd r mf a rg rb) as Hres2.
  { eapply resolving_leaves; [done..|].
    apply (writable_file _ _ (body r)
             (file_mode (files s1) (kd ++ ["downloads.json"]) mode_0644)).
    by lookup_entry. }
  destruct (DownloadUpdaterForLang_marked fuel ietf s2 kd r mf a rg rb
              (body rg) mode_0666 (body rb) mode_0666 mode_0644 mode_0644 Hres2)
    as (s3 & R3 & L3); rewrite ?Ht2, ?Ht1, ?Hf2; fold name; [by lookup_entry..|].
  rewrite Ht2, Ht1, !(leaves_path _ _ _ _ _ L2), !(leaves_path _ _ _ _ _ L1) in R3.
  fold name in R3.
  rewrite (saved_id _ _ _ (file_mode (files s1) (kd ++ ["downloads.json"]) mode_0644))
    in L3 by (by rewrite Hf2; lookup_entry).
  rewrite Hf2 in L3. do 5 eexists.
  split_and!; [exact R1|exact L1|exact R2|exact L2|exact R3|exact L3|by lookup_entry..].
Qed.

(** C17: the cache of the fetch stage takes effect on the third run.
    From a directory that is set up and holds neither artifact nor
    marker, with a mirror that answers alike each time, three runs of
    [DownloadUpdaterForLang] make seven requests: the manifest, the
    signature and the bundle, twice, and then the manifest alone.  The
    first run writes no marker; the second writes the markers; the
    third leaves the files as the second left them, and returns the
    paths of the bundle and of the signature without error. *)
Theorem DownloadUpdaterForLang_converges fuel ietf s kd r mf a rg rb :
  let name := bundle_name (tbd s) ietf in
  let run s := (DownloadUpdaterForLang (2 + fuel) ietf s).2 in
  let fetch := [EvHttpGet TOR_UPDATES_URL; EvHttpGet (sig a); EvHttpGet (binary a)] in
  first_fetch s ietf kd r mf a rg rb →
  files s !! (kd ++ [marker (name +:+ ".asc")]) = None →
  files s !! (kd ++ [marker name]) = None →
  events (run (run (run s)))
  = events s ++ fetch ++ fetch ++ [EvHttpGet TOR_UPDATES_URL] ∧
  files (run s) !! (kd ++ [marker name]) = None ∧
  files (run (run s)) !! (kd ++ [marker name]) = Some (File (binary a) mode_0644) ∧
  files (run (run (run s))) = files (run (run s)) ∧
  (DownloadUpdaterForLang (2 + fuel) ietf (run (run s))).1
  = Ret (artifact_path s name, artifact_path s (name +:+ ".asc"), None).
Proof.
  intros name run fetch F Hgm Hbm. unfold run.
  destruct (DownloadUpdaterForLang_thrice fuel ietf s kd r mf a rg rb F Hgm Hbm)
    as (s1 & s2 & s3 & σ1 & σ2 & -> & L1 & R2 & L2 & R3 & L3 & M1 & M2 & _).
  cbn [snd]. rewrite R2. cbn [snd]. rewrite R3. cbn [fst snd].
  destruct L1 as (_ & _ & -> & E1), L2 as (_ & _ & -> & E2), L3 as (_ & _ & -> & E3).
  split_and!; [|done..]. by rewrite E3, E2, E1, <-!app_assoc.
Qed.

End again.

(** ** The theorem at a first run

    The machine, the receiver and the network of the first run of
    [Stage]: the third run asks for the manifest only. *)

Lemma DownloadUpdaterForLang_converges_witness :
  let run s :=
    (@DownloadUpdaterForLang linux_amd64 mirror manifest_served 2 "de-AT" s).2 in
  events (run (run (run first_run)))
  = [EvHttpGet TOR_UPDATES_URL; EvHttpGet (sig (bundle "de"));
     EvHttpGet (binary (bundle "de"));
     EvHttpGet TOR_UPDATES_URL; EvHttpGet (sig (bundle "de"));
     EvHttpGet (binary (bundle "de"));
     EvHttpGet TOR_UPDATES_URL] ∧
  files (run (run (run first_run))) = files (run (run first_run)).
Proof.
  destruct (@DownloadUpdaterForLang_converges linux_amd64 mirror manifest_served 0
              "de-AT" first_run ["home"; "user"; "tor-browser"]
              (served TOR_UPDATES_URL) releases (bundle "de")
              (served (sig (bundle "de"))) (served (binary (bundle "de"))))
    as (He & _ & _ & Hf & _); [apply first_run_fetch|by vm_compute..|].
  split; [exact He|exact Hf].
Defined.
