(* ===== verification/Cache.v ===== *)
(** * The download cache as a state machine

    What [BotherToDownload] and [SingleFileDownload] of
    [src/get/get.go] keep of an artifact between runs is two files: the
    artifact and its marker [<name>.last-url].  A [cache] is what the
    two hold; [cache_step] is one call of [SingleFileDownload] on it,
    labelled with the address asked for and the answer of the network,
    and with the requests the call makes:

    - no artifact: the address is requested; an answer becomes the
      artifact, and the marker stays as it is ([step_fetch],
      [step_refused]);
    - an artifact and a marker that holds the address: nothing happens
      ([step_hit]);
    - an artifact and no marker, or a marker that holds another
      address: the marker is set to the address, and then the address
      is requested; an answer replaces the artifact ([step_refetch]),
      and a refusal leaves the old artifact under the new marker
      ([step_poison]).

    The machine is deterministic and never stuck: [cache_next] is the
    step as a function, and [cache_run] a run.
    [SingleFileDownload_simulates] shows that the method makes these
    steps on the files of the download directory.  [sound_run] shows by
    induction on runs that, as long as every request is answered, an
    artifact under a marker is the body that the address of the marker
    serves, and [after_calls_sound] carries this to the method;
    [failed_request_poisons] shows that one refused request breaks it:
    the run after it skips the fetch and keeps the artifact of the old
    address. *)

From stdpp Require Import base tactics option list strings gmap.
From Stdlib Require Import ZArith Lia.
From S2P Require Import Prelude GoStrings GoPath FileSys Machine Platform.
From S2P Require Import Bootstrap Json Manifest Fetch Stage Rerun.

(** ** The machine *)

(** What the directory holds of an artifact: its bytes, and the address
    in its marker. *)
Record cache : Type := Cache {
  cached : option string;
  marked_url : option string;
}.

#[export] Instance cache_eq_dec : EqDecision cache.
Proof. solve_decision. Defined.

(** The answer of [http.Get]. *)
Definition answer_of : Type := string + response.

Inductive cache_step (url : string) (ans : answer_of)
  : cache → list event → cache → Prop :=
| step_fetch l r :
    ans = inr r →
    cache_step url ans (Cache None l) [EvHttpGet url] (Cache (Some (body r)) l)
| step_refused l e :
    ans = inl e →
    cache_step url ans (Cache None l) [EvHttpGet url] (Cache None l)
| step_hit c :
    cache_step url ans (Cache (Some c) (Some url)) [] (Cache (Some c) (Some url))
| step_refetch c l r :
    l ≠ Some url → ans = inr r →
    cache_step url ans (Cache (Some c) l) [EvHttpGet url]
      (Cache (Some (body r)) (Some url))
| step_poison c l e :
    l ≠ Some url → ans = inl e →
    cache_step url ans (Cache (Some c) l) [EvHttpGet url] (Cache (Some c) (Some url)).

(** The step as a function. *)
Definition cache_next (url : string) (ans : answer_of) (c : cache)
  : list event * cache :=
  match cached c with
  | None =>
      ([EvHttpGet url],
       match ans with inr r => Cache (Some (body r)) (marked_url c) | inl _ => c end)
  | Some x =>
      if decide (marked_url c = Some url) then ([], c)
      else ([EvHttpGet url],
            Cache (Some match ans with inr r => body r | inl _ => x end) (Some url))
  end.

(** A run: the calls of a sequence of addresses and answers, one after
    the other. *)
Inductive cache_steps : list (string * answer_of) → cache → list event → cache → Prop :=
| steps_nil c : cache_steps [] c [] c
| steps_cons url ans calls c q c1 q' c2 :
    cache_step url ans c q c1 → cache_steps calls c1 q' c2 →
    cache_steps ((url, ans) :: calls) c (q ++ q') c2.

Fixpoint cache_run (calls : list (string * answer_of)) (c : cache)
  : list event * cache :=
  match calls with
  | [] => ([], c)
  | (url, ans) :: calls =>
      let '(q, c1) := cache_next url ans c in
      let '(q', c2) := cache_run calls c1 in
      (q ++ q', c2)
  end.

Section machine.
Implicit Types (c : cache) (q : list event) (url : string) (ans : answer_of).
Implicit Types calls : list (string * answer_of).

(** The relation is the graph of the function: the machine is
    deterministic and never stuck. *)
Lemma cache_step_next url ans c q c' :
  cache_step url ans c q c' ↔ cache_next url ans c = (q, c').
Proof.
  split.
  - intros [l r ->|l e ->|x|x l r Hl ->|x l e Hl ->]; unfold cache_next; simpl;
      by rewrite ?decide_True, ?decide_False by done.
  - destruct c as [[x|] l], ans as [e|r]; unfold cache_next; simpl;
      try case_decide; intros [= <- <-]; subst; by econstructor.
Qed.

Lemma cache_step_total url ans c : ∃ q c', cache_step url ans c q c'.
Proof. destruct (cache_next url ans c) as [q c'] eqn:E. exists q, c'. by apply cache_step_next. Qed.

Lemma cache_step_deterministic url ans c q1 c1 q2 c2 :
  cache_step url ans c q1 c1 → cache_step url ans c q2 c2 → q1 = q2 ∧ c1 = c2.
Proof. rewrite !cache_step_next. intros -> [= -> ->]. done. Qed.

(** A call makes at most one request, for the address it was given. *)
Lemma cache_step_requests url ans c q c' :
  cache_step url ans c q c' → q = [] ∨ q = [EvHttpGet url].
Proof. intros []; auto. Qed.

(** Once there, an artifact stays. *)
Lemma cache_step_keeps url ans c q c' :
  cache_step url ans c q c' → is_Some (cached c) → is_Some (cached c').
Proof. intros []; simpl; eauto. Qed.

Lemma cache_steps_keeps calls c q c' :
  cache_steps calls c q c' → is_Some (cached c) → is_Some (cached c').
Proof. induction 1; eauto using cache_step_keeps. Qed.

(** A call that skips the fetch changes nothing, and so does every call
    for the same address after it. *)
Lemma cache_step_skip url ans c c' : cache_step url ans c [] c' → c' = c.
Proof. by inversion 1. Qed.

Lemma cache_step_again url ans ans' c q c' x :
  cache_step url ans c q c' → cached c = Some x →
  cache_step url ans' c' [] c'.
Proof. intros [] [=]; subst; constructor. Qed.

Lemma cache_steps_run calls c q c' :
  cache_steps calls c q c' ↔ cache_run calls c = (q, c').
Proof.
  split.
  - induction 1 as [|url ans calls c q c1 q' c2 Hstep _ IH]; [done|].
    apply cache_step_next in Hstep. simpl. by rewrite Hstep, IH.
  - revert c q c'. induction calls as [|[url ans] calls IH]; intros c q c'; simpl.
    + intros [= <- <-]. constructor.
    + destruct (cache_next url ans c) as [q1 c1] eqn:E1.
      destruct (cache_run calls c1) as [q2 c2] eqn:E2. intros [= <- <-].
      econstructor; [by apply cache_step_next|by apply IH].
Qed.

End machine.

(** ** While every request is answered

    [served] is what the addresses serve.  A cache is sound when the
    artifact under a marker is the body that the address of the marker
    serves. *)

Section sound.
Variable served : string → response.
Implicit Types (c : cache) (calls : list (string * answer_of)).

Definition sound c : Prop :=
  ∀ u, marked_url c = Some u → cached c = Some (body (served u)).

Definition answered calls : Prop :=
  Forall (λ call, call.2 = inr (served call.1)) calls.

Lemma cache_step_sound url c q c' :
  cache_step url (inr (served url)) c q c' → sound c → sound c'.
Proof. unfold sound. intros []; simpl; intros Hc u Hu; naive_solver. Qed.

(** The cache stays sound while every request is answered, by
    induction on the run. *)
Lemma sound_run calls c q c' :
  cache_steps calls c q c' → answered calls → sound c → sound c'.
Proof.
  induction 1 as [|url ans calls c q c1 q' c2 Hstep _ IH]; [done|].
  intros [E Hrest]%Forall_cons. simpl in E. subst ans.
  eauto using cache_step_sound.
Qed.

(** A call that makes no request on a sound cache leaves the body that
    its address serves. *)
Lemma sound_skip c url ans c' :
  sound c → cache_step url ans c [] c' → cached c' = Some (body (served url)).
Proof. intros Hc Hstep. inversion Hstep; subst. by apply Hc. Qed.

Lemma sound_empty : sound (Cache None None).
Proof. by intros u. Qed.

End sound.

(** ** The method makes the steps of the machine *)

(** The cache of an artifact in a file system, and the file systems in
    which neither the artifact nor its marker is a directory. *)
Definition cache_of (σ : fs) (kd : path) (name : string) : cache :=
  Cache (content_at σ (kd ++ [name])) (content_at σ (kd ++ [marker name])).

Definition tidy (σ : fs) (kd : path) (name : string) : Prop :=
  is_dir σ (kd ++ [name]) = false ∧ is_dir σ (kd ++ [marker name]) = false.

(** What the method returns: the path, or the error of a request that
    was made and refused. *)
Definition fetch_result (path : string) (q : list event) (ans : answer_of)
  : string * error :=
  match q, ans with
  | _ :: _, inl e => ("", Some ("SingleFileDownload: " +:+ e))
  | _, _ => (path, None)
  end.

Section files.
Implicit Types (σ : fs) (k : path).

Lemma content_at_insert σ k c m : content_at (<[k := File c m]> σ) k = Some c.
Proof. unfold content_at. by rewrite lookup_insert_eq. Qed.

Lemma content_at_insert_ne σ k k' n : k ≠ k' → content_at (<[k := n]> σ) k' = content_at σ k'.
Proof. intros ?. unfold content_at. by rewrite lookup_insert_ne. Qed.

Lemma content_at_file σ k c m : σ !! k = Some (File c m) → content_at σ k = Some c.
Proof. unfold content_at. by intros ->. Qed.

Lemma content_at_None σ k : σ !! k = None → content_at σ k = None.
Proof. unfold content_at. by intros ->. Qed.

Lemma content_at_Some σ k c : content_at σ k = Some c → ∃ m, σ !! k = Some (File c m).
Proof. unfold content_at. destruct (σ !! k) as [[]|]; naive_solver. Qed.

Lemma is_dir_insert_file σ k c m : is_dir (<[k := File c m]> σ) k = false.
Proof. unfold is_dir. by rewrite lookup_insert_eq. Qed.

End files.

(** The cache and the shape of a directory after files were written to
    it. *)
Ltac cache_simpl :=
  unfold cache_of, tidy;
  repeat first [ rewrite content_at_insert
               | rewrite is_dir_insert_file
               | rewrite content_at_insert_ne by names_differ
               | rewrite is_dir_insert_ne by names_differ ].

Section simulation.
Context `{Runtime} `{Network}.
Implicit Types (s : state) (url name : string) (kd : path) (q : list event).

(** A call that leaves the files [σ] after the requests [q] makes the
    step of the machine, once [σ] holds what the step leaves. *)
Definition simulates url name kd s (o : outcome (string * error)) s' : Prop :=
  ∃ q, cache_step url (http_Get url) (cache_of (files s) kd name) q
         (cache_of (files s') kd name) ∧
       o = Ret (fetch_result (artifact_path s name) q (http_Get url)) ∧
       events s' = events s ++ q ∧
       bootstrapped s' ∧ tbd s' = tbd s ∧ tidy (files s') kd name.

Lemma leaves_simulates url name kd s res s' σ q :
  leaves s s' σ q → tidy σ kd name →
  cache_step url (http_Get url) (cache_of (files s) kd name) q (cache_of σ kd name) →
  res = fetch_result (artifact_path s name) q (http_Get url) →
  simulates url name kd s (Ret res) s'.
Proof. intros (Hb & Ht & <- & He) ?? ->. by exists q. Qed.

Lemma simulates_run url name kd s :
  bootstrapped s → key (DownloadPath (tbd s)) = Some kd →
  is_name name → slash_free name → tidy (files s) kd name →
  simulates url name kd s (SingleFileDownload url name s).1
    (SingleFileDownload url name s).2.
Proof.
  intros Hb Hkd Hn Hs [Hk Hm]. unfold is_dir in Hk.
  destruct (files s !! (kd ++ [name])) as [[c m|m]|] eqn:Ef; [|done|].
  - destruct (decide (content_at (files s) (kd ++ [marker name]) = Some url))
      as [Hu|Hu].
    + destruct (content_at_Some _ _ _ Hu) as [mm Em].
      destruct (SingleFileDownload_marked url name s kd c m mm) as (s1 & -> & L);
        [done..|].
      eapply leaves_simulates; [done|by split; unfold is_dir; rewrite ?Ef, ?Em| |done].
      unfold cache_of. rewrite (content_at_file _ _ c m), Hu by done. constructor.
    + destruct (http_Get url) as [e|r] eqn:Eg.
      * destruct (SingleFileDownload_stale_refused url name s kd c m e)
          as (s1 & -> & L); [done..|].
        eapply leaves_simulates; [done| | |by rewrite Eg].
        { cache_simpl. unfold is_dir. by rewrite Ef. }
        cache_simpl. rewrite (content_at_file _ _ c m), Eg by done. by econstructor.
      * destruct (SingleFileDownload_stale url name s kd c m r)
          as (s1 & -> & L); [done..|].
        eapply leaves_simulates; [done| | |by rewrite Eg].
        { by cache_simpl. }
        cache_simpl. rewrite (content_at_file _ _ c m), Eg by done. by econstructor.
  - destruct (http_Get url) as [e|r] eqn:Eg.
    + destruct (SingleFileDownload_refused_new url name s kd e) as (s1 & -> & L);
        [done..|].
      eapply leaves_simulates;
        [done|split; [unfold is_dir; by rewrite Ef|done]| |by rewrite Eg].
      unfold cache_of. rewrite !(content_at_None _ _ Ef), Eg. by econstructor.
    + destruct (SingleFileDownload_new url name s kd r) as (s1 & -> & L); [done..|].
      eapply leaves_simulates; [done| | |by rewrite Eg].
      { by cache_simpl. }
      cache_simpl. rewrite !(content_at_None _ _ Ef), Eg. by econstructor.
Qed.

(** C18: [SingleFileDownload] makes the step of the machine.  In a
    directory that is set up, where neither the artifact nor its marker
    is a directory, a call for an address makes on the cache of the
    artifact the step that [cache_step] gives for the address and the
    answer of the network; it makes the requests of the step and no
    other call to the outside; it returns the path of the artifact, or
    the error of a request that was made and refused; and it leaves a
    directory that is set up and of the same shape. *)
Theorem SingleFileDownload_simulates url name kd s :
  bootstrapped s → key (DownloadPath (tbd s)) = Some kd →
  is_name name → slash_free name → tidy (files s) kd name →
  let s' := (SingleFileDownload url name s).2 in
  ∃ q, cache_step url (http_Get url) (cache_of (files s) kd name) q
         (cache_of (files s') kd name) ∧
       (SingleFileDownload url name s).1
       = Ret (fetch_result (artifact_path s name) q (http_Get url)) ∧
       events s' = events s ++ q ∧
       bootstrapped s' ∧ tbd s' = tbd s ∧ tidy (files s') kd name.
Proof. apply simulates_run. Qed.

(** The state after the calls for a list of addresses, one after the
    other. *)
Fixpoint after_calls (urls : list string) (name : string) s : state :=
  match urls with
  | [] => s
  | url :: urls => after_calls urls name (SingleFileDownload url name s).2
  end.

(** The calls of a run, with the answers of the network. *)
Definition calls_of (urls : list string) : list (string * answer_of) :=
  (λ url, (url, http_Get url)) <$> urls.

Lemma after_calls_simulate urls name kd s :
  bootstrapped s → key (DownloadPath (tbd s)) = Some kd →
  is_name name → slash_free name → tidy (files s) kd name →
  let s' := after_calls urls name s in
  ∃ q, cache_steps (calls_of urls) (cache_of (files s) kd name) q
         (cache_of (files s') kd name) ∧
       events s' = events s ++ q ∧
       bootstrapped s' ∧ tbd s' = tbd s ∧ tidy (files s') kd name.
Proof.
  intros Hb Hkd Hn Hs Ht. revert s Hb Hkd Ht.
  induction urls as [|url urls IH]; intros s Hb Hkd Ht; simpl.
  { exists []. rewrite app_nil_r. split_and!; [constructor|done..]. }
  destruct (simulates_run url name kd s) as (q & S & _ & He & Hb1 & Ht1 & Hd1);
    [done..|].
  destruct (IH (SingleFileDownload url name s).2) as (q' & S' & He' & Hb2 & Ht2 & Hd2);
    [done|by rewrite Ht1|done|].
  exists (q ++ q'). split_and!; [by econstructor| |done|congruence|done].
  by rewrite He', He, app_assoc.
Qed.

(** C15: the cache stays sound while every request is answered.  In a
    directory that is set up, where the artifact under a marker is the
    body that the address of the marker serves, any number of calls of
    [SingleFileDownload], for any addresses that the network answers,
    leave such a directory again: an artifact that a later call skips
    is the body that the call would have fetched. *)
Theorem after_calls_sound (served : string → response) urls name kd s :
  Forall (λ url, http_Get url = inr (served url)) urls →
  bootstrapped s → key (DownloadPath (tbd s)) = Some kd →
  is_name name → slash_free name → tidy (files s) kd name →
  sound served (cache_of (files s) kd name) →
  sound served (cache_of (files (after_calls urls name s)) kd name).
Proof.
  intros Hans Hb Hkd Hn Hs Ht Hc.
  destruct (after_calls_simulate urls name kd s) as (q & S & _); [done..|].
  apply (sound_run served _ _ _ _ S); [|done].
  unfold answered, calls_of. rewrite Forall_fmap. by apply (Forall_impl _ _ _ Hans).
Qed.

End simulation.

(** ** A refused request poisons the cache *)

Section poison.
Context `{Runtime} (up down : Network).
Implicit Types (s : state) (url name : string) (kd : path).

(** C32: a refused request poisons the cache.  With the artifact of an
    earlier address in place, a call for a new address at a time when
    the network refuses it returns the error, and has set the marker to
    the new address before it asked; the next call for that address,
    with the network up again, makes no request and returns the path of
    the artifact without error, and the artifact is still the one of
    the earlier address. *)
Theorem failed_request_poisons url name s kd c m e :
  bootstrapped s → key (DownloadPath (tbd s)) = Some kd →
  is_name name → slash_free name →
  files s !! (kd ++ [name]) = Some (File c m) →
  is_dir (files s) (kd ++ [marker name]) = false →
  content_at (files s) (kd ++ [marker name]) ≠ Some url →
  @http_Get down url = inl e →
  let first := @SingleFileDownload _ down url name s in
  let second := @SingleFileDownload _ up url name first.2 in
  first.1 = Ret ("", Some ("SingleFileDownload: " +:+ e)) ∧
  second.1 = Ret (artifact_path s name, None) ∧
  events second.2 = events s ++ [EvHttpGet url] ∧
  content_at (files second.2) (kd ++ [name]) = Some c ∧
  content_at (files second.2) (kd ++ [marker name]) = Some url.
Proof.
  intros Hb Hkd Hn Hs Hf Hd Hm Hg first second. unfold second, first.
  destruct (@SingleFileDownload_stale_refused _ down url name s kd c m e)
    as (s1 & -> & Hb1 & Ht1 & Hf1 & He1); [done..|]. cbn [fst snd].
  destruct (@SingleFileDownload_marked _ up url name s1 kd c m
              (file_mode (files s) (kd ++ [marker name]) mode_0644))
    as (s2 & -> & Hb2 & Ht2 & Hf2 & He2);
    [done|by rewrite Ht1|done|done|rewrite Hf1; by lookup_entry..|].
  cbn [fst snd]. unfold artifact_path. rewrite Ht1, Hf2, Hf1, He2, He1, app_nil_r.
  split_and!; [done..| |]; by cache_simpl; rewrite ?(content_at_file _ _ c m).
Qed.

End poison.

(** ** The theorems on a directory that holds an old bundle

    The machine of the witnesses of [Fetch], with a bundle in the
    download directory and no marker; [mirror] answers, and [offline]
    refuses every request. *)

Definition offline : Network :=
  {| http_Get _ := inl "dial tcp: connection refused";
     proxy_Get _ _ _ := inl "proxyconnect tcp: connection refused";
     net_Listen _ _ := None;
     net_finalized _ := false;
     url_Parse _ := None |}.

Lemma stocked_bootstrapped : @bootstrapped linux_amd64 stocked.
Proof.
  apply (@bootstrapped_intro linux_amd64 _ ["home"; "user"; "tor-browser"]
           ["home"; "user"; "tor-browser"; key_name]
           ["home"; "user"; "unpack"; xpi_name]
           (File "key" mode_0644) (File "xpi" mode_0644)); by vm_compute.
Qed.

Lemma SingleFileDownload_simulates_witness :
  @cache_step tb_url (inr {| body := "bytes of " +:+ tb_url; read_error := None |})
    (Cache (Some "old") None) [EvHttpGet tb_url]
    (@cache_of (files (@SingleFileDownload linux_amd64 mirror tb_url tb stocked).2)
       ["home"; "user"; "tor-browser"] tb).
Proof.
  destruct (@SingleFileDownload_simulates linux_amd64 mirror tb_url tb
              ["home"; "user"; "tor-browser"] stocked)
    as (q & S & _ & He & _);
    [apply stocked_bootstrapped|by vm_compute|by apply (bool_decide_unpack _)|
     by apply (bool_decide_unpack _)|by split; vm_compute|].
  destruct (cache_step_requests _ _ _ _ _ S) as [->| ->]; [by inversion S|exact S].
Defined.

Lemma after_calls_sound_witness :
  sound (λ url, {| body := "bytes of " +:+ url; read_error := None |})
    (cache_of
       (files (@after_calls linux_amd64 mirror [tb_url; "https://dist.example/new"; tb_url]
                 tb stocked))
       ["home"; "user"; "tor-browser"] tb).
Proof.
  apply (@after_calls_sound linux_amd64 mirror);
    [by repeat constructor|apply stocked_bootstrapped|by vm_compute|
     by apply (bool_decide_unpack _)|by apply (bool_decide_unpack _)|
     by split; vm_compute|by intros u].
Defined.

Lemma failed_request_poisons_witness :
  (@SingleFileDownload linux_amd64 mirror tb_url tb
     (@SingleFileDownload linux_amd64 offline tb_url tb stocked).2).1
  = Ret ("/home/user/tor-browser/tb.tar.xz", None) ∧
  content_at
    (files (@SingleFileDownload linux_amd64 mirror tb_url tb
              (@SingleFileDownload linux_amd64 offline tb_url tb stocked).2).2)
    tb_key = Some "old".
Proof.
  destruct (@failed_request_poisons linux_amd64 mirror offline tb_url tb stocked
              ["home"; "user"; "tor-browser"] "old" mode_0644
              "dial tcp: connection refused")
    as (_ & Hr & _ & Hc & _);
    [apply stocked_bootstrapped|by vm_compute|by apply (bool_decide_unpack _)|
     by apply (bool_decide_unpack _)|by vm_compute..|done|].
  split; [exact Hr|exact Hc].
Defined.
