(* ===== verification/Install.v ===== *)
(** * Unpacking by platform

    [UnpackUpdater] of [src/get/get.go].  On Windows the bundle is an
    installer that is run when the install directory is not there; on
    macOS the disk image is opened by the system; everywhere else the
    bundle is an xz-compressed tar stream whose entries are written
    under the unpack directory, unless the install directory is there.

    The loop over the tar stream is [tar_loop], by recursion on the
    entries that the decoder delivers.  [extract] is the same walk as a
    function on file systems; [tar_loop_walk] shows that the loop
    computes it.  The names of the entries are joined to the unpack
    directory as they are: entries whose names hold no [..] are
    written below the directory ([tar_loop_confined]), and [climbing]
    is an entry that lands outside of it ([tar_slip]).

    A file is created with mode 0666 and given the mode of its entry by
    the [Chmod] that follows the copy; [chmod_bits] is what
    [archive/tar] and [os] carry of the mode of a header to the file, a
    fact of these libraries.  [UnpackUpdater_modes] is the mode and the
    content of a file after the method has returned. *)

From stdpp Require Import base tactics option list strings gmap.
From Stdlib Require Import ZArith Ascii.
From S2P Require Import Prelude GoStrings GoPath FileSys Machine Platform.
From S2P Require Import Bootstrap.

(** [tar.TypeDir]. *)
Definition TypeDir : ascii := "5"%char.

(** The bits that [Chmod] takes from [header.FileInfo().Mode()]: the
    permissions and the setuid, setgid and sticky bits.  This is the
    behaviour of [archive/tar] and of [os], not code of the
    repository. *)
Definition chmod_bits (mode : Z) : Z := Z.land mode 4095.

Section install.
Context `{Runtime} `{Shell} `{Archive}.

(** [cmd.Run()] of [exec.Command(argv...)]. *)
Definition cmd_Run (argv : list string) : Go error :=
  emit (EvExec argv) ;;
  σ ← gets files;
  modify (set_files (λ _, (exec_Run argv σ).1)) ;;
  mret (exec_Run argv σ).2.

(** [os.Open], as the error it returns. *)
Definition os_Open (p : string) : Go error :=
  err ← os_Stat p;
  mret (PathError "open" p <$> err).

(** [xz.NewReader] and the tar reader on the file that was opened at
    [p]: a file that cannot be read fails at the header of the stream. *)
Definition open_archive (p : string) : Go archive :=
  '(bytes, err) ← ioutil_ReadFile p;
  mret match err with
       | Some e => {| xz_error := Some e; entries := []; tar_error := None |}
       | None => decode bytes
       end.

(** The [for] loop of [UnpackUpdater] over the entries of the stream;
    [end_error] is the error that ends it, [None] for [io.EOF].  The
    result is the error the method returns from inside the loop. *)
Fixpoint tar_loop (dir : string) (es : list tar_entry) (end_error : error)
  : Go error :=
  match es with
  | [] =>
      mret ((λ e, "UnpackUpdater: Tar looper Error " +:+ e) <$> end_error)
  | header :: rest =>
      if decide (Typeflag header = TypeDir) then
        os_MkdirAll (Join [dir; Name header]) mode_0755 ;;
        tar_loop dir rest end_error
      else
        let filename := Join [dir; Name header] in
        err ← os_Create filename;
        match err with
        | Some e => mret (Some ("UnpackUpdater: Tar unpacker error " +:+ e))
        | None =>
            write_open filename (content header) ;;
            file_Chmod filename (chmod_bits (Mode header)) ;;
            t ← gets tbd;
            (if Verbose t
             then fmt_Printf ("Unpacked " +:+ Name header +:+ newline)
             else mret tt) ;;
            tar_loop dir rest end_error
        end
  end.

(** The branch of [UnpackUpdater] for Windows. *)
Definition unpack_win (binpath : string) : Go (string * error) :=
  installPath ← BrowserDir;
  there ← FileExists installPath;
  if negb there then
    Log "UnpackUpdater()" "Windows updater, running silent NSIS installer" ;;
    Log "UnpackUpdater()"
      ("Running " +:+ binpath +:+ " " +:+ "/S" +:+ " " +:+ "/D=" +:+ installPath) ;;
    err ← cmd_Run [binpath; "/S"; "/D=" +:+ installPath];
    match err with
    | Some e => mret ("", Some ("UnpackUpdater: windows exec fail " +:+ e))
    | None => mret (installPath, None)
    end
  else mret (installPath, None).

(** The branch for macOS. *)
Definition unpack_osx (binpath : string) : Go (string * error) :=
  t ← gets tbd;
  err ← cmd_Run ["open"; "-W"; "-n"; "-a";
                 dquote +:+ UnpackPath t +:+ dquote;
                 dquote +:+ binpath +:+ dquote];
  match err with
  | Some e => mret ("", Some ("UnpackUpdater: osx open/mount fail " +:+ e))
  | None => mret (UnpackPath t, None)
  end.

(** The branch for the tar stream. *)
Definition unpack_tar (binpath : string) : Go (string * error) :=
  dir ← BrowserDir;
  there ← FileExists dir;
  if (there : bool) then mret (dir, None)
  else
    t ← gets tbd;
    fmt_Printf ("Unpacking " +:+ binpath +:+ " " +:+ UnpackPath t +:+ newline) ;;
    os_MkdirAll (UnpackPath t) mode_0755 ;;
    err ← os_Open (UnpackPath t);
    match err with
    | Some e => mret ("", Some ("UnpackUpdater: directory error " +:+ e))
    | None =>
        err ← os_Open binpath;
        match err with
        | Some e => mret ("", Some ("UnpackUpdater: XZFile error " +:+ e))
        | None =>
            a ← open_archive binpath;
            match xz_error a with
            | Some e => mret ("", Some ("UnpackUpdater: XZReader error " +:+ e))
            | None =>
                err ← tar_loop (UnpackPath t) (entries a) (tar_error a);
                match err with
                | Some e => mret ("", Some e)
                | None => BrowserDir ≫= λ dir, mret (dir, None)
                end
            end
        end
    end.

(** [func (t *TBDownloader) UnpackUpdater(binpath string)]. *)
Definition UnpackUpdater (binpath : string) : Go (string * error) :=
  Log "UnpackUpdater()" ("Unpacking " +:+ binpath) ;;
  t ← gets tbd;
  if decide (OS t = "win") then unpack_win binpath
  else if decide (OS t = "osx") then unpack_osx binpath
  else unpack_tar binpath.

End install.

(** ** Extraction as a function on file systems *)

Section extract.
Context `{Runtime}.
Implicit Types (s : state) (σ : fs) (e : tar_entry) (es : list tar_entry).

(** Where the entry [e] is written. *)
Definition entry_key (dir : string) e : option path := key (Join [dir; Name e]).

(** The walk over the entries: a directory entry makes the directories
    on its way, any other entry becomes a file with the content and the
    mode bits of the entry; the walk stops at the first file that cannot
    be created.  The flag tells whether the walk went through. *)
Fixpoint extract (dir : string) es σ : fs * bool :=
  match es with
  | [] => (σ, true)
  | e :: rest =>
      if decide (Typeflag e = TypeDir) then
        extract dir rest
          match entry_key dir e with
          | Some k => (mkdir_all σ k mode_0755).1
          | None => σ
          end
      else
        match entry_key dir e with
        | Some k =>
            if writable σ k
            then extract dir rest
                   (<[k := File (content e) (chmod_bits (Mode e))]> σ)
            else (σ, false)
        | None => (σ, false)
        end
  end.

(** The state after the file of [e] was written at [k]. *)
Definition unpacked e k s : state :=
  (if Verbose (tbd s)
   then set_printed (λ l, l ++ ["Unpacked " +:+ Name e +:+ newline])
   else id)
    (set_files (λ σ, <[k := File (content e) (chmod_bits (Mode e))]> σ) s).

Lemma unpacked_files e k s :
  files (unpacked e k s) = <[k := File (content e) (chmod_bits (Mode e))]> (files s).
Proof. unfold unpacked. by destruct (Verbose (tbd s)). Qed.

Lemma tar_loop_dir_step dir e es end_error s :
  Typeflag e = TypeDir →
  tar_loop dir (e :: es) end_error s
  = tar_loop dir es end_error (os_MkdirAll (Join [dir; Name e]) mode_0755 s).2.
Proof.
  intros Ht. cbn [tar_loop]. rewrite decide_True by done. go_run.
  pose proof (on_key_Ret "mkdir" (Join [dir; Name e])
                (λ σ k, mkdir_all σ k mode_0755) s) as Hr.
  fold (os_MkdirAll (Join [dir; Name e]) mode_0755) in Hr.
  by destruct (os_MkdirAll (Join [dir; Name e]) mode_0755 s) as [[] ?].
Qed.

Lemma tar_loop_file_step dir e es end_error s k :
  Typeflag e ≠ TypeDir → entry_key dir e = Some k → writable (files s) k = true →
  tar_loop dir (e :: es) end_error s = tar_loop dir es end_error (unpacked e k s).
Proof.
  intros Ht Hk Hw. cbn [tar_loop]. rewrite decide_False by done. go_run.
  rewrite (os_Create_run _ _ k), create_writable by done.
  cbn [fst snd fmap option_fmap option_map].
  rewrite (write_open_run _ _ _ k) by done. unfold file_Chmod.
  unfold entry_key in Hk. rewrite Hk. go_run. cbn [tbd set_files].
  assert (∀ f, set_files (λ σ, chmod σ k (chmod_bits (Mode e)))
                 (set_files (λ σ, append_file σ k (content e))
                    (set_files (λ _, f (files s)) s))
               = set_files (λ σ, chmod (append_file (f σ) k (content e)) k
                                   (chmod_bits (Mode e))) s) as -> by done.
  unfold unpacked. f_equal.
  assert (∀ m, set_files (λ σ, chmod (append_file (<[k := File "" m]> σ) k
                                        (content e)) k (chmod_bits (Mode e))) s
               = set_files (λ σ, <[k := File (content e) (chmod_bits (Mode e))]> σ) s)
    as Hs.
  { intros m. apply set_files_ext. rewrite append_file_insert, string_app_nil_l.
    unfold chmod. by rewrite lookup_insert_eq, insert_insert_eq. }
  unfold fmt_Printf. go_run. rewrite Hs. by destruct (Verbose (tbd s)).
Qed.

Lemma tar_loop_file_stop dir e es end_error s :
  Typeflag e ≠ TypeDir →
  match entry_key dir e with
  | Some k => writable (files s) k = false
  | None => True
  end →
  ∃ msg, tar_loop dir (e :: es) end_error s = (Ret (Some msg), s).
Proof.
  intros Ht Hk. cbn [tar_loop]. rewrite decide_False by done. go_run.
  unfold entry_key in Hk. unfold os_Create, on_key. go_run.
  destruct (key (Join [dir; Name e])) as [k|]; [|eauto].
  destruct (create_unwritable (files s) k mode_0666 Hk) as [err ->].
  rewrite set_files_id. eauto.
Qed.

(** The loop over the tar stream computes [extract]: the file system it
    leaves is the one the walk gives, and it returns an error exactly
    when the walk stopped or the stream ended in an error. *)
Lemma tar_loop_walk dir es end_error s :
  ∃ err s', tar_loop dir es end_error s = (Ret err, s') ∧
    files s' = (extract dir es (files s)).1 ∧
    (err = None ↔ (extract dir es (files s)).2 = true ∧ end_error = None).
Proof.
  revert s. induction es as [|e es IH]; intros s.
  { do 2 eexists. split; [done|]. split; [done|]. simpl.
    destruct end_error; split; (done || by intros [_ ?]). }
  cbn [extract]. destruct (decide (Typeflag e = TypeDir)) as [Ht|Ht].
  { rewrite tar_loop_dir_step by done.
    destruct (IH (os_MkdirAll (Join [dir; Name e]) mode_0755 s).2)
      as (err & s' & Hr & Hf & Hi).
    rewrite os_MkdirAll_files in Hf, Hi. eauto 10. }
  assert (∀ msg : string,
            Some msg = None ↔ (files s, false).2 = true ∧ end_error = None)
    as Hstop by (intros msg; split; [done|by intros [? _]]).
  destruct (entry_key dir e) as [k|] eqn:Hk;
    [destruct (writable (files s) k) eqn:Hw|].
  - rewrite (tar_loop_file_step _ _ _ _ _ k) by done.
    destruct (IH (unpacked e k s)) as (err & s' & Hr & Hf & Hi).
    rewrite unpacked_files in Hf, Hi. eauto 10.
  - destruct (tar_loop_file_stop dir e es end_error s Ht) as [msg Hm];
      [by rewrite Hk|].
    exists (Some msg), s. split_and!; [done..|apply Hstop].
  - destruct (tar_loop_file_stop dir e es end_error s Ht) as [msg Hm];
      [by rewrite Hk|].
    exists (Some msg), s. split_and!; [done..|apply Hstop].
Qed.

Lemma tar_loop_persists dir es end_error :
  respects persists (tar_loop dir es end_error).
Proof. induction es as [|e es IH]; cbn [tar_loop]; solve_respects. Qed.

(** The names of the entries do not climb: none holds [".."]. *)
Definition tame es : Prop := Forall (λ e, Contains (Name e) ".." = false) es.

#[export] Instance tame_dec es : Decision (tame es).
Proof. unfold tame. apply _. Defined.

(** The loop over tame entries writes below the directory only. *)
Lemma tar_loop_confined dir ku es end_error :
  key dir = Some ku → tame es →
  respects (confined ku) (tar_loop dir es end_error).
Proof.
  intros Hk Ht. induction Ht as [|e es He Ht IH]; cbn [tar_loop];
    [solve_respects|].
  destruct (key_Join_below dir (Name e) ku Hk He) as (k & Hke & Hpre).
  solve_respects;
    eauto using os_MkdirAll_confined, os_Create_confined, write_open_confined,
      file_Chmod_confined.
Qed.

(** *** The file that an entry leaves *)

(** The walk over a stream in two parts. *)
Lemma extract_app dir pre es σ :
  extract dir (pre ++ es) σ =
  if (extract dir pre σ).2 then extract dir es (extract dir pre σ).1
  else extract dir pre σ.
Proof.
  revert σ. induction pre as [|e pre IH]; intros σ; [done|].
  cbn [app extract]. destruct (decide (Typeflag e = TypeDir)); [apply IH|].
  destruct (entry_key dir e) as [k|]; [|done].
  destruct (writable σ k); [apply IH|done].
Qed.

(** No entry of [es] is written as a file at [k]. *)
Definition spares (dir : string) k es : Prop :=
  Forall (λ e, Typeflag e ≠ TypeDir → entry_key dir e ≠ Some k) es.

#[export] Instance spares_dec dir k es : Decision (spares dir k es).
Proof. unfold spares. apply _. Defined.

(** The walk keeps what is at a key that none of its files is written
    at: the directories it makes replace nothing. *)
Lemma extract_keeps dir k n es σ :
  spares dir k es → σ !! k = Some n → (extract dir es σ).1 !! k = Some n.
Proof.
  intros Hs. revert σ. induction Hs as [|e es He _ IH]; intros σ Hn; [done|].
  cbn [extract]. destruct (decide (Typeflag e = TypeDir)) as [Ht|Ht].
  { apply IH. destruct (entry_key dir e); [by apply mkdir_all_keeps|done]. }
  destruct (entry_key dir e) as [k'|] eqn:Hk; [|done].
  destruct (writable σ k'); [|done].
  apply IH. rewrite lookup_insert_ne; [done|]. intros ->. by apply He.
Qed.

(** A walk that went through leaves, at the key of the last entry that
    is written there, the content of that entry under its mode bits. *)
Lemma extract_last dir k e pre post σ :
  Typeflag e ≠ TypeDir → entry_key dir e = Some k → spares dir k post →
  (extract dir (pre ++ e :: post) σ).2 = true →
  (extract dir (pre ++ e :: post) σ).1 !! k
  = Some (File (content e) (chmod_bits (Mode e))).
Proof.
  intros Ht Hk Hs. rewrite extract_app.
  destruct (extract dir pre σ) as [σ1 []]; [|done]. cbn [fst snd extract].
  rewrite decide_False, Hk by done. destruct (writable σ1 k); [|done].
  intros _. apply extract_keeps; [done|]. by rewrite lookup_insert_eq.
Qed.

End extract.

(** The bits that [chmod_bits] keeps are the low twelve bits. *)
Lemma chmod_bits_spec mode :
  (0 ≤ chmod_bits mode < 4096)%Z ∧
  ∀ i, (0 ≤ i < 12)%Z → Z.testbit (chmod_bits mode) i = Z.testbit mode i.
Proof.
  unfold chmod_bits. change 4095%Z with (Z.ones 12). split.
  - rewrite Z.land_ones by done. by apply Z.mod_pos_bound.
  - intros i Hi. rewrite Z.land_spec, Z.ones_spec_low by done.
    by rewrite andb_true_r.
Qed.

#[export] Hint Resolve tar_loop_persists : go.

(** ** The method by platform *)

Section unpack.
Context `{Runtime} `{Shell} `{Archive}.
Implicit Types (s : state) (binpath : string).

(** The install directory. *)
Definition browser_dir s : string :=
  Join [UnpackPath (tbd s); "tor-browser_" +:+ Lang (tbd s)].

(** The state in which the branches start. *)
Definition unpacking binpath s : state :=
  noted "UnpackUpdater()" ("Unpacking " +:+ binpath) s.

Lemma os_Open_there p s k n :
  key p = Some k → files s !! k = Some n → os_Open p s = (Ret None, s).
Proof.
  intros Hk Hn. unfold os_Open, os_Stat, stat. go_run. by rewrite Hk, Hn.
Qed.

Lemma UnpackUpdater_branch binpath s :
  UnpackUpdater binpath s =
  (if decide (OS (tbd s) = "win") then unpack_win binpath
   else if decide (OS (tbd s) = "osx") then unpack_osx binpath
   else unpack_tar binpath) (unpacking binpath s).
Proof.
  unfold UnpackUpdater. go_run. by rewrite Log_run, noted_tbd.
Qed.

Lemma unpack_tar_installed binpath s :
  present s (browser_dir s) →
  unpack_tar binpath s = (Ret (browser_dir s, None), s).
Proof.
  intros Hp. unfold unpack_tar. go_run.
  by rewrite BrowserDir_run, FileExists_present.
Qed.

(** C19: where the bundle is a tar stream and the install directory is
    there, the method returns the directory, runs no program and
    leaves every file as it is. *)
Theorem UnpackUpdater_installed binpath s :
  OS (tbd s) ≠ "win" → OS (tbd s) ≠ "osx" → present s (browser_dir s) →
  (UnpackUpdater binpath s).1 = Ret (browser_dir s, None) ∧
  files (UnpackUpdater binpath s).2 = files s ∧
  events (UnpackUpdater binpath s).2 = events s.
Proof.
  intros Hw Ho Hp. rewrite UnpackUpdater_branch, !decide_False by done.
  rewrite unpack_tar_installed.
  - unfold browser_dir, unpacking. cbn [fst snd].
    by rewrite noted_tbd, noted_files, noted_events.
  - unfold browser_dir, unpacking. rewrite noted_tbd.
    by apply (present_same s); [apply noted_files|].
Qed.

(** The state in which the loop over the stream starts. *)
Definition announced binpath s : state :=
  set_printed
    (λ l, l ++ ["Unpacking " +:+ binpath +:+ " " +:+ UnpackPath (tbd s) +:+ newline])
    s.

(** The tar branch up to the loop: the unpack directory is there, the
    bundle is a file whose stream has a good header. *)
Lemma unpack_tar_loop binpath s ku kb c m :
  absent s (browser_dir s) → fs_wf (files s) →
  key (UnpackPath (tbd s)) = Some ku → is_dir (files s) ku = true →
  key binpath = Some kb → files s !! kb = Some (File c m) →
  xz_error (decode c) = None →
  unpack_tar binpath s =
  (err ← tar_loop (UnpackPath (tbd s)) (entries (decode c)) (tar_error (decode c));
   match err with
   | Some e => mret ("", Some e)
   | None => mret (browser_dir s, None)
   end) (announced binpath s).
Proof.
  intros Ha Hwf Hku Hd Hkb Hb Hx. unfold unpack_tar. go_run.
  rewrite BrowserDir_run, FileExists_absent by done. unfold fmt_Printf. go_run.
  fold (announced binpath s).
  pose proof Hd as Hd'. apply is_dir_Some in Hd' as [md Hmd].
  rewrite (os_MkdirAll_dir _ _ _ ku), (os_Open_there _ _ ku (Directory md)),
    (os_Open_there _ _ kb (File c m)); try done.
  unfold open_archive. go_run.
  rewrite (ioutil_ReadFile_run _ (announced binpath s) kb c m), Hx by done.
  pose proof (tar_loop_persists (UnpackPath (tbd s)) (entries (decode c))
                (tar_error (decode c)) (announced binpath s)) as Hp.
  destruct (tar_loop _ _ _ _) as [[[e|]| | |] s']; try done.
  destruct Hp as (_ & _ & (_ & HU & HL & _) & _). cbn [snd] in HU, HL.
  by rewrite BrowserDir_run, HU, HL.
Qed.

Lemma unpack_tar_extracts binpath s ku kb c m :
  absent s (browser_dir s) → fs_wf (files s) →
  key (UnpackPath (tbd s)) = Some ku → is_dir (files s) ku = true →
  key binpath = Some kb → files s !! kb = Some (File c m) →
  xz_error (decode c) = None →
  ∃ p err s', unpack_tar binpath s = (Ret (p, err), s') ∧
    files s' = (extract (UnpackPath (tbd s)) (entries (decode c)) (files s)).1 ∧
    (err = None ↔
     (extract (UnpackPath (tbd s)) (entries (decode c)) (files s)).2 = true ∧
     tar_error (decode c) = None) ∧
    (err = None → p = browser_dir s).
Proof.
  intros Ha Hwf Hku Hd Hkb Hb Hx.
  rewrite (unpack_tar_loop _ _ ku kb c m) by done.
  destruct (tar_loop_walk (UnpackPath (tbd s)) (entries (decode c))
              (tar_error (decode c)) (announced binpath s))
    as (err & s' & Hr & Hf & Hi).
  rewrite (bind_run_Ret _ _ _ _ _ Hr).
  destruct err as [e|]; do 3 eexists; (split; [done|]); by split_and!.
Qed.

Lemma unpacking_same binpath s :
  tbd (unpacking binpath s) = tbd s ∧ files (unpacking binpath s) = files s ∧
  browser_dir (unpacking binpath s) = browser_dir s.
Proof.
  unfold browser_dir, unpacking. by rewrite noted_tbd, noted_files.
Qed.

(** The method on the tar branch, as a run. *)
Lemma UnpackUpdater_tar binpath s ku kb c m :
  OS (tbd s) ≠ "win" → OS (tbd s) ≠ "osx" →
  absent s (browser_dir s) → fs_wf (files s) →
  key (UnpackPath (tbd s)) = Some ku → is_dir (files s) ku = true →
  key binpath = Some kb → files s !! kb = Some (File c m) →
  xz_error (decode c) = None →
  ∃ p err s', UnpackUpdater binpath s = (Ret (p, err), s') ∧
    files s' = (extract (UnpackPath (tbd s)) (entries (decode c)) (files s)).1 ∧
    (err = None ↔
     (extract (UnpackPath (tbd s)) (entries (decode c)) (files s)).2 = true ∧
     tar_error (decode c) = None) ∧
    (err = None → p = browser_dir s).
Proof.
  intros Hw Ho Ha Hwf Hku Hd Hkb Hb Hx.
  rewrite UnpackUpdater_branch, !decide_False by done.
  destruct (unpacking_same binpath s) as (Ht & Hf & Hbd).
  destruct (unpack_tar_extracts binpath (unpacking binpath s) ku kb c m)
    as (p & err & s' & Hr & Hfs & Hi & Hp); rewrite ?Ht, ?Hf, ?Hbd; try done.
  { by apply (absent_same s). }
  rewrite Hr. rewrite Ht, Hf in Hfs, Hi. rewrite Hbd in Hp. eauto 10.
Qed.

(** C5: where the bundle is a tar stream with a good header and the
    install directory is not there, the method leaves the file system
    that [extract] gives for the entries of the stream under the unpack
    directory; it returns without error exactly when every file could
    be created and the stream ended well, and then it returns the
    install directory. *)
Theorem UnpackUpdater_extracts binpath s ku kb c m :
  OS (tbd s) ≠ "win" → OS (tbd s) ≠ "osx" →
  absent s (browser_dir s) → fs_wf (files s) →
  key (UnpackPath (tbd s)) = Some ku → is_dir (files s) ku = true →
  key binpath = Some kb → files s !! kb = Some (File c m) →
  xz_error (decode c) = None →
  let r := UnpackUpdater binpath s in
  let w := extract (UnpackPath (tbd s)) (entries (decode c)) (files s) in
  files r.2 = w.1 ∧
  ∃ p err, r.1 = Ret (p, err) ∧
    (err = None ↔ w.2 = true ∧ tar_error (decode c) = None) ∧
    (err = None → p = browser_dir s).
Proof.
  intros Hw Ho Ha Hwf Hku Hd Hkb Hb Hx r w. unfold r, w.
  destruct (UnpackUpdater_tar binpath s ku kb c m)
    as (p & err & s' & -> & Hfs & Hi & Hp); eauto 10.
Qed.

Lemma os_Open_persists p : respects persists (os_Open p).
Proof. intros s. unfold os_Open, os_Stat. by go_run. Qed.

Lemma open_archive_persists p : respects persists (open_archive p).
Proof. unfold open_archive. solve_respects. Qed.

Hint Resolve os_Open_persists open_archive_persists : go.

Lemma unpack_tar_persists binpath : respects persists (unpack_tar binpath).
Proof. unfold unpack_tar. solve_respects. Qed.

(** C21: where the bundle is a tar stream the method removes no file
    and no directory and keeps the file system a tree, whatever the
    stream holds and however the method ends. *)
Theorem UnpackUpdater_keeps_tree binpath s :
  OS (tbd s) ≠ "win" → OS (tbd s) ≠ "osx" →
  persists s (UnpackUpdater binpath s).2.
Proof.
  intros Hw Ho. rewrite UnpackUpdater_branch, !decide_False by done.
  etrans; [apply (noted_persists "UnpackUpdater()")|apply unpack_tar_persists].
Qed.

(** The state after a program was run. *)
Definition ran (argv : list string) s : state :=
  set_files (λ σ, (exec_Run argv σ).1) (set_events (λ l, l ++ [EvExec argv]) s).

Lemma cmd_Run_run argv s :
  cmd_Run argv s = (Ret (exec_Run argv (files s)).2, ran argv s).
Proof. done. Qed.

(** The arguments of the installer and of the helper that opens a disk
    image. *)
Definition installer_argv binpath s : list string :=
  [binpath; "/S"; "/D=" +:+ browser_dir s].
Definition open_argv binpath s : list string :=
  ["open"; "-W"; "-n"; "-a"; dquote +:+ UnpackPath (tbd s) +:+ dquote;
   dquote +:+ binpath +:+ dquote].

Lemma unpack_win_installed binpath s :
  present s (browser_dir s) →
  unpack_win binpath s = (Ret (browser_dir s, None), s).
Proof.
  intros Hp. unfold unpack_win. go_run.
  by rewrite BrowserDir_run, FileExists_present.
Qed.

Lemma unpack_win_events binpath s :
  absent s (browser_dir s) →
  events (unpack_win binpath s).2 = events s ++ [EvExec (installer_argv binpath s)].
Proof.
  intros Ha. unfold unpack_win. go_run.
  rewrite BrowserDir_run, FileExists_absent by done. cbn [negb].
  rewrite !Log_run, cmd_Run_run. fold (browser_dir s) (installer_argv binpath s).
  destruct (exec_Run _ _).2; cbn [snd events ran set_files set_events];
    by rewrite !noted_events.
Qed.

(** C29: on Windows the installer is run, with the silent flag and the
    install directory, exactly when the install directory is not there;
    an install directory that is there is returned and nothing runs. *)
Theorem UnpackUpdater_win binpath s :
  OS (tbd s) = "win" →
  (present s (browser_dir s) →
   (UnpackUpdater binpath s).1 = Ret (browser_dir s, None) ∧
   events (UnpackUpdater binpath s).2 = events s) ∧
  (absent s (browser_dir s) →
   events (UnpackUpdater binpath s).2
   = events s ++ [EvExec (installer_argv binpath s)]).
Proof.
  intros Hw. rewrite UnpackUpdater_branch, decide_True by done.
  destruct (unpacking_same binpath s) as (Ht & Hf & Hbd).
  pose proof (noted_events "UnpackUpdater()" ("Unpacking " +:+ binpath) s) as He.
  fold (unpacking binpath s) in He. split; intros Hp.
  - rewrite unpack_win_installed by (rewrite Hbd; by apply (present_same s)).
    by rewrite Hbd.
  - rewrite unpack_win_events by (rewrite Hbd; by apply (absent_same s)).
    unfold installer_argv. by rewrite Hbd, He.
Qed.

Lemma unpack_osx_run binpath s :
  unpack_osx binpath s
  = (Ret match (exec_Run (open_argv binpath s) (files s)).2 with
         | Some e => ("", Some ("UnpackUpdater: osx open/mount fail " +:+ e))
         | None => (UnpackPath (tbd s), None)
         end, ran (open_argv binpath s) s).
Proof.
  unfold unpack_osx. go_run. rewrite cmd_Run_run. fold (open_argv binpath s).
  by destruct (exec_Run _ _).2.
Qed.

(** C30: on macOS the helper that opens the disk image is run on every
    call, whether or not the bundle was unpacked before, and the method
    returns the unpack directory when the helper succeeds. *)
Theorem UnpackUpdater_osx binpath s :
  OS (tbd s) = "osx" →
  events (UnpackUpdater binpath s).2 = events s ++ [EvExec (open_argv binpath s)] ∧
  (UnpackUpdater binpath s).1
  = Ret match (exec_Run (open_argv binpath s) (files s)).2 with
        | Some e => ("", Some ("UnpackUpdater: osx open/mount fail " +:+ e))
        | None => (UnpackPath (tbd s), None)
        end.
Proof.
  intros Ho. rewrite UnpackUpdater_branch.
  rewrite decide_False, decide_True by (done || by rewrite Ho).
  destruct (unpacking_same binpath s) as (Ht & Hf & Hbd).
  rewrite unpack_osx_run. unfold open_argv. rewrite Ht, Hf.
  split; [|done]. apply (f_equal (λ l, l ++ _)), noted_events.
Qed.

End unpack.

(** ** Mode bits and names of the entries *)

(** C35: where the method unpacks a tar bundle and returns without
    error, the file of an entry is there with the content of the entry,
    and its mode is the low twelve bits of the mode of the entry: it
    lies below 4096 and each of the permission, setuid, setgid and
    sticky bits is the bit of the entry.  The entry is any one that is
    not a directory and after which the stream writes no file at the
    same place. *)
Theorem UnpackUpdater_modes `{Runtime} `{Shell} `{Archive}
    binpath s ku kb c m pre e post k p :
  OS (tbd s) ≠ "win" → OS (tbd s) ≠ "osx" →
  absent s (browser_dir s) → fs_wf (files s) →
  key (UnpackPath (tbd s)) = Some ku → is_dir (files s) ku = true →
  key binpath = Some kb → files s !! kb = Some (File c m) →
  xz_error (decode c) = None →
  entries (decode c) = pre ++ e :: post →
  Typeflag e ≠ TypeDir → entry_key (UnpackPath (tbd s)) e = Some k →
  spares (UnpackPath (tbd s)) k post →
  (UnpackUpdater binpath s).1 = Ret (p, None) →
  ∃ mode,
    files (UnpackUpdater binpath s).2 !! k = Some (File (content e) mode) ∧
    (0 ≤ mode < 4096)%Z ∧
    ∀ i, (0 ≤ i < 12)%Z → Z.testbit mode i = Z.testbit (Mode e) i.
Proof.
  intros Hw Ho Ha Hwf Hku Hd Hkb Hb Hx He Ht Hk Hs Hr.
  destruct (UnpackUpdater_tar binpath s ku kb c m)
    as (p' & err & s' & Hr' & Hfs & Hi & _); try done.
  rewrite Hr' in Hr |- *. simplify_eq/=. destruct Hi as [Hi _].
  destruct Hi as [Hgo _]; [done|]. rewrite He in Hfs, Hgo.
  exists (chmod_bits (Mode e)). split; [|apply chmod_bits_spec].
  rewrite Hfs. by apply extract_last.
Qed.

(** C20: a bundle whose entry names hold no [".."] is unpacked below
    the unpack directory: the method changes no file and no directory
    anywhere else.  The names are joined to the directory as they are,
    so the hypothesis on them is needed: [tar_slip] below is a bundle
    with a climbing name. *)
Theorem UnpackUpdater_confined `{Runtime} `{Shell} `{Archive}
    binpath s ku kb c m :
  OS (tbd s) ≠ "win" → OS (tbd s) ≠ "osx" →
  absent s (browser_dir s) → fs_wf (files s) →
  key (UnpackPath (tbd s)) = Some ku → is_dir (files s) ku = true →
  key binpath = Some kb → files s !! kb = Some (File c m) →
  xz_error (decode c) = None → tame (entries (decode c)) →
  only_below ku (files s) (files (UnpackUpdater binpath s).2).
Proof.
  intros Hw Ho Ha Hwf Hku Hd Hkb Hb Hx Ht.
  rewrite UnpackUpdater_branch, !decide_False by done.
  destruct (unpacking_same binpath s) as (Htbd & Hf & Hbd).
  rewrite (unpack_tar_loop _ _ ku kb c m);
    rewrite ?Htbd, ?Hf, ?Hbd; try done; [|by apply (absent_same s)].
  set (s1 := announced binpath (unpacking binpath s)).
  assert (files s1 = files s) as Hf1 by done.
  destruct (tar_loop_confined (UnpackPath (tbd s)) ku (entries (decode c))
              (tar_error (decode c)) Hku Ht s1) as (Hb1 & _);
    [by rewrite Hf1..|].
  rewrite Hf1 in Hb1.
  go_run. by destruct (tar_loop _ _ _ s1) as [[[e|]| | |] s2].
Qed.

(** ** The theorems at a bundle

    A bundle of two entries, a directory and a script in it, as the
    file [tb.tar.xz] of the download directory of [home]; a shell that
    changes nothing. *)

Definition idle : Shell := {| exec_Run _ σ := (σ, None) |}.

Definition bundle_entries : list tar_entry :=
  [ {| Typeflag := TypeDir; Name := "tor-browser_en-US"; Mode := 493;
       content := "" |};
    {| Typeflag := "0"%char; Name := "tor-browser_en-US/start"; Mode := 33261;
       content := "#!/bin/sh" |} ].

Definition untar : Archive :=
  {| decode c :=
       if decide (c = "xz")
       then {| xz_error := None; entries := bundle_entries; tar_error := None |}
       else {| xz_error := Some "xz: invalid header magic bytes"; entries := [];
               tar_error := None |} |}.

Definition bundle_path : string := "/home/user/tor-browser/tb.tar.xz".
Definition bundle_key : path := ["home"; "user"; "tor-browser"; "tb.tar.xz"].
Definition install_key : path := ["home"; "user"; "unpack"; "tor-browser_en-US"].

Definition downloaded : state :=
  start undetected (<[bundle_key := File "xz" mode_0644]> home).
Definition installed : state :=
  start undetected (<[install_key := Directory mode_0755]> home).

(** A downloader for Windows and one for macOS, and an entry whose name
    climbs out of the unpack directory. *)
Definition for_win : TBDownloader :=
  {| UnpackPath := "/home/user/unpack"; DownloadPath := "/home/user/tor-browser";
     Lang := "en-US"; OS := "win"; ARCH := "64"; Verbose := false; Profile := None |}.
Definition for_osx : TBDownloader :=
  {| UnpackPath := "/home/user/unpack"; DownloadPath := "/home/user/tor-browser";
     Lang := "en-US"; OS := "osx"; ARCH := "64"; Verbose := false; Profile := None |}.

Definition climbing : tar_entry :=
  {| Typeflag := "0"%char; Name := "../.profile"; Mode := 33188;
     content := "export PATH=/tmp" |}.

Lemma UnpackUpdater_keeps_tree_witness :
  persists downloaded (@UnpackUpdater linux_amd64 idle untar bundle_path downloaded).2.
Proof.
  by apply (@UnpackUpdater_keeps_tree linux_amd64 idle untar bundle_path downloaded).
Defined.

Lemma UnpackUpdater_win_witness :
  events (@UnpackUpdater linux_amd64 idle untar "/home/user/tor-browser/tb.exe"
            (start for_win home)).2
  = [EvExec ["/home/user/tor-browser/tb.exe"; "/S";
             "/D=/home/user/unpack/tor-browser_en-US"]].
Proof.
  apply (@UnpackUpdater_win linux_amd64 idle untar "/home/user/tor-browser/tb.exe"
           (start for_win home)); [done|].
  apply (@absent_intro linux_amd64 _ _ install_key); by vm_compute.
Defined.

Lemma UnpackUpdater_osx_witness :
  events (@UnpackUpdater linux_amd64 idle untar "/home/user/tor-browser/tb.dmg"
            (start for_osx home)).2
  = [] ++ [EvExec (open_argv "/home/user/tor-browser/tb.dmg" (start for_osx home))].
Proof.
  by apply (@UnpackUpdater_osx linux_amd64 idle untar "/home/user/tor-browser/tb.dmg"
              (start for_osx home)).
Defined.

Lemma UnpackUpdater_confined_witness :
  only_below ["home"; "user"; "unpack"] (files downloaded)
    (files (@UnpackUpdater linux_amd64 idle untar bundle_path downloaded).2).
Proof.
  apply (@UnpackUpdater_confined linux_amd64 idle untar bundle_path downloaded
           ["home"; "user"; "unpack"] bundle_key "xz" mode_0644);
    try (by vm_compute).
  - apply (@absent_intro linux_amd64 _ _ install_key); by vm_compute.
  - apply fs_wf_b_true. by vm_compute.
  - by apply (bool_decide_unpack _).
Defined.

(** A decoder that delivers the climbing entry, and what the method
    does with it: the file lands in the home directory, outside of the
    unpack directory. *)
Definition slipping : Archive :=
  {| decode _ := {| xz_error := None; entries := [climbing]; tar_error := None |} |}.

Example tar_slip :
  files (@UnpackUpdater linux_amd64 idle slipping bundle_path downloaded).2
    !! ["home"; "user"; ".profile"]
  = Some (File "export PATH=/tmp" 420).
Proof. by vm_compute. Qed.

Lemma UnpackUpdater_installed_witness :
  (@UnpackUpdater linux_amd64 idle untar bundle_path installed).1
  = Ret (browser_dir installed, None) ∧
  files (@UnpackUpdater linux_amd64 idle untar bundle_path installed).2
  = files installed ∧
  events (@UnpackUpdater linux_amd64 idle untar bundle_path installed).2
  = events installed.
Proof.
  apply (@UnpackUpdater_installed linux_amd64 idle untar bundle_path installed);
    [done..|].
  apply (@present_intro linux_amd64 _ _ install_key (Directory mode_0755));
    by vm_compute.
Defined.

Lemma UnpackUpdater_extracts_witness :
  let r := @UnpackUpdater linux_amd64 idle untar bundle_path downloaded in
  let w := @extract linux_amd64 "/home/user/unpack" bundle_entries (files downloaded) in
  files r.2 = w.1 ∧
  ∃ p err, r.1 = Ret (p, err) ∧
    (err = None ↔ w.2 = true ∧ tar_error (@decode untar "xz") = None) ∧
    (err = None → p = browser_dir downloaded).
Proof.
  apply (@UnpackUpdater_extracts linux_amd64 idle untar bundle_path downloaded
           ["home"; "user"; "unpack"] bundle_key "xz" mode_0644); try done.
  - apply (@absent_intro linux_amd64 _ _ install_key); by vm_compute.
  - apply fs_wf_b_true. by vm_compute.
Defined.

(** The launcher of the bundle: the entry has the mode [0100755] of a
    regular file, the file has the mode [0755]. *)
Lemma UnpackUpdater_modes_witness :
  ∃ mode,
    files (@UnpackUpdater linux_amd64 idle untar bundle_path downloaded).2
      !! (install_key ++ ["start"]) = Some (File "#!/bin/sh" mode) ∧
    (0 ≤ mode < 4096)%Z ∧
    ∀ i, (0 ≤ i < 12)%Z → Z.testbit mode i = Z.testbit 33261 i.
Proof.
  apply (@UnpackUpdater_modes linux_amd64 idle untar bundle_path downloaded
           ["home"; "user"; "unpack"] bundle_key "xz" mode_0644
           [ {| Typeflag := TypeDir; Name := "tor-browser_en-US"; Mode := 493;
                content := "" |} ]
           {| Typeflag := "0"%char; Name := "tor-browser_en-US/start";
              Mode := 33261; content := "#!/bin/sh" |}
           [] (install_key ++ ["start"]) "/home/user/unpack/tor-browser_en-US");
    try done.
  - apply (@absent_intro linux_amd64 _ _ install_key); by vm_compute.
  - apply fs_wf_b_true. by vm_compute.
  - by vm_compute.
Defined.
