(* ===== verification/Verify.v ===== *)
(** * The signature gate

    [CheckSignature] and [BoolCheckSignature] of [src/get/get.go].  The
    method reads the key of the download directory, the bundle and the
    detached signature, asks the OpenPGP library to verify, and unpacks
    the bundle on one of the two answers.

    In the source the bundle is unpacked in the branch [err != nil] of
    the call to [pgp.Verify], and the other branch returns the error
    "signature check failed".  The model keeps the branches as they are
    written; the theorems state what follows: a bundle whose signature
    verifies is refused and never unpacked, a bundle whose signature
    does not verify is unpacked, and a result without error implies
    that the verification did not pass. *)

From stdpp Require Import base tactics option list strings gmap.
From Stdlib Require Import ZArith.
From S2P Require Import Prelude GoStrings GoPath FileSys Machine Platform.
From S2P Require Import Bootstrap Install.

Section verify.
Context `{Runtime} `{Shell} `{Archive} `{OpenPGP}.

(** [func (t *TBDownloader) CheckSignature(binpath, sigpath string)]. *)
Definition CheckSignature (binpath sigpath : string) : Go (string * error) :=
  t ← gets tbd;
  '(pkBytes, err) ← ioutil_ReadFile (Join [DownloadPath t; "TPO-signing-key.pub"]);
  match err with
  | Some e => mret ("", Some ("CheckSignature pkBytes: " +:+ e))
  | None =>
      match pgp_GetEntity pkBytes with
      | Some e => mret ("", Some ("CheckSignature pk: " +:+ e))
      | None =>
          '(bin, err) ← ioutil_ReadFile binpath;
          match err with
          | Some e => mret ("", Some ("CheckSignature bin: " +:+ e))
          | None =>
              '(sig, err) ← ioutil_ReadFile sigpath;
              match err with
              | Some e => mret ("", Some ("CheckSignature sig: " +:+ e))
              | None =>
                  match pgp_Verify pkBytes sig bin with
                  | Some _ => UnpackUpdater binpath
                  | None =>
                      mret ("", Some ("CheckSignature: "
                                      +:+ "signature check failed"))
                  end
              end
          end
      end
  end.

(** [func (t *TBDownloader) BoolCheckSignature(binpath, sigpath string) bool]. *)
Definition BoolCheckSignature (binpath sigpath : string) : Go bool :=
  '(_, err) ← CheckSignature binpath sigpath;
  mret (bool_decide (err = None)).

End verify.

(** ** What the gate lets through *)

Section gate.
Context `{Runtime} `{Shell} `{Archive} `{OpenPGP}.
Implicit Types (s : state) (binpath sigpath : string).

(** The content of the file at a path, when it can be read. *)
Definition file_at s (p : string) : option string :=
  k ← key p;
  match read_file (files s) k with inr c => Some c | inl _ => None end.

(** The path of the trusted key. *)
Definition key_path s : string := Join [DownloadPath (tbd s); key_name].

Lemma file_at_file p s k c m :
  key p = Some k → files s !! k = Some (File c m) → file_at s p = Some c.
Proof. intros Hk Hc. unfold file_at, read_file. rewrite Hk. simpl. by rewrite Hc. Qed.

Lemma ioutil_ReadFile_file_at p s c :
  file_at s p = Some c → ioutil_ReadFile p s = (Ret (c, None), s).
Proof.
  unfold file_at, ioutil_ReadFile. go_run.
  destruct (key p) as [k|]; [|done]. simpl.
  by destruct (read_file (files s) k) as [[]|]; intros [= ->].
Qed.

Lemma ioutil_ReadFile_unreadable p s :
  file_at s p = None → ∃ e, ioutil_ReadFile p s = (Ret ("", Some e), s).
Proof.
  unfold file_at, ioutil_ReadFile. go_run.
  destruct (key p) as [k|]; [|eauto]. simpl.
  destruct (read_file (files s) k) as [[]|]; [eauto|done].
Qed.

(** The three inputs are read and the key is one the library accepts. *)
Definition inputs s binpath sigpath (pk bin sig : string) : Prop :=
  file_at s (key_path s) = Some pk ∧ pgp_GetEntity pk = None ∧
  file_at s binpath = Some bin ∧ file_at s sigpath = Some sig.

(** With its inputs read, the method is the branch on the answer of
    [pgp.Verify]. *)
Lemma CheckSignature_branch binpath sigpath s pk bin sig :
  inputs s binpath sigpath pk bin sig →
  CheckSignature binpath sigpath s =
  match pgp_Verify pk sig bin with
  | Some _ => UnpackUpdater binpath s
  | None => (Ret ("", Some "CheckSignature: signature check failed"), s)
  end.
Proof.
  intros (Hk & He & Hb & Hs). unfold CheckSignature. go_run.
  rewrite (ioutil_ReadFile_file_at _ _ pk) by done. rewrite He.
  rewrite (ioutil_ReadFile_file_at _ _ bin), (ioutil_ReadFile_file_at _ _ sig)
    by done.
  by destruct (pgp_Verify pk sig bin).
Qed.

(** C1: the gate as the code has it.  With the key, the bundle and the
    signature read: when the library verifies the signature the method
    returns the error "signature check failed" and changes nothing, so
    the bundle is not unpacked; when the library rejects the signature
    the method does what [UnpackUpdater] does on the bundle. *)
Theorem CheckSignature_gate binpath sigpath s pk bin sig :
  inputs s binpath sigpath pk bin sig →
  (pgp_Verify pk sig bin = None →
   CheckSignature binpath sigpath s
   = (Ret ("", Some "CheckSignature: signature check failed"), s)) ∧
  (pgp_Verify pk sig bin ≠ None →
   CheckSignature binpath sigpath s = UnpackUpdater binpath s).
Proof.
  intros Hi. rewrite (CheckSignature_branch _ _ _ pk bin sig) by done.
  destruct (pgp_Verify pk sig bin); by split.
Qed.

(** A key that cannot be read ends the method before anything else. *)
Lemma CheckSignature_no_key binpath sigpath s :
  file_at s (key_path s) = None →
  ∃ e, CheckSignature binpath sigpath s
       = (Ret ("", Some ("CheckSignature pkBytes: " +:+ e)), s).
Proof.
  intros Hk. unfold CheckSignature. go_run.
  destruct (ioutil_ReadFile_unreadable _ _ Hk) as [e He].
  unfold key_path, key_name in He. rewrite He. eauto.
Qed.

(** Either the three inputs are read, or the method returns an error
    and changes nothing. *)
Lemma CheckSignature_stages binpath sigpath s :
  (∃ pk bin sig, inputs s binpath sigpath pk bin sig) ∨
  (∃ e, CheckSignature binpath sigpath s = (Ret ("", Some e), s)).
Proof.
  destruct (file_at s (key_path s)) as [pk|] eqn:Hk;
    [|right; destruct (CheckSignature_no_key binpath sigpath s Hk); eauto].
  unfold CheckSignature. go_run.
  rewrite (ioutil_ReadFile_file_at _ _ pk) by done.
  destruct (pgp_GetEntity pk) as [e|] eqn:He; [eauto|].
  destruct (file_at s binpath) as [bin|] eqn:Hb.
  2: { destruct (ioutil_ReadFile_unreadable _ _ Hb) as [e ->]. eauto. }
  rewrite (ioutil_ReadFile_file_at _ _ bin) by done.
  destruct (file_at s sigpath) as [sig|] eqn:Hs.
  2: { destruct (ioutil_ReadFile_unreadable _ _ Hs) as [e ->]. eauto. }
  left. by exists pk, bin, sig.
Qed.

(** C8: a result without error means that the library rejected the
    signature: whenever the method returns a path and no error, the
    three inputs were read and [pgp.Verify] returned an error on them. *)
Theorem CheckSignature_success_means_rejected binpath sigpath s p :
  (CheckSignature binpath sigpath s).1 = Ret (p, None) →
  ∃ pk bin sig, inputs s binpath sigpath pk bin sig ∧
                pgp_Verify pk sig bin ≠ None.
Proof.
  intros Hr. destruct (CheckSignature_stages binpath sigpath s)
    as [(pk & bin & sig & Hi)|[e He]]; [|by rewrite He in Hr].
  exists pk, bin, sig. split; [done|]. intros Hv.
  by rewrite (CheckSignature_branch _ _ _ pk bin sig), Hv in Hr.
Qed.

(** [BoolCheckSignature] answers false for a bundle whose signature
    verifies. *)
Lemma BoolCheckSignature_verified_is_false binpath sigpath s pk bin sig :
  inputs s binpath sigpath pk bin sig → pgp_Verify pk sig bin = None →
  BoolCheckSignature binpath sigpath s = (Ret false, s).
Proof.
  intros Hi Hv. unfold BoolCheckSignature. go_run.
  by rewrite (CheckSignature_branch _ _ _ pk bin sig), Hv.
Qed.

End gate.

(** ** The theorems at a key ring

    A library that accepts the key of [home] and verifies the signature
    ["signed " ++ bundle]; a download directory with a bundle and its
    good signature ([signed]), and one with a forged signature next to
    an installed browser ([forged]). *)

Definition keyring : OpenPGP :=
  {| pgp_GetEntity k :=
       if decide (k = "key") then None else Some "openpgp: invalid argument";
     pgp_Verify _ sig bin :=
       if decide (sig = "signed " +:+ bin) then None
       else Some "openpgp: invalid signature" |}.

Definition sig_path : string := "/home/user/tor-browser/tb.tar.xz.asc".
Definition sig_key : path := ["home"; "user"; "tor-browser"; "tb.tar.xz.asc"].

Definition signed : state :=
  start undetected
    (<[sig_key := File "signed xz" mode_0644]>
       (<[bundle_key := File "xz" mode_0644]> home)).

Definition forged : state :=
  start undetected
    (<[sig_key := File "forged" mode_0644]>
       (<[bundle_key := File "xz" mode_0644]>
          (<[install_key := Directory mode_0755]> home))).

Lemma signed_inputs :
  @inputs linux_amd64 keyring signed bundle_path sig_path "key" "xz" "signed xz".
Proof. by vm_compute. Qed.

Lemma CheckSignature_gate_witness :
  (@pgp_Verify keyring "key" "signed xz" "xz" = None →
   @CheckSignature linux_amd64 idle untar keyring bundle_path sig_path signed
   = (Ret ("", Some "CheckSignature: signature check failed"), signed)) ∧
  (@pgp_Verify keyring "key" "signed xz" "xz" ≠ None →
   @CheckSignature linux_amd64 idle untar keyring bundle_path sig_path signed
   = @UnpackUpdater linux_amd64 idle untar bundle_path signed).
Proof.
  apply (@CheckSignature_gate linux_amd64 idle untar keyring bundle_path sig_path
           signed "key" "xz" "signed xz"), signed_inputs.
Defined.

Lemma CheckSignature_success_means_rejected_witness :
  ∃ pk bin sig,
    @inputs linux_amd64 keyring forged bundle_path sig_path pk bin sig ∧
    @pgp_Verify keyring pk sig bin ≠ None.
Proof.
  apply (@CheckSignature_success_means_rejected linux_amd64 idle untar keyring
           bundle_path sig_path forged "/home/user/unpack/tor-browser_en-US").
  by vm_compute.
Defined.

Lemma BoolCheckSignature_verified_is_false_witness :
  @BoolCheckSignature linux_amd64 idle untar keyring bundle_path sig_path signed
  = (Ret false, signed).
Proof.
  apply (@BoolCheckSignature_verified_is_false linux_amd64 idle untar keyring
           bundle_path sig_path signed "key" "xz" "signed xz");
    [apply signed_inputs|done].
Defined.
