(* ===== verification/Proxy.v ===== *)
(** * Waiting for the proxy

    [Seconds], [hTTPProxy], [TestHTTPProxy], [TestHTTPDefaultProxy] and
    [TestHTTPBackupProxy] of [src/get/get.go].  Both loops probe, and
    after a failed probe sleep a second and probe again; the counter
    [limit] is incremented only in the rounds in which [now] is 0, and
    [now] runs through 0, 1, ..., 10.  The loops end when a probe
    succeeds or [limit] reaches 10.

    The [for] loops are modelled by recursion on fuel.  [schedule] is
    the control of the loops as a function of the answers of the probes;
    the refinement theorems show that the loops compute it, and the
    theorems on [schedule] give the number of probes: a proxy that never
    answers is probed 100 times before the loops give up, and fuel 100
    is enough for every run.

    The probe of [TestHTTPBackupProxy] is [net.Listen] on the port of
    the proxy, and the listener of a listen that succeeds is dropped
    without a [Close].  The state keeps the addresses on which the
    process holds such a listener ([listeners]); [listen_drop] fails on
    them as on an address that another process holds, and adds the
    address when it succeeds.  A dropped listener is closed when its
    finalizer runs; [net_finalized] of [Network] says at which seconds
    that has happened.  [listen_answer] is the answer of the probe as a
    function of the second, for a loop that started in a given state,
    and [TestHTTPBackupProxy_own_listener] is what follows: the second
    probe answers, with or without a proxy. *)

From stdpp Require Import base tactics option list strings gmap.
From Stdlib Require Import ZArith Lia.
From S2P Require Import Prelude GoStrings GoPath FileSys Machine.

Section proxy.
Context `{Network}.

(** [func Seconds(now int) int]. *)
Definition Seconds (now : Z) : Go Z :=
  Sleep_second ;;
  if decide (now = 10%Z) then mret 0%Z else mret (wrap64 (now + 1)).

(** [func hTTPProxy(host, port string) bool]: a probe through the proxy
    at the time of the clock. *)
Definition hTTPProxy (host port : string) : Go bool :=
  let proxyURL := "http://" +:+ host +:+ ":" +:+ port in
  match url_Parse proxyURL with
  | Some err => log_Panic err
  | None =>
      now ← gets clock;
      emit (EvProxyGet proxyURL "http://proxy.i2p/") ;;
      match proxy_Get now proxyURL "http://proxy.i2p/" with
      | inl _ => mret false
      | inr resp =>
          match read_error resp with
          | None => mret (Contains (body resp) "I2P HTTP proxy OK")
          | Some _ => mret false
          end
      end
  end.

(** The block [if now == 0 { log.Println(...); limit++ }] of the two
    loops; the result is the new [limit]. *)
Definition count_round (now limit : Z) : Go Z :=
  if decide (now = 0%Z) then
    log_Println ("Waiting for HTTP Proxy " +:+ Itoa (wrap64 (10 - limit))
                 +:+ " remaining attempts") ;;
    mret (wrap64 (limit + 1))
  else mret limit.

(** The [for] loop of [TestHTTPProxy], from the values [now] and
    [limit] of its variables. *)
Fixpoint proxy_loop (fuel : nat) (host port : string) (now limit : Z) : Go bool :=
  match fuel with
  | 0 => timeout
  | S fuel' =>
      proxy ← hTTPProxy host port;
      if (proxy : bool) then mret true
      else
        limit ← count_round now limit;
        now ← Seconds now;
        if decide (limit = 10%Z) then mret false
        else proxy_loop fuel' host port now limit
  end.

(** [func TestHTTPProxy(host, port string) bool]. *)
Definition TestHTTPProxy (fuel : nat) (host port : string) : Go bool :=
  proxy_loop fuel host port 0 0.

(** [func TestHTTPDefaultProxy() bool]. *)
Definition TestHTTPDefaultProxy (fuel : nat) : Go bool :=
  TestHTTPProxy fuel "127.0.0.1" "4444".

(** The error of [net.Listen] on an address that is bound, in the words
    of Linux. *)
Definition in_use (addr : string) : string :=
  "listen tcp " +:+ addr +:+ ": bind: address already in use".

(** The finalizers of package [net], where they have run by now: the
    listeners that the program dropped are closed. *)
Definition finalize : Go () :=
  now ← gets clock;
  if net_finalized now then modify (set_listeners (λ _, [])) else mret tt.

(** [_, err := net.Listen("tcp", addr)], as the error: the listener is
    assigned to the blank identifier and never closed, so a listen that
    succeeds leaves the process holding the address, and a listen on
    an address that the process holds fails like one on an address
    that another process holds. *)
Definition listen_drop (addr : string) : Go error :=
  finalize ;;
  now ← gets clock;
  held ← gets listeners;
  emit (EvListen addr) ;;
  if bool_decide (addr ∈ held) then mret (Some (in_use addr))
  else
    match net_Listen now addr with
    | Some err => mret (Some err)
    | None => modify (set_listeners (cons addr)) ;; mret None
    end.

(** The probe of [TestHTTPBackupProxy]: the port counts as open when
    [net.Listen] on it fails. *)
Definition listen_probe : Go bool :=
  err ← listen_drop "127.0.0.1:4444";
  match err with
  | Some err => log_Println ("SAM HTTP proxy is open " +:+ err) ;; mret true
  | None => mret false
  end.

(** The [for] loop of [TestHTTPBackupProxy]. *)
Fixpoint backup_loop (fuel : nat) (now limit : Z) : Go bool :=
  match fuel with
  | 0 => timeout
  | S fuel' =>
      open ← listen_probe;
      if (open : bool) then mret true
      else
        limit ← count_round now limit;
        now ← Seconds now;
        if decide (limit = 10%Z) then mret false
        else backup_loop fuel' now limit
  end.

(** [func TestHTTPBackupProxy() bool]. *)
Definition TestHTTPBackupProxy (fuel : nat) : Go bool := backup_loop fuel 0 0.

End proxy.

(** ** The control of the loops *)

(** The counters after a round without answer. *)
Definition next_limit (now limit : Z) : Z :=
  if decide (now = 0%Z) then wrap64 (limit + 1) else limit.

Definition next_now (now : Z) : Z :=
  if decide (now = 10%Z) then 0%Z else wrap64 (now + 1).

(** [schedule answer fuel t now limit]: the result of a loop that
    probes at the times [t], [t + 1], ... with the answers [answer],
    and the time at which it ends; [None] when the fuel runs out. *)
Fixpoint schedule (answer : nat → bool) (fuel t : nat) (now limit : Z)
  : option (bool * nat) :=
  match fuel with
  | 0 => None
  | S fuel' =>
      if answer t then Some (true, t)
      else if decide (next_limit now limit = 10%Z) then Some (false, S t)
      else schedule answer fuel' (S t) (next_now now) (next_limit now limit)
  end.

(** The outcome of a loop as [schedule] gives it. *)
Definition scheduled (r : option (bool * nat)) : outcome bool :=
  match r with
  | Some (b, _) => Ret b
  | None => Timeout
  end.

Section schedule.
Implicit Types (answer : nat → bool) (fuel t : nat) (now limit : Z).

Lemma schedule_ext answer answer' fuel t now limit :
  (∀ t', t ≤ t' → answer t' = answer' t') →
  schedule answer fuel t now limit = schedule answer' fuel t now limit.
Proof.
  revert t now limit. induction fuel as [|fuel IH]; intros t now limit He; [done|].
  simpl. rewrite He by lia. destruct (answer' t); [done|].
  case_decide; [done|]. apply IH. intros t' Ht. apply He. lia.
Qed.

(** More fuel does not change a result. *)
Lemma schedule_more answer fuel fuel' t now limit r :
  schedule answer fuel t now limit = Some r →
  schedule answer (fuel + fuel') t now limit = Some r.
Proof.
  revert t now limit. induction fuel as [|fuel IH]; intros t now limit; [done|].
  simpl. destruct (answer t); [done|]. case_decide; [done|]. apply IH.
Qed.

(** Without an answer the loop gives up after 100 probes, and not
    before. *)
Lemma schedule_silent t :
  schedule (λ _, false) 100 t 0 0 = Some (false, 100 + t) ∧
  schedule (λ _, false) 99 t 0 0 = None.
Proof. by vm_compute. Qed.

(** Less fuel does not give a result where more gives none. *)
Lemma schedule_less answer fuel fuel' t now limit :
  schedule answer (fuel + fuel') t now limit = None →
  schedule answer fuel t now limit = None.
Proof.
  intros Hn. destruct (schedule answer fuel t now limit) as [r|] eqn:E; [|done].
  by rewrite (schedule_more _ _ _ _ _ _ r) in Hn.
Qed.

(** The first answer, at a probe [i] that a loop without answer would
    reach, ends the loop there with success. *)
Lemma schedule_answer answer fuel i t now limit :
  schedule (λ _, false) i t now limit = None →
  (∀ j, j < i → answer (t + j) = false) → answer (t + i) = true →
  schedule answer (i + S fuel) t now limit = Some (true, t + i).
Proof.
  revert t now limit. induction i as [|i IH]; intros t now limit Hr Hf Ha.
  { simpl. rewrite Nat.add_0_r in Ha. by rewrite Ha, Nat.add_0_r. }
  cbn [Nat.add schedule] in *. rewrite <-(Nat.add_0_r t) at 1.
  rewrite Hf by lia. case_decide; [done|].
  replace (t + S i) with (S t + i) in * by lia. apply IH; [done| |done].
  intros j Hj. replace (S t + j) with (t + S j) by lia. apply Hf. lia.
Qed.

(** Whatever the answers, fuel that is enough for a loop without answer
    is enough. *)
Lemma schedule_total answer fuel t now limit r :
  schedule (λ _, false) fuel t now limit = Some r →
  is_Some (schedule answer fuel t now limit).
Proof.
  revert t now limit. induction fuel as [|fuel IH]; intros t now limit; [done|].
  simpl. destruct (answer t); [done|]. case_decide; [done|]. apply IH.
Qed.

End schedule.

(** ** The loops compute the schedule *)

Section loops.
Context `{Network}.
Implicit Types (s : state) (host port : string) (fuel : nat) (now limit : Z).

(** The address of the proxy as the probe writes it. *)
Definition proxy_url host port : string := "http://" +:+ host +:+ ":" +:+ port.

(** What the proxy answers at a time. *)
Definition proxy_answer host port (t : nat) : bool :=
  match proxy_Get t (proxy_url host port) "http://proxy.i2p/" with
  | inl _ => false
  | inr resp =>
      match read_error resp with
      | None => Contains (body resp) "I2P HTTP proxy OK"
      | Some _ => false
      end
  end.

(** Whether the process holds a listener on the port when a loop that
    started in [s0] probes at the time [t], before the finalizers: it
    does when it did at the start, and after every probe of the loop,
    for the loop goes on only after a listen that succeeded. *)
Definition held_at (s0 : state) (t : nat) : bool :=
  bool_decide ("127.0.0.1:4444" ∈ listeners s0) || bool_decide (clock s0 < t).

(** What the probe of the port answers at a time, in a loop that
    started in [s0]: the port is taken by the process itself, unless
    the finalizers have run, or by another. *)
Definition listen_answer (s0 : state) (t : nat) : bool :=
  held_at s0 t && negb (net_finalized t)
  || bool_decide (is_Some (net_Listen t "127.0.0.1:4444")).

(** The states in which a loop that started in [s0] probes. *)
Definition probing (s0 s : state) : Prop :=
  clock s0 ≤ clock s ∧
  bool_decide ("127.0.0.1:4444" ∈ listeners s) = held_at s0 (clock s).

(** A round is a probe; a round without answer also sleeps a second.
    [round_of inv probe answer]: in the states [inv] the probe gives the
    answer of the time and takes no time, and after a probe without
    answer a second later [inv] holds again. *)
Definition round_of (inv : state → Prop) (probe : Go bool) (answer : nat → bool)
  : Prop :=
  ∀ s, inv s → ∃ s',
    probe s = (Ret (answer (clock s)), s') ∧ clock s' = clock s ∧
    (answer (clock s) = false →
     ∀ s'', listeners s'' = listeners s' → clock s'' = S (clock s) → inv s'').

Lemma hTTPProxy_round host port :
  url_Parse (proxy_url host port) = None →
  round_of (λ _, True) (hTTPProxy host port) (proxy_answer host port).
Proof.
  intros Hu s _. unfold hTTPProxy, proxy_answer. fold (proxy_url host port).
  rewrite Hu. go_run. unfold emit. go_run.
  destruct (proxy_Get _ _ _) as [|resp]; [eauto|].
  destruct (read_error resp); eauto.
Qed.

(** The listen of the probe, as a run: the answer, and the listeners
    it leaves. *)
Lemma listen_drop_run addr s :
  let held := if net_finalized (clock s) then [] else listeners s in
  ∃ s', listen_drop addr s
        = (Ret (if bool_decide (addr ∈ held) then Some (in_use addr)
                else net_Listen (clock s) addr), s') ∧
    clock s' = clock s ∧
    listeners s' = (if bool_decide (addr ∈ held) then held
                    else match net_Listen (clock s) addr with
                         | Some _ => held
                         | None => addr :: held
                         end).
Proof.
  unfold listen_drop, finalize, emit. go_run.
  destruct (net_finalized (clock s)); go_run;
    cbn [listeners clock set_events set_listeners];
    case_bool_decide; try destruct (net_Listen _ _); eauto.
Qed.

Lemma probing_refl s : probing s s.
Proof.
  split; [done|]. unfold held_at.
  by rewrite (bool_decide_eq_false_2 (clock s < clock s)), orb_false_r by lia.
Qed.

Lemma listen_probe_round s0 :
  round_of (probing s0) listen_probe (listen_answer s0).
Proof.
  intros s [Hle Hh]. unfold listen_probe, listen_answer.
  destruct (listen_drop_run "127.0.0.1:4444" s) as (s1 & Hr & Hc & Hl).
  rewrite (bind_run_Ret _ _ _ _ _ Hr). rewrite <-Hh. clear Hr.
  assert (∀ l s'', listeners s'' = "127.0.0.1:4444" :: l →
                   clock s'' = S (clock s) → probing s0 s'') as Hnext.
  { intros l s'' Hl'' Hc''. split; [lia|]. unfold held_at.
    rewrite Hl'', Hc'', bool_decide_eq_true_2 by set_solver.
    by rewrite (bool_decide_eq_true_2 (clock s0 < S (clock s))), orb_true_r by lia. }
  set (held := if net_finalized (clock s) then [] else listeners s) in *.
  assert (bool_decide ("127.0.0.1:4444" ∈ listeners s)
          && negb (net_finalized (clock s))
          = bool_decide ("127.0.0.1:4444" ∈ held)) as ->.
  { unfold held. destruct (net_finalized (clock s));
      [|by rewrite andb_true_r].
    by rewrite andb_false_r, bool_decide_eq_false_2 by set_solver. }
  clearbody held. unfold log_Println.
  destruct (bool_decide ("127.0.0.1:4444" ∈ held));
    [go_run; eexists; by split_and!|].
  destruct (net_Listen _ _) as [err|]; [go_run; eexists; by split_and!|].
  eexists. split_and!; [done..|]. intros _ s'' Hs''. apply (Hnext held).
  by rewrite Hs''.
Qed.

Lemma count_round_run now limit s :
  ∃ s', count_round now limit s = (Ret (next_limit now limit), s') ∧
        clock s' = clock s ∧ listeners s' = listeners s.
Proof. unfold count_round, next_limit. case_decide; eauto. Qed.

Lemma Seconds_run now s :
  ∃ s', Seconds now s = (Ret (next_now now), s') ∧ clock s' = S (clock s) ∧
        listeners s' = listeners s.
Proof. unfold Seconds, next_now. go_run. case_decide; eauto. Qed.

(** The rounds after a probe without answer. *)
Lemma round_without_answer now limit s (k : Z → Z → Go bool) :
  ∃ s', (limit ← count_round now limit; now ← Seconds now; k now limit) s
        = k (next_now now) (next_limit now limit) s' ∧
        clock s' = S (clock s) ∧ listeners s' = listeners s.
Proof.
  destruct (count_round_run now limit s) as (s1 & H1 & Hc1 & Hl1).
  destruct (Seconds_run now s1) as (s2 & H2 & Hc2 & Hl2).
  exists s2. rewrite (bind_run_Ret _ _ _ _ _ H1), (bind_run_Ret _ _ _ _ _ H2).
  split_and!; [done|congruence..].
Qed.

(** A loop and the schedule of its answers agree on the result and on
    the time at which it is given. *)
Definition agrees (r : outcome bool * state) (sch : option (bool * nat)) : Prop :=
  r.1 = scheduled sch ∧ ∀ b t, sch = Some (b, t) → clock r.2 = t.

Lemma agrees_Some b s t : clock s = t → agrees (Ret b, s) (Some (b, t)).
Proof. intros <-. split; [done|]. by intros ? ? [= <- <-]. Qed.

(** Two loops that follow schedules of the same answers give the same
    result, and when they return they do so at the same time. *)
Lemma agrees_same r r' answer answer' fuel t :
  agrees r (schedule answer fuel t 0 0) → agrees r' (schedule answer' fuel t 0 0) →
  (∀ t', answer t' = answer' t') →
  r.1 = r'.1 ∧ (is_Ret r.1 → clock r.2 = clock r'.2).
Proof.
  intros [Hr Hc] [Hr' Hc'] Ha. rewrite (schedule_ext _ answer') in Hr, Hc by done.
  split; [congruence|].
  destruct (schedule answer' fuel t 0 0) as [[b t']|]; [|by rewrite Hr].
  by rewrite (Hc b t'), (Hc' b t').
Qed.

(** The two loops have one shape: a loop of that shape around any probe
    follows the schedule of the answers of the probe. *)
Section loop.
Variables (loop : nat → Z → Z → Go bool) (probe : Go bool) (answer : nat → bool).
Variable inv : state → Prop.
Hypothesis loop_O : ∀ now limit, loop 0 now limit = timeout.
Hypothesis loop_S : ∀ fuel now limit,
  loop (S fuel) now limit =
  (ok ← probe;
   if (ok : bool) then mret true
   else limit ← count_round now limit;
        now ← Seconds now;
        if decide (limit = 10%Z) then mret false else loop fuel now limit).
Hypothesis probe_round : round_of inv probe answer.

Lemma loop_schedule fuel now limit s :
  inv s →
  agrees (loop fuel now limit s) (schedule answer fuel (clock s) now limit).
Proof.
  revert now limit s. induction fuel as [|fuel IH]; intros now limit s Hs.
  { rewrite loop_O. by split. }
  rewrite loop_S. cbn [schedule].
  destruct (probe_round s Hs) as (s1 & Hp & Hc1 & Hi).
  rewrite (bind_run_Ret _ _ _ _ _ Hp).
  destruct (answer (clock s)) eqn:Ha; [by apply agrees_Some|].
  destruct (round_without_answer now limit s1
              (λ now limit, if decide (limit = 10%Z) then mret false
                            else loop fuel now limit))
    as (s2 & -> & Hc2 & Hl2).
  rewrite <-Hc1, <-Hc2. case_decide; [by apply agrees_Some|].
  apply IH, Hi; [done..|congruence].
Qed.

End loop.

Lemma proxy_loop_schedule host port fuel now limit s :
  url_Parse (proxy_url host port) = None →
  agrees (proxy_loop fuel host port now limit s)
    (schedule (proxy_answer host port) fuel (clock s) now limit).
Proof.
  intros Hu. apply (loop_schedule (λ fuel, proxy_loop fuel host port)
                      (hTTPProxy host port) _ (λ _, True));
    auto using hTTPProxy_round.
Qed.

Lemma backup_loop_schedule fuel now limit s :
  agrees (backup_loop fuel now limit s)
    (schedule (listen_answer s) fuel (clock s) now limit).
Proof.
  apply (loop_schedule backup_loop listen_probe _ (probing s));
    auto using listen_probe_round, probing_refl.
Qed.

(** A loop that follows a schedule without answer: with fuel 100 it
    gives up after 100 seconds. *)
Lemma agrees_silent r answer fuel t :
  agrees r (schedule answer (100 + fuel) t 0 0) →
  (∀ t', answer t' = false) →
  r.1 = Ret false ∧ clock r.2 = 100 + t.
Proof.
  intros [Hr Hc] Ha.
  rewrite (schedule_ext _ (λ _, false)) in Hr, Hc by done.
  destruct (schedule_silent t) as [Hs _].
  rewrite (schedule_more _ _ _ _ _ _ _ Hs) in Hr, Hc. split; [done|by apply (Hc false)].
Qed.

(** A loop that follows a schedule with a first answer at the probe
    [i], [i < 100]: it succeeds after [i] seconds. *)
Lemma agrees_answer r answer fuel t i :
  agrees r (schedule answer (100 + fuel) t 0 0) → i < 100 →
  (∀ j, j < i → answer (t + j) = false) → answer (t + i) = true →
  r.1 = Ret true ∧ clock r.2 = t + i.
Proof.
  intros [Hr Hc] Hi Hf Ha.
  destruct (schedule_silent t) as [_ Hs].
  replace 99 with (i + (99 - i)) in Hs by lia. apply schedule_less in Hs.
  replace (100 + fuel) with (i + S (99 - i + fuel)) in Hr, Hc by lia.
  rewrite (schedule_answer answer _ i) in Hr, Hc by done.
  split; [done|by apply (Hc true)].
Qed.

(** C22: [TestHTTPProxy] computes the schedule of the answers of the
    proxy: its result is the one [schedule] gives, and a run out of
    fuel where [schedule] has none. *)
Theorem TestHTTPProxy_refines fuel host port s :
  url_Parse (proxy_url host port) = None →
  (TestHTTPProxy fuel host port s).1
  = scheduled (schedule (proxy_answer host port) fuel (clock s) 0 0).
Proof. intros Hu. by apply proxy_loop_schedule. Qed.

(** C6: a proxy that never answers is probed 100 times, a second
    apart, before [TestHTTPProxy] returns false; the loop does not stop
    after 10 probes, and 99 rounds do not end it. *)
Theorem TestHTTPProxy_gives_up_after_100 fuel host port s :
  url_Parse (proxy_url host port) = None →
  (∀ t, proxy_answer host port t = false) →
  (TestHTTPProxy (100 + fuel) host port s).1 = Ret false ∧
  clock (TestHTTPProxy (100 + fuel) host port s).2 = 100 + clock s ∧
  (TestHTTPProxy 99 host port s).1 = Timeout.
Proof.
  intros Hu Ha.
  destruct (agrees_silent _ _ fuel (clock s)
              (proxy_loop_schedule host port (100 + fuel) 0 0 s Hu) Ha) as [Hr Hc].
  split_and!; [done..|]. unfold TestHTTPProxy.
  destruct (proxy_loop_schedule host port 99 0 0 s Hu) as [-> _].
  rewrite (schedule_ext _ (λ _, false)) by done.
  by destruct (schedule_silent (clock s)) as [_ ->].
Qed.

(** C23: fuel 100 is enough for [TestHTTPProxy] whatever the proxy
    answers: every run returns. *)
Theorem TestHTTPProxy_returns fuel host port s :
  url_Parse (proxy_url host port) = None →
  is_Ret (TestHTTPProxy (100 + fuel) host port s).1 = true.
Proof.
  intros Hu. destruct (proxy_loop_schedule host port (100 + fuel) 0 0 s Hu) as [Hr _].
  unfold TestHTTPProxy. rewrite Hr.
  destruct (schedule_silent (clock s)) as [Hs _].
  apply (schedule_more _ _ fuel) in Hs.
  by destruct (schedule_total (proxy_answer host port) _ _ _ _ _ Hs) as [[b t] ->].
Qed.

(** C24: the first answer of the proxy, at the probe [i] with
    [i < 100], makes [TestHTTPProxy] return true after [i] seconds. *)
Theorem TestHTTPProxy_first_answer fuel host port s i :
  url_Parse (proxy_url host port) = None → i < 100 →
  (∀ j, j < i → proxy_answer host port (clock s + j) = false) →
  proxy_answer host port (clock s + i) = true →
  (TestHTTPProxy (100 + fuel) host port s).1 = Ret true ∧
  clock (TestHTTPProxy (100 + fuel) host port s).2 = clock s + i.
Proof.
  intros Hu Hi Hf Ha.
  apply (agrees_answer _ (proxy_answer host port) fuel (clock s) i);
    [by apply proxy_loop_schedule|done..].
Qed.

(** [TestHTTPBackupProxy] follows the same schedule on the answers of
    its probe: where the probe finds the port free each time, which
    takes the finalizers to run before each try, the port is tried 100
    times before the method returns false, and a port that is taken at
    the try [i] makes it return true. *)
Lemma TestHTTPBackupProxy_schedule fuel s :
  ((∀ t, listen_answer s t = false) →
   (TestHTTPBackupProxy (100 + fuel) s).1 = Ret false ∧
   clock (TestHTTPBackupProxy (100 + fuel) s).2 = 100 + clock s) ∧
  (∀ i, i < 100 → (∀ j, j < i → listen_answer s (clock s + j) = false) →
        listen_answer s (clock s + i) = true →
        (TestHTTPBackupProxy (100 + fuel) s).1 = Ret true ∧
        clock (TestHTTPBackupProxy (100 + fuel) s).2 = clock s + i).
Proof.
  split.
  - intros Ha. apply (agrees_silent _ (listen_answer s) fuel);
      [apply backup_loop_schedule|done].
  - intros i. apply (agrees_answer _ (listen_answer s) fuel), backup_loop_schedule.
Qed.

(** The first two probes of a loop whose second probe answers. *)
Lemma agrees_second r answer fuel t :
  agrees r (schedule answer (2 + fuel) t 0 0) → answer (S t) = true →
  r.1 = Ret true ∧ clock r.2 = (if answer t then t else S t).
Proof.
  intros [Hr Hc] Ha. cbn [Nat.add schedule] in Hr, Hc.
  destruct (answer t); [split; [done|by apply (Hc true)]|].
  rewrite decide_False, Ha in Hr, Hc by done.
  split; [done|by apply (Hc true)].
Qed.

(** One turn of the loop. *)
Lemma backup_loop_S fuel now limit :
  backup_loop (S fuel) now limit =
  (open ← listen_probe;
   if (open : bool) then mret true
   else limit ← count_round now limit;
        now ← Seconds now;
        if decide (limit = 10%Z) then mret false
        else backup_loop fuel now limit).
Proof. done. Qed.

(** A probe of the port while the process holds it: it answers, and
    the process goes on holding the port. *)
Lemma listen_probe_held s :
  net_finalized (clock s) = false → "127.0.0.1:4444" ∈ listeners s →
  ∃ s', listen_probe s = (Ret true, s') ∧ listeners s' = listeners s.
Proof.
  intros Hf Hl. unfold listen_probe.
  destruct (listen_drop_run "127.0.0.1:4444" s) as (s1 & Hr & _ & Hl1).
  rewrite Hf in Hr, Hl1. rewrite bool_decide_eq_true_2 in Hr, Hl1 by done.
  rewrite (bind_run_Ret _ _ _ _ _ Hr). unfold log_Println. go_run. eauto.
Qed.

(** The second probe of the loop, after a first that found the port
    free: the process holds the port, and goes on holding it when the
    method has returned. *)
Lemma backup_loop_second fuel s :
  net_finalized (S (clock s)) = false → listen_answer s (clock s) = false →
  "127.0.0.1:4444" ∈ listeners (TestHTTPBackupProxy (2 + fuel) s).2.
Proof.
  intros Hf Ha. unfold TestHTTPBackupProxy.
  change (2 + fuel) with (S (1 + fuel)). rewrite backup_loop_S.
  destruct (listen_probe_round s s (probing_refl s)) as (s1 & Hp & Hc1 & Hi).
  rewrite Ha in Hp. rewrite (bind_run_Ret _ _ _ _ _ Hp). cbv beta iota.
  destruct (round_without_answer 0 0 s1
              (λ now limit, if decide (limit = 10%Z) then mret false
                            else backup_loop (1 + fuel) now limit))
    as (s2 & -> & Hc2 & Hl2).
  rewrite decide_False by done.
  change (1 + fuel) with (S fuel). rewrite backup_loop_S.
  destruct (Hi Ha s2) as [_ Hh]; [done|congruence|].
  assert ("127.0.0.1:4444" ∈ listeners s2) as Hin.
  { apply (bool_decide_eq_true_1 _). rewrite Hh. unfold held_at.
    by rewrite (bool_decide_eq_true_2 (clock s < clock s2)), orb_true_r by lia. }
  destruct (listen_probe_held s2) as (s3 & Hr & Hl3); [congruence|done|].
  rewrite (bind_run_Ret _ _ _ _ _ Hr). go_run. cbn [snd]. by rewrite Hl3.
Qed.

(** C31: [TestHTTPBackupProxy] says that the proxy is up within one
    second, whatever listens on the port: the listener of its first
    probe is never closed, so where the port was free the second probe
    finds it taken by the process itself, and the process goes on
    holding the port when the method has returned.  The finalizers are
    taken not to have run within the first second. *)
Theorem TestHTTPBackupProxy_own_listener fuel s :
  net_finalized (S (clock s)) = false →
  (TestHTTPBackupProxy (2 + fuel) s).1 = Ret true ∧
  clock (TestHTTPBackupProxy (2 + fuel) s).2
  = (if listen_answer s (clock s) then clock s else S (clock s)) ∧
  (listen_answer s (clock s) = false →
   "127.0.0.1:4444" ∈ listeners (TestHTTPBackupProxy (2 + fuel) s).2).
Proof.
  intros Hf.
  destruct (agrees_second _ (listen_answer s) fuel (clock s)
              (backup_loop_schedule (2 + fuel) 0 0 s)) as [Hr Hc].
  { unfold listen_answer, held_at. rewrite Hf.
    by rewrite (bool_decide_eq_true_2 (clock s < S (clock s))), orb_true_r by lia. }
  split_and!; [done..|]. intros Ha.
  by apply backup_loop_second.
Qed.

(** The two gates are one loop around two probes: where the proxy
    answers at the times at which the probe of the port finds it taken,
    [TestHTTPProxy] and [TestHTTPBackupProxy], started at the same time
    with the same fuel, give the same result, and when they return they
    do so at the same time. *)
Lemma TestHTTPBackupProxy_equiv fuel host port s s' :
  url_Parse (proxy_url host port) = None →
  (∀ t, listen_answer s' t = proxy_answer host port t) → clock s' = clock s →
  (TestHTTPBackupProxy fuel s').1 = (TestHTTPProxy fuel host port s).1 ∧
  (is_Ret (TestHTTPBackupProxy fuel s').1 →
   clock (TestHTTPBackupProxy fuel s').2 = clock (TestHTTPProxy fuel host port s).2).
Proof.
  intros Hu Ha Hc.
  apply (agrees_same _ _ (listen_answer s') (proxy_answer host port) fuel (clock s));
    [rewrite <-Hc; apply backup_loop_schedule|by apply proxy_loop_schedule|done].
Qed.

(** An address that [url.Parse] rejects makes the probe panic, and
    [TestHTTPProxy] with it. *)
Lemma TestHTTPProxy_bad_url_panics fuel host port s err :
  url_Parse (proxy_url host port) = Some err →
  (TestHTTPProxy (S fuel) host port s).1 = Panic err.
Proof.
  intros Hu. unfold TestHTTPProxy. cbn [proxy_loop]. unfold hTTPProxy.
  fold (proxy_url host port). rewrite Hu. by go_run.
Qed.

(** [Seconds] sleeps one second and steps the counter through
    0, 1, ..., 10 and back to 0. *)
Lemma Seconds_cycle now s :
  (0 ≤ now ≤ 10)%Z →
  (Seconds now s).1 = Ret ((now + 1) mod 11)%Z ∧
  clock (Seconds now s).2 = S (clock s) ∧
  events (Seconds now s).2 = events s ++ [EvSleep].
Proof.
  intros Hn. unfold Seconds. go_run. case_decide as E.
  - by subst.
  - rewrite wrap64_small by (unfold is_int; lia).
    by rewrite Z.mod_small by lia.
Qed.

End loops.

(** ** The theorems at three networks

    A network in which nothing answers, no other process takes the port
    and no finalizer runs; one in which the proxy answers from the
    second second on, the port is taken by it from then on, and the
    finalizers run within the first second, so that the second probe
    of the port finds it free as the first did; and one whose
    [url.Parse] rejects every address. *)

Definition silent : Network :=
  {| http_Get _ := inl "dial tcp: connection refused";
     proxy_Get _ _ _ := inl "proxyconnect tcp: connection refused";
     net_Listen _ _ := None;
     net_finalized _ := false;
     url_Parse _ := None |}.

Definition waking : Network :=
  {| http_Get _ := inl "dial tcp: connection refused";
     proxy_Get t _ _ :=
       if decide (t < 2) then inl "proxyconnect tcp: connection refused"
       else inr {| body := "<h1>I2P HTTP proxy OK</h1>"; read_error := None |};
     net_Listen t _ :=
       if decide (t < 2) then None
       else Some "listen tcp 127.0.0.1:4444: bind: address already in use";
     net_finalized t := bool_decide (t = 1);
     url_Parse _ := None |}.

Definition strict : Network :=
  {| http_Get _ := inl "dial tcp: connection refused";
     proxy_Get _ _ _ := inl "proxyconnect tcp: connection refused";
     net_Listen _ _ := None;
     net_finalized _ := false;
     url_Parse _ := Some "parse: invalid port" |}.

(** A state in which nothing has happened. *)
Definition boot : state :=
  {| tbd := mkTBDownloader "" "" "" "" "" false None; vars := initial_vars;
     files := fs_root; logged := []; printed := []; events := []; clock := 0;
     listeners := [] |}.

Lemma TestHTTPProxy_refines_witness :
  (@TestHTTPProxy waking 100 "127.0.0.1" "4444" boot).1
  = scheduled (schedule (@proxy_answer waking "127.0.0.1" "4444") 100 0 0 0).
Proof. by apply (@TestHTTPProxy_refines waking 100 "127.0.0.1" "4444" boot). Defined.

Lemma TestHTTPProxy_gives_up_after_100_witness :
  (@TestHTTPProxy silent 100 "127.0.0.1" "4444" boot).1 = Ret false ∧
  clock (@TestHTTPProxy silent 100 "127.0.0.1" "4444" boot).2 = 100 ∧
  (@TestHTTPProxy silent 99 "127.0.0.1" "4444" boot).1 = Timeout.
Proof. by apply (@TestHTTPProxy_gives_up_after_100 silent 0 "127.0.0.1" "4444" boot). Defined.

Lemma TestHTTPProxy_returns_witness :
  is_Ret (@TestHTTPProxy waking 100 "127.0.0.1" "4444" boot).1 = true.
Proof. by apply (@TestHTTPProxy_returns waking 0 "127.0.0.1" "4444" boot). Defined.

Lemma TestHTTPProxy_first_answer_witness :
  (@TestHTTPProxy waking 100 "127.0.0.1" "4444" boot).1 = Ret true ∧
  clock (@TestHTTPProxy waking 100 "127.0.0.1" "4444" boot).2 = 2.
Proof.
  apply (@TestHTTPProxy_first_answer waking 0 "127.0.0.1" "4444" boot 2);
    [done|lia| |by vm_compute].
  intros [|[|j]] Hj; [by vm_compute..|lia].
Defined.

(** Nothing listens on the port and no proxy answers: the gate says
    that the proxy is up after one second, and holds the port. *)
Lemma TestHTTPBackupProxy_own_listener_witness :
  (@TestHTTPBackupProxy silent 100 boot).1 = Ret true ∧
  clock (@TestHTTPBackupProxy silent 100 boot).2 = 1 ∧
  (@listen_answer silent boot 0 = false →
   "127.0.0.1:4444" ∈ listeners (@TestHTTPBackupProxy silent 100 boot).2).
Proof. by apply (@TestHTTPBackupProxy_own_listener silent 98 boot). Defined.

Lemma TestHTTPBackupProxy_equiv_witness :
  (@TestHTTPBackupProxy waking 100 boot).1
  = (@TestHTTPProxy waking 100 "127.0.0.1" "4444" boot).1 ∧
  (is_Ret (@TestHTTPBackupProxy waking 100 boot).1 →
   clock (@TestHTTPBackupProxy waking 100 boot).2
   = clock (@TestHTTPProxy waking 100 "127.0.0.1" "4444" boot).2).
Proof.
  apply (@TestHTTPBackupProxy_equiv waking 100 "127.0.0.1" "4444" boot boot);
    [done| |done].
  intros [|[|t]]; [done..|]. unfold listen_answer, proxy_answer, held_at. simpl.
  by vm_compute.
Defined.

Lemma TestHTTPProxy_bad_url_panics_witness :
  (@TestHTTPProxy strict 1 "127.0.0.1" "4444" boot).1 = Panic "parse: invalid port".
Proof. by apply (@TestHTTPProxy_bad_url_panics strict 0 "127.0.0.1" "4444" boot). Defined.

Lemma Seconds_cycle_witness :
  (Seconds 10 boot).1 = Ret 0%Z ∧ clock (Seconds 10 boot).2 = 1 ∧
  events (Seconds 10 boot).2 = [EvSleep].
Proof. apply (Seconds_cycle 10 boot). lia. Defined.
