(* ===== verification/Mirror.v ===== *)
(** * The mirror

    [ServeHTTP] and [Serve] of [src/get/get.go].  The handler serves
    the download directory: it removes every [".."] from the path of
    the request, answers a path with the extension [.json] with the
    file [mirror.json] when that file is there, and then answers with
    the file at the path when that file is there.  The first answer is
    not followed by a [return], so a request for a JSON file that is
    there is answered twice.  [Serve] opens a listener on the SAM bridge
    of the I2P router, exits when there is none, and otherwise hands
    every request that arrives to the handler and closes the listener
    when [http.Serve] returns.

    [http.ServeFile] is a call to the library; the model records the
    names it is called with, in the order of the calls.  The bridge is
    the class [SAM]; a listener is the list of the paths it accepts.

    The theorems: the handler is the function [answer] of the request
    and of the files and changes nothing ([ServeHTTP_answer]); [Serve]
    on both branches ([Serve_spec]); whatever arrives in a session,
    what is served lies below the download directory
    ([Serve_confined]); the order in which the requests of a session
    are answered does not matter ([http_Serve_Permutation]). *)

From stdpp Require Import base tactics option list strings gmap.
From Stdlib Require Import ZArith.
From S2P Require Import Prelude GoStrings GoPath FileSys Machine Platform.
From S2P Require Import Bootstrap.

(** What the handler did with the [http.ResponseWriter]: the content
    type it set and the files it passed to [http.ServeFile]. *)
Record reply : Type := mkReply {
  content_type : option string;
  served : list string;
}.

Section mirror.
Context `{Runtime}.

(** [func (t *TBDownloader) ServeHTTP(w, r)], on the path of the URL of
    the request. *)
Definition ServeHTTP (url_path : string) : Go reply :=
  let url_path := Replace url_path ".." "" in
  let ext := Ext url_path in
  t ← gets tbd;
  w ← (if decide (ext = ".json") then
         there ← FileExists (Join [DownloadPath t; "mirror.json"]);
         mret {| content_type := Some "application/json";
                 served := if (there : bool)
                           then [Join [DownloadPath t; "mirror.json"]] else [] |}
       else mret {| content_type := None; served := [] |});
  there ← FileExists (Join [DownloadPath t; url_path]);
  if (there : bool)
  then mret {| content_type := content_type w;
               served := served w ++ [Join [DownloadPath t; url_path]] |}
  else mret w.

End mirror.

(** The SAM bridge of the I2P router: [sam.I2PListener], called with the
    name of the tunnel, the address of the bridge and the name of the
    keys, gives an error or a listener.  A listener is the paths of the
    requests it accepts, in the order in which they arrive, until
    [Accept] fails and [http.Serve] returns. *)
Class SAM : Type := {
  I2PListener : string → string → string → string + list string;
}.

Section serve.
Context `{Runtime} `{SAM}.

(** [http.Serve(l, handler)]: every request that the listener accepts
    is answered by the handler.  The library runs the handler of each
    connection in a goroutine of its own; the model answers the requests
    one after the other ([http_Serve_Permutation] shows that the order
    makes no difference for this handler). *)
Fixpoint http_Serve (requests : list string) (handler : string → Go reply)
  : Go (list reply) :=
  match requests with
  | [] => mret []
  | p :: requests => w ← handler p; ws ← http_Serve requests handler; mret (w :: ws)
  end.

(** [func (t *TBDownloader) Serve()].  The result is what the clients of
    the session were answered. *)
Definition Serve : Go (list reply) :=
  emit (EvI2PListener "tor-mirror" "127.0.0.1:7656") ;;
  match I2PListener "tor-mirror" "127.0.0.1:7656" "tor-mirror" with
  | inl err => log_Fatal err
  | inr samlistener =>
      deferred (emit (EvClose "tor-mirror")) (http_Serve samlistener ServeHTTP)
  end.

End serve.

Section handler.
Context `{Runtime}.
Implicit Types (s : state) (p : string).

(** The path of the request as the handler uses it. *)
Definition requested_path p : string := Replace p ".." "".

(** The file the handler looks for. *)
Definition mirror_file s p : string := Join [DownloadPath (tbd s); requested_path p].
Definition mirror_json s : string := Join [DownloadPath (tbd s); "mirror.json"].

(** Whether [FileExists] finds something at a path. *)
Definition found s (f : string) : bool := bool_decide ((FileExists f s).1 = Ret true).

(** The answer to a request: the content type for a path that ends in
    [.json], [mirror.json] for such a path when it is there, and then
    the file of the request when it is there. *)
Definition answer s p : reply :=
  let json := bool_decide (Ext (requested_path p) = ".json") in
  {| content_type := if json then Some "application/json" else None;
     served := (if json && found s (mirror_json s) then [mirror_json s] else [])
               ++ (if found s (mirror_file s p) then [mirror_file s p] else []) |}.

Lemma FileExists_found f s : FileExists f s = (Ret (found s f), s).
Proof.
  unfold found. rewrite FileExists_run. simpl. f_equal. f_equal.
  by repeat case_match; repeat case_bool_decide.
Qed.


(** The handler by cases on the extension and on the two files. *)
Lemma ServeHTTP_run p s (json there : bool) :
  FileExists (mirror_json s) s = (Ret json, s) →
  FileExists (mirror_file s p) s = (Ret there, s) →
  ServeHTTP p s =
  (Ret {| content_type :=
            if decide (Ext (requested_path p) = ".json")
            then Some "application/json" else None;
          served :=
            (if decide (Ext (requested_path p) = ".json")
             then if json then [mirror_json s] else [] else [])
            ++ (if there then [mirror_file s p] else []) |}, s).
Proof.
  intros Hj Ht. unfold ServeHTTP. go_run. fold (requested_path p).
  unfold mirror_json, mirror_file in *.
  case_decide; go_run; rewrite ?Hj, Ht; destruct there; try done.
  by rewrite app_nil_r.
Qed.

(** The handler returns its answer and changes nothing. *)
Lemma ServeHTTP_answer p s : ServeHTTP p s = (Ret (answer s p), s).
Proof.
  rewrite (ServeHTTP_run p s _ _ (FileExists_found _ s) (FileExists_found _ s)).
  unfold answer. by case_decide; case_bool_decide.
Qed.

Lemma ServeHTTP_reads_only p s : (ServeHTTP p s).2 = s.
Proof. by rewrite ServeHTTP_answer. Qed.

(** What is served for a request is [mirror.json] or the file at the
    path of the request. *)
Lemma answer_served p s f :
  f ∈ served (answer s p) → f = mirror_json s ∨ f = mirror_file s p.
Proof.
  unfold answer. simpl.
  rewrite elem_of_app. intros [Hf|Hf]; [left|right]; repeat case_match;
    by (apply list_elem_of_singleton in Hf || apply elem_of_nil in Hf).
Qed.

(** The path of a request has lost every [".."] before it is joined,
    and [filepath.Join] of a path without [".."] stays below its first
    element: what is served for a request lies below the download
    directory. *)
Lemma answer_confined p s kd f :
  key (DownloadPath (tbd s)) = Some kd → f ∈ served (answer s p) →
  ∃ k, key f = Some k ∧ kd `prefix_of` k.
Proof.
  intros Hd Hf.
  destruct (answer_served p s f Hf) as [->| ->];
    (apply key_Join_below; [done|]).
  - by apply (bool_decide_unpack _).
  - apply Replace_dotdot_free.
Qed.

(** C27: a request for a JSON file that is there, with [mirror.json]
    there too, is answered twice: first with [mirror.json], then with
    the file. *)
Theorem ServeHTTP_answers_twice p s :
  Ext (requested_path p) = ".json" →
  present s (mirror_json s) → present s (mirror_file s p) →
  (ServeHTTP p s).1
  = Ret {| content_type := Some "application/json";
           served := [mirror_json s; mirror_file s p] |}.
Proof.
  intros He Hj Hf.
  rewrite (ServeHTTP_run p s true true) by (by apply FileExists_present).
  by case_decide.
Qed.

End handler.

(** ** A session of the mirror *)

Section session.
Context `{Runtime} `{SAM}.
Implicit Types (s : state) (p : string) (ps : list string).

(** The state after the call of [sam.I2PListener], and after the
    listener is closed. *)
Definition listening s : state :=
  set_events (λ l, l ++ [EvI2PListener "tor-mirror" "127.0.0.1:7656"]) s.
Definition closed s : state :=
  set_events (λ l, l ++ [EvClose "tor-mirror"]) s.

(** Every request of a session is answered on the state in which the
    session started. *)
Lemma http_Serve_run ps s : http_Serve ps ServeHTTP s = (Ret (answer s <$> ps), s).
Proof.
  induction ps as [|p ps IH]; [done|]. cbn [http_Serve].
  rewrite (bind_run_Ret _ _ _ _ _ (ServeHTTP_answer p s)).
  by rewrite (bind_run_Ret _ _ _ _ _ IH).
Qed.

(** The goroutines of [http.Serve] may answer in any order: the answers
    to the requests in another order are the same answers in that
    order. *)
Lemma http_Serve_Permutation ps ps' s ws ws' :
  ps ≡ₚ ps' →
  (http_Serve ps ServeHTTP s).1 = Ret ws → (http_Serve ps' ServeHTTP s).1 = Ret ws' →
  ws ≡ₚ ws'.
Proof. rewrite !http_Serve_run. intros Hp [= <-] [= <-]. by rewrite Hp. Qed.

(** A session without a bridge and one with a listener. *)
Lemma Serve_no_bridge s err :
  I2PListener "tor-mirror" "127.0.0.1:7656" "tor-mirror" = inl err →
  Serve s = (Fatal err, set_logged (λ l, l ++ [err]) (listening s)).
Proof. intros E. unfold Serve. go_run. by rewrite E. Qed.

Lemma Serve_session s ps :
  I2PListener "tor-mirror" "127.0.0.1:7656" "tor-mirror" = inr ps →
  Serve s = (Ret (answer s <$> ps), closed (listening s)).
Proof.
  intros E. unfold Serve.
  rewrite (bind_run_Ret _ _ s tt (listening s)), E by done.
  apply deferred_Ret with (s1 := listening s); [|done].
  by rewrite http_Serve_run.
Qed.

(** C40: [Serve] on both branches.  Without a listener the error is
    logged and the process exits: nothing is served and nothing is
    closed.  With a listener every request that arrives is answered as
    the handler answers it in the state in which the session started,
    in the order of arrival; then the listener is closed.  Apart from
    the record of the two calls the state is as before. *)
Theorem Serve_spec s :
  Serve s =
  match I2PListener "tor-mirror" "127.0.0.1:7656" "tor-mirror" with
  | inl err => (Fatal err, set_logged (λ l, l ++ [err]) (listening s))
  | inr ps => (Ret (answer s <$> ps), closed (listening s))
  end.
Proof.
  destruct (I2PListener _ _ _) as [err|ps] eqn:E;
    [by apply Serve_no_bridge|by apply Serve_session].
Qed.

(** C28: the mirror does not leave the download directory: whatever
    the bridge delivers and whatever the paths of the requests, every
    file that is served in a session lies below the download
    directory. *)
Theorem Serve_confined s ws kd :
  key (DownloadPath (tbd s)) = Some kd →
  (Serve s).1 = Ret ws →
  ∀ w f, w ∈ ws → f ∈ served w → ∃ k, key f = Some k ∧ kd `prefix_of` k.
Proof.
  intros Hd Hs w f Hw Hf.
  destruct (I2PListener "tor-mirror" "127.0.0.1:7656" "tor-mirror")
    as [err|ps] eqn:E.
  { by rewrite (Serve_no_bridge s err) in Hs. }
  rewrite (Serve_session s ps E) in Hs. injection Hs as <-.
  apply list_elem_of_fmap in Hw as (p & -> & _). by apply (answer_confined p s).
Qed.

End session.

(** ** The theorems at a request *)

Definition mirrored : state :=
  start undetected
    (<[ ["home"; "user"; "tor-browser"; "downloads.json"] := File "{}" mode_0644 ]>
       (<[ ["home"; "user"; "tor-browser"; "mirror.json"] := File "{}" mode_0644 ]>
          home)).

(** A bridge that delivers two requests, one of which climbs out of the
    directory, and a router without a bridge. *)
Definition visitors : SAM :=
  {| I2PListener _ _ _ := inr ["/../downloads.json"; "/../../.ssh/id_rsa"] |}.

Definition no_bridge : SAM :=
  {| I2PListener _ _ _ := inl "dial tcp 127.0.0.1:7656: connect: connection refused" |}.

Lemma Serve_confined_witness :
  (∃ k, @key linux_amd64 "/home/user/tor-browser/mirror.json" = Some k ∧
        ["home"; "user"; "tor-browser"] `prefix_of` k) ∧
  (∃ k, @key linux_amd64 "/home/user/tor-browser/downloads.json" = Some k ∧
        ["home"; "user"; "tor-browser"] `prefix_of` k).
Proof.
  pose proof (@Serve_confined linux_amd64 visitors mirrored
                [ {| content_type := Some "application/json";
                     served := ["/home/user/tor-browser/mirror.json";
                                "/home/user/tor-browser/downloads.json"] |};
                  {| content_type := None; served := [] |} ]
                ["home"; "user"; "tor-browser"] eq_refl eq_refl) as Hs.
  split; apply (Hs _ _ (list_elem_of_here _ _)); [by left|by right; left].
Defined.

(** The session of [visitors], and the exit without a bridge. *)
Example Serve_visitors :
  (@Serve linux_amd64 visitors mirrored).1
  = Ret [ {| content_type := Some "application/json";
             served := ["/home/user/tor-browser/mirror.json";
                        "/home/user/tor-browser/downloads.json"] |};
          {| content_type := None; served := [] |} ] ∧
  events (@Serve linux_amd64 visitors mirrored).2
  = [EvI2PListener "tor-mirror" "127.0.0.1:7656"; EvClose "tor-mirror"].
Proof. by vm_compute. Qed.

Example Serve_without_bridge :
  (@Serve linux_amd64 no_bridge mirrored).1
  = Fatal "dial tcp 127.0.0.1:7656: connect: connection refused" ∧
  events (@Serve linux_amd64 no_bridge mirrored).2
  = [EvI2PListener "tor-mirror" "127.0.0.1:7656"].
Proof. by vm_compute. Qed.

Lemma ServeHTTP_answers_twice_witness :
  (@ServeHTTP linux_amd64 "/downloads.json" mirrored).1
  = Ret {| content_type := Some "application/json";
           served := ["/home/user/tor-browser/mirror.json";
                      "/home/user/tor-browser/downloads.json"] |}.
Proof.
  apply (@ServeHTTP_answers_twice linux_amd64 "/downloads.json" mirrored).
  - by vm_compute.
  - apply (@present_intro linux_amd64 _ _
             ["home"; "user"; "tor-browser"; "mirror.json"] (File "{}" mode_0644));
      by vm_compute.
  - apply (@present_intro linux_amd64 _ _
             ["home"; "user"; "tor-browser"; "downloads.json"] (File "{}" mode_0644));
      by vm_compute.
Defined.
