(* ===== verification/Main.v ===== *)
(** * The program

    [main] of [src/main.go]: the fetch stage for the empty language tag,
    then the signature gate.  The source calls [DownloadUpdaterForLang]
    and [CheckSignature] as functions of the package; the package has
    them as methods of [TBDownloader], and [CheckSignature] returns a
    path and an error.  The model calls the methods on the receiver of
    the state and drops the path.

    [main] panics when the fetch stage returns an error, and panics
    with "Signature check failed" when [CheckSignature] returns no
    error; it ends normally when [CheckSignature] returns an error.
    [main_first_run] is a whole first run, from the answers of the
    network to the files on disk, for a bundle whose signature
    verifies.  [main_installs_unverified] is the first run for a bundle
    whose signature does not verify, on a machine that has a place to
    install ([installable]): the bundle is unpacked before [main]
    panics. *)

From stdpp Require Import base tactics option list strings gmap.
From Stdlib Require Import ZArith.
From S2P Require Import Prelude GoStrings GoPath FileSys Machine Platform.
From S2P Require Import Bootstrap Json Manifest Fetch Stage Install Verify Proxy.

Section main.
Context `{Runtime} `{Network} `{JsonDecoder} `{Shell} `{Archive} `{OpenPGP}.

(** [func main()]. *)
Definition main (fuel : nat) : Go unit :=
  '(bin, sig, err) ← DownloadUpdaterForLang fuel "";
  match err with
  | Some e => panic e
  | None =>
      '(_, err) ← CheckSignature bin sig;
      match err with
      | Some _ => mret tt
      | None => panic "Signature check failed"
      end
  end.

End main.

Section run.
Context `{Runtime} `{Network} `{JsonDecoder} `{Shell} `{Archive} `{OpenPGP}.
Implicit Types (s : state) (fuel : nat).

(** How [main] ends, given how the gate ends. *)
Definition main_end (o : outcome (string * error)) : outcome unit :=
  match o with
  | Ret (_, Some _) => Ret tt
  | Ret (_, None) => Panic "Signature check failed"
  | Fatal msg => Fatal msg
  | Panic msg => Panic msg
  | Timeout => Timeout
  end.

Lemma main_fetched fuel s bin sig s1 :
  DownloadUpdaterForLang fuel "" s = (Ret (bin, sig, None), s1) →
  main fuel s = (main_end (CheckSignature bin sig s1).1, (CheckSignature bin sig s1).2).
Proof.
  intros Hd. unfold main. rewrite (bind_run_Ret _ _ _ _ _ Hd). go_run.
  by destruct (CheckSignature bin sig s1) as [[[p [e|]]| | |] s2].
Qed.

(** After a fetch stage without error, with the inputs of the gate read
    and a signature that verifies, [main] ends normally in the state
    the stage left. *)
Lemma main_outcome fuel s bin sig s1 pk b g :
  DownloadUpdaterForLang fuel "" s = (Ret (bin, sig, None), s1) →
  inputs s1 bin sig pk b g → pgp_Verify pk g b = None →
  main fuel s = (Ret tt, s1).
Proof.
  intros Hd Hi Hv. rewrite (main_fetched fuel s bin sig s1 Hd).
  by rewrite (CheckSignature_branch _ _ _ pk b g), Hv.
Qed.

(** The gate reads what the stage fetched, and the key of the
    directory. *)
Lemma fetched_inputs s s1 kd name pk m b g σ requests :
  leaves s s1
    (<[kd ++ [name] := File b mode_0666]>
       (<[kd ++ [name +:+ ".asc"] := File g mode_0666]> σ)) requests →
  key (DownloadPath (tbd s)) = Some kd → is_name name → slash_free name →
  name ≠ key_name → name +:+ ".asc" ≠ key_name →
  σ !! (kd ++ [key_name]) = Some (File pk m) → pgp_GetEntity pk = None →
  inputs s1 (artifact_path s name) (artifact_path s (name +:+ ".asc")) pk b g.
Proof.
  intros (_ & Ht & Hf & _) Hkd Hn Hs Hnk Hak Hpk Hge.
  destruct key_name_name as [Hkn Hks]. unfold inputs, key_path, artifact_path.
  rewrite Ht. split_and!; [|done|..].
  - apply (file_at_file _ _ (kd ++ [key_name]) _ m); [by apply key_Join_name|].
    by rewrite Hf, !lookup_insert_ne by (by apply entry_ne).
  - apply (file_at_file _ _ (kd ++ [name]) _ mode_0666); [by apply key_Join_name|].
    by rewrite Hf, lookup_insert_eq.
  - apply (file_at_file _ _ (kd ++ [name +:+ ".asc"]) _ mode_0666).
    + by apply key_Join_name; [|apply is_name_asc|apply slash_free_asc].
    + rewrite Hf, lookup_insert_ne, lookup_insert_eq; [done|].
      apply entry_ne, not_eq_sym, asc_not_bundle.
Qed.

(** After the stage of a first fetch the gate has its inputs. *)
Lemma stage_inputs s s3 kd r mf a rg rb pk m σ requests :
  let name := bundle_name (tbd s) "" in
  first_fetch s "" kd r mf a rg rb →
  leaves s s3
    (<[kd ++ [name] := File (body rb) mode_0666]>
       (<[kd ++ [name +:+ ".asc"] := File (body rg) mode_0666]>
          (<[kd ++ ["downloads.json"] := σ]> (files s)))) requests →
  files s !! (kd ++ [key_name]) = Some (File pk m) → pgp_GetEntity pk = None →
  inputs s3 (artifact_path s name) (artifact_path s (name +:+ ".asc")) pk
    (body rb) (body rg).
Proof.
  intros name F L Hpk Hge.
  apply (fetched_inputs s s3 kd name pk m _ _ _ _ L);
    try done; try apply F.
  rewrite lookup_insert_ne; [done|]. by apply entry_ne.
Qed.

(** C25: a first run, end to end.  In a directory that is set up, with
    a key that the library accepts and neither file of the bundle, for
    a manifest that resolves the default language, a bundle whose
    signature verifies is fetched and not installed: [main] requests
    the manifest, the signature and the bundle, leaves the three files,
    runs no program and ends normally.  With the gate as the source has
    it, the user has nothing to run after a good download. *)
Theorem main_first_run fuel s kd r mf a rg rb pk m :
  let name := bundle_name (tbd s) "" in
  first_fetch s "" kd r mf a rg rb →
  files s !! (kd ++ [key_name]) = Some (File pk m) → pgp_GetEntity pk = None →
  pgp_Verify pk (body rg) (body rb) = None →
  (main (2 + fuel) s).1 = Ret tt ∧
  files (main (2 + fuel) s).2
  = <[kd ++ [name] := File (body rb) mode_0666]>
      (<[kd ++ [name +:+ ".asc"] := File (body rg) mode_0666]>
         (<[kd ++ ["downloads.json"]
            := File (body r) (file_mode (files s) (kd ++ ["downloads.json"]) mode_0644)]>
            (files s))) ∧
  events (main (2 + fuel) s).2
  = events s ++ [EvHttpGet TOR_UPDATES_URL; EvHttpGet (sig a); EvHttpGet (binary a)].
Proof.
  intros name F Hpk Hge Hv.
  destruct (DownloadUpdaterForLang_run fuel "" s kd r mf a rg rb F)
    as (s3 & R & L). pose proof L as (_ & _ & Hf & He).
  rewrite (main_outcome _ s _ _ s3 pk (body rb) (body rg) R); [done| |done].
  by apply (stage_inputs s s3 kd r mf a rg rb pk m _ _ F L).
Qed.

(** A place to install: the receiver is for neither Windows nor macOS,
    the unpack directory is there and holds no install directory, and
    the language of the receiver is the name of an entry. *)
Record installable s ku : Prop := Installable {
  not_win : OS (tbd s) ≠ "win";
  not_osx : OS (tbd s) ≠ "osx";
  unpack_dir : key (UnpackPath (tbd s)) = Some ku;
  unpack_is_dir : is_dir (files s) ku = true;
  lang_slash_free : slash_free (Lang (tbd s));
  not_installed : files s !! (ku ++ ["tor-browser_" +:+ Lang (tbd s)]) = None;
}.

(** What can be written is not a directory. *)
Lemma writable_not_dir (σ : fs) k ku :
  is_dir σ ku = true → writable σ k = true → k ≠ ku.
Proof.
  unfold is_dir, writable. intros Hd Hw ->.
  by destruct (σ !! ku) as [[]|].
Qed.

Lemma missing_not_dir (σ : fs) k ku : is_dir σ ku = true → σ !! k = None → k ≠ ku.
Proof. unfold is_dir. intros Hd Hk ->. by rewrite Hk in Hd. Qed.

(** The entries of the download directory that the stage writes are
    not the install directory. *)
Lemma install_dir_ne kd ku (x lang : string) :
  x = "downloads.json" ∨ (∃ t ietf suffix, x = bundle_name t ietf +:+ suffix) →
  kd ++ [x] ≠ ku ++ ["tor-browser_" +:+ lang].
Proof.
  intros Hx [_ E]%app_inj_tail. by destruct Hx as [->|(t & ietf & suffix & ->)].
Qed.

(** After the stage of a first fetch the install directory is still
    missing and the unpack directory is still there. *)
Lemma stage_installable s s3 kd ku r mf a rg rb cs cg cb requests :
  let name := bundle_name (tbd s) "" in
  first_fetch s "" kd r mf a rg rb → installable s ku →
  leaves s s3
    (<[kd ++ [name] := cb]>
       (<[kd ++ [name +:+ ".asc"] := cg]>
          (<[kd ++ ["downloads.json"] := cs]> (files s)))) requests →
  absent s3 (browser_dir s3) ∧ is_dir (files s3) ku = true.
Proof.
  intros name F [_ _ Hku Hd Hl Hn] (Hb3 & Ht & Hf & _).
  assert (is_dir (files s3) ku = true) as Hd3.
  { rewrite Hf, !is_dir_insert_ne; [done|..].
    - eapply writable_not_dir, F. done.
    - eapply missing_not_dir, F. done.
    - eapply missing_not_dir, F. done. }
  split; [|done]. unfold browser_dir. rewrite Ht.
  apply (absent_intro _ _ (ku ++ ["tor-browser_" +:+ Lang (tbd s)])).
  - apply key_Join_name; [done|by split_and!|].
    unfold slash_free. rewrite explode_app, not_elem_of_app.
    split; [by apply (bool_decide_unpack _)|done].
  - rewrite Hf, !lookup_insert_ne; [done|..]; apply install_dir_ne;
      [left|right; by exists (tbd s), "", ".asc"|right; exists (tbd s), "", ""];
      [done|]. by rewrite string_app_nil_r.
  - apply missing_in_dir; [apply Hb3|done].
Qed.

(** How [main] ends after an extraction. *)
Definition after_install (extracted : bool) : outcome unit :=
  if extracted then Panic "Signature check failed" else Ret tt.

(** C37: a bundle whose signature does not verify is installed.  On a
    first run with a place to install, when [pgp.Verify] rejects the
    signature that was fetched, [main] unpacks the bundle that was
    fetched: the files it leaves are those that [extract] gives for the
    entries of the bundle on the files of the fetch stage; and when
    every entry could be written it then panics with "Signature check
    failed".  The spec has the gate fail closed: nothing is installed
    unless the signature verifies. *)
Theorem main_installs_unverified fuel s kd ku r mf a rg rb pk m e :
  let name := bundle_name (tbd s) "" in
  let fetched :=
    <[kd ++ [name] := File (body rb) mode_0666]>
      (<[kd ++ [name +:+ ".asc"] := File (body rg) mode_0666]>
         (<[kd ++ ["downloads.json"]
            := File (body r) (file_mode (files s) (kd ++ ["downloads.json"]) mode_0644)]>
            (files s))) in
  let w := extract (UnpackPath (tbd s)) (entries (decode (body rb))) fetched in
  first_fetch s "" kd r mf a rg rb → installable s ku →
  files s !! (kd ++ [key_name]) = Some (File pk m) → pgp_GetEntity pk = None →
  pgp_Verify pk (body rg) (body rb) = Some e →
  xz_error (decode (body rb)) = None →
  files (main (2 + fuel) s).2 = w.1 ∧
  (main (2 + fuel) s).1
  = after_install (bool_decide (w.2 = true ∧ tar_error (decode (body rb)) = None)).
Proof.
  intros name fetched w F I Hpk Hge Hv Hx.
  destruct (DownloadUpdaterForLang_run fuel "" s kd r mf a rg rb F)
    as (s3 & R & L). pose proof L as (Hb3 & Ht & Hf & _).
  destruct (stage_installable s s3 kd ku r mf a rg rb _ _ _ _ F I L) as [Ha Hd].
  rewrite (main_fetched _ s _ _ s3 R).
  rewrite (CheckSignature_branch _ _ _ pk (body rb) (body rg)), Hv
    by (by apply (stage_inputs s s3 kd r mf a rg rb pk m _ _ F L)).
  fold name.
  destruct (UnpackUpdater_tar (artifact_path s name) s3 ku
              (kd ++ [name]) (body rb) mode_0666)
    as (p & err & s' & -> & Hfs & Hi & _);
    rewrite ?Ht; try apply I; try apply Hb3; try done.
  - apply key_Join_name; [apply F|done|apply F].
  - by rewrite Hf, lookup_insert_eq.
  - rewrite Ht, Hf in Hfs, Hi. split; [done|]. cbn [fst main_end].
    destruct err as [e'|].
    + rewrite bool_decide_false; [done|]. intros Hw. by apply Hi in Hw.
    + rewrite bool_decide_true; [done|]. by apply Hi.
Qed.

(** An error of the fetch stage makes [main] panic with it. *)
Lemma main_fetch_error fuel s bin sig e s1 :
  DownloadUpdaterForLang fuel "" s = (Ret (bin, sig, Some e), s1) →
  main fuel s = (Panic e, s1).
Proof. intros Hd. unfold main. by rewrite (bind_run_Ret _ _ _ _ _ Hd). Qed.

End run.

(** ** The theorems at a run

    A first run of [main] on the machine [linux_amd64] in the directory
    [home], with the network [mirror], the decoder [manifest_served]
    and a library that verifies every signature; and a run with the
    network [silent]. *)

Definition lenient : OpenPGP :=
  {| pgp_GetEntity _ := None; pgp_Verify _ _ _ := None |}.

Lemma default_fetch :
  @first_fetch linux_amd64 mirror manifest_served first_run ""
    ["home"; "user"; "tor-browser"] (served TOR_UPDATES_URL) releases
    (bundle "en-US") (served (sig (bundle "en-US")))
    (served (binary (bundle "en-US"))).
Proof.
  split; [split|..];
    [by apply home_bootstrapped|done|by vm_compute|done|done|
     apply first_run_decodes|by vm_compute|by vm_compute|
     apply (bool_decide_unpack _); by vm_compute|by vm_compute..].
Qed.

Lemma main_first_run_witness :
  (@main linux_amd64 mirror manifest_served idle untar lenient 2 first_run).1 = Ret tt ∧
  events (@main linux_amd64 mirror manifest_served idle untar lenient 2 first_run).2
  = [EvHttpGet TOR_UPDATES_URL; EvHttpGet (sig (bundle "en-US"));
     EvHttpGet (binary (bundle "en-US"))].
Proof.
  destruct (@main_first_run linux_amd64 mirror manifest_served idle untar lenient 0
              first_run ["home"; "user"; "tor-browser"]
              (served TOR_UPDATES_URL) releases (bundle "en-US")
              (served (sig (bundle "en-US"))) (served (binary (bundle "en-US")))
              "key" mode_0644 default_fetch)
    as (Hr & _ & He); [by vm_compute..|].
  split; [exact Hr|exact He].
Defined.

(** A decoder that finds the entries of [bundle_entries] in every
    file; with the library [keyring], which accepts the signature
    ["signed " +:+ bin] only, nothing that [mirror] serves verifies. *)
Definition unxz : Archive :=
  {| decode _ := {| xz_error := None; entries := bundle_entries; tar_error := None |} |}.

Lemma first_run_installable :
  @installable linux_amd64 first_run ["home"; "user"; "unpack"].
Proof.
  split; [done|done|by vm_compute|by vm_compute|
          apply (bool_decide_unpack _); by vm_compute|by vm_compute].
Qed.

Lemma main_installs_unverified_witness :
  (@main linux_amd64 mirror manifest_served idle unxz keyring 2 first_run).1
  = Panic "Signature check failed" ∧
  files (@main linux_amd64 mirror manifest_served idle unxz keyring 2 first_run).2
    !! ["home"; "user"; "unpack"; "tor-browser_en-US"; "start"]
  = Some (File "#!/bin/sh" 493).
Proof.
  destruct (@main_installs_unverified linux_amd64 mirror manifest_served idle unxz
              keyring 0 first_run ["home"; "user"; "tor-browser"]
              ["home"; "user"; "unpack"]
              (served TOR_UPDATES_URL) releases (bundle "en-US")
              (served (sig (bundle "en-US"))) (served (binary (bundle "en-US")))
              "key" mode_0644 "openpgp: invalid signature"
              default_fetch first_run_installable)
    as [Hf Hr]; [by vm_compute..|].
  change (2 + 0) with 2 in Hf, Hr.
  split; [rewrite Hr|rewrite Hf]; by vm_compute.
Defined.

Example main_fetch_error_silent :
  (@main linux_amd64 silent manifest_served idle untar lenient 2 first_run).1
  = Panic "DownloadUpdaterForLang: t.GetUpdaterForLang: dial tcp: connection refused".
Proof. by vm_compute. Qed.
