(* ===== verification/Template.v ===== *)
(** * Status pages

    [src/serve/template.go]: the Markdown texts built into the program
    and the three methods that render a page, each from a file of the
    language directory next to the download directory when the file can
    be read, and from a built-in text otherwise.  The Markdown renderer
    is a library ([blackfriday.MarkdownCommon]); the class [Markdown]
    stands for it.  The text [hhd] of the HTML head is used by no
    method of the file: the pages are the output of the renderer, with
    no head before it.

    The receiver of the methods is a client that holds a downloader;
    the model reads the downloader of the state. *)

From stdpp Require Import base tactics option list strings gmap.
From Stdlib Require Import ZArith.
From S2P Require Import Prelude GoStrings GoPath FileSys Machine Platform.
From S2P Require Import Bootstrap.

(** [blackfriday.MarkdownCommon]. *)
Class Markdown : Type := {
  MarkdownCommon : string → string;
}.

(** A raw string literal of the source, by its lines. *)
Definition raw (lines : list string) : string := Concat lines newline.

(** [var dmd], [var defaultmd]. *)
Definition dmd : string :=
  raw [ "";
        "# Tor Binary Manager";
        "";
        "This plugin manages the Tor Browser Bundle and a Tor binary";
        "for you. Combined with a SOCKS5 plugin for I2P, it acts as";
        "an alternative to a fixed outproxy by using Tor, and also";
        "provides a way to run I2P in the Tor Browser without any other";
        "configuration.";
        "";
        " - [![Launch I2P in Tor Browser](garliconion.png) - Launch I2P in Tor Browser](/launch-i2p-browser)";
        " - [![Launch Tor Browser](onion.png) - Launch Tor Browser](/launch-tor-browser)";
        " ";
        "## Tor Controls";
        "";
        "" ].
Definition defaultmd : string := dmd.

(** [var hhd], [var htmlhead]: the head of an HTML page.  No method of
    the file uses it. *)
Definition hhd : string :=
  raw [ "";
        "<!DOCTYPE html>";
        "<html>";
        "<head>";
        "<meta charset=" +:+ dquote +:+ "utf-8" +:+ dquote +:+ ">";
        "<meta name=" +:+ dquote +:+ "viewport" +:+ dquote +:+ " content="
          +:+ dquote +:+ "width=device-width, initial-scale=1" +:+ dquote +:+ ">";
        "<title>Tor Binary Manager</title>";
        "<link rel=" +:+ dquote +:+ "stylesheet" +:+ dquote +:+ " href="
          +:+ dquote +:+ "/style.css" +:+ dquote +:+ ">";
        "</head>";
        "" ].
Definition htmlhead : string := hhd.

(** [var tstart], [var torstart]. *)
Definition tstart : string :=
  raw [ ""; "- [![Stop Tor](/stop-tor.png)](/stop-tor) "; "" ].
Definition torstart : string := tstart.

(** [var tstop], [var torstop]. *)
Definition tstop : string :=
  raw [ ""; "- [![Start Tor](/start-tor.png)](/start-tor)"; "" ].
Definition torstop : string := tstop.

(** [var trun], [var torrunning]. *)
Definition trun : string :=
  raw [ ""; "- Tor is Running as a System Service"; "" ].
Definition torrunning : string := trun.

(** [var tstopped], [var torstopped]. *)
Definition tstopped : string :=
  raw [ ""; "- Tor is Stopped and there is no System Service"; "" ].
Definition torstopped : string := tstopped.

Section pages.
Context `{Runtime} `{Markdown}.

(** [func (m *Client) PageHTML() []byte]. *)
Definition PageHTML : Go string :=
  t ← gets tbd;
  let dir := Dir (DownloadPath t) in
  let mdpath := Join [dir; Lang t; "index.md"] in
  '(mdbytes, err) ← ioutil_ReadFile mdpath;
  match err with
  | Some _ => mret (MarkdownCommon defaultmd)
  | None => mret (MarkdownCommon mdbytes)
  end.

(** [func (m *Client) TorOnStatusHTML(ours bool) []byte]. *)
Definition TorOnStatusHTML (ours : bool) : Go string :=
  t ← gets tbd;
  let dir := Dir (DownloadPath t) in
  if ours then
    let mdpath := Join [dir; Lang t; "stoptor.md"] in
    '(torbytes, err) ← ioutil_ReadFile mdpath;
    match err with
    | Some _ => mret (MarkdownCommon torstop)
    | None => mret (MarkdownCommon torbytes)
    end
  else
    let mdpath := Join [dir; Lang t; "toron.md"] in
    '(toron, err) ← ioutil_ReadFile mdpath;
    match err with
    | Some _ => mret (MarkdownCommon torrunning)
    | None => mret (MarkdownCommon toron)
    end.

(** [func (m *Client) TorOffStatusHTML(ours bool) []byte]. *)
Definition TorOffStatusHTML (ours : bool) : Go string :=
  t ← gets tbd;
  let dir := Dir (DownloadPath t) in
  if ours then
    let mdpath := Join [dir; Lang t; "stoptor.md"] in
    '(torbytes, err) ← ioutil_ReadFile mdpath;
    match err with
    | Some _ => mret (MarkdownCommon torstart)
    | None => mret (MarkdownCommon torbytes)
    end
  else
    let mdpath := Join [dir; Lang t; "toron.md"] in
    '(toroff, err) ← ioutil_ReadFile mdpath;
    match err with
    | Some _ => mret (MarkdownCommon torstopped)
    | None => mret (MarkdownCommon toroff)
    end.

End pages.

Section rendering.
Context `{Runtime} `{Markdown}.
Implicit Types (s : state) (ours : bool).

(** The file of the language directory with the name [name]. *)
Definition page_file s (name : string) : string :=
  Join [Dir (DownloadPath (tbd s)); Lang (tbd s); name].

(** The content of the file at a path when it can be read, and the
    text [dflt] otherwise. *)
Definition text_or s (p dflt : string) : string :=
  match (ioutil_ReadFile p s).1 with
  | Ret (bytes, None) => bytes
  | _ => dflt
  end.

(** A page is the rendering of its file or of its built-in text. *)
Lemma render_run p dflt s :
  ('(bytes, err) ← ioutil_ReadFile p;
   match err with
   | Some _ => mret (MarkdownCommon dflt)
   | None => mret (MarkdownCommon bytes)
   end) s = (Ret (MarkdownCommon (text_or s p dflt)), s).
Proof.
  unfold text_or, ioutil_ReadFile. go_run.
  destruct (key p) as [k|]; [|done].
  by destruct (read_file (files s) k) as [[]|].
Qed.

(** Every page is rendered from the file of the language directory
    when it can be read and from the built-in text otherwise, and
    rendering changes nothing.  The two pages for a Tor of our own read
    the same file [stoptor.md]. *)
Lemma pages_run ours s :
  PageHTML s = (Ret (MarkdownCommon (text_or s (page_file s "index.md") defaultmd)), s) ∧
  TorOnStatusHTML ours s
  = (Ret (MarkdownCommon
            (if ours then text_or s (page_file s "stoptor.md") torstop
             else text_or s (page_file s "toron.md") torrunning)), s) ∧
  TorOffStatusHTML ours s
  = (Ret (MarkdownCommon
            (if ours then text_or s (page_file s "stoptor.md") torstart
             else text_or s (page_file s "toron.md") torstopped)), s).
Proof.
  unfold PageHTML, TorOnStatusHTML, TorOffStatusHTML, page_file.
  destruct ours; split_and!; apply render_run.
Qed.

(** The file at [p] cannot be read. *)
Definition unreadable s (p : string) : Prop :=
  ∀ bytes, (ioutil_ReadFile p s).1 ≠ Ret (bytes, None).

Lemma text_or_unreadable s p dflt : unreadable s p → text_or s p dflt = dflt.
Proof.
  intros Hu. unfold text_or.
  destruct (ioutil_ReadFile p s).1 as [[bytes [e|]]| | |] eqn:E; try done.
  by destruct (Hu bytes).
Qed.

Lemma own_tor_pages s :
  (TorOnStatusHTML true s).1
  = Ret (MarkdownCommon (text_or s (page_file s "stoptor.md") torstop)) ∧
  (TorOffStatusHTML true s).1
  = Ret (MarkdownCommon (text_or s (page_file s "stoptor.md") torstart)).
Proof.
  split.
  - apply (f_equal fst (render_run (page_file s "stoptor.md") torstop s)).
  - apply (f_equal fst (render_run (page_file s "stoptor.md") torstart s)).
Qed.

(** C39: with no file [stoptor.md] that can be read, the page for a
    running Tor of our own is the link that starts Tor, and the page
    for a stopped one the link that stops it. *)
Theorem own_tor_links s :
  unreadable s (page_file s "stoptor.md") →
  (TorOnStatusHTML true s).1 = Ret (MarkdownCommon torstop) ∧
  Contains torstop "(/start-tor)" = true ∧
  (TorOffStatusHTML true s).1 = Ret (MarkdownCommon torstart) ∧
  Contains torstart "(/stop-tor)" = true.
Proof.
  intros Hu. destruct (own_tor_pages s) as [-> ->].
  by rewrite !text_or_unreadable by done.
Qed.

End rendering.

(** ** The theorems at a directory without pages *)

Definition plain : Markdown := {| MarkdownCommon text := "<p>" +:+ text +:+ "</p>" |}.

Lemma own_tor_links_witness :
  (@TorOnStatusHTML linux_amd64 plain true (start undetected home)).1
  = Ret (@MarkdownCommon plain torstop) ∧
  Contains torstop "(/start-tor)" = true ∧
  (@TorOffStatusHTML linux_amd64 plain true (start undetected home)).1
  = Ret (@MarkdownCommon plain torstart) ∧
  Contains torstart "(/stop-tor)" = true.
Proof.
  apply (@own_tor_links linux_amd64 plain (start undetected home)).
  intros bytes. by vm_compute.
Defined.
