(* ===== verification/Quiet.v ===== *)
(** * The flag [Verbose] is not observable

    [Verbose] of [TBDownloader] is read in two places of
    [src/get/get.go]: in [Log], which prints its line when the flag is
    set, and in the loop of [UnpackUpdater], which prints the name of
    each file it unpacked.  This file shows that nothing else depends
    on it: two runs of a method from states that differ in the flag, in
    the log and in what was printed stop with the same outcome, in
    states that differ in these three only.

    The relation of such states is [alike], an equivalence coarser than
    equality; [blind m] says that [m] is [related] to itself under it
    (the relation of two runs side by side of [Prelude]).  The rules of
    [related] take a method apart, the base [blind] holds the methods
    already shown, and [solve_blind] puts the two together. *)

From stdpp Require Import base tactics option list strings gmap.
From Stdlib Require Import ZArith.
From S2P Require Import Prelude GoStrings GoPath FileSys Machine Platform.
From S2P Require Import Bootstrap Json Manifest Fetch Stage Install Verify.
From S2P Require Import Proxy Mirror Main Template.

(** ** States that differ in the flag and the logs *)

Definition same_receiver (t t' : TBDownloader) : Prop :=
  UnpackPath t = UnpackPath t' ∧ DownloadPath t = DownloadPath t' ∧
  Lang t = Lang t' ∧ OS t = OS t' ∧ ARCH t = ARCH t' ∧ Profile t = Profile t'.

Definition alike (s s' : state) : Prop :=
  same_receiver (tbd s) (tbd s') ∧ vars s = vars s' ∧ files s = files s' ∧
  events s = events s' ∧ clock s = clock s' ∧ listeners s = listeners s'.

#[export] Instance same_receiver_equiv : Equivalence same_receiver.
Proof.
  unfold same_receiver. split.
  - by intros t.
  - intros t t' ?. by destruct_and!.
  - intros t1 t2 t3 ??. destruct_and!. split_and!; congruence.
Qed.

#[export] Instance alike_equiv : Equivalence alike.
Proof.
  unfold alike. split.
  - by intros s.
  - intros s s' ?. by destruct_and!.
  - intros s1 s2 s3 ??. destruct_and!. split_and!; [by etrans|congruence..].
Qed.

(** The parts of a state that [alike] fixes are functions of its
    class. *)
#[export] Instance files_alike : Proper (alike ==> (=)) files.
Proof. by intros s s' (_ & _ & ? & _). Qed.

#[export] Instance events_alike : Proper (alike ==> (=)) events.
Proof. by intros s s' (_ & _ & _ & ? & _). Qed.

#[export] Instance vars_alike : Proper (alike ==> (=)) vars.
Proof. by intros s s' (_ & ? & _). Qed.

#[export] Instance clock_alike : Proper (alike ==> (=)) clock.
Proof. by intros s s' (_ & _ & _ & _ & ? & _). Qed.

#[export] Instance listeners_alike : Proper (alike ==> (=)) listeners.
Proof. by intros s s' (_ & _ & _ & _ & _ & ?). Qed.

#[export] Instance tbd_alike : Proper (alike ==> same_receiver) tbd.
Proof. by intros s s' (? & _). Qed.

(** [blind RA m m']: the two computations stop alike from states that
    are alike. *)
Abbreviation blind := (related alike).

(** The updates of a state, on states that are alike. *)
Section updates.

(** An update of one part keeps the others, and takes equal parts to
    equal parts. *)
Local Ltac alike_update :=
  let H := fresh in
  intros ?? H; unfold alike in *; destruct_and!; split_and!; simpl;
  (done || congruence).

Lemma set_logged_alike f f' : (alike ==> alike)%signature (set_logged f) (set_logged f').
Proof. alike_update. Qed.

Lemma set_printed_alike f f' :
  (alike ==> alike)%signature (set_printed f) (set_printed f').
Proof. alike_update. Qed.

Lemma set_events_alike f : (alike ==> alike)%signature (set_events f) (set_events f).
Proof. alike_update. Qed.

Lemma set_clock_alike f : (alike ==> alike)%signature (set_clock f) (set_clock f).
Proof. alike_update. Qed.

Lemma set_listeners_alike f :
  (alike ==> alike)%signature (set_listeners f) (set_listeners f).
Proof. alike_update. Qed.

Lemma set_files_alike f : (alike ==> alike)%signature (set_files f) (set_files f).
Proof. alike_update. Qed.

Lemma set_vars_alike f : (alike ==> alike)%signature (set_vars f) (set_vars f).
Proof. alike_update. Qed.

Lemma set_tbd_alike f f' :
  (same_receiver ==> same_receiver)%signature f f' →
  (alike ==> alike)%signature (set_tbd f) (set_tbd f').
Proof. intros Hf s s' (? & ?). split; [by apply Hf|done]. Qed.

Lemma set_tbd_const_alike t :
  (alike ==> alike)%signature (set_tbd (λ _, t)) (set_tbd (λ _, t)).
Proof. alike_update. Qed.

Lemma set_OS_same v : (same_receiver ==> same_receiver)%signature (set_OS v) (set_OS v).
Proof. intros t t' (? & ? & ? & ? & ? & ?). by split_and!. Qed.

Lemma set_ARCH_same v :
  (same_receiver ==> same_receiver)%signature (set_ARCH v) (set_ARCH v).
Proof. intros t t' (? & ? & ? & ? & ? & ?). by split_and!. Qed.

End updates.

Create HintDb blind discriminated.
#[export] Hint Resolve set_logged_alike set_printed_alike set_events_alike
  set_clock_alike set_listeners_alike set_files_alike set_vars_alike
  set_tbd_alike set_OS_same set_ARCH_same set_tbd_const_alike : blind.
#[export] Hint Extern 0 ((alike ==> _)%signature files files) => apply files_alike : blind.
#[export] Hint Extern 0 ((alike ==> _)%signature vars vars) => apply vars_alike : blind.
#[export] Hint Extern 0 ((alike ==> _)%signature clock clock) => apply clock_alike : blind.
#[export] Hint Extern 0 ((alike ==> _)%signature listeners listeners) =>
  apply listeners_alike : blind.
#[export] Hint Extern 0 ((alike ==> _)%signature tbd tbd) => apply tbd_alike : blind.

(** ** The rules, as a tactic

    After a bind, the two results are equal, and one replaces the
    other, or they are two receivers, which are taken apart so that
    their fields compute. *)
Ltac blind_intro H :=
  lazymatch type of H with
  | same_receiver ?t ?t' =>
      destruct t, t'; unfold same_receiver in H;
      cbn [UnpackPath DownloadPath Lang OS ARCH Profile] in H;
      destruct H as (? & ? & ? & ? & ? & ?); simplify_eq;
      cbn [UnpackPath DownloadPath Lang OS ARCH Profile Verbose]
  | _ = _ => subst
  end.

Ltac solve_blind :=
  repeat first
    [ solve [eauto with blind]
    | lazymatch goal with
      | |- related _ _ (mbind _ _) (mbind _ _) =>
          let H := fresh "Hrel" in
          eapply related_bind;
            [solve [solve_blind]|intros ?? H; blind_intro H; cbn beta iota zeta]
      | |- related _ _ (mret _) (mret _) =>
          first [by apply (related_ret _ (=))|by apply related_ret]
      | |- related _ _ (gets _) (gets _) =>
          first [ apply related_gets; solve [eauto with blind]
                | let Hs := fresh in
                  apply (related_gets _ (=)); intros ?? Hs; by rewrite Hs ]
      | |- related _ _ (modify _) (modify _) =>
          apply related_modify; solve [eauto with blind]
      | |- related _ _ (fatal _) (fatal _) => apply related_fatal
      | |- related _ _ (panic _) (panic _) => apply related_panic
      | |- related _ _ timeout timeout => apply related_timeout
      | |- related _ _ (deferred _ _) (deferred _ _) => apply related_deferred
      | |- related _ _ (match ?x with _ => _ end) (match ?x with _ => _ end) =>
          destruct x
      end ].

(** ** The calls of the machine *)

Section machine.
Context `{Runtime}.

Lemma log_Println_blind line line' : blind (=) (log_Println line) (log_Println line').
Proof. unfold log_Println. solve_blind. Qed.

Lemma fmt_Printf_blind text text' : blind (=) (fmt_Printf text) (fmt_Printf text').
Proof. unfold fmt_Printf. solve_blind. Qed.

Lemma log_Fatal_blind {A} (RA : relation A) msg :
  blind RA (log_Fatal msg) (log_Fatal msg).
Proof. unfold log_Fatal. pose proof log_Println_blind. solve_blind. Qed.

Lemma log_Panic_blind {A} (RA : relation A) msg :
  blind RA (log_Panic msg) (log_Panic msg).
Proof. unfold log_Panic. pose proof log_Println_blind. solve_blind. Qed.

Lemma emit_blind e : blind (=) (emit e) (emit e).
Proof. unfold emit. solve_blind. Qed.

Lemma Sleep_second_blind : blind (=) Sleep_second Sleep_second.
Proof. unfold Sleep_second. pose proof emit_blind. solve_blind. Qed.

Lemma os_Stat_blind p : blind (=) (os_Stat p) (os_Stat p).
Proof. unfold os_Stat. solve_blind. Qed.

Lemma FileExists_blind p : blind (=) (FileExists p) (FileExists p).
Proof. unfold FileExists. pose proof os_Stat_blind. solve_blind. Qed.

Lemma on_key_blind op p f : blind (=) (on_key op p f) (on_key op p f).
Proof. unfold on_key. solve_blind. Qed.

Lemma ioutil_ReadFile_blind p : blind (=) (ioutil_ReadFile p) (ioutil_ReadFile p).
Proof. unfold ioutil_ReadFile. solve_blind. Qed.

Lemma write_open_blind p data : blind (=) (write_open p data) (write_open p data).
Proof. unfold write_open. solve_blind. Qed.

Lemma file_Chmod_blind p mode : blind (=) (file_Chmod p mode) (file_Chmod p mode).
Proof. unfold file_Chmod. solve_blind. Qed.

Lemma os_MkdirAll_blind p perm : blind (=) (os_MkdirAll p perm) (os_MkdirAll p perm).
Proof. apply on_key_blind. Qed.

Lemma ioutil_WriteFile_blind p data perm :
  blind (=) (ioutil_WriteFile p data perm) (ioutil_WriteFile p data perm).
Proof. apply on_key_blind. Qed.

Lemma os_Create_blind p : blind (=) (os_Create p) (os_Create p).
Proof. apply on_key_blind. Qed.

(** What is printed when the flag is set, whatever the flag. *)
Lemma printed_alike f s : alike (set_printed f s) s.
Proof. done. Qed.

Lemma printing_blind (b b' : bool) text :
  blind (=) (if b then fmt_Printf text else mret tt)
            (if b' then fmt_Printf text else mret tt).
Proof.
  intros s s' Hs. split; [destruct b, b'; by constructor|].
  destruct b, b'; simpl; by rewrite ?printed_alike.
Qed.

End machine.

#[export] Hint Resolve log_Println_blind fmt_Printf_blind log_Fatal_blind
  log_Panic_blind emit_blind Sleep_second_blind os_Stat_blind FileExists_blind
  on_key_blind ioutil_ReadFile_blind write_open_blind file_Chmod_blind
  os_MkdirAll_blind ioutil_WriteFile_blind os_Create_blind printing_blind : blind.

(** ** The methods *)

Section platform.
Context `{Runtime}.

(** A line offered to [Log] changes the log at most. *)
Lemma noted_alike f m s : alike (noted f m s) s.
Proof. unfold noted. by destruct (Verbose (tbd s)). Qed.

Lemma Log_blind f m f' m' : blind (=) (Log f m) (Log f' m').
Proof.
  intros s s' Hs. rewrite !Log_run. split; [by constructor|]. simpl.
  by rewrite !noted_alike.
Qed.

Lemma GetRuntimePair_blind : blind (=) GetRuntimePair GetRuntimePair.
Proof. unfold GetRuntimePair. solve_blind. Qed.

Lemma DefaultDir_blind : blind (=) DefaultDir DefaultDir.
Proof. unfold DefaultDir. solve_blind. Qed.

Lemma NamePerPlatform_blind ietf :
  blind (=) (NamePerPlatform ietf) (NamePerPlatform ietf).
Proof. unfold NamePerPlatform. pose proof GetRuntimePair_blind. solve_blind. Qed.

Lemma BrowserDir_blind : blind (=) BrowserDir BrowserDir.
Proof. unfold BrowserDir. solve_blind. Qed.

End platform.

#[export] Hint Resolve Log_blind GetRuntimePair_blind DefaultDir_blind
  NamePerPlatform_blind BrowserDir_blind : blind.

Section bootstrap.
Context `{Runtime}.

Lemma Profile_ReadFile_blind name :
  blind (=) (Profile_ReadFile name) (Profile_ReadFile name).
Proof. unfold Profile_ReadFile. solve_blind. Qed.

Lemma fatal_on_blind err : blind (=) (fatal_on err) (fatal_on err).
Proof. unfold fatal_on. solve_blind. Qed.

Lemma MakeTBDirectory_blind : blind (=) MakeTBDirectory MakeTBDirectory.
Proof.
  pose proof Profile_ReadFile_blind. pose proof fatal_on_blind.
  unfold MakeTBDirectory, materialise_key, materialise_xpi. solve_blind.
Qed.

End bootstrap.

#[export] Hint Resolve Profile_ReadFile_blind fatal_on_blind MakeTBDirectory_blind : blind.

Section pipeline.
Context `{Runtime} `{Network} `{JsonDecoder} `{Shell} `{Archive} `{OpenPGP}.

Lemma as_map_blind v : blind (=) (as_map v) (as_map v).
Proof. unfold as_map. solve_blind. Qed.

Lemma as_string_blind v : blind (=) (as_string v) (as_string v).
Proof. unfold as_string. solve_blind. Qed.

Lemma index0_blind l : blind (=) (index0 l) (index0 l).
Proof. unfold index0. solve_blind. Qed.

Lemma return_entry_blind v : blind (=) (return_entry v) (return_entry v).
Proof.
  pose proof as_map_blind. pose proof as_string_blind.
  unfold return_entry. solve_blind.
Qed.

Lemma GetUpdaterForLangFromJSONBytes_blind fuel jsonBytes ietf :
  blind (=) (GetUpdaterForLangFromJSONBytes fuel jsonBytes ietf)
            (GetUpdaterForLangFromJSONBytes fuel jsonBytes ietf).
Proof.
  pose proof as_map_blind. pose proof index0_blind. pose proof return_entry_blind.
  revert ietf. induction fuel as [|fuel IH]; intros ietf; simpl; solve_blind.
Qed.

Lemma GetUpdaterForLang_blind fuel ietf :
  blind (=) (GetUpdaterForLang fuel ietf) (GetUpdaterForLang fuel ietf).
Proof.
  pose proof GetUpdaterForLangFromJSONBytes_blind.
  unfold GetUpdaterForLang, GetUpdaterForLangFromJSON. solve_blind.
Qed.

Lemma BotherToDownload_blind url name :
  blind (=) (BotherToDownload url name) (BotherToDownload url name).
Proof. unfold BotherToDownload. solve_blind. Qed.

Lemma SingleFileDownload_blind url name :
  blind (=) (SingleFileDownload url name) (SingleFileDownload url name).
Proof. pose proof BotherToDownload_blind. unfold SingleFileDownload. solve_blind. Qed.

Lemma DownloadUpdaterForLang_blind fuel ietf :
  blind (=) (DownloadUpdaterForLang fuel ietf) (DownloadUpdaterForLang fuel ietf).
Proof.
  pose proof GetUpdaterForLang_blind. pose proof SingleFileDownload_blind.
  unfold DownloadUpdaterForLang. solve_blind.
Qed.

Lemma cmd_Run_blind argv : blind (=) (cmd_Run argv) (cmd_Run argv).
Proof. unfold cmd_Run. solve_blind. Qed.

Lemma tar_loop_blind dir es end_error :
  blind (=) (tar_loop dir es end_error) (tar_loop dir es end_error).
Proof. induction es as [|e es IH]; simpl; solve_blind. Qed.

Lemma UnpackUpdater_blind binpath :
  blind (=) (UnpackUpdater binpath) (UnpackUpdater binpath).
Proof.
  pose proof cmd_Run_blind. pose proof tar_loop_blind.
  unfold UnpackUpdater, unpack_win, unpack_osx, unpack_tar, os_Open, open_archive.
  solve_blind.
Qed.

Lemma CheckSignature_blind binpath sigpath :
  blind (=) (CheckSignature binpath sigpath) (CheckSignature binpath sigpath).
Proof. pose proof UnpackUpdater_blind. unfold CheckSignature. solve_blind. Qed.

Lemma main_blind fuel : blind (=) (main fuel) (main fuel).
Proof.
  pose proof DownloadUpdaterForLang_blind. pose proof CheckSignature_blind.
  unfold main. solve_blind.
Qed.

(** The methods that [main] does not call. *)
Lemma GetUpdater_blind fuel : blind (=) (GetUpdater fuel) (GetUpdater fuel).
Proof. pose proof GetUpdaterForLang_blind. unfold GetUpdater. solve_blind. Qed.

Lemma DownloadUpdater_blind fuel : blind (=) (DownloadUpdater fuel) (DownloadUpdater fuel).
Proof. pose proof DownloadUpdaterForLang_blind. unfold DownloadUpdater. solve_blind. Qed.

Lemma BoolCheckSignature_blind binpath sigpath :
  blind (=) (BoolCheckSignature binpath sigpath) (BoolCheckSignature binpath sigpath).
Proof. pose proof CheckSignature_blind. unfold BoolCheckSignature. solve_blind. Qed.

Lemma NewTBDownloader_blind lang os arch content :
  blind (=) (NewTBDownloader lang os arch content)
            (NewTBDownloader lang os arch content).
Proof. unfold NewTBDownloader, DOWNLOAD_PATH, UNPACK_PATH. solve_blind. Qed.

End pipeline.

Section beside.
Context `{Runtime} `{Network} `{SAM} `{Markdown}.

Lemma ServeHTTP_blind url_path : blind (=) (ServeHTTP url_path) (ServeHTTP url_path).
Proof. unfold ServeHTTP. solve_blind. Qed.

Lemma http_Serve_blind requests :
  blind (=) (http_Serve requests ServeHTTP) (http_Serve requests ServeHTTP).
Proof.
  pose proof ServeHTTP_blind. induction requests as [|p requests IH]; simpl; solve_blind.
Qed.

Lemma Serve_blind : blind (=) Serve Serve.
Proof. pose proof http_Serve_blind. unfold Serve. solve_blind. Qed.

Lemma proxy_loop_blind fuel host port now limit :
  blind (=) (proxy_loop fuel host port now limit) (proxy_loop fuel host port now limit).
Proof.
  revert now limit. induction fuel as [|fuel IH]; intros now limit; simpl;
    unfold hTTPProxy, count_round, Seconds; solve_blind.
Qed.

Lemma listen_drop_blind addr : blind (=) (listen_drop addr) (listen_drop addr).
Proof. unfold listen_drop, finalize. solve_blind. Qed.

Lemma backup_loop_blind fuel now limit :
  blind (=) (backup_loop fuel now limit) (backup_loop fuel now limit).
Proof.
  pose proof listen_drop_blind.
  revert now limit. induction fuel as [|fuel IH]; intros now limit; simpl;
    unfold listen_probe, count_round, Seconds; solve_blind.
Qed.

Lemma PageHTML_blind : blind (=) PageHTML PageHTML.
Proof. unfold PageHTML. solve_blind. Qed.

Lemma TorOnStatusHTML_blind ours :
  blind (=) (TorOnStatusHTML ours) (TorOnStatusHTML ours).
Proof. unfold TorOnStatusHTML. solve_blind. Qed.

Lemma TorOffStatusHTML_blind ours :
  blind (=) (TorOffStatusHTML ours) (TorOffStatusHTML ours).
Proof. unfold TorOffStatusHTML. solve_blind. Qed.

End beside.

(** ** The theorem *)

Section unobservable.
Context `{Runtime} `{Network} `{JsonDecoder} `{Shell} `{Archive} `{OpenPGP}.

(** C34: the flag [Verbose] is not observable.  Two runs of [main] from
    states that differ in the flag of the receiver, in the log and in
    what was printed end with the same outcome: both return, or both
    panic or exit with the same message, or neither returns; and they
    leave the same files, the same requests and commands in the same
    order, and states that differ in the flag, the log and what was
    printed only. *)
Theorem main_Verbose_unobservable fuel s s' :
  alike s s' →
  (main fuel s).1 = (main fuel s').1 ∧
  files (main fuel s).2 = files (main fuel s').2 ∧
  events (main fuel s).2 = events (main fuel s').2 ∧
  alike (main fuel s).2 (main fuel s').2.
Proof.
  intros Hs. destruct (related_eq alike (main fuel) (main fuel) s s') as [Ho Ha];
    [apply main_blind|done|]. by rewrite Ha.
Qed.

End unobservable.

(** ** The theorem at a first run

    The first run of [Stage], and the same run with the flag set and a
    line in the log already. *)

Definition loud : state :=
  set_logged (λ _, ["tor-manager started"])
    (start {| UnpackPath := "/home/user/unpack"; DownloadPath := "/home/user/tor-browser";
              Lang := "en-US"; OS := "linux"; ARCH := "64"; Verbose := true;
              Profile := None |} home).

Lemma first_run_loud : alike first_run loud.
Proof. by repeat split. Qed.

Lemma main_Verbose_unobservable_witness :
  (@main linux_amd64 mirror manifest_served idle untar lenient 2 first_run).1
  = (@main linux_amd64 mirror manifest_served idle untar lenient 2 loud).1 ∧
  files (@main linux_amd64 mirror manifest_served idle untar lenient 2 first_run).2
  = files (@main linux_amd64 mirror manifest_served idle untar lenient 2 loud).2.
Proof.
  destruct (@main_Verbose_unobservable linux_amd64 mirror manifest_served idle untar
              lenient 2 first_run loud first_run_loud) as (Ho & Hf & _).
  split; [exact Ho|exact Hf].
Defined.
